(** * ClawSuite operations scripts: a shallow embedding and its properties

    The development follows the shell scripts under [scripts/ops]:
    [watchdog-health.sh], [start.sh], [stop.sh], [watchdog-restart.sh],
    [watchdog-daemon.sh], [deploy-with-rollback.sh] and [rollback.sh].

    Conventions of the embedding:
    - every shell variable is a [string]; the empty string is what
      [[ -z ]] / [[ -n ]] test;
    - an exit status is a [Z] (0 is success);
    - whatever a script learns from the machine (which tools are installed,
      what [ss], [lsof], [curl], [kill -0], [git] answer) is read from an
      environment record, so each function is total and computable;
    - every script runs under [set -euo pipefail]; the places where this
      changes the control flow are modelled explicitly (see [Sh]);
    - the directories the scripts write to ([logs/], [backups/]) exist and
      are writable, and [date], [jq], [tac], [grep] and [ls] are installed;
      [logs/deploy-journal/], which the deploy script makes itself, is
      part of the state of that script;
      the lines the scripts append to their log files are not modelled. *)

From Stdlib Require Import String Ascii List ZArith Bool Lia Permutation Sorted.
Import ListNotations.
Open Scope string_scope.
Open Scope Z_scope.

(* ===================================================================== *)
(** * Shell building blocks *)
(* ===================================================================== *)

Module Sh.

Definition status := Z.

(** [[ -n s ]] *)
Definition nonempty (s : string) : bool := negb (String.eqb s "").

(** [${v:-d}] *)
Definition default_to (v d : string) : string :=
  if nonempty v then v else d.

(** The result of a command list in a script that may leave the shell:
    [Ret a] continues with [a], [Exit c] ends the whole script with
    status [c] (an explicit [exit c], or [set -e] on a failing command). *)
Inductive outcome (A : Type) : Type :=
| Ret (a : A)
| Exit (code : status).
Arguments Ret {A} a.
Arguments Exit {A} code.

(** Status of the arithmetic command [((v++))]: the command evaluates to
    the OLD value of [v], and an arithmetic command whose value is 0
    returns status 1.  Under [set -e] (bash 4.1 and later) a plain
    [((v++))] that returns 1 ends the shell. *)
Definition post_incr (v : Z) : Z * status :=
  (v + 1, if v =? 0 then 1 else 0).

Definition is_digit (c : ascii) : bool :=
  let n := nat_of_ascii c in (48 <=? n)%nat && (n <=? 57)%nat.

(** [[ code =~ ^(2[0-9][0-9]|3[0-9][0-9])$ ]] *)
Definition http_code_ok (code : string) : bool :=
  match code with
  | String c1 (String c2 (String c3 EmptyString)) =>
      (Ascii.eqb c1 "2" || Ascii.eqb c1 "3") && is_digit c2 && is_digit c3
  | _ => false
  end.

End Sh.

(* ===================================================================== *)
(** * The HealthState snapshot ([logs/watchdog.state]) *)
(* ===================================================================== *)

Inductive port_status := listening | not_listening | port_unknown.
Inductive http_status := healthy | unhealthy | http_unknown.

(** The JSON object the scripts write.  [hs_pid = None] is the JSON [null];
    [hs_mode = None] means the writer emits no ["mode"] key. *)
Record HealthState := mkHealthState {
  hs_timestamp : string;
  hs_host : string;
  hs_port : string;
  hs_port_status : port_status;
  hs_http_status : http_status;
  hs_healthy : bool;
  hs_pid : option string;
  hs_mode : option string;
  hs_error : option string
}.

(** What a script does to the machine, in order. *)
Inductive event :=
| PortProbe (tool host port : string)     (* ss / netstat / lsof / nc / /dev/tcp *)
| HttpProbe (tool host port : string)     (* curl / wget *)
| PidLookup (tool port : string)          (* lsof -t / ss -tlnp *)
| Signal (sig pid : string)               (* kill -TERM / kill -KILL *)
| Sleep (seconds : Z)
| Spawn (cmd : string)                    (* nohup ... & *)
| Run (cmd : string).                     (* npm, git, a sibling script *)

Definition is_http_probe (e : event) : bool :=
  match e with HttpProbe _ _ _ => true | _ => false end.

(** [${pid:-null}] in a JSON template. *)
Definition json_pid (pid : string) : option string :=
  if Sh.nonempty pid then Some pid else None.

(* ===================================================================== *)
(** * watchdog-health.sh *)
(* ===================================================================== *)

Module Health.

(** [command -v tool] for the tools the script looks for. *)
Record tools := mkTools {
  has_ss : bool;
  has_netstat : bool;
  has_lsof : bool;
  has_nc : bool;
  has_timeout : bool;
  has_curl : bool;
  has_wget : bool
}.

Record env := mkEnv {
  tl : tools;
  date_utc : string;                         (* date -u +%Y-%m-%dT%H:%M:%SZ *)
  ss_tln : string -> bool;                   (* ss -tln | grep -q ":PORT " *)
  netstat_tln : string -> bool;              (* netstat -tln | grep -q ":PORT " *)
  lsof_listen : string -> bool;              (* lsof -i :PORT -sTCP:LISTEN | grep -q LISTEN *)
  nc_z : string -> string -> bool;           (* nc -z -w 5 HOST PORT *)
  dev_tcp : string -> string -> bool;        (* timeout 5 bash -c "echo >/dev/tcp/HOST/PORT" *)
  curl_code : string -> string -> option string;  (* %{http_code}, None when curl fails *)
  wget_spider : string -> string -> bool;    (* wget -q --spider *)
  lsof_pid : string -> string;               (* lsof -t -i :PORT -sTCP:LISTEN | head -1 *)
  ss_pid : string -> string                  (* pid= of the first ss -tlnp line for PORT *)
}.

Inductive format := text | json.

Record config := mkConfig {
  PORT : string;
  HOST : string;
  OUTPUT_FORMAT : format;
  UPDATE_STATE : bool
}.

Definition of_bool (ok : bool) : Sh.status := if ok then 0 else 1.

(** [check_port_listening HOST PORT]: status 0 listening, 1 not listening,
    2 when no tool at all can look at the port. *)
Definition check_port_listening (e : env) (host port : string)
  : Sh.status * list event :=
  if has_ss (tl e) then (of_bool (ss_tln e port), [PortProbe "ss" host port])
  else if has_netstat (tl e) then
    (of_bool (netstat_tln e port), [PortProbe "netstat" host port])
  else if has_lsof (tl e) then
    (of_bool (lsof_listen e port), [PortProbe "lsof" host port])
  else if has_nc (tl e) then
    (of_bool (nc_z e host port), [PortProbe "nc" host port])
  else if has_timeout (tl e) then
    (of_bool (dev_tcp e host port), [PortProbe "/dev/tcp" host port])
  else (2, []).

(** [check_http_health HOST PORT]: 0 for a 2xx/3xx answer, 1 otherwise,
    2 when neither curl nor wget is installed. *)
Definition check_http_health (e : env) (host port : string)
  : Sh.status * list event :=
  if has_curl (tl e) then
    (match curl_code e host port with
     | None => 1
     | Some code => of_bool (Sh.http_code_ok code)
     end, [HttpProbe "curl" host port])
  else if has_wget (tl e) then
    (of_bool (wget_spider e host port), [HttpProbe "wget" host port])
  else (2, []).

Definition find_server_process (e : env) (port : string)
  : string * list event :=
  if has_lsof (tl e) then (lsof_pid e port, [PidLookup "lsof" port])
  else if has_ss (tl e) then (ss_pid e port, [PidLookup "ss" port])
  else ("", []).

Record result := mkResult {
  r_status : Sh.status;            (* what perform_health_check returns *)
  r_report : HealthState;          (* the object printed (json) or listed (text) *)
  r_state_file : option HealthState;  (* Some when the state file is rewritten *)
  r_trace : list event
}.

(** [perform_health_check].  Both checks are the condition of an [if],
    so any non-zero status (1 or 2) takes the else branch. *)
Definition perform_health_check (e : env) (c : config) : result :=
  let ts := date_utc e in
  let '(st_port, tr_port) := check_port_listening e (HOST c) (PORT c) in
  let '(port_st, pid, error_msg, tr1) :=
    if st_port =? 0 then
      let '(p, tr_pid) := find_server_process e (PORT c) in
      (listening, p, "", (tr_port ++ tr_pid)%list)
    else
      (not_listening, "", "Port " ++ PORT c ++ " is not listening", tr_port) in
  let '(http_st, is_healthy, error_msg2, tr2) :=
    match port_st with
    | listening =>
        let '(st_http, tr_http) := check_http_health e (HOST c) (PORT c) in
        if st_http =? 0 then (healthy, true, error_msg, (tr1 ++ tr_http)%list)
        else (unhealthy, false,
              "HTTP check failed on port " ++ PORT c, (tr1 ++ tr_http)%list)
    | _ => (http_unknown, false, error_msg, tr1)
    end in
  let error_json :=
    if Sh.nonempty error_msg2 then Some error_msg2 else None in
  let snapshot :=
    mkHealthState ts (HOST c) (PORT c) port_st http_st is_healthy
                  (json_pid pid) None error_json in
  mkResult (if is_healthy then 0 else 1)
           snapshot
           (if UPDATE_STATE c then Some snapshot else None)
           tr2.

(** The script ends with the call [perform_health_check]: its status is
    the exit code of the script. *)
Definition exit_code (e : env) (c : config) : Sh.status :=
  r_status (perform_health_check e c).

End Health.

(* ===================================================================== *)
(** * Process and file primitives shared by start.sh, stop.sh and
      watchdog-restart.sh *)
(* ===================================================================== *)

Module Proc.

(** The machine as the scripts see it.  Each answer is indexed by the
    number of questions asked so far ([tick]), so that the machine may
    answer differently every time it is asked. *)
Record env := mkEnv {
  has_lsof : bool;
  has_ss : bool;
  has_curl : bool;
  self_pid : string;                       (* $$ *)
  date_utc : nat -> string;                (* date -u +%Y-%m-%dT%H:%M:%SZ *)
  kill0 : nat -> string -> bool;           (* kill -0 PID *)
  lsof_pid : nat -> string -> string;      (* lsof -t -i :PORT -sTCP:LISTEN | head -1 *)
  ss_pid : nat -> string -> string;        (* pid= of the first ss -tlnp line *)
  curl_out : nat -> string -> string;      (* %{http_code} printed by curl *)
  build_ok : nat -> bool;                  (* npm run build *)
  spawn_pid : nat -> string                (* $! *)
}.

(** The files under [logs/] the three scripts share. *)
Record files := mkFiles {
  lock_file : option string;               (* clawsuite.lock *)
  pid_file : option string;                (* clawsuite.pid *)
  state_file : option HealthState;         (* watchdog.state *)
  watchdog_pid_file : option string        (* watchdog.pid *)
}.

Record state := mkState {
  fs : files;
  tick : nat;
  trace : list event
}.

Definition observe {A : Type} (f : nat -> A) (s : state) : A * state :=
  (f (tick s), mkState (fs s) (S (tick s)) (trace s)).

Definition emit (ev : event) (s : state) : state :=
  mkState (fs s) (tick s) (trace s ++ [ev]).

Definition set_fs (f : files) (s : state) : state :=
  mkState f (tick s) (trace s).

Definition set_lock (v : option string) (f : files) : files :=
  mkFiles v (pid_file f) (state_file f) (watchdog_pid_file f).
Definition set_pid (v : option string) (f : files) : files :=
  mkFiles (lock_file f) v (state_file f) (watchdog_pid_file f).
Definition set_state (v : option HealthState) (f : files) : files :=
  mkFiles (lock_file f) (pid_file f) v (watchdog_pid_file f).
Definition set_watchdog_pid (v : option string) (f : files) : files :=
  mkFiles (lock_file f) (pid_file f) (state_file f) v.

(** [find_process_on_port PORT] (the same text in the three scripts). *)
Definition find_process_on_port (e : env) (port : string) (s : state)
  : string * state :=
  if has_lsof e then
    observe (fun t => lsof_pid e t port) (emit (PidLookup "lsof" port) s)
  else if has_ss e then
    observe (fun t => ss_pid e t port) (emit (PidLookup "ss" port) s)
  else ("", s).

(** The loop [while attempts < max_attempts]: poll [kill -0], one second
    apart; [true] when the process was seen gone. *)
Fixpoint wait_exit (e : env) (pid : string) (attempts_left : nat) (s : state)
  : bool * state :=
  match attempts_left with
  | O => (false, s)
  | S k =>
      let '(alive, s1) := observe (fun t => kill0 e t pid) s in
      if alive then wait_exit e pid k (emit (Sleep 1) s1) else (true, s1)
  end.

(** [kill_process_gracefully] of start.sh, [kill_process] of
    watchdog-restart.sh: TERM, up to 10 polls, then KILL. *)
Definition kill_process_gracefully (e : env) (pid : string) (s : state)
  : Sh.status * state :=
  let s1 := emit (Signal "TERM" pid) s in
  let '(gone, s2) := wait_exit e pid 10 s1 in
  if gone then (0, s2)
  else
    let '(alive, s3) := observe (fun t => kill0 e t pid) s2 in
    let s4 := if alive then emit (Sleep 1) (emit (Signal "KILL" pid) s3)
              else s3 in
    let '(alive', s5) := observe (fun t => kill0 e t pid) s4 in
    if alive' then (1, s5) else (0, s5).

End Proc.

(* ===================================================================== *)
(** * start.sh *)
(* ===================================================================== *)

Module Start.
Import Proc.

Definition HEALTH_RETRIES : nat := 6.
Definition HEALTH_INTERVAL : Z := 5.

Record config := mkConfig {
  PORT : string;
  HOST : string;
  MODE : string;
  BUILD : bool;
  CLEAN : bool;
  FORCE : bool
}.

Definition valid_mode (m : string) : bool :=
  String.eqb m "dev" || String.eqb m "preview".

(** [acquire_lock]: 3 when the lock file names a process that answers
    [kill -0]; otherwise the (stale or missing) lock is replaced by one
    holding [$$]. *)
Definition acquire_lock (e : env) (s : state) : Sh.status * state :=
  let take (s' : state) :=
    (0, set_fs (set_lock (Some (self_pid e)) (fs s')) s') in
  match lock_file (fs s) with
  | Some lock_pid =>
      let '(held, s1) :=
        if Sh.nonempty lock_pid
        then observe (fun t => kill0 e t lock_pid) s
        else (false, s) in
      if held then (3, s1)
      else take (set_fs (set_lock None (fs s1)) s1)
  | None => take s
  end.

(** [release_lock], installed by [acquire_lock] as the EXIT trap. *)
Definition release_lock (s : state) : state :=
  set_fs (set_lock None (fs s)) s.

Definition stop_existing (e : env) (c : config) (s : state)
  : Sh.status * state :=
  let '(existing_pid, s1) := find_process_on_port e (PORT c) s in
  let '(st, s2) :=
    if Sh.nonempty existing_pid then
      if FORCE c then
        let '(k, s') := kill_process_gracefully e existing_pid s1 in
        if k =? 0 then (0, emit (Sleep 2) s') else (1, s')
      else (1, s1)
    else (0, s1) in
  if st =? 0 then
    match pid_file (fs s2) with
    | Some file_pid =>
        if Sh.nonempty file_pid then
          let '(alive, s3) := observe (fun t => kill0 e t file_pid) s2 in
          if alive then (0, s3)
          else (0, set_fs (set_pid None (fs s3)) s3)
        else (0, s2)
    | None => (0, s2)
    end
  else (st, s2).

Definition clean_build (s : state) : Sh.status * state :=
  (0, emit (Run "rm -rf dist .vite .tanstack") s).

Definition run_build (e : env) (c : config) (s : state)
  : Sh.status * state :=
  if negb (String.eqb (MODE c) "preview") || negb (BUILD c) then (0, s)
  else
    let '(ok, s1) := observe (build_ok e) (emit (Run "npm run build") s) in
    (if ok then 0 else 1, s1).

(** [wait_for_healthy PORT]: [Some pid] is status 0 with [pid] on stdout,
    [None] is status 1.  The recursion is on the remaining retries. *)
Fixpoint wait_for_healthy (e : env) (port : string) (retries : nat)
  (s : state) : option string * state :=
  match retries with
  | O => (None, s)
  | S k =>
      let s1 := emit (Sleep HEALTH_INTERVAL) s in
      let '(pid, s2) := find_process_on_port e port s1 in
      if Sh.nonempty pid then
        if has_curl e then
          let '(response, s3) :=
            observe (fun t => curl_out e t port)
                    (emit (HttpProbe "curl" "127.0.0.1" port) s2) in
          if Sh.http_code_ok response then (Some pid, s3)
          else wait_for_healthy e port k s3
        else (Some pid, s2)
      else wait_for_healthy e port k s2
  end.

Definition server_cmd (mode port host : string) : string :=
  if String.eqb mode "dev" then "npm run dev -- --port " ++ port
  else "npm run preview -- --host " ++ host ++ " --port " ++ port.

Definition start_server (e : env) (mode port host : string) (s : state)
  : Sh.status * state :=
  let '(start_pid, s1) :=
    observe (spawn_pid e) (emit (Spawn (server_cmd mode port host)) s) in
  match wait_for_healthy e port HEALTH_RETRIES s1 with
  | (None, s2) =>
      let '(alive, s3) := observe (fun t => kill0 e t start_pid) s2 in
      (1, if alive then emit (Signal "TERM" start_pid) s3 else s3)
  | (Some healthy_pid, s2) =>
      let s3 := set_fs (set_pid (Some healthy_pid) (fs s2)) s2 in
      let '(ts, s4) := observe (date_utc e) s3 in
      let snapshot :=
        mkHealthState ts host port listening healthy true
                      (Some healthy_pid) (Some mode) None in
      (0, set_fs (set_state (Some snapshot) (fs s4)) s4)
  end.

(** The part of [main] that runs once the lock is held. *)
Definition main_locked (e : env) (c : config) (s : state)
  : Sh.status * state :=
  let '(st1, s1) := stop_existing e c s in
  if negb (st1 =? 0) then (1, s1)
  else
    let '(st2, s2) := if CLEAN c then clean_build s1 else (0, s1) in
    if negb (st2 =? 0) then (1, s2)
    else
      let '(st3, s3) := run_build e c s2 in
      if negb (st3 =? 0) then (1, s3)
      else
        let '(st4, s4) := start_server e (MODE c) (PORT c) (HOST c) s3 in
        if negb (st4 =? 0) then (1, s4) else (0, s4).

(** [main]: exit 3 when the lock is held by somebody else (no EXIT trap
    is installed then); otherwise the rest runs and the trap removes the
    lock file when the script ends. *)
Definition main (e : env) (c : config) (s : state) : Sh.status * state :=
  let '(st, s1) := acquire_lock e s in
  if negb (st =? 0) then (3, s1)
  else
    let '(code, s2) := main_locked e c s1 in
    (code, release_lock s2).

(** The script: the mode is validated (exit 2) before [main] is called. *)
Definition script (e : env) (c : config) (s : state) : Sh.status * state :=
  if valid_mode (MODE c) then main e c s else (2, s).

End Start.

(* ===================================================================== *)
(** * stop.sh *)
(* ===================================================================== *)

Module Stop.
Import Proc.

Record config := mkConfig {
  PORT : string;
  FORCE : bool
}.

(** [kill_process]: TERM, up to 10 polls; KILL only under [--force]. *)
Definition kill_process (e : env) (c : config) (pid : string) (s : state)
  : Sh.status * state :=
  let s1 := emit (Signal "TERM" pid) s in
  let '(gone, s2) := wait_exit e pid 10 s1 in
  if gone then (0, s2)
  else if FORCE c then
    let s3 := emit (Sleep 1) (emit (Signal "KILL" pid) s2) in
    let '(alive, s4) := observe (fun t => kill0 e t pid) s3 in
    if alive then (1, s4) else (0, s4)
  else (1, s2).

Definition stop_watchdog (e : env) (s : state) : state :=
  match watchdog_pid_file (fs s) with
  | Some wpid =>
      let '(alive, s1) :=
        if Sh.nonempty wpid
        then observe (fun t => kill0 e t wpid) s
        else (false, s) in
      let s2 := if alive then emit (Sleep 1) (emit (Signal "TERM" wpid) s1)
                else s1 in
      set_fs (set_watchdog_pid None (fs s2)) s2
  | None => s
  end.

(** The terminal snapshot written at the end of the script. *)
Definition stopped_snapshot (ts port : string) : HealthState :=
  mkHealthState ts "localhost" port not_listening http_unknown false
                None (Some "stopped") (Some "Service stopped").

(** The main flow (everything after argument parsing). *)
Definition main (e : env) (c : config) (s : state) : Sh.status * state :=
  let s1 := stop_watchdog e s in
  let '(pid, s2) := find_process_on_port e (PORT c) s1 in
  let '(st, s3) :=
    if Sh.nonempty pid then kill_process e c pid s2 else (0, s2) in
  if negb (st =? 0) then (1, s3)
  else
    let s4 := set_fs (set_lock None (set_pid None (fs s3))) s3 in
    let '(ts, s5) := observe (date_utc e) s4 in
    (0, set_fs (set_state (Some (stopped_snapshot ts (PORT c))) (fs s5)) s5).

End Stop.

(* ===================================================================== *)
(** * watchdog-restart.sh *)
(* ===================================================================== *)

Module Restart.
Import Proc.

Definition WAIT_AFTER_START : nat := 10.

Record config := mkConfig {
  PORT : string;
  MODE : string;
  DRY_RUN : bool;
  FORCE : bool
}.

Definition server_cmd (mode port : string) : string :=
  if String.eqb mode "dev" then "npm run dev"
  else "npm run preview -- --port " ++ port.

(** The loop [while waited < WAIT_AFTER_START] of [start_server]: one
    second apart, give up when the launched process is gone, succeed as
    soon as [find_process_on_port] names a process. *)
Fixpoint wait_listening (e : env) (mode port start_pid : string)
  (left : nat) (s : state) : Sh.status * state :=
  match left with
  | O => (1, s)
  | S k =>
      let s1 := emit (Sleep 1) s in
      let '(alive, s2) := observe (fun t => kill0 e t start_pid) s1 in
      if alive then
        let '(listening_pid, s3) := find_process_on_port e port s2 in
        if Sh.nonempty listening_pid then
          let '(ts, s4) := observe (date_utc e) s3 in
          let snapshot :=
            mkHealthState ts "localhost" port listening healthy true
                          (Some listening_pid) (Some mode) None in
          (0, set_fs (set_state (Some snapshot) (fs s4)) s4)
        else wait_listening e mode port start_pid k s3
      else (1, s2)
  end.

Definition start_server (e : env) (c : config) (mode port : string)
  (s : state) : Sh.status * state :=
  let '(built, s1) :=
    if String.eqb mode "preview" then
      if DRY_RUN c then (true, s)
      else observe (build_ok e) (emit (Run "npm run build") s)
    else (true, s) in
  if negb built then (1, s1)
  else if DRY_RUN c then (0, s1)
  else
    let '(start_pid, s2) :=
      observe (spawn_pid e) (emit (Spawn (server_cmd mode port)) s1) in
    wait_listening e mode port start_pid WAIT_AFTER_START s2.

Definition failed_snapshot (ts port mode : string) : HealthState :=
  mkHealthState ts "localhost" port not_listening unhealthy false
                None (Some mode) (Some "Failed to start server").

Definition main (e : env) (c : config) (s : state) : Sh.status * state :=
  let '(current_pid, s1) := find_process_on_port e (PORT c) s in
  let '(go, st, s2) :=
    if Sh.nonempty current_pid then
      if DRY_RUN c then (false, 0, s1)
      else
        let '(k, s') := kill_process_gracefully e current_pid s1 in
        if k =? 0 then (true, 0, emit (Sleep 2) s') else (false, 1, s')
    else
      if DRY_RUN c then (false, 0, s1) else (true, 0, s1) in
  if negb go then (st, s2)
  else
    let '(st', s3) := start_server e c (MODE c) (PORT c) s2 in
    if st' =? 0 then (0, s3)
    else
      let '(ts, s4) := observe (date_utc e) s3 in
      (1, set_fs (set_state
                    (Some (failed_snapshot ts (PORT c) (MODE c))) (fs s4)) s4).

End Restart.

(* ===================================================================== *)
(** * watchdog-daemon.sh: the daemon loop *)
(* ===================================================================== *)

Module Daemon.

Definition MAX_FAILURES : Z := 3.
Definition FAILURE_RESET_AFTER : Z := 300.

(** What one cycle of the loop gets from outside: the status of
    [run_health_check], the clock ([date +%s]) and, should the restart
    path run, the status of [run_restart]. *)
Record cycle := mkCycle {
  health_status : Sh.status;
  now : Z;
  restart_status : Sh.status
}.

(** The two locals of [daemon_loop]. *)
Record counters := mkCounters {
  consecutive_failures : Z;
  last_failure_time : Z
}.

Definition initial : counters := mkCounters 0 0.

Inductive action := RestartInvoked | Slept.

(** The body of [while true].  [daemon_loop] runs as [daemon_loop &]
    under [set -e]: the arithmetic command [((consecutive_failures++))]
    is a plain command of the else branch, so when it returns status 1
    the shell leaves with that status. *)
Definition daemon_step (k : counters) (c : cycle)
  : Sh.outcome counters * list action :=
  if health_status c =? 0 then
    (Sh.Ret (mkCounters 0 (last_failure_time k)), [Slept])
  else
    let failures :=
      if now c - last_failure_time k >? FAILURE_RESET_AFTER
      then 0 else consecutive_failures k in
    let '(failures1, st) := Sh.post_incr failures in
    if negb (st =? 0) then (Sh.Exit st, [])
    else
      if failures1 >=? MAX_FAILURES then
        if restart_status c =? 0
        then (Sh.Ret (mkCounters 0 (now c)), [RestartInvoked; Slept])
        else (Sh.Ret (mkCounters failures1 (now c)), [RestartInvoked; Slept])
      else (Sh.Ret (mkCounters failures1 (now c)), [Slept]).

(** The loop over the cycles the machine offers; [Ret] means the loop is
    still running after the last of them. *)
Fixpoint daemon_loop (k : counters) (cs : list cycle)
  : Sh.outcome counters * list action :=
  match cs with
  | [] => (Sh.Ret k, [])
  | c :: rest =>
      match daemon_step k c with
      | (Sh.Ret k', acts) =>
          let '(r, acts') := daemon_loop k' rest in (r, (acts ++ acts')%list)
      | (Sh.Exit code, acts) => (Sh.Exit code, acts)
      end
  end.

End Daemon.

(* ===================================================================== *)
(** * deploy-with-rollback.sh *)
(* ===================================================================== *)

Module Deploy.

(** ** The journal, the current-state pointer and the backups *)

Inductive action :=
| deploy_start | backup_created | build_start | build_complete
| server_start | health_check | deploy_complete | rollback
| manual_rollback.

Inductive tx_status := started | success | failed.

Definition is_success (s : tx_status) : bool :=
  match s with success => true | _ => false end.

(** The fields [journal_append] prints; [details] is the JSON text given
    as fourth argument. *)
Record entry := mkEntry {
  tx_id : string;
  timestamp : string;
  act : action;
  status : tx_status;
  details : string
}.

(** A physical line of [transactions.jsonl].  [journal_append] prints the
    entry with [echo]: when the details text holds a newline the entry
    occupies several lines, the first of which ([Head]) carries tx_id,
    timestamp, action, status and an unterminated details string; the
    others are [Tail] lines. *)
Inductive jline :=
| Whole (e : entry)
| Head (e : entry)
| Tail (text : string).

Inductive cstatus := initialized | deploying | deployed | rolled_back.

Record cstate := mkCstate {
  cs_status : cstatus;
  cs_timestamp : string;
  cs_transaction_id : option string;     (* None is the JSON null *)
  cs_version : option string             (* None: no "version" key *)
}.

(** An entry of [backups/]: its name, its modification time and the copy
    of [dist/] it holds (if any). *)
Record backup := mkBackup {
  b_name : string;
  b_mtime : Z;
  b_dist : option string
}.

Record env := mkEnv {
  self_pid : string;                       (* $$ *)
  project_root : string;
  date_utc : nat -> string;                (* date -u +%Y-%m-%dT%H:%M:%SZ *)
  date_compact : nat -> string;            (* date +%Y%m%d-%H%M%S *)
  random : nat -> string;                  (* $((RANDOM % 10000)) *)
  clock : nat -> Z;                        (* mtime a new directory gets *)
  kill0 : nat -> string -> bool;           (* kill -0 PID *)
  npm_build : nat -> bool * option string; (* status of the build, dist/ after it *)
  has_stop_sh : bool;                      (* [[ -f stop.sh ]] *)
  start_sh : nat -> option string -> Sh.status * option string;
                                           (* start.sh --force, see [start_server] *)
  curl_live : nat -> bool;                 (* curl -sf .../health/live *)
  curl_ready : nat -> bool;                (* curl -sf .../health/ready *)
  app_version : nat -> string              (* get_app_version *)
}.

Record state := mkState {
  journal_dir : bool;                      (* logs/deploy-journal/ is there *)
  journal : list jline;                    (* transactions.jsonl *)
  current_state : option cstate;           (* current-state.json *)
  backups : list backup;                   (* the entries of backups/ *)
  lock_file : option string;               (* deploy.lock *)
  dist : option string;                    (* PROJECT_ROOT/dist *)
  tick : nat;
  trace : list event
}.

Definition observe {A : Type} (f : nat -> A) (s : state) : A * state :=
  (f (tick s),
   mkState (journal_dir s) (journal s) (current_state s) (backups s)
           (lock_file s) (dist s) (S (tick s)) (trace s)).

Definition emit (ev : event) (s : state) : state :=
  mkState (journal_dir s) (journal s) (current_state s) (backups s)
          (lock_file s) (dist s) (tick s) (trace s ++ [ev]).

Definition set_journal_dir (b : bool) (s : state) : state :=
  mkState b (journal s) (current_state s) (backups s) (lock_file s)
          (dist s) (tick s) (trace s).
Definition set_journal (j : list jline) (s : state) : state :=
  mkState (journal_dir s) j (current_state s) (backups s) (lock_file s)
          (dist s) (tick s) (trace s).
Definition set_current (c : option cstate) (s : state) : state :=
  mkState (journal_dir s) (journal s) c (backups s) (lock_file s) (dist s)
          (tick s) (trace s).
Definition set_backups (b : list backup) (s : state) : state :=
  mkState (journal_dir s) (journal s) (current_state s) b (lock_file s)
          (dist s) (tick s) (trace s).
Definition set_lock (l : option string) (s : state) : state :=
  mkState (journal_dir s) (journal s) (current_state s) (backups s) l
          (dist s) (tick s) (trace s).
Definition set_dist (d : option string) (s : state) : state :=
  mkState (journal_dir s) (journal s) (current_state s) (backups s)
          (lock_file s) d (tick s) (trace s).

(** ** Text helpers *)

Definition newline : string := String (ascii_of_nat 10) "".
Definition esc : string := String (ascii_of_nat 27) "".

(** The physical lines of a text (split at every newline). *)
Fixpoint split_lines (s : string) : list string :=
  match s with
  | EmptyString => [""]
  | String c rest =>
      if Ascii.eqb c (ascii_of_nat 10) then "" :: split_lines rest
      else match split_lines rest with
           | [] => [String c ""]
           | l :: ls => String c l :: ls
           end
  end.

(** [info MSG]: the line [log] prints on stdout. *)
Definition info_line (ts msg : string) : string :=
  "[" ++ ts ++ "] [INFO] " ++ esc ++ "[0;34m" ++ msg ++ esc ++ "[0m".

(** ** Journal management *)

(** [init_journal]: [mkdir -p] makes the journal directory, and the
    current-state file is written when it is not there. *)
Definition init_journal (e : env) (s : state) : state :=
  let s0 := set_journal_dir true s in
  match current_state s0 with
  | Some _ => s0
  | None =>
      let '(ts, s1) := observe (date_utc e) s0 in
      set_current (Some (mkCstate initialized ts None None)) s1
  end.

(** [generate_tx_id]: the text is
    [tx-$(date +%Y%m%d-%H%M%S)-$${RANDOM:-$((RANDOM % 10000))}], where
    [$$] is the PID and the braces stay as they are. *)
Definition generate_tx_id (e : env) (s : state) : string * state :=
  let '(d, s1) := observe (date_compact e) s in
  let '(r, s2) := observe (random e) s1 in
  ("tx-" ++ d ++ "-" ++ self_pid e ++ "{RANDOM:-" ++ r ++ "}", s2).

(** The physical lines [echo "${entry}"] writes for an entry. *)
Definition entry_lines (en : entry) : list jline :=
  match split_lines (details en) with
  | [] | [_] => [Whole en]
  | d :: more =>
      Head (mkEntry (tx_id en) (timestamp en) (act en) (status en) d)
        :: map Tail more
  end.

Definition journal_append (e : env) (tx : string) (a : action)
  (st : tx_status) (det : string) (s : state) : state :=
  let s1 := init_journal e s in
  let '(ts, s2) := observe (date_utc e) s1 in
  set_journal (journal s2 ++ entry_lines (mkEntry tx ts a st det)) s2.

Definition update_current_state (e : env) (st : cstatus) (tx version : string)
  (s : state) : state :=
  let '(ts, s1) := observe (date_utc e) s in
  set_current (Some (mkCstate st ts (Some tx) (Some version))) s1.

(** [grep '"status":"success"'] on a physical line.  The status field is
    on the first line of an entry.  The other fields are taken not to
    hold the pattern: this is so for what [date], [$$] and the script
    itself put there; a transaction name given with [--to] that holds the
    pattern is outside the model. *)
Definition grep_success (l : jline) : bool :=
  match l with
  | Whole en | Head en => is_success (status en)
  | Tail _ => false
  end.

(** [jq -r '.tx_id'] on one line: only a complete JSON object has one. *)
Definition jq_tx_id (l : jline) : string :=
  match l with
  | Whole en => tx_id en
  | _ => ""
  end.

(** [get_last_successful_tx]: [tac | grep -m1 | jq -r '.tx_id' || echo ""]. *)
Definition get_last_successful_tx (s : state) : string :=
  match find grep_success (rev (journal s)) with
  | Some l => jq_tx_id l
  | None => ""
  end.

(** ** Backup and restore *)

Definition dq : string := String (ascii_of_nat 34) "".
Definition quoted (s : string) : string := dq ++ s ++ dq.
(** The JSON text [{"k":"v"}]. *)
Definition obj1 (k v : string) : string :=
  "{" ++ quoted k ++ ":" ++ quoted v ++ "}".
Definition obj2 (k1 v1 k2 v2 : string) : string :=
  "{" ++ quoted k1 ++ ":" ++ quoted v1 ++ ","
      ++ quoted k2 ++ ":" ++ quoted v2 ++ "}".
Definition json_bool (b : bool) : string := if b then "true" else "false".

(** [[ -d backups/NAME ]] for a name that is the name of a directory
    entry: not empty, without a slash, and neither [.] nor [..]
    ([plain_name]).  The transaction ids the script generates are such
    names.  Any other text given with [--to] is a path that the file
    system resolves; the model does not follow it. *)
Definition has_backup (name : string) (dir : list backup) : bool :=
  existsb (fun b => String.eqb (b_name b) name) dir.

Fixpoint has_slash (s : string) : bool :=
  match s with
  | EmptyString => false
  | String c r => Ascii.eqb c "/" || has_slash r
  end.

Definition plain_name (name : string) : bool :=
  Sh.nonempty name && negb (has_slash name) &&
  negb (String.eqb name ".") && negb (String.eqb name "..").

(** [create_backup TX].  The caller runs it as [$(create_backup TX)], so
    the text returned here is everything the function prints on stdout:
    the [info] line about dist/ (when dist/ exists) and then the path.
    [mkdir -p] on a directory that is already there keeps it as it is. *)
Definition create_backup (e : env) (tx : string) (s : state)
  : string * state :=
  let backup_path := project_root e ++ "/backups/" ++ tx in
  let '(mtime, s1) := observe (clock e) s in
  let s2 :=
    if has_backup tx (backups s1) then s1
    else set_backups (backups s1 ++ [mkBackup tx mtime (dist s1)]) s1 in
  match dist s2 with
  | Some _ =>
      let '(ts, s3) := observe (date_utc e) s2 in
      (info_line ts ("Backed up dist/ to " ++ backup_path ++ "/dist")
         ++ newline ++ backup_path, s3)
  | None => (backup_path, s2)
  end.

(** [restore_backup TX]: status 1 when [backups/TX] is missing, otherwise
    the saved dist/ (if the backup has one) replaces the live one. *)
Definition restore_backup (tx : string) (s : state) : Sh.status * state :=
  match find (fun b => String.eqb (b_name b) tx) (backups s) with
  | None => (1, s)
  | Some b =>
      match b_dist b with
      | Some d => (0, set_dist (Some d) s)
      | None => (0, s)
      end
  end.

(** ** Health check against the health endpoint *)

Definition HEALTH_RETRIES : nat := 6.
Definition HEALTH_INTERVAL : Z := 5.

(** [for ((i=1; i<=retries; i++))], [left] attempts to go. *)
Fixpoint health_attempts (e : env) (left : nat) (s : state) : bool * state :=
  match left with
  | O => (false, s)
  | S k =>
      let '(ready, s1) :=
        observe (curl_ready e)
                (emit (HttpProbe "curl" "localhost" "/health/ready") s) in
      if ready then (true, s1)
      else
        health_attempts e k
          (match k with O => s1 | S _ => emit (Sleep HEALTH_INTERVAL) s1 end)
  end.

Definition check_health (e : env) (s : state) : bool * state :=
  let '(live, s1) :=
    observe (curl_live e)
            (emit (HttpProbe "curl" "localhost" "/health/live") s) in
  let s2 :=
    if live then s1
    else emit (Sleep 2) (emit (Run "health-endpoint.sh --daemonize") s1) in
  health_attempts e HEALTH_RETRIES s2.

Definition stop_server (e : env) (s : state) : state :=
  if has_stop_sh e then emit (Run "stop.sh") s else s.

(** [start.sh --force >> deploy.log 2>&1].  Without further options
    [start.sh] runs in preview mode with the build enabled: once it holds
    its lock and the port is free it runs [npm run build], which rewrites
    dist/.  The environment tells, for the dist/ the script finds, its
    exit status and the dist/ it leaves. *)
Definition start_server (e : env) (s : state) : Sh.status * state :=
  let '(r, s1) :=
    observe (fun t => start_sh e t (dist s))
            (emit (Run "start.sh --force") s) in
  (fst r, set_dist (snd r) s1).

(** ** Rollback *)

(** [cmd_rollback_internal CURRENT_TX REASON]. *)
Definition cmd_rollback_internal (e : env) (current_tx reason : string)
  (s : state) : Sh.status * state :=
  let last_good := get_last_successful_tx s in
  if negb (Sh.nonempty last_good) then
    (1, journal_append e current_tx rollback failed
          (obj1 "reason" "no_rollback_target") s)
  else
    let s1 := stop_server e s in
    let '(restored, s2) := restore_backup last_good s1 in
    if restored =? 0 then
      let '(st, s3) := start_server e s2 in
      if st =? 0 then
        let s4 := journal_append e current_tx rollback success
                    (obj2 "rolled_back_to" last_good "reason" reason) s3 in
        let '(v, s5) := observe (app_version e) s4 in
        (0, update_current_state e rolled_back last_good v s5)
      else
        (1, journal_append e current_tx rollback failed
              (obj1 "reason" "server_restart_failed") s3)
    else
      (1, journal_append e current_tx rollback failed
            (obj1 "reason" "restore_failed") s2).

Record rollback_opts := mkRollbackOpts {
  target_tx : string;
  force : bool
}.

(** The option loop of [cmd_rollback]; a missing value after [--to] is an
    unbound [$2] under [set -u] (exit 1). *)
Fixpoint parse_rollback_args (args : list string) (o : rollback_opts)
  : Sh.outcome rollback_opts :=
  match args with
  | [] => Sh.Ret o
  | a :: rest =>
      if String.eqb a "--to" then
        match rest with
        | v :: rest' => parse_rollback_args rest' (mkRollbackOpts v (force o))
        | [] => Sh.Exit 1
        end
      else if String.eqb a "--force" then
        parse_rollback_args rest (mkRollbackOpts (target_tx o) true)
      else parse_rollback_args rest o
  end.

(** [cmd_rollback]: the user-facing rollback. *)
Definition cmd_rollback (e : env) (args : list string) (s : state)
  : Sh.status * state :=
  match parse_rollback_args args (mkRollbackOpts "" false) with
  | Sh.Exit c => (c, s)
  | Sh.Ret o =>
      let '(tx, s1) := generate_tx_id e s in
      let s2 := init_journal e s1 in
      let s3 := journal_append e tx manual_rollback started
                  (obj1 "target" (Sh.default_to (target_tx o) "last_success"))
                  s2 in
      let rollback_to :=
        if Sh.nonempty (target_tx o) then target_tx o
        else get_last_successful_tx s3 in
      if negb (Sh.nonempty rollback_to) then
        (1, journal_append e tx manual_rollback failed
              (obj1 "reason" "no_rollback_target") s3)
      else if negb (has_backup rollback_to (backups s3)) then
        (1, journal_append e tx manual_rollback failed
              (obj1 "reason" "backup_not_found") s3)
      else
        let s4 := stop_server e s3 in
        let '(restored, s5) := restore_backup rollback_to s4 in
        if restored =? 0 then
          let '(st, s6) := start_server e s5 in
          if st =? 0 then
            let '(ok, s7) :=
              if force o then (true, s6) else check_health e s6 in
            if ok then
              let s8 := journal_append e tx manual_rollback success
                          (obj1 "rolled_back_to" rollback_to) s7 in
              let '(v, s9) := observe (app_version e) s8 in
              (0, update_current_state e rolled_back rollback_to v s9)
            else
              (1, journal_append e tx manual_rollback failed
                    (obj1 "reason" "health_check_failed") s7)
          else
            (1, journal_append e tx manual_rollback failed
                  (obj1 "reason" "server_restart_failed") s6)
        else
          (1, journal_append e tx manual_rollback failed
                (obj1 "reason" "restore_failed") s5)
  end.

(** ** Backup retention *)

Definition KEEP : nat := 5.

(** The order of [ls -t]: newest modification time first, names in
    ascending order among equal times. *)
Definition newer (a b : backup) : bool :=
  (b_mtime b <? b_mtime a) ||
  ((b_mtime a =? b_mtime b) && String.leb (b_name a) (b_name b)).

Fixpoint insert_by_mtime (a : backup) (l : list backup) : list backup :=
  match l with
  | [] => [a]
  | h :: t => if newer a h then a :: h :: t else h :: insert_by_mtime a t
  end.

Definition ls_t (dir : list backup) : list backup :=
  fold_right insert_by_mtime [] dir.

(** [rm -rf backups/NAME] *)
Definition rm_rf (name : string) (dir : list backup) : list backup :=
  filter (fun b => negb (String.eqb (b_name b) name)) dir.

(** [ls -t backups | tail -n +6 | while read old; do rm -rf backups/$old; done] *)
Definition prune_backups (dir : list backup) : list backup :=
  fold_left (fun d old => rm_rf old d)
            (map b_name (skipn KEEP (ls_t dir))) dir.

(** ** Deploy *)

Record deploy_opts := mkDeployOpts {
  pre_build : bool;
  do_health_check : bool;
  timeout : string
}.

(** The option loop of [cmd_deploy]; unknown words are skipped, a missing
    value after [--timeout] is an unbound [$2] under [set -u] (exit 1). *)
Fixpoint parse_deploy_args (args : list string) (o : deploy_opts)
  : Sh.outcome deploy_opts :=
  match args with
  | [] => Sh.Ret o
  | a :: rest =>
      if String.eqb a "--pre-build" then
        parse_deploy_args rest
          (mkDeployOpts true (do_health_check o) (timeout o))
      else if String.eqb a "--no-health-check" then
        parse_deploy_args rest (mkDeployOpts (pre_build o) false (timeout o))
      else if String.eqb a "--timeout" then
        match rest with
        | v :: rest' =>
            parse_deploy_args rest'
              (mkDeployOpts (pre_build o) (do_health_check o) v)
        | [] => Sh.Exit 1
        end
      else parse_deploy_args rest o
  end.

(** The last part of [cmd_deploy], after the health check. *)
Definition deploy_success (e : env) (tx : string) (s : state)
  : Sh.status * state :=
  let s1 := journal_append e tx deploy_complete success "{}" s in
  let '(v, s2) := observe (app_version e) s1 in
  let s3 := update_current_state e deployed tx v s2 in
  (0, set_backups (prune_backups (backups s3)) s3).

Definition deploy_health (e : env) (o : deploy_opts) (tx : string)
  (s : state) : Sh.status * state :=
  if do_health_check o then
    let '(ok, s1) := check_health e s in
    if ok then
      deploy_success e tx (journal_append e tx health_check success "{}" s1)
    else
      let s2 := journal_append e tx health_check failed "{}" s1 in
      let '(_, s3) := cmd_rollback_internal e tx "health_check_failed" s2 in
      (1, s3)
  else deploy_success e tx s.

Definition deploy_server (e : env) (o : deploy_opts) (tx : string)
  (s : state) : Sh.status * state :=
  let s1 := stop_server e s in
  let s2 := journal_append e tx server_start started "{}" s1 in
  let '(st, s3) := start_server e s2 in
  if st =? 0 then
    deploy_health e o tx (journal_append e tx server_start success "{}" s3)
  else
    let s4 := journal_append e tx server_start failed
                (obj1 "error" "Server start failed") s3 in
    let '(_, s5) := cmd_rollback_internal e tx "server_start_failed" s4 in
    (1, s5).

Definition deploy_build (e : env) (o : deploy_opts) (tx : string)
  (s : state) : Sh.status * state :=
  if pre_build o then
    let s1 := journal_append e tx build_start started "{}" s in
    let '(built, s2) := observe (npm_build e) (emit (Run "npm run build") s1) in
    let s3 := set_dist (snd built) s2 in
    if fst built then
      deploy_server e o tx
        (journal_append e tx build_complete success "{}" s3)
    else
      let s4 := journal_append e tx build_complete failed
                  (obj1 "error" "Build failed") s3 in
      let '(_, s5) := cmd_rollback_internal e tx "build_failed" s4 in
      (1, s5)
  else deploy_server e o tx s.

(** [cmd_deploy] from [init_journal] on, the lock being held. *)
Definition deploy_locked (e : env) (o : deploy_opts) (tx : string)
  (s : state) : Sh.status * state :=
  let s1 := init_journal e s in
  let s2 := journal_append e tx deploy_start started
              ("{" ++ quoted "pre_build" ++ ":" ++ json_bool (pre_build o)
               ++ "," ++ quoted "health_check" ++ ":"
               ++ json_bool (do_health_check o) ++ "}") s1 in
  let s3 := update_current_state e deploying tx "unknown" s2 in
  let '(backup_path, s4) := create_backup e tx s3 in
  let s5 := journal_append e tx backup_created success
              (obj1 "backup_path" backup_path) s4 in
  deploy_build e o tx s5.

(** [cmd_deploy].  A lock file naming a process that answers [kill -0]
    makes it return 1 at once.  Otherwise a stale lock file is removed and
    the lock is taken with [echo $$ > LOCK_FILE], before [init_journal]
    is called: when the journal directory is not there yet the
    redirection fails, and [set -e] ends the script with status 1 (no
    EXIT trap is installed at that point).  Once the lock is taken, the
    EXIT trap installed with it removes the lock file when the script
    ends, which is right after [cmd_deploy] returns. *)
Definition cmd_deploy (e : env) (args : list string) (s : state)
  : Sh.status * state :=
  match parse_deploy_args args (mkDeployOpts false true "30") with
  | Sh.Exit c => (c, s)
  | Sh.Ret o =>
      let '(tx, s1) := generate_tx_id e s in
      let '(held, s2) :=
        match lock_file s1 with
        | Some lock_pid =>
            if Sh.nonempty lock_pid
            then observe (fun t => kill0 e t lock_pid) s1
            else (false, s1)
        | None => (false, s1)
        end in
      if held then (1, s2)
      else
        let s3 := set_lock None s2 in
        if negb (journal_dir s3) then (1, s3)
        else
          let '(code, s4) :=
            deploy_locked e o tx (set_lock (Some (self_pid e)) s3) in
          (code, set_lock None s4)
  end.

End Deploy.

(* ===================================================================== *)
(** * rollback.sh: rollback to a git commit *)
(* ===================================================================== *)

Module GitRollback.

Record opts := mkOpts {
  TARGET_REF : string;
  STEPS : string;
  MODE : string;
  PORT : string;
  DRY_RUN : bool;
  FORCE : bool
}.

(** What git, npm and the sibling scripts answer. *)
Record env := mkEnv {
  env_port : string;                  (* ${CLAWSUITE_PORT:-4173} *)
  date_utc : string;
  rev_parse : string -> string;       (* git rev-parse --verify REV || true *)
  diff_quiet : bool;                  (* git diff --quiet *)
  diff_cached_quiet : bool;           (* git diff --cached --quiet *)
  checkout_status : Sh.status;        (* git checkout --force TARGET *)
  npm_ci_status : Sh.status;
  build_status : Sh.status;           (* npm run build *)
  start_status : Sh.status;           (* start.sh --mode M --port P --force *)
  health_status : Sh.status;          (* watchdog-health.sh ... --json *)
  health_json : string                (* what it printed *)
}.

(** [logs/rollback.state] *)
Record rollback_state := mkRollbackState {
  rs_timestamp : string;
  rs_status : string;                 (* ok | failed *)
  rs_from : string;
  rs_to : string;
  rs_mode : string;
  rs_port : string;
  rs_health : option string;
  rs_error : option string
}.

Record state := mkState {
  head : string;                      (* git rev-parse HEAD *)
  state_file : option rollback_state;
  trace : list event
}.

Definition emit (ev : event) (s : state) : state :=
  mkState (head s) (state_file s) (trace s ++ [ev]).

Definition defaults (e : env) : opts :=
  mkOpts "" "1" "preview" (env_port e) false false.

(** The option loop: [-h] leaves with 0, an unknown word with 2, a
    missing value is an unbound [$2] under [set -u] (exit 1). *)
Fixpoint parse_args (args : list string) (o : opts) : Sh.outcome opts :=
  match args with
  | [] => Sh.Ret o
  | a :: rest =>
      if String.eqb a "--to" then
        match rest with
        | v :: rest' =>
            parse_args rest'
              (mkOpts v (STEPS o) (MODE o) (PORT o) (DRY_RUN o) (FORCE o))
        | [] => Sh.Exit 1
        end
      else if String.eqb a "--steps" then
        match rest with
        | v :: rest' =>
            parse_args rest'
              (mkOpts (TARGET_REF o) v (MODE o) (PORT o) (DRY_RUN o) (FORCE o))
        | [] => Sh.Exit 1
        end
      else if String.eqb a "--mode" then
        match rest with
        | v :: rest' =>
            parse_args rest'
              (mkOpts (TARGET_REF o) (STEPS o) v (PORT o) (DRY_RUN o) (FORCE o))
        | [] => Sh.Exit 1
        end
      else if String.eqb a "--port" then
        match rest with
        | v :: rest' =>
            parse_args rest'
              (mkOpts (TARGET_REF o) (STEPS o) (MODE o) v (DRY_RUN o) (FORCE o))
        | [] => Sh.Exit 1
        end
      else if String.eqb a "--dry-run" then
        parse_args rest
          (mkOpts (TARGET_REF o) (STEPS o) (MODE o) (PORT o) true (FORCE o))
      else if String.eqb a "--force" then
        parse_args rest
          (mkOpts (TARGET_REF o) (STEPS o) (MODE o) (PORT o) (DRY_RUN o) true)
      else if String.eqb a "-h" || String.eqb a "--help" then Sh.Exit 0
      else Sh.Exit 2
  end.

Definition valid_mode (m : string) : bool :=
  String.eqb m "dev" || String.eqb m "preview".

Fixpoint all_digits (s : string) : bool :=
  match s with
  | EmptyString => true
  | String c r => Sh.is_digit c && all_digits r
  end.

Definition digit_value (c : ascii) : Z := Z.of_nat (nat_of_ascii c) - 48.

(** The digits of [s] read in base [base], most significant first, after
    the value [acc] read so far; [None] when a digit is too great for the
    base. *)
Fixpoint read_digits (base : Z) (s : string) (acc : Z) : option Z :=
  match s with
  | EmptyString => Some acc
  | String c r =>
      if digit_value c <? base
      then read_digits base r (acc * base + digit_value c)
      else None
  end.

(** The 64-bit signed integer bash keeps of a number. *)
Definition wrap64 (v : Z) : Z := (v + 2 ^ 63) mod 2 ^ 64 - 2 ^ 63.

(** A run of digits as an operand of [-lt]: bash evaluates it as an
    arithmetic constant, octal when it starts with [0] and goes on, and
    without any overflow check.  [None] is the error [value too great for
    base] (an [8] or a [9] in an octal constant). *)
Definition arith_value (n : string) : option Z :=
  match n with
  | String "0" (String c r) => option_map wrap64 (read_digits 8 (String c r) 0)
  | _ => option_map wrap64 (read_digits 10 n 0)
  end.

(** [[ STEPS =~ ^[0-9]+$ ]] and not [[ STEPS -lt 1 ]].  The second test is
    the right operand of [||] in the condition of an [if]: when bash
    cannot evaluate the number the test fails, and the value is taken as
    valid. *)
Definition valid_steps (n : string) : bool :=
  Sh.nonempty n && all_digits n &&
  match arith_value n with
  | Some v => negb (v <? 1)
  | None => true
  end.

Definition resolve_target (e : env) (o : opts) : string :=
  if Sh.nonempty (TARGET_REF o)
  then rev_parse e (TARGET_REF o ++ "^{commit}")
  else rev_parse e ("HEAD~" ++ STEPS o ++ "^{commit}").

(** DIRTY: [! git diff --quiet || ! git diff --cached --quiet] *)
Definition dirty (e : env) : bool :=
  negb (diff_quiet e) || negb (diff_cached_quiet e).

(** The commands after the plan is printed.  Every one of them is a
    plain command under [set -e], except [stop.sh ... || true] and the
    health check (the condition of an [if]). *)
Definition execute (e : env) (o : opts) (target : string) (s : state)
  : Sh.status * state :=
  let current_ref := head s in
  let s1 := emit (Run ("stop.sh --port " ++ PORT o ++ " --force")) s in
  let s2 := emit (Run ("git checkout --force " ++ target)) s1 in
  if negb (checkout_status e =? 0) then (checkout_status e, s2)
  else
    let s3 := mkState target (state_file s2) (trace s2) in
    let s4 := emit (Run "npm ci") s3 in
    if negb (npm_ci_status e =? 0) then (npm_ci_status e, s4)
    else
      let '(built, s5) :=
        if String.eqb (MODE o) "preview"
        then (build_status e, emit (Run "npm run build") s4)
        else (0, s4) in
      if negb (built =? 0) then (built, s5)
      else
        let s6 := emit (Run ("start.sh --mode " ++ MODE o ++ " --port "
                             ++ PORT o ++ " --force")) s5 in
        if negb (start_status e =? 0) then (start_status e, s6)
        else
          let s7 := emit (Run "watchdog-health.sh --json") s6 in
          if negb (health_status e =? 0) then
            (1, mkState (head s7)
                  (Some (mkRollbackState (date_utc e) "failed" current_ref
                           target (MODE o) (PORT o) None
                           (Some "Post-rollback health check failed")))
                  (trace s7))
          else
            (0, mkState (head s7)
                  (Some (mkRollbackState (date_utc e) "ok" current_ref
                           target (MODE o) (PORT o)
                           (Some (health_json e)) None))
                  (trace s7)).

(** The script once the options are parsed. *)
Definition run (e : env) (o : opts) (s : state) : Sh.status * state :=
  if negb (valid_mode (MODE o)) then (2, s)
  else if negb (valid_steps (STEPS o)) then (2, s)
  else
    let current_ref := head s in
    let resolved := resolve_target e o in
    if negb (Sh.nonempty resolved) then (2, s)
    else if String.eqb current_ref resolved then (0, s)
    else if dirty e && negb (FORCE o) then (1, s)
    else if DRY_RUN o then (0, s)
    else execute e o resolved s.

Definition script (e : env) (args : list string) (s : state)
  : Sh.status * state :=
  match parse_args args (defaults e) with
  | Sh.Exit c => (c, s)
  | Sh.Ret o => run e o s
  end.

End GitRollback.

(* ===================================================================== *)
(** * Predicates used in the statements *)
(* ===================================================================== *)

(** [s'] is reached from [s] by commands none of which is an HTTP probe. *)
Definition quiet_step (s s' : Proc.state) : Prop :=
  exists added,
    Proc.trace s' = (Proc.trace s ++ added)%list /\
    existsb is_http_probe added = false.

(** The PID [find_process_on_port PORT] prints when it is the question
    number [t] asked of the machine. *)
Definition listener_at (e : Proc.env) (port : string) (t : nat) : string :=
  if Proc.has_lsof e then Proc.lsof_pid e t port
  else if Proc.has_ss e then Proc.ss_pid e t port
  else "".

(** The snapshot states "healthy": port listening, HTTP healthy,
    healthy true, the given PID and mode, no error. *)
Definition healthy_snapshot (h : HealthState) (host port pid mode : string)
  : Prop :=
  exists ts,
    h = mkHealthState ts host port listening healthy true
                      (Some pid) (Some mode) None.

(** The files [stop.sh] leaves behind: no PID file, no lock file, and the
    terminal snapshot for [port]. *)
Definition stopped_files (f : Proc.files) (port : string) : Prop :=
  Proc.pid_file f = None /\
  Proc.lock_file f = None /\
  exists ts, Proc.state_file f = Some (Stop.stopped_snapshot ts port).

(** [s'] is reached from [s] by steps of the deploy script that leave the
    journal, the backups and the current-state pointer alone. *)
Definition deploy_frame (s s' : Deploy.state) : Prop :=
  Deploy.journal s' = Deploy.journal s /\
  Deploy.backups s' = Deploy.backups s /\
  Deploy.current_state s' = Deploy.current_state s /\
  (Deploy.tick s <= Deploy.tick s')%nat.

(** What the internal rollback of a deploy with transaction [tx] needs:
    the last successful transaction the journal gives is [tx] itself (or
    none can be read), and the backup of [tx] is there. *)
Definition rollback_ready (tx : string) (s : Deploy.state) : Prop :=
  (Deploy.get_last_successful_tx s = tx \/
   Deploy.get_last_successful_tx s = "") /\
  Deploy.has_backup tx (Deploy.backups s) = true.

(** The phases of a deploy whose failure starts the internal rollback. *)
Definition rollback_phase (a : Deploy.action) : Prop :=
  a = Deploy.build_complete \/ a = Deploy.server_start \/
  a = Deploy.health_check.

(** The journal of [s] ends with the lines of a failed phase entry of [tx]
    followed by those of a [rollback] entry of [tx]; if the rollback entry
    is a success, it names [tx] as the transaction rolled back to and the
    current-state pointer is [rolled_back] for [tx]. *)
Definition rolled_back_to_own (tx : string) (s : Deploy.state) : Prop :=
  exists j fen en,
    Deploy.journal s
    = (j ++ Deploy.entry_lines fen ++ Deploy.entry_lines en)%list /\
    Deploy.tx_id fen = tx /\
    Deploy.status fen = Deploy.failed /\
    rollback_phase (Deploy.act fen) /\
    Deploy.tx_id en = tx /\
    Deploy.act en = Deploy.rollback /\
    (Deploy.status en = Deploy.success ->
       (exists reason,
           Deploy.details en
           = Deploy.obj2 "rolled_back_to" tx "reason" reason) /\
       exists ts v,
         Deploy.current_state s
         = Some (Deploy.mkCstate Deploy.rolled_back ts (Some tx) (Some v))).

(** How a deploy with transaction [tx] can end: status 0 with a
    [deploy_complete] entry last in the journal, or status 1 after an
    internal rollback. *)
Definition deploy_outcome (tx : string) (r : Sh.status * Deploy.state)
  : Prop :=
  (fst r = 0 /\
   exists j ts,
     Deploy.journal (snd r)
     = (j ++ [Deploy.Whole (Deploy.mkEntry tx ts Deploy.deploy_complete
                              Deploy.success "{}")])%list) \/
  (fst r = 1 /\ rolled_back_to_own tx (snd r)).

(** The last [n] elements of a list. *)
Definition lastn {A : Type} (n : nat) (l : list A) : list A :=
  skipn (length l - n) l.

(** Directory entries listed from the newest to the oldest. *)
Definition newest_first (l : list Deploy.backup) : Prop :=
  StronglySorted (fun a b => Deploy.b_mtime b <= Deploy.b_mtime a) l.

(** Directory entries listed in the order of strictly growing
    modification times. *)
Definition oldest_first (l : list Deploy.backup) : Prop :=
  StronglySorted (fun a b => Deploy.b_mtime a < Deploy.b_mtime b) l.

(** The transaction id [cmd_deploy] generates when started in [s]. *)
Definition deploy_tx (e : Deploy.env) (s : Deploy.state) : string :=
  fst (Deploy.generate_tx_id e s).

(** The deploy script run several times in a row, each run with its own
    host answers and arguments; the result lists, run by run, the
    transaction id and the exit status. *)
Fixpoint deploy_runs (runs : list (Deploy.env * list string))
  (s : Deploy.state) : list (string * Sh.status) * Deploy.state :=
  match runs with
  | [] => ([], s)
  | (e, args) :: rest =>
      let r := Deploy.cmd_deploy e args s in
      let '(log, s') := deploy_runs rest (snd r) in
      ((deploy_tx e s, fst r) :: log, s')
  end.

(* ===================================================================== *)
(** * Concrete machines used in the examples *)
(* ===================================================================== *)

Module Examples.

(** A repository whose HEAD is [c0ffee], which is also what [main]
    resolves to; [HEAD~1] is [beef01].  The working tree has unstaged
    modifications. *)
Definition git_env : GitRollback.env :=
  GitRollback.mkEnv "4173" "2026-02-15T12:00:00Z"
    (fun rev =>
       if String.eqb rev "main^{commit}" then "c0ffee"
       else if String.eqb rev "HEAD~1^{commit}" then "beef01"
       else "")
    false true 0 0 0 0 0 "{}".

Definition git_state : GitRollback.state :=
  GitRollback.mkState "c0ffee" None [].

(** A host for the deploy script: PID 4242, only process 777 answers
    [kill -0], builds succeed, [start.sh --force] succeeds and leaves
    dist/ as it finds it (its build gives the same files again), the
    health endpoint is alive but never ready. *)
Definition deploy_env : Deploy.env :=
  Deploy.mkEnv "4242" "/srv/clawsuite"
    (fun _ => "2026-02-16T12:00:00Z")
    (fun _ => "20260216-120000")
    (fun _ => "17")
    (fun t => Z.of_nat t)
    (fun _ pid => String.eqb pid "777")
    (fun _ => (true, Some "dist-v3"))
    true
    (fun _ d => (0, d))
    (fun _ => true)
    (fun _ => false)
    (fun _ => "1.0.0").

(** The transaction id [generate_tx_id] gives on that host. *)
Definition new_tx : string := "tx-20260216-120000-4242{RANDOM:-17}".

(** The transaction of the last successful deploy before the examples. *)
Definition old_tx : string := "tx-20260215-090000-100{RANDOM:-5}".

(** One successful deploy so far ([old_tx]), its backup on disk, nobody
    holds the deploy lock. *)
Definition deployed_state : Deploy.state :=
  Deploy.mkState true
    [Deploy.Whole (Deploy.mkEntry old_tx "2026-02-15T09:00:00Z"
                     Deploy.deploy_start Deploy.started "{}");
     Deploy.Whole (Deploy.mkEntry old_tx "2026-02-15T09:00:40Z"
                     Deploy.deploy_complete Deploy.success "{}")]
    (Some (Deploy.mkCstate Deploy.deployed "2026-02-15T09:00:40Z"
             (Some old_tx) (Some "1.0.0")))
    [Deploy.mkBackup old_tx (-10) (Some "dist-v1")]
    None
    (Some "dist-v2")
    0 [].

(** The same, while a deploy run by process 777 holds the lock. *)
Definition locked_state : Deploy.state :=
  Deploy.set_lock (Some "777") deployed_state.


(** A host on which every step of a deploy succeeds; [stamp] is what
    [date +%Y%m%d-%H%M%S] prints. *)
Definition healthy_env (stamp : string) : Deploy.env :=
  Deploy.mkEnv "4242" "/srv/clawsuite"
    (fun _ => "2026-02-16T12:00:00Z")
    (fun _ => stamp)
    (fun _ => "17")
    (fun t => Z.of_nat t)
    (fun _ pid => String.eqb pid "777")
    (fun _ => (true, Some "dist-v3"))
    true
    (fun _ d => (0, d))
    (fun _ => true)
    (fun _ => true)
    (fun _ => "1.0.0").

(** Six deploys, one minute apart, on a new installation. *)
Definition six_runs : list (Deploy.env * list string) :=
  map (fun stamp => (healthy_env stamp, @nil string))
      ["20260216-120000"; "20260216-120100"; "20260216-120200";
       "20260216-120300"; "20260216-120400"; "20260216-120500"].

(** A new installation: the journal directory has been made and is
    empty, there is no backup and no dist/. *)
Definition fresh_state : Deploy.state :=
  Deploy.mkState true [] None [] None None 0 [].

(** A machine with none of ss, netstat, lsof, nc, timeout, curl, wget. *)
Definition bare_host : Health.env :=
  Health.mkEnv (Health.mkTools false false false false false false false)
    "2026-02-15T12:00:00Z"
    (fun _ => false) (fun _ => false) (fun _ => false)
    (fun _ _ => false) (fun _ _ => false)
    (fun _ _ => None) (fun _ _ => false)
    (fun _ => "") (fun _ => "").

(** A machine with ss and curl on which nothing listens. *)
Definition quiet_host : Health.env :=
  Health.mkEnv (Health.mkTools true false false false false true false)
    "2026-02-15T12:00:00Z"
    (fun _ => false) (fun _ => false) (fun _ => false)
    (fun _ _ => false) (fun _ _ => false)
    (fun _ _ => None) (fun _ _ => false)
    (fun _ => "") (fun _ => "").

Definition health_config : Health.config :=
  Health.mkConfig "4173" "localhost" Health.json true.

(** A machine with lsof and without curl: processes 777 and 9100 are
    alive, a launched server gets PID 9100, and [lsof] names [on_port] as
    the listener of every port. *)
Definition proc_host (on_port : string) : Proc.env :=
  Proc.mkEnv true false false "9001"
    (fun _ => "2026-02-15T12:00:00Z")
    (fun _ pid => String.eqb pid "777" || String.eqb pid "9100")
    (fun _ _ => on_port)
    (fun _ _ => "")
    (fun _ _ => "000")
    (fun _ => true)
    (fun _ => "9100").

(** [logs/] holding a lock file written by [owner], and an old PID file. *)
Definition locked_files (owner : string) : Proc.state :=
  Proc.mkState (Proc.mkFiles (Some owner) (Some "4000") None None) 0 [].

Definition start_config : Start.config :=
  Start.mkConfig "4173" "0.0.0.0" "dev" true false true.

Definition stop_config : Stop.config := Stop.mkConfig "4173" false.

Definition restart_config : Restart.config :=
  Restart.mkConfig "3000" "dev" false false.

(** Three failed health checks, one minute apart. *)
Definition three_failures : list Daemon.cycle :=
  [Daemon.mkCycle 1 1771156800 0;
   Daemon.mkCycle 1 1771156860 0;
   Daemon.mkCycle 1 1771156920 0].

(** The host of [deploy_env], except that [start.sh] fails the first
    time it is run and succeeds afterwards. *)
Definition start_fails_once_env : Deploy.env :=
  Deploy.mkEnv "4242" "/srv/clawsuite"
    (fun _ => "2026-02-16T12:00:00Z")
    (fun _ => "20260216-120000")
    (fun _ => "17")
    (fun t => Z.of_nat t)
    (fun _ pid => String.eqb pid "777")
    (fun _ => (true, Some "dist-v3"))
    true
    (fun t d => (if (t <=? 8)%nat then 1 else 0, d))
    (fun _ => true)
    (fun _ => false)
    (fun _ => "1.0.0").

(** The host of [deploy_env], except that [start.sh --force] builds
    again: whatever dist/ it finds, it leaves [dist-v3]. *)
Definition rebuilding_env : Deploy.env :=
  Deploy.mkEnv "4242" "/srv/clawsuite"
    (fun _ => "2026-02-16T12:00:00Z")
    (fun _ => "20260216-120000")
    (fun _ => "17")
    (fun t => Z.of_nat t)
    (fun _ pid => String.eqb pid "777")
    (fun _ => (true, Some "dist-v3"))
    true
    (fun _ _ => (0, Some "dist-v3"))
    (fun _ => true)
    (fun _ => false)
    (fun _ => "1.0.0").

(** A machine with ss and curl on which a server answers 200 on every
    port. *)
Definition serving_host : Health.env :=
  Health.mkEnv (Health.mkTools true false false false false true false)
    "2026-02-15T12:00:00Z"
    (fun _ => true) (fun _ => false) (fun _ => false)
    (fun _ _ => false) (fun _ _ => false)
    (fun _ _ => Some "200") (fun _ _ => false)
    (fun _ => "") (fun _ => "9101").

(** Two passed health checks. *)
Definition two_passes : list Daemon.cycle :=
  [Daemon.mkCycle 0 1771156800 0; Daemon.mkCycle 0 1771156860 0].

End Examples.

(* ===================================================================== *)
(** * Reading a trace *)
(* ===================================================================== *)

(** The events a script has added to the trace between [s] and [s']. *)
Definition added (s s' : Proc.state) : list event :=
  skipn (length (Proc.trace s)) (Proc.trace s').

(** The seconds slept, summed over a trace. *)
Definition sleep_total (tr : list event) : Z :=
  fold_right (fun ev acc => match ev with Sleep n => n + acc | _ => acc end)
             0 tr.

Definition is_signal (ev : event) : bool :=
  match ev with Signal _ _ => true | _ => false end.

Definition is_kill (ev : event) : bool :=
  match ev with Signal sig _ => String.eqb sig "KILL" | _ => false end.

Definition is_spawn (ev : event) : bool :=
  match ev with Spawn _ => true | _ => false end.

Definition is_run (ev : event) : bool :=
  match ev with Run _ => true | _ => false end.

Definition is_lookup (ev : event) : bool :=
  match ev with PidLookup _ _ => true | _ => false end.

(* ===================================================================== *)
(** * What a run may do: signals, commands and waiting *)
(* ===================================================================== *)

Module Effects.
Import Proc.

(** [s'] is [s] after more commands, which added the events [a]. *)
Definition ext (s s' : state) (a : list event) : Prop :=
  trace s' = (trace s ++ a)%list /\ (tick s <= tick s')%nat.

(** The events [a] sleep [n] seconds at most, send only the signals
    [sigs], launch only the servers [spawns] and run only the commands
    [runs]. *)
Definition bounded (a : list event) (n : Z)
  (sigs : string -> string -> Prop) (spawns runs : string -> Prop) : Prop :=
  0 <= sleep_total a <= n /\
  (forall sig pid, In (Signal sig pid) a -> sigs sig pid) /\
  (forall cmd, In (Spawn cmd) a -> spawns cmd) /\
  (forall cmd, In (Run cmd) a -> runs cmd).

Definition nobody : string -> string -> Prop := fun _ _ => False.
Definition nothing : string -> Prop := fun _ => False.

End Effects.

(** The process [stop.sh] finds on the port, once the watchdog has been
    dealt with. *)
Definition stop_victim (e : Proc.env) (c : Stop.config) (s : Proc.state)
  : string :=
  fst (Proc.find_process_on_port e (Stop.PORT c) (Stop.stop_watchdog e s)).

(** The process [start.sh] finds on the port once it holds the lock. *)
Definition start_occupant (e : Proc.env) (c : Start.config) (s : Proc.state)
  : string :=
  fst (Proc.find_process_on_port e (Start.PORT c)
         (snd (Start.acquire_lock e s))).

(** The snapshot [start_server] writes. *)
Definition started_snapshot (ts host port pid mode : string) : HealthState :=
  mkHealthState ts host port listening healthy true (Some pid) (Some mode)
                None.

(** The signals, servers and commands of a run of [start.sh]. *)
Definition start_sigs (e : Proc.env) (c : Start.config) (existing : string)
  (failed : Prop) : string -> string -> Prop :=
  fun sig p =>
    (Start.FORCE c = true /\ p = existing /\ (sig = "TERM" \/ sig = "KILL"))
    \/ (sig = "TERM" /\ failed /\ exists t, p = Proc.spawn_pid e t).

Definition start_spawns (c : Start.config) : string -> Prop :=
  fun cmd => cmd = Start.server_cmd (Start.MODE c) (Start.PORT c)
                     (Start.HOST c).

Definition start_runs (c : Start.config) : string -> Prop :=
  fun cmd =>
    (cmd = "rm -rf dist .vite .tanstack" /\ Start.CLEAN c = true) \/
    (cmd = "npm run build" /\
     String.eqb (Start.MODE c) "preview" = true /\ Start.BUILD c = true).


(** The process [watchdog-restart.sh] finds on the port when it starts. *)
Definition restart_occupant (e : Proc.env) (c : Restart.config)
  (s : Proc.state) : string :=
  fst (Proc.find_process_on_port e (Restart.PORT c) s).

(* ===================================================================== *)
(** * More machines for the examples *)
(* ===================================================================== *)

Module Hosts.

(** A machine with lsof and curl.  Nothing listens on any port at the
    first two questions; from then on process 9100 does, and curl gets
    200.  Only process 9100 answers [kill -0]; a launched server gets PID
    9100. *)
Definition fresh_host : Proc.env :=
  Proc.mkEnv true false true "9001"
    (fun _ => "2026-02-15T12:00:00Z")
    (fun _ pid => String.eqb pid "9100")
    (fun t _ => if (t <=? 1)%nat then "" else "9100")
    (fun _ _ => "")
    (fun _ _ => "200")
    (fun _ => true)
    (fun _ => "9100").

(** [logs/] without any of the four files. *)
Definition empty_logs : Proc.state :=
  Proc.mkState (Proc.mkFiles None None None None) 0 [].

(** [start.sh --mode dev] without [--force]. *)
Definition gentle_config : Start.config :=
  Start.mkConfig "4173" "0.0.0.0" "dev" true false false.

End Hosts.

(* ===================================================================== *)
(** * Reading the deploy journal and the backups *)
(* ===================================================================== *)

(** A physical line written under transaction [tx] (the continuation
    lines of a broken entry carry no transaction id). *)
Definition line_of (tx : string) (l : Deploy.jline) : Prop :=
  match l with
  | Deploy.Whole en | Deploy.Head en => Deploy.tx_id en = tx
  | Deploy.Tail _ => True
  end.

(** From [s] to [s'] the journal has only grown, by lines of [tx]. *)
Definition journal_grows (tx : string) (s s' : Deploy.state) : Prop :=
  exists added,
    Deploy.journal s' = (Deploy.journal s ++ added)%list /\
    Forall (line_of tx) added.


(** The copy of dist/ held by [backups/TX]: [None] when there is no such
    backup, [Some None] when the backup holds no dist/. *)
Definition backup_dist (tx : string) (s : Deploy.state)
  : option (option string) :=
  option_map Deploy.b_dist
    (find (fun b => String.eqb (Deploy.b_name b) tx) (Deploy.backups s)).

(** [s'] has the journal, the backups, the current-state file, dist/ and
    the lock file of [s]. *)
Definition deploy_still (s s' : Deploy.state) : Prop :=
  Deploy.journal s' = Deploy.journal s /\
  Deploy.backups s' = Deploy.backups s /\
  Deploy.current_state s' = Deploy.current_state s /\
  Deploy.dist s' = Deploy.dist s /\
  Deploy.lock_file s' = Deploy.lock_file s /\
  (Deploy.tick s <= Deploy.tick s')%nat.


(** The transaction a manual rollback with options [o] goes back to: the
    one given with [--to], else the last successful one of the journal. *)
Definition rollback_target (o : Deploy.rollback_opts) (s : Deploy.state)
  : string :=
  if Sh.nonempty (Deploy.target_tx o) then Deploy.target_tx o
  else Deploy.get_last_successful_tx s.

(** The two entries a manual rollback that gives up leaves in the journal:
    [manual_rollback started] and [manual_rollback failed] with a
    reason. *)
Definition gave_up (tx : string) (o : Deploy.rollback_opts) (reason : string)
  (s s' : Deploy.state) : Prop :=
  exists ts1 ts2,
    Deploy.journal s'
    = (Deploy.journal s
         ++ Deploy.entry_lines
              (Deploy.mkEntry tx ts1 Deploy.manual_rollback Deploy.started
                 (Deploy.obj1 "target"
                    (Sh.default_to (Deploy.target_tx o) "last_success")))
         ++ [Deploy.Whole
               (Deploy.mkEntry tx ts2 Deploy.manual_rollback Deploy.failed
                  (Deploy.obj1 "reason" reason))])%list.

(** What the phases of a deploy need from the state they start in: the
    internal rollback would find the deploy's own transaction [tx] (or
    none), the backup of [tx] holds [bd] as its copy of dist/, and the
    current-state file exists. *)
Definition deploy_pre (tx : string) (bd : option string) (s : Deploy.state)
  : Prop :=
  rollback_ready tx s /\
  backup_dist tx s = Some bd /\
  exists c, Deploy.current_state s = Some c.

(** How the phases of a deploy of [tx] started in [s0] can end: the
    journal has grown by lines of [tx], the lock file is as it was, and
    - status 0: CurrentState is [deployed] for [tx], the backups were
      pruned, and [tx] is the last successful transaction of the journal;
    - status 1: the backups are as they were, and either CurrentState is
      [rolled_back] for [tx], or CurrentState is unchanged (the rollback
      itself failed). *)
Definition deploy_post (tx : string) (bd : option string)
  (s0 : Deploy.state) (r : Sh.status * Deploy.state) : Prop :=
  journal_grows tx s0 (snd r) /\
  Deploy.lock_file (snd r) = Deploy.lock_file s0 /\
  ((fst r = 0 /\
    (exists ts v,
        Deploy.current_state (snd r)
        = Some (Deploy.mkCstate Deploy.deployed ts (Some tx) (Some v))) /\
    Deploy.backups (snd r) = Deploy.prune_backups (Deploy.backups s0) /\
    Deploy.get_last_successful_tx (snd r) = tx) \/
   (fst r = 1 /\
    Deploy.backups (snd r) = Deploy.backups s0 /\
    ((exists ts v,
         Deploy.current_state (snd r)
         = Some (Deploy.mkCstate Deploy.rolled_back ts (Some tx) (Some v)))
     \/
     Deploy.current_state (snd r) = Deploy.current_state s0))).


(** A step of a deploy of [tx] that adds lines of [tx] to the journal and
    leaves the lock, the backups and the current-state file alone. *)
Definition deploy_step (tx : string) (s s' : Deploy.state) : Prop :=
  journal_grows tx s s' /\
  Deploy.lock_file s' = Deploy.lock_file s /\
  Deploy.backups s' = Deploy.backups s /\
  Deploy.current_state s' = Deploy.current_state s.

(** The backups directory once [create_backup TX] has run in [s]: a
    directory of that name is kept as it is, otherwise the new backup,
    holding the dist/ of [s], comes last. *)
Definition with_backup (e : Deploy.env) (tx : string) (s : Deploy.state)
  (dir : list Deploy.backup) : Prop :=
  if Deploy.has_backup tx (Deploy.backups s) then dir = Deploy.backups s
  else exists t,
      dir = (Deploy.backups s
               ++ [Deploy.mkBackup tx (Deploy.clock e t) (Deploy.dist s)])%list.

(** The commands of a git rollback to [target], in the order of the
    script. *)
Definition rollback_plan (o : GitRollback.opts) (target : string)
  : list event :=
  [Run ("stop.sh --port " ++ GitRollback.PORT o ++ " --force");
   Run ("git checkout --force " ++ target);
   Run "npm ci"]
  ++ (if String.eqb (GitRollback.MODE o) "preview"
      then [Run "npm run build"] else [])
  ++ [Run ("start.sh --mode " ++ GitRollback.MODE o ++ " --port "
           ++ GitRollback.PORT o ++ " --force");
      Run "watchdog-health.sh --json"].

(** [rollback.state] as a run from [from] to [target] with exit status
    [code] writes it. *)
Definition rollback_record (e : GitRollback.env) (o : GitRollback.opts)
  (from target : string) (code : Sh.status) (st : GitRollback.rollback_state)
  : Prop :=
  GitRollback.rs_from st = from /\ GitRollback.rs_to st = target /\
  GitRollback.rs_mode st = GitRollback.MODE o /\
  GitRollback.rs_port st = GitRollback.PORT o /\
  ((code = 0 /\ GitRollback.rs_status st = "ok" /\
    GitRollback.rs_health st = Some (GitRollback.health_json e) /\
    GitRollback.rs_error st = None) \/
   (code = 1 /\ GitRollback.rs_status st = "failed" /\
    GitRollback.rs_health st = None /\
    GitRollback.rs_error st = Some "Post-rollback health check failed")).

(* ===================================================================== *)
(** * start.sh: the option loop *)
(* ===================================================================== *)

Module StartCli.

(** The [while [[ $# -gt 0 ]]] loop: [-h] leaves with 0, an unknown word
    with 2, a missing value is an unbound [$2] under [set -u] (exit 1). *)
Fixpoint parse_args (args : list string) (c : Start.config)
  : Sh.outcome Start.config :=
  match args with
  | [] => Sh.Ret c
  | a :: rest =>
      if String.eqb a "-p" || String.eqb a "--port" then
        match rest with
        | v :: rest' =>
            parse_args rest'
              (Start.mkConfig v (Start.HOST c) (Start.MODE c) (Start.BUILD c)
                 (Start.CLEAN c) (Start.FORCE c))
        | [] => Sh.Exit 1
        end
      else if String.eqb a "-H" || String.eqb a "--host" then
        match rest with
        | v :: rest' =>
            parse_args rest'
              (Start.mkConfig (Start.PORT c) v (Start.MODE c) (Start.BUILD c)
                 (Start.CLEAN c) (Start.FORCE c))
        | [] => Sh.Exit 1
        end
      else if String.eqb a "-m" || String.eqb a "--mode" then
        match rest with
        | v :: rest' =>
            parse_args rest'
              (Start.mkConfig (Start.PORT c) (Start.HOST c) v (Start.BUILD c)
                 (Start.CLEAN c) (Start.FORCE c))
        | [] => Sh.Exit 1
        end
      else if String.eqb a "--no-build" then
        parse_args rest
          (Start.mkConfig (Start.PORT c) (Start.HOST c) (Start.MODE c) false
             (Start.CLEAN c) (Start.FORCE c))
      else if String.eqb a "--clean" then
        parse_args rest
          (Start.mkConfig (Start.PORT c) (Start.HOST c) (Start.MODE c)
             (Start.BUILD c) true (Start.FORCE c))
      else if String.eqb a "-f" || String.eqb a "--force" then
        parse_args rest
          (Start.mkConfig (Start.PORT c) (Start.HOST c) (Start.MODE c)
             (Start.BUILD c) (Start.CLEAN c) true)
      else if String.eqb a "-h" || String.eqb a "--help" then Sh.Exit 0
      else Sh.Exit 2
  end.

(** The settings before the loop; [env_port] and [env_host] are
    [$CLAWSUITE_PORT] and [$CLAWSUITE_HOST] (empty when unset). *)
Definition defaults (env_port env_host : string) : Start.config :=
  Start.mkConfig (Sh.default_to env_port "4173")
                 (Sh.default_to env_host "0.0.0.0") "preview" true false false.

(** [start.sh ARGS] *)
Definition start_sh (e : Proc.env) (env_port env_host : string)
  (args : list string) (s : Proc.state) : Sh.status * Proc.state :=
  match parse_args args (defaults env_port env_host) with
  | Sh.Exit c => (c, s)
  | Sh.Ret c => Start.script e c s
  end.

End StartCli.

(* ===================================================================== *)
(** * stop.sh: the option loop *)
(* ===================================================================== *)

Module StopCli.

(** The [while [[ $# -gt 0 ]]] loop: [-h] leaves with 0, an unknown word
    with 2, a missing value is an unbound [$2] under [set -u] (exit 1). *)
Fixpoint parse_args (args : list string) (c : Stop.config)
  : Sh.outcome Stop.config :=
  match args with
  | [] => Sh.Ret c
  | a :: rest =>
      if String.eqb a "-p" || String.eqb a "--port" then
        match rest with
        | v :: rest' => parse_args rest' (Stop.mkConfig v (Stop.FORCE c))
        | [] => Sh.Exit 1
        end
      else if String.eqb a "-f" || String.eqb a "--force" then
        parse_args rest (Stop.mkConfig (Stop.PORT c) true)
      else if String.eqb a "-h" || String.eqb a "--help" then Sh.Exit 0
      else Sh.Exit 2
  end.

(** The settings before the loop; [env_port] is [$CLAWSUITE_PORT] (empty
    when unset). *)
Definition defaults (env_port : string) : Stop.config :=
  Stop.mkConfig (Sh.default_to env_port "4173") false.

(** [stop.sh ARGS] *)
Definition stop_sh (e : Proc.env) (env_port : string) (args : list string)
  (s : Proc.state) : Sh.status * Proc.state :=
  match parse_args args (defaults env_port) with
  | Sh.Exit c => (c, s)
  | Sh.Ret c => Stop.main e c s
  end.

End StopCli.

(* ===================================================================== *)
(** * clean-start.sh *)
(* ===================================================================== *)

Module CleanStart.
Import Proc.

(** [MODE="${1:-preview}"] *)
Definition mode_of (args : list string) : string :=
  Sh.default_to (hd "" args) "preview".

(** The script.  [stop.sh] is run without options and its status is
    ignored; [npm run build] is a plain command under [set -e], so a failed
    build ends the script with npm's status [npm_fail]; the status of
    [start.sh --mode MODE --force], the last command that can fail, is the
    status of the script.  [e] is the machine as [start.sh] sees it. *)
Definition script (e : env) (npm_fail : Sh.status)
  (env_port env_host : string) (args : list string) (s : state)
  : Sh.status * state :=
  let MODE := mode_of args in
  let s1 := snd (StopCli.stop_sh e env_port [] s) in
  let s2 := emit (Run "rm -rf dist .vite .tanstack") s1 in
  let s3 := set_fs (set_pid None (set_lock None (fs s2))) s2 in
  let '(ok, s4) := observe (build_ok e) (emit (Run "npm run build") s3) in
  if ok
  then StartCli.start_sh e env_port env_host ["--mode"; MODE; "--force"] s4
  else (npm_fail, s4).

End CleanStart.

(* ===================================================================== *)
(** * watchdog-daemon.sh: stopping the daemon and the single check *)
(* ===================================================================== *)

Module WatchdogCli.
Import Proc.

(** [is_daemon_running]: the PID file is there, names a process, and that
    process answers [kill -0]. *)
Definition is_daemon_running (e : env) (s : state) : bool * state :=
  match watchdog_pid_file (fs s) with
  | Some pid =>
      if Sh.nonempty pid then observe (fun t => kill0 e t pid) s
      else (false, s)
  | None => (false, s)
  end.

(** The loop [while [[ waited -lt 10 ]]] of [stop_daemon]; [Ret true]
    when the daemon was seen gone (the PID file is removed then),
    [Ret false] when the loop ran out.  [stop_daemon] is called from the
    option loop as a plain command, so [set -e] is in force: when
    [((waited++))] returns a non-zero status the script ends with it.
    The recursion is on the polls that are left at most. *)
Fixpoint stop_wait (e : env) (pid : string) (waited : Z) (left : nat)
  (s : state) : Sh.outcome bool * state :=
  match left with
  | O => (Sh.Ret false, s)
  | S k =>
      if waited <? 10 then
        let '(alive, s1) := observe (fun t => kill0 e t pid) s in
        if alive then
          let s2 := emit (Sleep 1) s1 in
          let '(waited', st) := Sh.post_incr waited in
          if st =? 0 then stop_wait e pid waited' k s2
          else (Sh.Exit st, s2)
        else (Sh.Ret true, set_fs (set_watchdog_pid None (fs s1)) s1)
      else (Sh.Ret false, s)
  end.

(** [stop_daemon], followed by [exit $?]: the exit status of
    [watchdog-daemon.sh --stop]. *)
Definition stop_daemon (e : env) (s : state) : Sh.status * state :=
  let '(running, s1) := is_daemon_running e s in
  if running then
    let pid := match watchdog_pid_file (fs s1) with
               | Some p => p
               | None => ""
               end in
    let s2 := emit (Signal "TERM" pid) s1 in
    match stop_wait e pid 0 11 s2 with
    | (Sh.Exit st, s3) => (st, s3)
    | (Sh.Ret true, s3) => (0, s3)
    | (Sh.Ret false, s3) =>
        let '(alive, s4) := observe (fun t => kill0 e t pid) s3 in
        if alive then
          let s5 := emit (Signal "KILL" pid) s4 in
          (0, set_fs (set_watchdog_pid None (fs s5)) s5)
        else (0, s4)
    end
  else (0, s1).

(** [run_health_check]: [watchdog-health.sh --port PORT --state], on the
    machine as that script sees it ([h]).  The check rewrites
    [watchdog.state]. *)
Definition run_health_check (h : Health.env) (port : string) (s : state)
  : Sh.status * state :=
  let r := Health.perform_health_check h
             (Health.mkConfig port "localhost" Health.text true) in
  (Health.r_status r,
   mkState (match Health.r_state_file r with
            | Some snapshot => set_state (Some snapshot) (fs s)
            | None => fs s
            end)
           (tick s) (trace s ++ Health.r_trace r)).

(** [run_restart]: [watchdog-restart.sh --port PORT --mode MODE]; the
    mode has been validated by the daemon script before. *)
Definition run_restart (e : env) (port mode : string) (s : state)
  : Sh.status * state :=
  Restart.main e (Restart.mkConfig port mode false false) s.

(** [single_check], followed by [exit $?].  Both scripts are run as the
    condition of an [if].  The lines written to [watchdog.log] are not
    part of the state. *)
Definition single_check (h : Health.env) (e : env) (port mode : string)
  (dry_run : bool) (s : state) : Sh.status * state :=
  let '(st, s1) := run_health_check h port s in
  if st =? 0 then (0, s1)
  else if dry_run then (1, s1)
  else
    let '(rs, s2) := run_restart e port mode s1 in
    if rs =? 0 then (0, s2) else (1, s2).

End WatchdogCli.

(** What [watchdog.state] says about health, if the file is there. *)
Definition state_says_healthy (s : Proc.state) : option bool :=
  option_map hs_healthy (Proc.state_file (Proc.fs s)).

(* ===================================================================== *)
(** * deploy-with-rollback.sh: the verify command *)
(* ===================================================================== *)

Module DeployVerify.
Import Deploy.






End DeployVerify.

(* ===================================================================== *)
(** * watchdog-health.sh: the text report, and the wrapper for cron *)
(* ===================================================================== *)

Module HealthCli.

Definition port_status_text (p : port_status) : string :=
  match p with
  | listening => "listening"
  | not_listening => "not_listening"
  | port_unknown => "unknown"
  end.

Definition http_status_text (h : http_status) : string :=
  match h with
  | healthy => "healthy"
  | unhealthy => "unhealthy"
  | http_unknown => "unknown"
  end.

(** The lines [perform_health_check] prints in text format. *)
Definition text_report (h : HealthState) : list string :=
  ["=== ClawSuite Health Check ===";
   "Timestamp: " ++ hs_timestamp h;
   "Target: " ++ hs_host h ++ ":" ++ hs_port h;
   "Port Status: " ++ port_status_text (hs_port_status h);
   "HTTP Status: " ++ http_status_text (hs_http_status h);
   "PID: " ++ match hs_pid h with Some p => p | None => "N/A" end;
   if hs_healthy h then "Result: HEALTHY"
   else "Result: UNHEALTHY - "
        ++ match hs_error h with Some m => m | None => "" end].

Definition join_lines (ls : list string) : string :=
  String.concat Deploy.newline ls.

(** [$(...)] drops the newlines at the end of what the command prints. *)
Fixpoint strip_newlines (s : string) : string :=
  match s with
  | EmptyString => EmptyString
  | String c r =>
      let r' := strip_newlines r in
      if Ascii.eqb c (ascii_of_nat 10) && String.eqb r' "" then ""
      else String c r'
  end.

(** A text that [$(...)] returns as it is: not empty, and no newline at
    its end. *)
Definition solid (t : string) : Prop := strip_newlines t = t /\ t <> "".

(** Letters compared as [grep -i] compares them. *)
Definition lower (c : ascii) : ascii :=
  let n := nat_of_ascii c in
  if (65 <=? n)%nat && (n <=? 90)%nat then ascii_of_nat (n + 32) else c.

Fixpoint prefix_ci (p s : string) : bool :=
  match p, s with
  | EmptyString, _ => true
  | String a p', String b s' => Ascii.eqb (lower a) (lower b) && prefix_ci p' s'
  | String _ _, EmptyString => false
  end.

Fixpoint contains_ci (p s : string) : bool :=
  prefix_ci p s ||
  match s with
  | EmptyString => false
  | String _ s' => contains_ci p s'
  end.

(** [grep -qi "P1\|P2"] on the lines given: some line holds one of the
    patterns.  The patterns hold no newline, so a text with newlines in
    it holds a pattern exactly when one of its lines does. *)
Definition grep_qi (patterns lines : list string) : bool :=
  existsb (fun l => existsb (fun p => contains_ci p l) patterns) lines.

(** What the health check prints on stderr: the complaint of
    [check_port_listening] when no tool can look at the port, or that of
    [check_http_health], which is run only when the port is listening,
    when neither curl nor wget is installed.  Every other command of the
    script has its stderr sent to [/dev/null]. *)
Definition complaints (h : Health.env) (c : Health.config) : list string :=
  let st_port :=
    fst (Health.check_port_listening h (Health.HOST c) (Health.PORT c)) in
  if st_port =? 2 then ["ERROR: No tool available to check port"]
  else if (st_port =? 0) &&
          (fst (Health.check_http_health h (Health.HOST c) (Health.PORT c))
           =? 2)
  then ["ERROR: Neither curl nor wget available for HTTP check"]
  else [].

(** The wrapper for cron that follows [watchdog-restart.sh] in the
    sources: [env_port] and [env_host] are [$CLAWSUITE_PORT] and
    [$CLAWSUITE_HOST]; [update_state] tells whether the environment has
    [UPDATE_STATE=true], which the health script would pick up.  The
    wrapper captures stdout and stderr of the check ([2>&1]): a
    complaint, printed while the checks run, comes before the report.
    The result is the exit status and the line printed. *)
Definition cron_wrapper (h : Health.env) (env_port env_host : string)
  (update_state : bool) : Sh.status * string :=
  let port := Sh.default_to env_port "4173" in
  let host := Sh.default_to env_host "localhost" in
  let c := Health.mkConfig port host Health.text update_state in
  let r := Health.perform_health_check h c in
  let output :=
    strip_newlines
      (join_lines (complaints h c ++ text_report (Health.r_report r))) in
  if negb (Health.r_status r =? 0) then
    (0, "ALERT: ClawSuite health check failed on " ++ host ++ ":" ++ port
        ++ " - " ++ output)
  else if grep_qi ["result: healthy"; Deploy.quoted "healthy" ++ ":true"]
                  [output]
  then (0, "NO_ALERT")
  else (0, "ALERT: ClawSuite health check returned unexpected status on "
           ++ host ++ ":" ++ port).

End HealthCli.

(** The commands, probes and waits of [deploy-with-rollback.sh];
    [npm run build] only when [build] is set. *)
Definition deploy_event (build : bool) (ev : event) : Prop :=
  ev = Run "stop.sh" \/ ev = Run "start.sh --force" \/
  (build = true /\ ev = Run "npm run build") \/
  ev = Run "health-endpoint.sh --daemonize" \/
  ev = HttpProbe "curl" "localhost" "/health/live" \/
  ev = HttpProbe "curl" "localhost" "/health/ready" \/
  ev = Sleep 2 \/ ev = Sleep Deploy.HEALTH_INTERVAL.

(** From [s] to [s'] the trace has grown by events that satisfy [P] and
    sleep [n] seconds at most. *)
Definition deploy_adds (P : event -> Prop) (n : Z) (s s' : Deploy.state)
  : Prop :=
  exists a,
    Deploy.trace s' = (Deploy.trace s ++ a)%list /\
    Forall P a /\ 0 <= sleep_total a <= n.

(* ===================================================================== *)
(** * Properties of watchdog-health.sh *)
(* ===================================================================== *)

Module HealthProps.
Import Health.

Lemma check_port_listening_no_http e host port :
  existsb is_http_probe (snd (check_port_listening e host port)) = false.
Proof.
  unfold check_port_listening.
  repeat match goal with |- context [if ?b then _ else _] => destruct b end;
    reflexivity.
Qed.

Lemma find_server_process_no_http e port :
  existsb is_http_probe (snd (find_server_process e port)) = false.
Proof.
  unfold find_server_process.
  repeat match goal with |- context [if ?b then _ else _] => destruct b end;
    reflexivity.
Qed.

(** Without any of ss, netstat, lsof, nc and timeout the port check
    answers 2. *)
Lemma check_port_listening_no_tool e host port :
  has_ss (tl e) = false -> has_netstat (tl e) = false ->
  has_lsof (tl e) = false -> has_nc (tl e) = false ->
  has_timeout (tl e) = false ->
  check_port_listening e host port = (2, []).
Proof.
  intros Hss Hns Hl Hnc Ht. unfold check_port_listening.
  now rewrite Hss, Hns, Hl, Hnc, Ht.
Qed.

(** What [perform_health_check] does once the port check has failed. *)
Lemma perform_health_check_port_closed e c :
  fst (check_port_listening e (HOST c) (PORT c)) <> 0 ->
  perform_health_check e c =
    let snapshot :=
      mkHealthState (date_utc e) (HOST c) (PORT c) not_listening
        http_unknown false None None
        (Some ("Port " ++ PORT c ++ " is not listening")) in
    mkResult 1 snapshot (if UPDATE_STATE c then Some snapshot else None)
             (snd (check_port_listening e (HOST c) (PORT c))).
Proof.
  intros Hst. unfold perform_health_check.
  destruct (check_port_listening e (HOST c) (PORT c)) as [st tr] eqn:E.
  simpl in Hst. apply Z.eqb_neq in Hst. rewrite Hst. reflexivity.
Qed.

(** A listening port on a machine with neither curl nor wget: the HTTP
    check answers 2 and the run is reported as unhealthy with status 1. *)
Lemma perform_health_check_no_http_tool e c :
  fst (check_port_listening e (HOST c) (PORT c)) = 0 ->
  has_curl (tl e) = false -> has_wget (tl e) = false ->
  fst (check_http_health e (HOST c) (PORT c)) = 2 /\
  r_status (perform_health_check e c) = 1 /\
  hs_http_status (r_report (perform_health_check e c)) = unhealthy.
Proof.
  intros Hp Hc Hw. unfold perform_health_check, check_http_health.
  destruct (check_port_listening e (HOST c) (PORT c)) as [st tr].
  simpl in Hp. subst st. rewrite Hc, Hw. simpl.
  destruct (find_server_process e (PORT c)). simpl. auto.
Qed.

End HealthProps.

(** C3.  When the port test of the health check fails (any non-zero
    status), the reported HealthState has portStatus not_listening,
    httpStatus unknown, healthy false, an error message and no PID; the
    check returns 1, the same object goes to the state file when asked for,
    and no HTTP probe appears among the commands that were run.  Conversely
    an HTTP probe in the trace means the port test answered "listening". *)
Theorem C3_port_closed_no_http_probe (e : Health.env) (c : Health.config) :
  let r := Health.perform_health_check e c in
  (fst (Health.check_port_listening e (Health.HOST c) (Health.PORT c)) <> 0 ->
     hs_port_status (Health.r_report r) = not_listening /\
     hs_http_status (Health.r_report r) = http_unknown /\
     hs_healthy (Health.r_report r) = false /\
     hs_error (Health.r_report r) <> None /\
     hs_pid (Health.r_report r) = None /\
     Health.r_status r = 1 /\
     existsb is_http_probe (Health.r_trace r) = false /\
     (Health.UPDATE_STATE c = true ->
        Health.r_state_file r = Some (Health.r_report r))) /\
  (existsb is_http_probe (Health.r_trace r) = true ->
     fst (Health.check_port_listening e (Health.HOST c) (Health.PORT c)) = 0).
Proof.
  intros r. assert (Hclosed :
    fst (Health.check_port_listening e (Health.HOST c) (Health.PORT c)) <> 0 ->
    existsb is_http_probe (Health.r_trace r) = false).
  { intros H. subst r.
    rewrite (HealthProps.perform_health_check_port_closed e c H). simpl.
    apply HealthProps.check_port_listening_no_http. }
  split.
  - intros H. specialize (Hclosed H). subst r.
    rewrite (HealthProps.perform_health_check_port_closed e c H) in *.
    simpl in *. repeat split; try assumption; try discriminate.
    intros ->. reflexivity.
  - intros Hprobe.
    destruct (Z.eq_dec
      (fst (Health.check_port_listening e (Health.HOST c) (Health.PORT c))) 0)
      as [H0 | Hne]; [assumption |].
    rewrite (Hclosed Hne) in Hprobe. discriminate.
Qed.

(** C2.  On a machine with none of ss, netstat, lsof, nc and timeout, the
    port check itself answers 2 ("no tool available"), yet the health check
    ends with status 1 and reports port_status not_listening with the error
    "Port P is not listening": the run is reported as an ordinary unhealthy
    verdict, not as the tooling error (exit code 2) the script documents. *)
Theorem C2_missing_tools_reported_unhealthy (e : Health.env) (c : Health.config) :
  Health.has_ss (Health.tl e) = false ->
  Health.has_netstat (Health.tl e) = false ->
  Health.has_lsof (Health.tl e) = false ->
  Health.has_nc (Health.tl e) = false ->
  Health.has_timeout (Health.tl e) = false ->
  fst (Health.check_port_listening e (Health.HOST c) (Health.PORT c)) = 2 /\
  Health.exit_code e c = 1 /\
  hs_port_status (Health.r_report (Health.perform_health_check e c))
    = not_listening /\
  hs_error (Health.r_report (Health.perform_health_check e c))
    = Some ("Port " ++ Health.PORT c ++ " is not listening") /\
  Health.r_trace (Health.perform_health_check e c) = [].
Proof.
  intros Hss Hns Hl Hnc Ht.
  pose proof (HealthProps.check_port_listening_no_tool e (Health.HOST c)
                (Health.PORT c) Hss Hns Hl Hnc Ht) as Hcp.
  assert (Hne : fst (Health.check_port_listening e (Health.HOST c)
                       (Health.PORT c)) <> 0) by (rewrite Hcp; discriminate).
  unfold Health.exit_code.
  rewrite (HealthProps.perform_health_check_port_closed e c Hne).
  rewrite Hcp. simpl. repeat split; reflexivity.
Qed.

(* ===================================================================== *)
(** * Properties of watchdog-daemon.sh *)
(* ===================================================================== *)

Module DaemonProps.
Import Daemon.

(** With the counter at 0, a failed check ends the loop body at the
    increment; a passed check leaves the counter at 0. *)
Lemma daemon_step_from_zero k c :
  consecutive_failures k = 0 ->
  (health_status c = 0 /\
     daemon_step k c = (Sh.Ret (mkCounters 0 (last_failure_time k)), [Slept]))
  \/ (health_status c <> 0 /\ daemon_step k c = (Sh.Exit 1, [])).
Proof.
  intros Hk. unfold daemon_step.
  destruct (health_status c =? 0) eqn:Hh.
  - left. apply Z.eqb_eq in Hh. now split.
  - right. apply Z.eqb_neq in Hh. split; [assumption |].
    rewrite Hk.
    destruct (now c - last_failure_time k >? FAILURE_RESET_AFTER);
      reflexivity.
Qed.

Lemma daemon_loop_from_zero cs : forall k,
  consecutive_failures k = 0 ->
  ~ In RestartInvoked (snd (daemon_loop k cs)) /\
  (existsb (fun c => negb (health_status c =? 0)) cs = true ->
     fst (daemon_loop k cs) = Sh.Exit 1) /\
  (forall k', fst (daemon_loop k cs) = Sh.Ret k' ->
     consecutive_failures k' = 0).
Proof.
  induction cs as [| c rest IH]; intros k Hk; simpl.
  - repeat split; [tauto | discriminate | intros k' [= <-]; assumption].
  - destruct (daemon_step_from_zero k c Hk) as [[Hh E] | [Hh E]]; rewrite E.
    + specialize (IH (mkCounters 0 (last_failure_time k)) eq_refl).
      destruct (daemon_loop (mkCounters 0 (last_failure_time k)) rest)
        as [r acts] eqn:El.
      simpl in *. destruct IH as (Hno & Hex & Hret).
      rewrite Hh. simpl. repeat split.
      * intros [Habs | Hin]; [discriminate | tauto].
      * assumption.
      * assumption.
    + simpl. repeat split; try tauto. intros k' Habs. discriminate.
Qed.

(** The counting the loop body is written for: from a counter that is
    not 0, inside the reset window, a failed check adds one and records the
    time; at the threshold the restart runs, and the counter goes back to
    0 only when the restart succeeds. *)
Lemma daemon_step_counting k c :
  0 < consecutive_failures k ->
  health_status c <> 0 ->
  now c - last_failure_time k <= FAILURE_RESET_AFTER ->
  daemon_step k c =
    if consecutive_failures k + 1 >=? MAX_FAILURES then
      (Sh.Ret (mkCounters (if restart_status c =? 0 then 0
                           else consecutive_failures k + 1) (now c)),
       [RestartInvoked; Slept])
    else (Sh.Ret (mkCounters (consecutive_failures k + 1) (now c)), [Slept]).
Proof.
  intros Hpos Hh Hwin. unfold daemon_step, Sh.post_incr.
  apply Z.eqb_neq in Hh. rewrite Hh.
  assert (E : (now c - last_failure_time k >? FAILURE_RESET_AFTER) = false).
  { rewrite Z.gtb_ltb. apply Z.ltb_ge. exact Hwin. }
  rewrite E.
  assert (E0 : (consecutive_failures k =? 0) = false) by (apply Z.eqb_neq; lia).
  rewrite E0. cbn [negb Z.eqb].
  destruct (consecutive_failures k + 1 >=? MAX_FAILURES);
    [destruct (restart_status c =? 0) |]; reflexivity.
Qed.

End DaemonProps.

(** C4.  The daemon loop as written never reaches its restart path.  It
    starts with the counter at 0; a failed health check with the counter at
    0 (also after the 300-second reset) runs [((consecutive_failures++))],
    whose status is 1, and under [set -e] the daemon leaves with status 1
    there.  So for every sequence of cycles: no restart is invoked, a run
    containing a failed check ends with exit status 1, and a run that is
    still alive has its counter at 0. *)
Theorem C4_daemon_exits_on_first_failure (cs : list Daemon.cycle) :
  ~ In Daemon.RestartInvoked (snd (Daemon.daemon_loop Daemon.initial cs)) /\
  (existsb (fun c => negb (Daemon.health_status c =? 0)) cs = true ->
     fst (Daemon.daemon_loop Daemon.initial cs) = Sh.Exit 1) /\
  (forall k, fst (Daemon.daemon_loop Daemon.initial cs) = Sh.Ret k ->
     Daemon.consecutive_failures k = 0).
Proof.
  apply DaemonProps.daemon_loop_from_zero. reflexivity.
Qed.

(* ===================================================================== *)
(** * Properties of the process primitives *)
(* ===================================================================== *)

Module ProcProps.
Import Proc.

Lemma quiet_refl s : quiet_step s s.
Proof. exists []. now rewrite app_nil_r. Qed.

Lemma quiet_trans s1 s2 s3 :
  quiet_step s1 s2 -> quiet_step s2 s3 -> quiet_step s1 s3.
Proof.
  intros (a & Ha & Qa) (b & Hb & Qb). exists (a ++ b)%list. split.
  - now rewrite Hb, Ha, app_assoc.
  - now rewrite existsb_app, Qa, Qb.
Qed.

Lemma quiet_observe {A} (f : nat -> A) s : quiet_step s (snd (observe f s)).
Proof. exists []. simpl. now rewrite app_nil_r. Qed.

Lemma quiet_emit ev s : is_http_probe ev = false -> quiet_step s (emit ev s).
Proof. intros H. exists [ev]. simpl. now rewrite H. Qed.

Lemma quiet_set_fs f s : quiet_step s (set_fs f s).
Proof. exists []. simpl. now rewrite app_nil_r. Qed.

Lemma quiet_find e port s :
  quiet_step s (snd (find_process_on_port e port s)).
Proof.
  unfold find_process_on_port.
  destruct (has_lsof e); [| destruct (has_ss e)].
  - eapply quiet_trans; [apply quiet_emit | apply quiet_observe]; reflexivity.
  - eapply quiet_trans; [apply quiet_emit | apply quiet_observe]; reflexivity.
  - apply quiet_refl.
Qed.

Lemma fs_find e port s : fs (snd (find_process_on_port e port s)) = fs s.
Proof.
  unfold find_process_on_port.
  destruct (has_lsof e); [| destruct (has_ss e)]; reflexivity.
Qed.

(** When neither lsof nor ss names a process for the port from now on, the
    lookup answers the empty string. *)
Lemma find_nobody e port s :
  (forall t, (tick s <= t)%nat ->
             lsof_pid e t port = "" /\ ss_pid e t port = "") ->
  fst (find_process_on_port e port s) = "".
Proof.
  intros H. unfold find_process_on_port.
  destruct (has_lsof e); [| destruct (has_ss e)]; simpl;
    try apply H; auto.
Qed.

Lemma tick_find e port s :
  (tick s <= tick (snd (find_process_on_port e port s)))%nat.
Proof.
  unfold find_process_on_port.
  destruct (has_lsof e); [| destruct (has_ss e)]; simpl; lia.
Qed.

End ProcProps.

(* ===================================================================== *)
(** * Properties of start.sh *)
(* ===================================================================== *)

Module StartProps.
Import Proc Start.

Lemma main_locked_status e c s :
  fst (main_locked e c s) = 0 \/ fst (main_locked e c s) = 1.
Proof.
  unfold main_locked.
  destruct (stop_existing e c s) as [st1 s1].
  destruct (negb (st1 =? 0)); [now right |].
  destruct (if CLEAN c then clean_build s1 else (0, s1)) as [st2 s2].
  destruct (negb (st2 =? 0)); [now right |].
  destruct (run_build e c s2) as [st3 s3].
  destruct (negb (st3 =? 0)); [now right |].
  destruct (start_server e (MODE c) (PORT c) (HOST c) s3) as [st4 s4].
  destruct (negb (st4 =? 0)); [now right | now left].
Qed.

(** A live owner: status 3 and nothing written. *)
Lemma acquire_lock_held e s owner :
  lock_file (fs s) = Some owner ->
  Sh.nonempty owner = true ->
  kill0 e (tick s) owner = true ->
  fst (acquire_lock e s) = 3 /\
  fs (snd (acquire_lock e s)) = fs s /\
  trace (snd (acquire_lock e s)) = trace s.
Proof.
  intros Hl Hn Hk. unfold acquire_lock. rewrite Hl, Hn. simpl.
  rewrite Hk. simpl. auto.
Qed.

(** A dead owner (or an empty lock file): the lock is replaced. *)
Lemma acquire_lock_stale e s owner :
  lock_file (fs s) = Some owner ->
  Sh.nonempty owner = false \/ kill0 e (tick s) owner = false ->
  fst (acquire_lock e s) = 0 /\
  lock_file (fs (snd (acquire_lock e s))) = Some (self_pid e) /\
  pid_file (fs (snd (acquire_lock e s))) = pid_file (fs s) /\
  state_file (fs (snd (acquire_lock e s))) = state_file (fs s).
Proof.
  intros Hl Hdead. unfold acquire_lock. rewrite Hl.
  destruct (Sh.nonempty owner) eqn:Hn.
  - destruct Hdead as [Habs | Hk]; [discriminate |].
    simpl. rewrite Hk. simpl. auto.
  - simpl. auto.
Qed.

Lemma quiet_wait_for_healthy_no_curl e port :
  has_curl e = false ->
  forall retries s,
    quiet_step s (snd (wait_for_healthy e port retries s)).
Proof.
  intros Hc. induction retries as [| k IH]; intros s; simpl.
  - apply ProcProps.quiet_refl.
  - pose proof (ProcProps.quiet_find e port (emit (Sleep HEALTH_INTERVAL) s))
      as Hf.
    destruct (find_process_on_port e port (emit (Sleep HEALTH_INTERVAL) s))
      as [pid s2].
    simpl in Hf.
    assert (Hs : quiet_step s s2).
    { eapply ProcProps.quiet_trans; [| exact Hf].
      now apply ProcProps.quiet_emit. }
    rewrite Hc. destruct (Sh.nonempty pid); simpl.
    + assumption.
    + eapply ProcProps.quiet_trans; [exact Hs | apply IH].
Qed.

Lemma fs_wait_for_healthy e port :
  forall retries s, fs (snd (wait_for_healthy e port retries s)) = fs s.
Proof.
  induction retries as [| k IH]; intros s; simpl; [reflexivity |].
  pose proof (ProcProps.fs_find e port (emit (Sleep HEALTH_INTERVAL) s)) as Hf.
  destruct (find_process_on_port e port (emit (Sleep HEALTH_INTERVAL) s))
    as [pid s2].
  simpl in Hf.
  destruct (Sh.nonempty pid); [destruct (has_curl e) |].
  - destruct (Sh.http_code_ok _); simpl; [assumption |].
    rewrite IH. simpl. assumption.
  - simpl. assumption.
  - rewrite IH. assumption.
Qed.

(** Without curl, a successful [start_server] writes the PID file and a
    "healthy" snapshot, and has run no HTTP probe. *)
Lemma start_server_no_curl e mode port host s s' :
  has_curl e = false ->
  start_server e mode port host s = (0, s') ->
  (exists pid,
      pid_file (fs s') = Some pid /\
      exists h, state_file (fs s') = Some h /\
                healthy_snapshot h host port pid mode) /\
  quiet_step s s'.
Proof.
  intros Hc. unfold start_server.
  pose proof (ProcProps.quiet_observe (spawn_pid e)
                (emit (Spawn (server_cmd mode port host)) s)) as H1.
  destruct (observe (spawn_pid e)
              (emit (Spawn (server_cmd mode port host)) s))
    as [start_pid s1].
  simpl in H1.
  assert (H0 : quiet_step s s1).
  { eapply ProcProps.quiet_trans; [| exact H1].
    now apply ProcProps.quiet_emit. }
  pose proof (quiet_wait_for_healthy_no_curl e port Hc HEALTH_RETRIES s1)
    as Hq.
  destruct (wait_for_healthy e port HEALTH_RETRIES s1) as [[pid |] s2].
  - cbn [snd] in Hq.
    pose proof (ProcProps.quiet_observe (date_utc e)
                  (set_fs (set_pid (Some pid) (fs s2)) s2)) as Hd.
    destruct (observe (date_utc e) (set_fs (set_pid (Some pid) (fs s2)) s2))
      as [ts s4] eqn:E4.
    cbn [snd] in Hd. intros [= <-]. split.
    + exists pid. unfold observe in E4. injection E4 as <- <-.
      cbn. split; [reflexivity |].
      eexists. split; [reflexivity |]. eexists. reflexivity.
    + eapply ProcProps.quiet_trans; [exact H0 |].
      eapply ProcProps.quiet_trans; [exact Hq |].
      eapply ProcProps.quiet_trans; [apply ProcProps.quiet_set_fs |].
      eapply ProcProps.quiet_trans; [exact Hd |].
      apply ProcProps.quiet_set_fs.
  - destruct (observe (fun t => kill0 e t start_pid) s2) as [alive s3].
    intros [= Habs].
Qed.

(** Without curl, a PID found on the port at the first poll is enough:
    [start_server] returns 0 and has written the PID file and the
    "healthy" snapshot for that PID. *)
Lemma start_server_first_poll e mode port host s :
  has_curl e = false ->
  Sh.nonempty (listener_at e port (S (tick s))) = true ->
  exists s' ts,
    start_server e mode port host s = (0, s') /\
    pid_file (fs s') = Some (listener_at e port (S (tick s))) /\
    state_file (fs s')
    = Some (mkHealthState ts host port listening healthy true
              (Some (listener_at e port (S (tick s)))) (Some mode) None) /\
    quiet_step s s'.
Proof.
  intros Hc Hn.
  assert (Hfind : forall s0,
             fst (find_process_on_port e port s0)
             = listener_at e port (tick s0)).
  { intros s0. unfold find_process_on_port, listener_at.
    destruct (has_lsof e); [reflexivity |]. now destruct (has_ss e). }
  destruct (start_server e mode port host s) as [st s'] eqn:E.
  assert (Hst : st = 0 /\
                pid_file (fs s') = Some (listener_at e port (S (tick s))) /\
                exists ts,
                  state_file (fs s')
                  = Some (mkHealthState ts host port listening healthy true
                            (Some (listener_at e port (S (tick s))))
                            (Some mode) None)).
  { revert E. unfold start_server. cbn [observe fst snd].
    cbn [wait_for_healthy HEALTH_RETRIES].
    match goal with
    | |- context [find_process_on_port e port ?s1] =>
        pose proof (Hfind s1) as Hf;
        destruct (find_process_on_port e port s1) as [pid s2]
    end.
    cbn [fst emit tick] in Hf. subst pid. rewrite Hn, Hc.
    cbn [observe]. intros [= <- <-]. cbn.
    split; [reflexivity |]. split; [reflexivity |]. eexists. reflexivity. }
  destruct Hst as (-> & Hp & ts & Hs).
  exists s', ts. split; [reflexivity |]. split; [exact Hp |].
  split; [exact Hs |].
  now destruct (start_server_no_curl e mode port host s s' Hc E).
Qed.

End StartProps.

(** C6.  A start invocation (mode valid) that finds a lock file:
    - if the recorded owner answers [kill -0], the script ends with exit
      code 3 and leaves every file (PID file, HealthState file, the lock
      itself) and the machine as they were;
    - if the recorded owner is dead (or the file is empty), [acquire_lock]
      succeeds, the lock file now holds the caller's PID, PID file and
      HealthState file are still untouched at that point, and the script
      goes on with the rest of [main] (its exit code is that of the rest,
      never 3). *)
Theorem C6_start_lock_contention
  (e : Proc.env) (c : Start.config) (s : Proc.state) (owner : string) :
  Start.valid_mode (Start.MODE c) = true ->
  Proc.lock_file (Proc.fs s) = Some owner ->
  (Sh.nonempty owner = true /\ Proc.kill0 e (Proc.tick s) owner = true ->
     fst (Start.script e c s) = 3 /\
     Proc.fs (snd (Start.script e c s)) = Proc.fs s /\
     Proc.trace (snd (Start.script e c s)) = Proc.trace s) /\
  (Sh.nonempty owner = false \/ Proc.kill0 e (Proc.tick s) owner = false ->
     exists s1,
       Start.acquire_lock e s = (0, s1) /\
       Proc.lock_file (Proc.fs s1) = Some (Proc.self_pid e) /\
       Proc.pid_file (Proc.fs s1) = Proc.pid_file (Proc.fs s) /\
       Proc.state_file (Proc.fs s1) = Proc.state_file (Proc.fs s) /\
       Start.script e c s =
         (fst (Start.main_locked e c s1),
          Start.release_lock (snd (Start.main_locked e c s1))) /\
       fst (Start.script e c s) <> 3).
Proof.
  intros Hmode Hlock. unfold Start.script. rewrite Hmode. split.
  - intros [Hn Hk].
    destruct (StartProps.acquire_lock_held e s owner Hlock Hn Hk)
      as (H3 & Hfs & Htr).
    unfold Start.main.
    destruct (Start.acquire_lock e s) as [st s1]. simpl in *. subst st.
    simpl. auto.
  - intros Hdead.
    destruct (StartProps.acquire_lock_stale e s owner Hlock Hdead)
      as (H0 & Hl & Hp & Hs).
    unfold Start.main.
    destruct (Start.acquire_lock e s) as [st s1]. simpl in *. subst st.
    exists s1. simpl.
    pose proof (StartProps.main_locked_status e c s1) as Hst.
    destruct (Start.main_locked e c s1) as [code s2]. simpl in *.
    repeat split; try assumption.
    destruct Hst as [-> | ->]; discriminate.
Qed.

(* ===================================================================== *)
(** * Properties of stop.sh *)
(* ===================================================================== *)

Module StopProps.
Import Proc Stop.

Lemma stop_watchdog_spec e s :
  watchdog_pid_file (fs (stop_watchdog e s)) = None /\
  (tick s <= tick (stop_watchdog e s))%nat /\
  (watchdog_pid_file (fs s) = None -> stop_watchdog e s = s).
Proof.
  unfold stop_watchdog. destruct (watchdog_pid_file (fs s)) as [wpid |] eqn:E.
  - destruct (Sh.nonempty wpid); simpl.
    + destruct (kill0 e (tick s) wpid); simpl;
        (split; [reflexivity | split; [lia | discriminate]]).
    + split; [reflexivity | split; [lia | discriminate]].
  - split; [exact E | split; [lia | reflexivity]].
Qed.

(** With nobody on the port the main flow sends no signal to a server,
    removes the PID and lock files and writes the terminal snapshot. *)
Lemma stop_main_nobody e c s :
  (forall t, (tick s <= t)%nat ->
             lsof_pid e t (PORT c) = "" /\ ss_pid e t (PORT c) = "") ->
  fst (main e c s) = 0 /\
  stopped_files (fs (snd (main e c s))) (PORT c) /\
  watchdog_pid_file (fs (snd (main e c s))) = None /\
  (tick s <= tick (snd (main e c s)))%nat /\
  (exists lookups,
      trace (snd (main e c s)) = (trace (stop_watchdog e s) ++ lookups)%list /\
      forall sig pid, ~ In (Signal sig pid) lookups).
Proof.
  intros Hnone. unfold main.
  destruct (stop_watchdog_spec e s) as (Hw & Ht & _).
  assert (Hnone' : forall t, (tick (stop_watchdog e s) <= t)%nat ->
            lsof_pid e t (PORT c) = "" /\ ss_pid e t (PORT c) = "").
  { intros t Hle. apply Hnone. lia. }
  pose proof (ProcProps.find_nobody e (PORT c) (stop_watchdog e s) Hnone')
    as Hpid.
  pose proof (ProcProps.fs_find e (PORT c) (stop_watchdog e s)) as Hfs.
  pose proof (ProcProps.tick_find e (PORT c) (stop_watchdog e s)) as Htf.
  assert (Htr : exists lookups,
    trace (snd (find_process_on_port e (PORT c) (stop_watchdog e s)))
    = (trace (stop_watchdog e s) ++ lookups)%list /\
    forall sig pid, ~ In (Signal sig pid) lookups).
  { unfold find_process_on_port.
    destruct (has_lsof e); [| destruct (has_ss e)]; simpl.
    - eexists. split; [reflexivity |]. intros sig pid [H | []]. discriminate.
    - eexists. split; [reflexivity |]. intros sig pid [H | []]. discriminate.
    - exists []. split; [now rewrite app_nil_r | intros ? ? []]. }
  destruct (find_process_on_port e (PORT c) (stop_watchdog e s))
    as [pid s2].
  simpl in Hpid, Hfs, Htr, Htf. subst pid. simpl.
  split; [reflexivity |]. split.
  { repeat split. eexists. reflexivity. }
  split; [now rewrite Hfs |]. split; [lia | exact Htr].
Qed.

End StopProps.

(** C7.  When no process occupies the target port (from the moment [stop]
    is started), the main flow of [stop.sh] exits 0, leaves no PID file and
    no lock file, and writes the terminal snapshot (healthy false, mode
    stopped).  [s] is any state of the machine, in particular the one an
    earlier [stop] has left behind; and a second [stop] run right after
    this one again exits 0 with the same files, sending no signal at
    all. *)
Theorem C7_stop_idempotent (e : Proc.env) (c : Stop.config) (s : Proc.state) :
  (forall t, (Proc.tick s <= t)%nat ->
             Proc.lsof_pid e t (Stop.PORT c) = "" /\
             Proc.ss_pid e t (Stop.PORT c) = "") ->
  let first := Stop.main e c s in
  let second := Stop.main e c (snd first) in
  (fst first = 0 /\ stopped_files (Proc.fs (snd first)) (Stop.PORT c)) /\
  (fst second = 0 /\ stopped_files (Proc.fs (snd second)) (Stop.PORT c)) /\
  (forall h, Proc.state_file (Proc.fs (snd second)) = Some h ->
     hs_healthy h = false /\ hs_mode h = Some "stopped" /\
     hs_port_status h = not_listening) /\
  (exists added,
     Proc.trace (snd second) = (Proc.trace (snd first) ++ added)%list /\
     forall sig pid, ~ In (Signal sig pid) added).
Proof.
  intros Hnone first second.
  destruct (StopProps.stop_main_nobody e c s Hnone)
    as (H1 & F1 & W1 & T1 & _).
  fold first in H1, F1, W1, T1.
  assert (Hnone2 : forall t, (Proc.tick (snd first) <= t)%nat ->
            Proc.lsof_pid e t (Stop.PORT c) = "" /\
            Proc.ss_pid e t (Stop.PORT c) = "").
  { intros t Hle. apply Hnone. lia. }
  destruct (StopProps.stop_main_nobody e c (snd first) Hnone2)
    as (H2 & F2 & W2 & _ & L2).
  fold second in H2, F2, W2, L2.
  split; [now split |]. split; [now split |]. split.
  - intros h Hh. destruct F2 as (_ & _ & ts & Hs).
    rewrite Hs in Hh. injection Hh as <-. now simpl.
  - destruct (StopProps.stop_watchdog_spec e (snd first)) as (_ & _ & Hsame).
    rewrite (Hsame W1) in L2. exact L2.
Qed.

(* ===================================================================== *)
(** * Properties of watchdog-restart.sh *)
(* ===================================================================== *)

Module RestartProps.
Import Proc Restart.

(** A successful wait has written a "healthy" snapshot for the PID that
    [find_process_on_port] named, and has run no HTTP probe. *)
Lemma wait_listening_success e mode port start_pid :
  forall left s s',
    wait_listening e mode port start_pid left s = (0, s') ->
    (exists pid,
        Sh.nonempty pid = true /\
        exists h, state_file (fs s') = Some h /\
                  healthy_snapshot h "localhost" port pid mode) /\
    quiet_step s s'.
Proof.
  induction left as [| k IH]; intros s s'; cbn [wait_listening];
    [intros [= Habs] |].
  set (s1 := emit (Sleep 1) s).
  assert (Q1 : quiet_step s s1) by now apply ProcProps.quiet_emit.
  pose proof (ProcProps.quiet_observe (fun t => kill0 e t start_pid) s1)
    as Q2.
  destruct (observe (fun t => kill0 e t start_pid) s1) as [alive s2].
  cbn [snd] in Q2. destruct alive; [| intros [= Habs]].
  pose proof (ProcProps.quiet_find e port s2) as Q3.
  destruct (find_process_on_port e port s2) as [pid s3].
  cbn [snd] in Q3.
  assert (Q : quiet_step s s3).
  { eapply ProcProps.quiet_trans; [exact Q1 |].
    eapply ProcProps.quiet_trans; [exact Q2 | exact Q3]. }
  destruct (Sh.nonempty pid) eqn:Hn.
  - pose proof (ProcProps.quiet_observe (date_utc e) s3) as Q4.
    destruct (observe (date_utc e) s3) as [ts s4].
    cbn [snd] in Q4. intros [= <-]. split.
    + exists pid. split; [assumption |]. cbn.
      eexists. split; [reflexivity |]. eexists. reflexivity.
    + eapply ProcProps.quiet_trans; [exact Q |].
      eapply ProcProps.quiet_trans; [exact Q4 |].
      apply ProcProps.quiet_set_fs.
  - intros H. destruct (IH s3 s' H) as [Hsnap Q5]. split; [assumption |].
    eapply ProcProps.quiet_trans; [exact Q | exact Q5].
Qed.

(** One poll is enough: the launched process alive and a PID found on
    the port make the wait succeed at once. *)
Lemma wait_listening_first_poll e mode port start_pid k s :
  let s1 := emit (Sleep 1) s in
  let s2 := snd (observe (fun t => kill0 e t start_pid) s1) in
  kill0 e (tick s1) start_pid = true ->
  Sh.nonempty (fst (find_process_on_port e port s2)) = true ->
  fst (wait_listening e mode port start_pid (S k) s) = 0.
Proof.
  intros s1 s2 Halive Hpid. cbn [wait_listening]. fold s1.
  unfold observe at 1. rewrite Halive.
  change (mkState (fs s1) (S (tick s1)) (trace s1)) with s2.
  destruct (find_process_on_port e port s2) as [pid s3].
  cbn [fst] in Hpid. rewrite Hpid.
  destruct (observe (date_utc e) s3). reflexivity.
Qed.

Lemma start_server_success e c mode port s s' :
  DRY_RUN c = false ->
  start_server e c mode port s = (0, s') ->
  (exists pid,
      Sh.nonempty pid = true /\
      exists h, state_file (fs s') = Some h /\
                healthy_snapshot h "localhost" port pid mode) /\
  quiet_step s s'.
Proof.
  intros Hdry. unfold start_server. rewrite Hdry.
  assert (Q1 : quiet_step s
    (snd (if String.eqb mode "preview"
          then observe (build_ok e) (emit (Run "npm run build") s)
          else (true, s)))).
  { destruct (String.eqb mode "preview"); [| apply ProcProps.quiet_refl].
    eapply ProcProps.quiet_trans;
      [apply ProcProps.quiet_emit | apply ProcProps.quiet_observe].
    reflexivity. }
  destruct (if String.eqb mode "preview" then _ else _) as [built s1].
  cbn [snd] in Q1. destruct built; [| intros [= Habs]]. cbn [negb].
  pose proof (ProcProps.quiet_observe (spawn_pid e)
                (emit (Spawn (server_cmd mode port)) s1)) as Q2.
  destruct (observe (spawn_pid e) (emit (Spawn (server_cmd mode port)) s1))
    as [start_pid s2].
  cbn [snd] in Q2. intros H.
  destruct (wait_listening_success e mode port start_pid _ _ _ H)
    as [Hsnap Q3].
  split; [assumption |].
  eapply ProcProps.quiet_trans; [exact Q1 |].
  eapply ProcProps.quiet_trans; [| exact Q3].
  eapply ProcProps.quiet_trans; [| exact Q2].
  now apply ProcProps.quiet_emit.
Qed.

(** The positive side: not a dry run, the build (preview mode) succeeds,
    the launched process answers [kill -0] at the first poll and a PID is
    found on the port at that poll.  Then [start_server] returns 0 and has
    written the "healthy" snapshot for the PID found.  [t0] is the number
    of the question that gives the PID of the launched server. *)
Lemma restart_server_first_poll e c mode port s :
  DRY_RUN c = false ->
  let t0 := if String.eqb mode "preview" then S (tick s) else tick s in
  (String.eqb mode "preview" = true -> build_ok e (tick s) = true) ->
  kill0 e (S t0) (spawn_pid e t0) = true ->
  Sh.nonempty (listener_at e port (S (S t0))) = true ->
  exists s' ts,
    start_server e c mode port s = (0, s') /\
    state_file (fs s')
    = Some (mkHealthState ts "localhost" port listening healthy true
              (Some (listener_at e port (S (S t0)))) (Some mode) None) /\
    quiet_step s s'.
Proof.
  intros Hdry t0 Hbuild Halive Hn.
  assert (Hfind : forall s0,
             fst (find_process_on_port e port s0)
             = listener_at e port (tick s0)).
  { intros s0. unfold find_process_on_port, listener_at.
    destruct (has_lsof e); [reflexivity |]. now destruct (has_ss e). }
  destruct (start_server e c mode port s) as [st s'] eqn:E.
  assert (Hst : st = 0 /\
                exists ts,
                  state_file (fs s')
                  = Some (mkHealthState ts "localhost" port listening healthy
                            true (Some (listener_at e port (S (S t0))))
                            (Some mode) None)).
  { revert E. unfold start_server. rewrite Hdry. subst t0.
    destruct (String.eqb mode "preview") eqn:Hm.
    - cbn [observe fst snd emit tick]. rewrite (Hbuild eq_refl).
      cbn [negb WAIT_AFTER_START wait_listening observe emit tick fst snd].
      rewrite Halive.
      match goal with
      | |- context [find_process_on_port e port ?s1] =>
          pose proof (Hfind s1) as Hf;
          destruct (find_process_on_port e port s1) as [pid s2]
      end.
      cbn [fst tick] in Hf. subst pid. rewrite Hn.
      intros [= <- <-]. cbn. split; [reflexivity |]. eexists. reflexivity.
    - cbn [negb WAIT_AFTER_START wait_listening observe emit tick fst snd].
      rewrite Halive.
      match goal with
      | |- context [find_process_on_port e port ?s1] =>
          pose proof (Hfind s1) as Hf;
          destruct (find_process_on_port e port s1) as [pid s2]
      end.
      cbn [fst tick] in Hf. subst pid. rewrite Hn.
      intros [= <- <-]. cbn. split; [reflexivity |]. eexists. reflexivity. }
  destruct Hst as (-> & ts & Hs).
  exists s', ts. split; [reflexivity |]. split; [exact Hs |].
  now destruct (start_server_success e c mode port s s' Hdry E).
Qed.

End RestartProps.

(** C10.  A HealthState snapshot with http_status "healthy" does not imply
    that an HTTP check was made.
    - Restart path ([start_server] of watchdog-restart.sh, not a dry run):
      every success has written a snapshot with port_status listening,
      http_status healthy and healthy true for the PID found on the port,
      and no HTTP probe was run on the way.
    - That success is reached, and the snapshot written, as soon as a PID
      is found on the port: when the build (preview mode) succeeds, the
      launched process answers [kill -0] at the first poll and
      [find_process_on_port] prints a PID at that poll, [start_server]
      returns 0 with the snapshot for that PID in [watchdog.state].
    - One poll with the launched process alive and a PID on the port is
      enough for the waiting loop to succeed.
    - Start path ([start_server] of start.sh) when curl is not installed:
      every success has written the PID file and the "healthy" snapshot
      without any HTTP probe.
    - Without curl that success is reached as soon as a PID is found on
      the port at the first poll: the PID file and the snapshot hold
      that PID. *)
Theorem C10_healthy_snapshot_without_http_probe :
  (forall (e : Proc.env) (c : Restart.config) (mode port : string)
          (s s' : Proc.state),
      Restart.DRY_RUN c = false ->
      Restart.start_server e c mode port s = (0, s') ->
      (exists pid,
          Sh.nonempty pid = true /\
          exists h, Proc.state_file (Proc.fs s') = Some h /\
                    healthy_snapshot h "localhost" port pid mode) /\
      quiet_step s s') /\
  (forall (e : Proc.env) (c : Restart.config) (mode port : string)
          (s : Proc.state),
      Restart.DRY_RUN c = false ->
      let t0 := if String.eqb mode "preview"
                then S (Proc.tick s) else Proc.tick s in
      (String.eqb mode "preview" = true ->
       Proc.build_ok e (Proc.tick s) = true) ->
      Proc.kill0 e (S t0) (Proc.spawn_pid e t0) = true ->
      Sh.nonempty (listener_at e port (S (S t0))) = true ->
      exists s' ts,
        Restart.start_server e c mode port s = (0, s') /\
        Proc.state_file (Proc.fs s')
        = Some (mkHealthState ts "localhost" port listening healthy true
                  (Some (listener_at e port (S (S t0)))) (Some mode) None) /\
        quiet_step s s') /\
  (forall (e : Proc.env) (mode port start_pid : string) (k : nat)
          (s : Proc.state),
      let s1 := Proc.emit (Sleep 1) s in
      let s2 := snd (Proc.observe (fun t => Proc.kill0 e t start_pid) s1) in
      Proc.kill0 e (Proc.tick s1) start_pid = true ->
      Sh.nonempty (fst (Proc.find_process_on_port e port s2)) = true ->
      fst (Restart.wait_listening e mode port start_pid (S k) s) = 0) /\
  (forall (e : Proc.env) (mode port host : string) (s s' : Proc.state),
      Proc.has_curl e = false ->
      Start.start_server e mode port host s = (0, s') ->
      (exists pid,
          Proc.pid_file (Proc.fs s') = Some pid /\
          exists h, Proc.state_file (Proc.fs s') = Some h /\
                    healthy_snapshot h host port pid mode) /\
      quiet_step s s') /\
  (forall (e : Proc.env) (mode port host : string) (s : Proc.state),
      Proc.has_curl e = false ->
      Sh.nonempty (listener_at e port (S (Proc.tick s))) = true ->
      exists s' ts,
        Start.start_server e mode port host s = (0, s') /\
        Proc.pid_file (Proc.fs s')
        = Some (listener_at e port (S (Proc.tick s))) /\
        Proc.state_file (Proc.fs s')
        = Some (mkHealthState ts host port listening healthy true
                  (Some (listener_at e port (S (Proc.tick s))))
                  (Some mode) None) /\
        quiet_step s s').
Proof.
  split; [| split; [| split; [| split]]].
  - intros e c mode port s s' Hdry H.
    exact (RestartProps.start_server_success e c mode port s s' Hdry H).
  - intros e c mode port s Hdry t0 Hb Ha Hn.
    exact (RestartProps.restart_server_first_poll e c mode port s Hdry
             Hb Ha Hn).
  - intros e mode port start_pid k s s1 s2 Halive Hpid.
    exact (RestartProps.wait_listening_first_poll e mode port start_pid k s
             Halive Hpid).
  - intros e mode port host s s' Hc H.
    exact (StartProps.start_server_no_curl e mode port host s s' Hc H).
  - intros e mode port host s Hc Hn.
    exact (StartProps.start_server_first_poll e mode port host s Hc Hn).
Qed.

(* ===================================================================== *)
(** * Properties of rollback.sh *)
(* ===================================================================== *)

Module GitRollbackProps.
Import GitRollback.



End GitRollbackProps.




(* ===================================================================== *)
(** * Properties of deploy-with-rollback.sh *)
(* ===================================================================== *)

Module DeployProps.
Import Deploy.

(** ** What each step leaves alone *)

Lemma journal_init e s : journal (init_journal e s) = journal s.
Proof. unfold init_journal. simpl. now destruct (current_state s). Qed.

Lemma backups_init e s : backups (init_journal e s) = backups s.
Proof. unfold init_journal. simpl. now destruct (current_state s). Qed.

Lemma trace_init e s : trace (init_journal e s) = trace s.
Proof. unfold init_journal. simpl. now destruct (current_state s). Qed.

Lemma tick_init e s : (tick s <= tick (init_journal e s))%nat.
Proof. unfold init_journal. simpl. destruct (current_state s); simpl; lia. Qed.

Lemma journal_append_lines e tx a st det s :
  exists ts,
    journal (journal_append e tx a st det s)
    = (journal s ++ entry_lines (mkEntry tx ts a st det))%list.
Proof.
  unfold journal_append. simpl. rewrite journal_init. eexists. reflexivity.
Qed.

Lemma backups_append e tx a st det s :
  backups (journal_append e tx a st det s) = backups s.
Proof. unfold journal_append. simpl. apply backups_init. Qed.

Lemma trace_append e tx a st det s :
  trace (journal_append e tx a st det s) = trace s.
Proof. unfold journal_append. simpl. apply trace_init. Qed.

Lemma tick_append e tx a st det s :
  (tick s < tick (journal_append e tx a st det s))%nat.
Proof.
  unfold journal_append. simpl. pose proof (tick_init e s). lia.
Qed.

Lemma frame_refl s : deploy_frame s s.
Proof. unfold deploy_frame. auto. Qed.

Lemma frame_trans s1 s2 s3 :
  deploy_frame s1 s2 -> deploy_frame s2 s3 -> deploy_frame s1 s3.
Proof.
  unfold deploy_frame. intros (J1 & B1 & C1 & T1) (J2 & B2 & C2 & T2).
  repeat split; try congruence. lia.
Qed.

Lemma frame_observe {A} (f : nat -> A) s : deploy_frame s (snd (observe f s)).
Proof. unfold deploy_frame. simpl. repeat split. lia. Qed.

Lemma frame_emit ev s : deploy_frame s (emit ev s).
Proof. unfold deploy_frame. simpl. auto. Qed.

Lemma frame_set_dist d s : deploy_frame s (set_dist d s).
Proof. unfold deploy_frame. simpl. auto. Qed.

Lemma frame_set_lock l s : deploy_frame s (set_lock l s).
Proof. unfold deploy_frame. simpl. auto. Qed.

Lemma health_attempts_frame e : forall left s,
  deploy_frame s (snd (health_attempts e left s)).
Proof.
  induction left as [| k IH]; intros s; cbn [health_attempts].
  - apply frame_refl.
  - pose proof (frame_observe (curl_ready e)
                  (emit (HttpProbe "curl" "localhost" "/health/ready") s)) as F1.
    destruct (observe (curl_ready e)
                (emit (HttpProbe "curl" "localhost" "/health/ready") s))
      as [ready s1].
    cbn [snd] in F1.
    assert (F : deploy_frame s s1).
    { eapply frame_trans; [apply frame_emit | exact F1]. }
    destruct ready; [exact F |].
    eapply frame_trans; [exact F |].
    eapply frame_trans; [| apply IH].
    destruct k; [apply frame_refl | apply frame_emit].
Qed.

Lemma check_health_frame e s : deploy_frame s (snd (check_health e s)).
Proof.
  unfold check_health.
  pose proof (frame_observe (curl_live e)
                (emit (HttpProbe "curl" "localhost" "/health/live") s)) as F1.
  destruct (observe (curl_live e)
              (emit (HttpProbe "curl" "localhost" "/health/live") s))
    as [live s1].
  cbn [snd] in F1.
  eapply frame_trans; [apply frame_emit |].
  eapply frame_trans; [exact F1 |].
  eapply frame_trans; [| apply health_attempts_frame].
  destruct live; [apply frame_refl |].
  eapply frame_trans; apply frame_emit.
Qed.

Lemma stop_server_frame e s : deploy_frame s (stop_server e s).
Proof.
  unfold stop_server. destruct (has_stop_sh e);
    [apply frame_emit | apply frame_refl].
Qed.

Lemma start_server_frame e s : deploy_frame s (snd (start_server e s)).
Proof.
  unfold start_server, deploy_frame. simpl. repeat split. lia.
Qed.

Lemma restore_backup_frame tx s : deploy_frame s (snd (restore_backup tx s)).
Proof.
  unfold restore_backup.
  destruct (find _ (backups s)) as [b |]; [destruct (b_dist b) |];
    cbn [snd]; try apply frame_refl. apply frame_set_dist.
Qed.

(** A backup that is there can be restored. *)
Lemma restore_backup_found tx s :
  has_backup tx (backups s) = true -> fst (restore_backup tx s) = 0.
Proof.
  unfold has_backup, restore_backup. intros H.
  destruct (find (fun b => String.eqb (b_name b) tx) (backups s)) as [b |] eqn:E.
  - now destruct (b_dist b).
  - apply existsb_exists in H. destruct H as (b & Hin & Hb).
    pose proof (find_none _ _ E b Hin) as Habs. simpl in Habs. congruence.
Qed.

(** ** The lines of an entry and the last successful transaction *)

Lemma entry_lines_shape en :
  entry_lines en = [Whole en] \/
  exists d t more,
    entry_lines en
    = Head (mkEntry (tx_id en) (timestamp en) (act en) (status en) d)
        :: Tail t :: map Tail more.
Proof.
  unfold entry_lines. destruct (split_lines (details en)) as [| d [| t more]].
  - now left.
  - now left.
  - right. now exists d, t, more.
Qed.

Lemma find_tails more : find grep_success (rev (map Tail more)) = None.
Proof.
  rewrite <- map_rev. induction (rev more) as [| t l IH]; simpl; auto.
Qed.

Lemma find_app_l {A} (f : A -> bool) l1 l2 :
  find f (l1 ++ l2) =
  match find f l1 with Some x => Some x | None => find f l2 end.
Proof.
  induction l1 as [| a l1 IH]; simpl; [reflexivity |].
  now destruct (f a).
Qed.

(** An entry that is not a success does not change the answer of
    [get_last_successful_tx]; a success entry makes it the entry's own
    transaction id when the entry is one line, the empty string when the
    entry is broken over several lines. *)
Lemma last_success_after_entry en s s' :
  journal s' = (journal s ++ entry_lines en)%list ->
  (is_success (status en) = false ->
     get_last_successful_tx s' = get_last_successful_tx s) /\
  (is_success (status en) = true ->
     (entry_lines en = [Whole en] /\ get_last_successful_tx s' = tx_id en) \/
     (entry_lines en <> [Whole en] /\ get_last_successful_tx s' = "")).
Proof.
  intros Hj. unfold get_last_successful_tx. rewrite Hj, rev_app_distr.
  rewrite find_app_l.
  destruct (entry_lines_shape en) as [E | (d & t & more & E)]; rewrite E.
  - simpl. split; intros H; rewrite H; [reflexivity | left; now split].
  - change (Head (mkEntry (tx_id en) (timestamp en) (act en) (status en) d)
              :: Tail t :: map Tail more)
      with ([Head (mkEntry (tx_id en) (timestamp en) (act en) (status en) d)]
              ++ map Tail (t :: more))%list.
    rewrite rev_app_distr, find_app_l, find_tails. simpl.
    split; intros H; rewrite H; [reflexivity |].
    right. split; [discriminate | reflexivity].
Qed.

Lemma last_app_r {A} (l1 l2 : list A) d :
  l2 <> [] -> last (l1 ++ l2) d = last l2 d.
Proof.
  intros Hne. induction l1 as [| a l1 IH]; simpl; [reflexivity |].
  rewrite IH. destruct (l1 ++ l2)%list eqn:E; [| reflexivity].
  apply app_eq_nil in E. destruct E as [_ E]. contradiction.
Qed.

Lemma last_of_entry_lines (j : list jline) (en en' : entry) :
  last (j ++ entry_lines en) (Tail "") = Whole en' ->
  entry_lines en = [Whole en] /\ en' = en.
Proof.
  destruct (entry_lines_shape en) as [E | (d & t & more & E)]; rewrite E.
  - rewrite last_last. intros [= <-]. now split.
  - intros H. exfalso.
    assert (Hne : (Tail t :: map Tail more) <> []) by discriminate.
    pose proof (@app_removelast_last _ (Tail t :: map Tail more) (Tail "") Hne)
      as Hsplit.
    assert (Hin : In (last (Tail t :: map Tail more) (Tail ""))
                     (map Tail (t :: more))).
    { simpl map. rewrite Hsplit at 2. apply in_or_app. right. now left. }
    apply in_map_iff in Hin. destruct Hin as (x & Hx & _).
    replace (j ++ Head (mkEntry (tx_id en) (timestamp en) (act en)
                          (status en) d) :: Tail t :: map Tail more)%list
      with ((j ++ [Head (mkEntry (tx_id en) (timestamp en) (act en)
                           (status en) d)]) ++ (Tail t :: map Tail more))%list
      in H by now rewrite <- app_assoc.
    rewrite last_app_r in H by exact Hne.
    rewrite H in Hx. discriminate.
Qed.

(** ** The internal rollback *)

Lemma frame_init e s :
  journal (init_journal e s) = journal s /\
  backups (init_journal e s) = backups s /\
  (tick s <= tick (init_journal e s))%nat.
Proof.
  repeat split; [apply journal_init | apply backups_init | apply tick_init].
Qed.

Lemma update_current_state_spec e st tx v s :
  journal (update_current_state e st tx v s) = journal s /\
  backups (update_current_state e st tx v s) = backups s /\
  current_state (update_current_state e st tx v s)
  = Some (mkCstate st (date_utc e (tick s)) (Some tx) (Some v)) /\
  (tick s < tick (update_current_state e st tx v s))%nat.
Proof. unfold update_current_state. simpl. repeat split. lia. Qed.

Lemma ready_frame tx s s' :
  deploy_frame s s' -> rollback_ready tx s -> rollback_ready tx s'.
Proof.
  intros (J & B & _ & _) [Hl Hb]. unfold rollback_ready, get_last_successful_tx in *.
  now rewrite J, B.
Qed.

(** A non-success entry keeps the rollback target. *)
Lemma ready_append_other e tx tx' a st det s :
  is_success st = false ->
  rollback_ready tx s ->
  rollback_ready tx (journal_append e tx' a st det s).
Proof.
  intros Hst [Hl Hb]. split.
  - destruct (journal_append_lines e tx' a st det s) as (ts & Hj).
    destruct (last_success_after_entry _ _ _ Hj) as [Hsame _].
    rewrite (Hsame Hst). exact Hl.
  - now rewrite backups_append.
Qed.

(** A success entry of the deploy itself becomes the rollback target. *)
Lemma ready_append_success e tx a det s :
  has_backup tx (backups s) = true ->
  rollback_ready tx (journal_append e tx a success det s).
Proof.
  intros Hb. split.
  - destruct (journal_append_lines e tx a success det s) as (ts & Hj).
    destruct (last_success_after_entry _ _ _ Hj) as [_ Hsucc].
    destruct (Hsucc eq_refl) as [[_ H] | [_ H]]; rewrite H; auto.
  - now rewrite backups_append.
Qed.

(** The internal rollback appends one entry to the journal: a [rollback]
    entry of the current transaction.  When it is a success, the target
    was the current transaction itself. *)
Lemma cmd_rollback_internal_own e tx reason s :
  rollback_ready tx s ->
  exists en,
    journal (snd (cmd_rollback_internal e tx reason s))
    = (journal s ++ entry_lines en)%list /\
    tx_id en = tx /\
    act en = rollback /\
    (status en = success ->
       (exists reason',
           details en = obj2 "rolled_back_to" tx "reason" reason') /\
       exists ts v,
         current_state (snd (cmd_rollback_internal e tx reason s))
         = Some (mkCstate rolled_back ts (Some tx) (Some v))).
Proof.
  intros [Hlast Hb]. unfold cmd_rollback_internal.
  destruct (Sh.nonempty (get_last_successful_tx s)) eqn:Hn; cbn [negb].
  - assert (Htx : get_last_successful_tx s = tx).
    { destruct Hlast as [H | H]; [exact H |]. rewrite H in Hn. discriminate. }
    rewrite Htx.
    pose proof (stop_server_frame e s) as F1.
    pose proof (restore_backup_frame tx (stop_server e s)) as F2.
    assert (Hfound : fst (restore_backup tx (stop_server e s)) = 0).
    { apply restore_backup_found. destruct F1 as (_ & B & _). now rewrite B. }
    destruct (restore_backup tx (stop_server e s)) as [restored s2].
    cbn [fst snd] in *. subst restored. cbn [Z.eqb].
    pose proof (start_server_frame e s2) as F3.
    destruct (start_server e s2) as [st s3]. cbn [snd] in F3.
    assert (J3 : journal s3 = journal s).
    { destruct F1 as (J1 & _). destruct F2 as (J2 & _).
      destruct F3 as (J3 & _). congruence. }
    destruct (st =? 0).
    + destruct (journal_append_lines e tx rollback success
                  (obj2 "rolled_back_to" tx "reason" reason) s3) as (ts & Hj).
      remember (journal_append e tx rollback success
                  (obj2 "rolled_back_to" tx "reason" reason) s3) as s4.
      pose proof (frame_observe (app_version e) s4) as F5.
      destruct (observe (app_version e) s4) as [v s5].
      cbn [snd] in *. destruct F5 as (J5 & _).
      destruct (update_current_state_spec e rolled_back tx v s5)
        as (Ju & _ & Cu & _).
      eexists. rewrite Ju, J5, Hj, J3. split; [reflexivity |].
      split; [reflexivity | split; [reflexivity |]].
      intros _. split; [now exists reason |].
      eexists _, v. exact Cu.
    + cbn [snd].
      destruct (journal_append_lines e tx rollback failed
                  (obj1 "reason" "server_restart_failed") s3) as (ts & Hj).
      eexists. rewrite Hj, J3. split; [reflexivity |].
      split; [reflexivity | split; [reflexivity |]]. intros [=].
  - cbn [snd].
    destruct (journal_append_lines e tx rollback failed
                (obj1 "reason" "no_rollback_target") s) as (ts & Hj).
    eexists. rewrite Hj. split; [reflexivity |].
    split; [reflexivity | split; [reflexivity |]]. intros [=].
Qed.

(** A failed phase entry followed by the internal rollback. *)
Lemma rollback_after_failure e tx a det reason s :
  rollback_phase a ->
  rollback_ready tx s ->
  rolled_back_to_own tx
    (snd (cmd_rollback_internal e tx reason
            (journal_append e tx a failed det s))).
Proof.
  intros Hphase Hready.
  destruct (journal_append_lines e tx a failed det s) as (ts & Hj).
  destruct (cmd_rollback_internal_own e tx reason
              (journal_append e tx a failed det s))
    as (en & Hjr & Htx & Hact & Hsucc).
  { now apply ready_append_other. }
  exists (journal s), (mkEntry tx ts a failed det), en.
  rewrite Hjr, Hj, <- app_assoc.
  repeat split; try assumption; try reflexivity; now apply Hsucc.
Qed.

(** ** The phases of a deploy *)

Lemma create_backup_spec e tx s :
  journal (snd (create_backup e tx s)) = journal s /\
  has_backup tx (backups (snd (create_backup e tx s))) = true /\
  backups (snd (create_backup e tx s))
  = (if has_backup tx (backups s) then backups s
     else (backups s ++ [mkBackup tx (clock e (tick s)) (dist s)])%list) /\
  (tick s < tick (snd (create_backup e tx s)))%nat.
Proof.
  unfold create_backup, observe. cbn [fst snd tick backups dist journal].
  destruct (has_backup tx (backups s)) eqn:Hb.
  - destruct (dist s); simpl; rewrite ?Hb; repeat split; lia.
  - assert (Hnew : has_backup tx
             (backups s ++ [mkBackup tx (clock e (tick s)) (dist s)]) = true).
    { unfold has_backup. rewrite existsb_app. simpl.
      rewrite String.eqb_refl. apply orb_true_r. }
    destruct (dist s); simpl; rewrite ?Hnew; repeat split; lia.
Qed.

Lemma deploy_success_spec e tx s :
  deploy_outcome tx (deploy_success e tx s) /\
  fst (deploy_success e tx s) = 0 /\
  backups (snd (deploy_success e tx s)) = prune_backups (backups s) /\
  (tick s <= tick (snd (deploy_success e tx s)))%nat.
Proof.
  unfold deploy_success.
  destruct (journal_append_lines e tx deploy_complete success "{}" s)
    as (ts & Hj).
  pose proof (backups_append e tx deploy_complete success "{}" s) as Hb.
  pose proof (tick_append e tx deploy_complete success "{}" s) as Ht.
  remember (journal_append e tx deploy_complete success "{}" s) as s1.
  pose proof (frame_observe (app_version e) s1) as F2.
  destruct (observe (app_version e) s1) as [v s2]. cbn [snd] in F2.
  destruct F2 as (J2 & B2 & _ & T2).
  destruct (update_current_state_spec e deployed tx v s2)
    as (Ju & Bu & _ & Tu).
  remember (update_current_state e deployed tx v s2) as s3.
  cbn [fst snd]. repeat split.
  - left. split; [reflexivity |]. exists (journal s), ts.
    cbn [snd]. unfold set_backups. cbn [journal].
    rewrite Ju, J2. exact Hj.
  - unfold set_backups. cbn [backups]. now rewrite Bu, B2, Hb.
  - unfold set_backups. cbn [tick]. lia.
Qed.

Lemma deploy_health_spec e o tx s :
  rollback_ready tx s ->
  deploy_outcome tx (deploy_health e o tx s) /\
  (fst (deploy_health e o tx s) = 0 ->
     backups (snd (deploy_health e o tx s)) = prune_backups (backups s) /\
     (tick s <= tick (snd (deploy_health e o tx s)))%nat).
Proof.
  intros Hready. unfold deploy_health.
  destruct (do_health_check o).
  - pose proof (check_health_frame e s) as F.
    destruct (check_health e s) as [ok s1]. cbn [snd] in F.
    pose proof F as (_ & B & _ & T).
    destruct ok.
    + destruct (deploy_success_spec e tx
                  (journal_append e tx health_check success "{}" s1))
        as (Ho & _ & Hb & Ht).
      split; [exact Ho |]. intros _.
      rewrite Hb, backups_append, B. split; [reflexivity |].
      pose proof (tick_append e tx health_check success "{}" s1). lia.
    + pose proof (rollback_after_failure e tx health_check "{}"
                    "health_check_failed" s1) as Hr.
      destruct (cmd_rollback_internal e tx "health_check_failed"
                  (journal_append e tx health_check failed "{}" s1))
        as [st s3].
      cbn [fst snd] in *. split; [| intros [=]].
      right. split; [reflexivity |]. apply Hr.
      * right. now right.
      * now apply (ready_frame tx s s1).
  - destruct (deploy_success_spec e tx s) as (Ho & _ & Hb & Ht). auto.
Qed.

Lemma deploy_server_spec e o tx s :
  rollback_ready tx s ->
  deploy_outcome tx (deploy_server e o tx s) /\
  (fst (deploy_server e o tx s) = 0 ->
     backups (snd (deploy_server e o tx s)) = prune_backups (backups s) /\
     (tick s <= tick (snd (deploy_server e o tx s)))%nat).
Proof.
  intros Hready. unfold deploy_server.
  pose proof (stop_server_frame e s) as F1.
  set (s1 := stop_server e s) in *.
  pose proof (ready_frame tx s s1 F1 Hready) as R1.
  pose proof (ready_append_other e tx tx server_start started "{}" s1
                eq_refl R1) as R2.
  pose proof (backups_append e tx server_start started "{}" s1) as B2.
  pose proof (tick_append e tx server_start started "{}" s1) as T2.
  set (s2 := journal_append e tx server_start started "{}" s1) in *.
  pose proof (start_server_frame e s2) as F3.
  destruct (start_server e s2) as [st s3]. cbn [snd] in F3.
  pose proof (ready_frame tx s2 s3 F3 R2) as R3.
  destruct F1 as (_ & B1 & _ & T1). destruct F3 as (_ & B3 & _ & T3).
  destruct (st =? 0).
  - assert (R4 : rollback_ready tx
                   (journal_append e tx server_start success "{}" s3)).
    { apply ready_append_success. apply R3. }
    destruct (deploy_health_spec e o tx _ R4) as [Ho Hb].
    split; [exact Ho |]. intros H0. destruct (Hb H0) as [Hb' Ht'].
    rewrite Hb', backups_append, B3, B2, B1. split; [reflexivity |].
    pose proof (tick_append e tx server_start success "{}" s3). lia.
  - pose proof (rollback_after_failure e tx server_start
                  (obj1 "error" "Server start failed")
                  "server_start_failed" s3) as Hr.
    destruct (cmd_rollback_internal e tx "server_start_failed" _)
      as [st' s5].
    cbn [fst snd] in *. split; [| intros [=]].
    right. split; [reflexivity |]. apply Hr; [| exact R3].
    right. now left.
Qed.

Lemma deploy_build_spec e o tx s :
  rollback_ready tx s ->
  deploy_outcome tx (deploy_build e o tx s) /\
  (fst (deploy_build e o tx s) = 0 ->
     backups (snd (deploy_build e o tx s)) = prune_backups (backups s) /\
     (tick s <= tick (snd (deploy_build e o tx s)))%nat).
Proof.
  intros Hready. unfold deploy_build.
  destruct (pre_build o); [| now apply deploy_server_spec].
  pose proof (ready_append_other e tx tx build_start started "{}" s
                eq_refl Hready) as R1.
  pose proof (backups_append e tx build_start started "{}" s) as B1.
  pose proof (tick_append e tx build_start started "{}" s) as T1.
  set (s1 := journal_append e tx build_start started "{}" s) in *.
  pose proof (frame_observe (npm_build e) (emit (Run "npm run build") s1))
    as F2.
  destruct (observe (npm_build e) (emit (Run "npm run build") s1))
    as [built s2].
  cbn [snd] in F2.
  assert (F3 : deploy_frame s1 (set_dist (snd built) s2)).
  { eapply frame_trans; [apply frame_emit |].
    eapply frame_trans; [exact F2 | apply frame_set_dist]. }
  set (s3 := set_dist (snd built) s2) in *.
  pose proof (ready_frame tx s1 s3 F3 R1) as R3.
  destruct F3 as (_ & B3 & _ & T3).
  destruct (fst built).
  - assert (R4 : rollback_ready tx
                   (journal_append e tx build_complete success "{}" s3)).
    { apply ready_append_success. apply R3. }
    destruct (deploy_server_spec e o tx _ R4) as [Ho Hb].
    split; [exact Ho |]. intros H0. destruct (Hb H0) as [Hb' Ht'].
    rewrite Hb', backups_append, B3, B1. split; [reflexivity |].
    pose proof (tick_append e tx build_complete success "{}" s3). lia.
  - pose proof (rollback_after_failure e tx build_complete
                  (obj1 "error" "Build failed") "build_failed" s3) as Hr.
    destruct (cmd_rollback_internal e tx "build_failed" _) as [st' s5].
    cbn [fst snd] in *. split; [| intros [=]].
    right. split; [reflexivity |]. apply Hr; [| exact R3].
    now left.
Qed.

(** Every deploy that holds the lock ends in one of the two outcomes; a
    successful one leaves the pruned backup directory: the backups that
    were there plus the one of this deploy, cut down by the retention
    step. *)
Lemma deploy_locked_spec e o tx s :
  deploy_outcome tx (deploy_locked e o tx s) /\
  (fst (deploy_locked e o tx s) = 0 ->
     exists t d,
       (tick s <= t < tick (snd (deploy_locked e o tx s)))%nat /\
       backups (snd (deploy_locked e o tx s))
       = prune_backups
           (if has_backup tx (backups s) then backups s
            else (backups s ++ [mkBackup tx (clock e t) d])%list)).
Proof.
  unfold deploy_locked.
  pose proof (frame_init e s) as (_ & B1 & T1).
  set (s1 := init_journal e s) in *.
  match goal with |- context [journal_append e tx deploy_start started ?d s1] =>
    pose proof (backups_append e tx deploy_start started d s1) as B2;
    pose proof (tick_append e tx deploy_start started d s1) as T2;
    set (s2 := journal_append e tx deploy_start started d s1) in *
  end.
  destruct (update_current_state_spec e deploying tx "unknown" s2)
    as (_ & B3 & _ & T3).
  set (s3 := update_current_state e deploying tx "unknown" s2) in *.
  destruct (create_backup_spec e tx s3) as (_ & Hhas & B4 & T4).
  destruct (create_backup e tx s3) as [backup_path s4].
  cbn [snd] in *.
  assert (R5 : rollback_ready tx
                 (journal_append e tx backup_created success
                    (obj1 "backup_path" backup_path) s4)).
  { now apply ready_append_success. }
  destruct (deploy_build_spec e o tx _ R5) as [Ho Hb].
  split; [exact Ho |]. intros H0. destruct (Hb H0) as [Hb' Ht'].
  exists (tick s3), (dist s3).
  pose proof (tick_append e tx backup_created success
                (obj1 "backup_path" backup_path) s4) as T5.
  split; [lia |].
  rewrite Hb', backups_append, B4, B3, B2, B1. reflexivity.
Qed.

(** A deploy without [--pre-build] on an installation that has a dist/
    directory: the [backup_created] entry is written over two lines (the
    [info] line captured from [create_backup] ends with a newline).  When
    [start.sh] then fails, the most recent success line cannot be read by
    jq, the rollback finds no target, and CurrentState stays [deploying]. *)
Lemma start_failure_without_target :
  let r := cmd_deploy Examples.start_fails_once_env [] Examples.deployed_state in
  fst r = 1 /\
  last (journal (snd r)) (Tail "")
  = Whole (mkEntry Examples.new_tx "2026-02-16T12:00:00Z" rollback failed
             (obj1 "reason" "no_rollback_target")) /\
  current_state (snd r)
  = Some (mkCstate deploying "2026-02-16T12:00:00Z"
            (Some Examples.new_tx) (Some "unknown")) /\
  trace (snd r) = [Run "stop.sh"; Run "start.sh --force"].
Proof. vm_compute. repeat split; reflexivity. Qed.

End DeployProps.



(** C5.  The deploy lock only guards [cmd_deploy].
    - A deploy that finds the lock held by a live process returns 1 and
      leaves journal, CurrentState, backups, dist/, the lock file and the
      server alone.
    - A manual rollback never looks at the lock: started while process 777
      holds it (a deploy in progress), [rollback --force] goes through,
      appends two journal entries, stops and restarts the server, restores
      the backup and rewrites CurrentState, and leaves the lock file as it
      was. *)
Theorem C5_manual_rollback_ignores_deploy_lock :
  (forall (e : Deploy.env) (args : list string) (o : Deploy.deploy_opts)
          (s : Deploy.state) (owner : string),
      Deploy.parse_deploy_args args (Deploy.mkDeployOpts false true "30")
        = Sh.Ret o ->
      Deploy.lock_file s = Some owner ->
      Sh.nonempty owner = true ->
      Deploy.kill0 e (S (S (Deploy.tick s))) owner = true ->
      let r := Deploy.cmd_deploy e args s in
      fst r = 1 /\
      Deploy.journal (snd r) = Deploy.journal s /\
      Deploy.current_state (snd r) = Deploy.current_state s /\
      Deploy.backups (snd r) = Deploy.backups s /\
      Deploy.dist (snd r) = Deploy.dist s /\
      Deploy.lock_file (snd r) = Deploy.lock_file s /\
      Deploy.trace (snd r) = Deploy.trace s) /\
  (let s := Examples.locked_state in
   let r := Deploy.cmd_rollback Examples.deploy_env ["--force"] s in
   Deploy.lock_file s = Some "777" /\
   (forall t, Deploy.kill0 Examples.deploy_env t "777" = true) /\
   fst r = 0 /\
   length (Deploy.journal (snd r)) = (length (Deploy.journal s) + 2)%nat /\
   Deploy.trace (snd r) = [Run "stop.sh"; Run "start.sh --force"] /\
   Deploy.dist (snd r) = Some "dist-v1" /\
   Deploy.current_state (snd r)
   = Some (Deploy.mkCstate Deploy.rolled_back "2026-02-16T12:00:00Z"
             (Some Examples.old_tx) (Some "1.0.0")) /\
   Deploy.lock_file (snd r) = Some "777").
Proof.
  split.
  - intros e args o s owner Hparse Hlock Hn Hk r. subst r.
    unfold Deploy.cmd_deploy. rewrite Hparse.
    unfold Deploy.generate_tx_id, Deploy.observe. cbn.
    rewrite Hlock, Hn, Hk. cbn. repeat split; assumption.
  - vm_compute. repeat split; reflexivity.
Qed.

(** Witness for C5: on [Examples.deploy_env] a deploy started while
    process 777 holds the lock returns 1. *)
Lemma C5_manual_rollback_ignores_deploy_lock_witness :
  fst (Deploy.cmd_deploy Examples.deploy_env ["--pre-build"]
         Examples.locked_state) = 1.
Proof.
  destruct C5_manual_rollback_ignores_deploy_lock as [Hdeploy _].
  apply (Hdeploy Examples.deploy_env ["--pre-build"]
           (Deploy.mkDeployOpts true true "30")
           Examples.locked_state "777");
    reflexivity.
Defined.

(* ===================================================================== *)
(** * Backup retention *)
(* ===================================================================== *)

Module PruneProps.
Import Deploy.

Lemma insert_by_mtime_perm a l : Permutation (insert_by_mtime a l) (a :: l).
Proof.
  induction l as [| h t IH]; simpl; [apply Permutation_refl |].
  destruct (newer a h); [apply Permutation_refl |].
  eapply Permutation_trans; [apply perm_skip, IH | apply perm_swap].
Qed.

Lemma ls_t_perm dir : Permutation (ls_t dir) dir.
Proof.
  induction dir as [| a dir IH]; simpl; [apply perm_nil |].
  eapply Permutation_trans; [apply insert_by_mtime_perm |].
  now apply perm_skip.
Qed.

Lemma newer_false a h : newer a h = false -> b_mtime a <= b_mtime h.
Proof.
  unfold newer. intros H. apply orb_false_iff in H. destruct H as [H _].
  apply Z.ltb_ge in H. exact H.
Qed.

Lemma newer_true a h : newer a h = true -> b_mtime h <= b_mtime a.
Proof.
  unfold newer. intros H. apply orb_true_iff in H. destruct H as [H | H].
  - apply Z.ltb_lt in H. lia.
  - apply andb_true_iff in H. destruct H as [H _].
    apply Z.eqb_eq in H. lia.
Qed.

Lemma insert_by_mtime_sorted a l :
  newest_first l -> newest_first (insert_by_mtime a l).
Proof.
  unfold newest_first. induction l as [| h t IH]; intros Hs; simpl.
  - constructor; constructor.
  - apply StronglySorted_inv in Hs. destruct Hs as [Ht Hh].
    destruct (newer a h) eqn:E.
    + constructor; [now constructor |].
      apply newer_true in E. constructor; [exact E |].
      eapply Forall_impl; [| exact Hh]. simpl. intros x Hx. lia.
    + apply newer_false in E. constructor; [now apply IH |].
      eapply Permutation_Forall;
        [apply Permutation_sym, insert_by_mtime_perm |].
      now constructor.
Qed.

Lemma ls_t_sorted dir : newest_first (ls_t dir).
Proof.
  induction dir as [| a dir IH]; simpl; [constructor |].
  now apply insert_by_mtime_sorted.
Qed.

(** In a list sorted newest first, whatever is among the first [n] is at
    least as new as whatever comes after them. *)
Lemma newest_first_split l : newest_first l ->
  forall n a b, In a (firstn n l) -> In b (skipn n l) ->
    b_mtime b <= b_mtime a.
Proof.
  unfold newest_first. induction 1 as [| h t Ht IH Hh]; intros n a b Ha Hb.
  - destruct n; contradiction.
  - destruct n as [| n]; [contradiction |]. simpl in Ha, Hb.
    destruct Ha as [<- | Ha]; [| now apply (IH n)].
    rewrite Forall_forall in Hh. apply Hh.
    rewrite <- (firstn_skipn n t). apply in_or_app. now right.
Qed.

Lemma filter_filter {A} (f g : A -> bool) l :
  filter f (filter g l) = filter (fun x => g x && f x) l.
Proof.
  induction l as [| a l IH]; simpl; [reflexivity |].
  destruct (g a); simpl; [destruct (f a) |]; now rewrite IH.
Qed.

(** The [while read old; do rm -rf ...] loop removes exactly the entries
    whose name is in the list it reads. *)
Lemma rm_loop_filter names : forall dir,
  fold_left (fun d old => rm_rf old d) names dir
  = filter (fun b => negb (existsb (String.eqb (b_name b)) names)) dir.
Proof.
  induction names as [| n names IH]; intros dir; simpl.
  - induction dir as [| a dir IHd]; simpl; [reflexivity | now rewrite <- IHd].
  - rewrite IH. unfold rm_rf. rewrite filter_filter.
    apply filter_ext. intros b. now rewrite negb_orb.
Qed.

Lemma existsb_name_in name names :
  existsb (String.eqb name) names = true <-> In name names.
Proof.
  rewrite existsb_exists. split.
  - intros (x & Hin & Hx). apply String.eqb_eq in Hx. now subst.
  - intros Hin. exists name. split; [exact Hin | apply String.eqb_refl].
Qed.

Lemma nodup_app_disjoint {A} (l1 l2 : list A) x :
  NoDup (l1 ++ l2) -> In x l1 -> In x l2 -> False.
Proof.
  induction l1 as [| a l1 IH]; intros Hnd H1 H2; [contradiction |].
  simpl in Hnd. apply NoDup_cons_iff in Hnd. destruct Hnd as [Hnot Hnd1].
  destruct H1 as [-> | H1]; [| now apply IH].
  apply Hnot. apply in_or_app. now right.
Qed.

(** With distinct names in the directory, the entries that survive the
    pruning are those among the first five of the [ls -t] listing. *)
Lemma prune_keeps_first dir :
  NoDup (map b_name dir) ->
  forall b, In b (prune_backups dir) <-> In b (firstn KEEP (ls_t dir)).
Proof.
  intros Hnd b. unfold prune_backups. rewrite rm_loop_filter, filter_In.
  pose proof (ls_t_perm dir) as Hp.
  assert (Hnd' : NoDup (map b_name (ls_t dir))).
  { eapply Permutation_NoDup; [| exact Hnd].
    apply Permutation_map, Permutation_sym, Hp. }
  rewrite <- (firstn_skipn KEEP (ls_t dir)) in Hnd' at 1.
  rewrite map_app in Hnd'.
  split.
  - intros [Hin Hkeep]. apply negb_true_iff in Hkeep.
    apply (Permutation_in _ (Permutation_sym Hp)) in Hin.
    rewrite <- (firstn_skipn KEEP (ls_t dir)) in Hin.
    apply in_app_or in Hin. destruct Hin as [Hin | Hin]; [exact Hin |].
    exfalso. apply not_true_iff_false in Hkeep. apply Hkeep.
    apply existsb_name_in. now apply in_map.
  - intros Hin. split.
    + apply (Permutation_in _ Hp).
      rewrite <- (firstn_skipn KEEP (ls_t dir)). apply in_or_app. now left.
    + apply negb_true_iff, not_true_iff_false. intros Hex.
      apply existsb_name_in in Hex.
      apply (in_map b_name) in Hin.
      exact (nodup_app_disjoint _ _ _ Hnd' Hin Hex).
Qed.

Lemma prune_perm dir :
  NoDup (map b_name dir) ->
  Permutation (prune_backups dir) (firstn KEEP (ls_t dir)).
Proof.
  intros Hnd. apply NoDup_Permutation.
  - unfold prune_backups. rewrite rm_loop_filter.
    apply NoDup_filter. now apply NoDup_map_inv in Hnd.
  - assert (Hs : NoDup (ls_t dir)).
    { eapply Permutation_NoDup; [apply Permutation_sym, ls_t_perm |].
      now apply NoDup_map_inv in Hnd. }
    rewrite <- (firstn_skipn KEEP (ls_t dir)) in Hs.
    now apply NoDup_app_remove_r in Hs.
  - now apply prune_keeps_first.
Qed.

(** Pruning: at most five entries stay; they are the five newest, every
    removed entry being no newer than any entry kept. *)
Lemma prune_backups_spec dir :
  NoDup (map b_name dir) ->
  length (prune_backups dir) = Nat.min KEEP (length dir) /\
  Permutation (prune_backups dir) (firstn KEEP (ls_t dir)) /\
  (forall kept removed,
      In kept (prune_backups dir) -> In removed dir ->
      ~ In removed (prune_backups dir) ->
      b_mtime removed <= b_mtime kept).
Proof.
  intros Hnd. pose proof (prune_perm dir Hnd) as Hp. split; [| split].
  - rewrite (Permutation_length Hp), length_firstn.
    now rewrite (Permutation_length (ls_t_perm dir)).
  - exact Hp.
  - intros kept removed Hk Hr Hnot.
    apply (prune_keeps_first dir Hnd) in Hk.
    apply (newest_first_split (ls_t dir) (ls_t_sorted dir) KEEP);
      [exact Hk |].
    apply (Permutation_in _ (Permutation_sym (ls_t_perm dir))) in Hr.
    rewrite <- (firstn_skipn KEEP (ls_t dir)) in Hr.
    apply in_app_or in Hr. destruct Hr as [Hr | Hr]; [| exact Hr].
    exfalso. apply Hnot. now apply (prune_keeps_first dir Hnd).
Qed.

(** ** A directory filled by successive deploys *)

Lemma insert_oldest a l :
  Forall (fun h => b_mtime a < b_mtime h) l ->
  insert_by_mtime a l = (l ++ [a])%list.
Proof.
  induction 1 as [| h t Hh Ht IH]; simpl; [reflexivity |].
  assert (E : newer a h = false).
  { unfold newer. apply orb_false_iff. split.
    - apply Z.ltb_ge. lia.
    - apply andb_false_iff. left. apply Z.eqb_neq. lia. }
  now rewrite E, IH.
Qed.

(** Entries created one after the other are listed by [ls -t] in the
    reverse order. *)
Lemma ls_t_oldest_first l : oldest_first l -> ls_t l = rev l.
Proof.
  unfold oldest_first. induction 1 as [| a l Hl IH Ha]; simpl; [reflexivity |].
  rewrite IH. apply insert_oldest.
  apply Forall_forall. intros h Hin. apply in_rev in Hin.
  rewrite Forall_forall in Ha. now apply Ha.
Qed.

Lemma filter_none {A} (f : A -> bool) l :
  (forall x, In x l -> f x = false) -> filter f l = [].
Proof.
  induction l as [| a l IH]; intros H; simpl; [reflexivity |].
  rewrite (H a (or_introl eq_refl)). apply IH. intros x Hx. apply H. now right.
Qed.

Lemma filter_all {A} (f : A -> bool) l :
  (forall x, In x l -> f x = true) -> filter f l = l.
Proof.
  induction l as [| a l IH]; intros H; simpl; [reflexivity |].
  rewrite (H a (or_introl eq_refl)). f_equal. apply IH.
  intros x Hx. apply H. now right.
Qed.

(** On such a directory the pruning keeps the last five entries, in their
    order. *)
Lemma prune_oldest_first l :
  oldest_first l -> NoDup (map b_name l) ->
  prune_backups l = lastn KEEP l.
Proof.
  intros Hs Hnd. unfold prune_backups, lastn.
  rewrite rm_loop_filter, (ls_t_oldest_first l Hs), skipn_rev.
  set (k := (length l - KEEP)%nat).
  set (names := map b_name (rev (firstn k l))).
  assert (E : filter (fun b => negb (existsb (String.eqb (b_name b)) names)) l
            = filter (fun b => negb (existsb (String.eqb (b_name b)) names))
                (firstn k l ++ skipn k l)) by now rewrite firstn_skipn.
  rewrite E. clear E. subst names.
  rewrite <- (firstn_skipn k l) in Hnd. rewrite map_app in Hnd.
  rewrite filter_app, filter_none, filter_all; [reflexivity | |].
  - intros b Hin. apply negb_true_iff, not_true_iff_false. intros Hex.
    apply existsb_name_in in Hex.
    rewrite map_rev in Hex. apply in_rev in Hex.
    apply (in_map b_name) in Hin.
    exact (nodup_app_disjoint _ _ _ Hnd Hex Hin).
  - intros b Hin. apply negb_false_iff, existsb_name_in.
    rewrite map_rev. apply in_rev. rewrite rev_involutive. now apply in_map.
Qed.

Lemma lastn_length {A} n (l : list A) :
  length (lastn n l) = Nat.min n (length l).
Proof. unfold lastn. rewrite length_skipn. lia. Qed.

Lemma lastn_map {A B} (f : A -> B) n l :
  map f (lastn n l) = lastn n (map f l).
Proof. unfold lastn. now rewrite length_map, skipn_map. Qed.

Lemma lastn_incl {A} n (l : list A) x : In x (lastn n l) -> In x l.
Proof.
  unfold lastn. intros H. rewrite <- (firstn_skipn (length l - n) l).
  apply in_or_app. now right.
Qed.

Lemma lastn_snoc {A} n (l : list A) x :
  (0 < n)%nat -> lastn n (lastn n l ++ [x]) = lastn n (l ++ [x]).
Proof.
  intros Hn. unfold lastn. rewrite !length_app, length_skipn. simpl.
  destruct (Nat.le_gt_cases (length l) n) as [Hle | Hgt].
  - assert (E : (length l - n = 0)%nat) by lia. rewrite E.
    cbn [skipn]. f_equal. lia.
  - rewrite !skipn_app, length_skipn.
    assert (E1 : (length l - (length l - n) + 1 - n = 1)%nat) by lia.
    assert (E2 : (length l + 1 - n - length l = 0)%nat) by lia.
    rewrite E1, E2, skipn_skipn.
    assert (E3 : (1 - (length l - (length l - n)) = 0)%nat) by lia.
    rewrite E3. cbn [skipn]. f_equal. f_equal. lia.
Qed.

Lemma oldest_first_skipn n l : oldest_first l -> oldest_first (skipn n l).
Proof.
  unfold oldest_first. revert l. induction n as [| n IH]; intros l Hs.
  - exact Hs.
  - destruct l as [| a l]; [exact Hs |]. simpl.
    apply StronglySorted_inv in Hs. now apply IH.
Qed.

Lemma oldest_first_snoc l b :
  oldest_first l -> Forall (fun a => b_mtime a < b_mtime b) l ->
  oldest_first (l ++ [b]).
Proof.
  unfold oldest_first. induction 1 as [| a l Hl IH Ha]; intros Hb; simpl.
  - constructor; constructor.
  - apply Forall_cons_iff in Hb. destruct Hb as [Hab Hb].
    constructor; [now apply IH |].
    apply Forall_app. split; [exact Ha | now constructor].
Qed.

Lemma nodup_skipn {A} n (l : list A) : NoDup l -> NoDup (skipn n l).
Proof.
  intros H. rewrite <- (firstn_skipn n l) in H.
  now apply NoDup_app_remove_l in H.
Qed.

(** ** Successful deploys *)

Lemma parse_deploy_args_exit : forall n args o c,
  (length args <= n)%nat ->
  parse_deploy_args args o = Sh.Exit c -> c = 1.
Proof.
  induction n as [| n IH]; intros args o c Hlen;
    destruct args as [| a rest]; simpl in *; try discriminate; [lia |].
  destruct (String.eqb a "--pre-build"); [apply IH; lia |].
  destruct (String.eqb a "--no-health-check"); [apply IH; lia |].
  destruct (String.eqb a "--timeout"); [| apply IH; lia].
  destruct rest as [| v rest']; [now intros [= <-] |].
  apply IH. simpl in Hlen. lia.
Qed.

(** A deploy that returns 0 has pruned the directory made of the backups
    that were there and of its own backup. *)
Lemma cmd_deploy_success e args s :
  fst (cmd_deploy e args s) = 0 ->
  exists t d,
    (tick s <= t < tick (snd (cmd_deploy e args s)))%nat /\
    backups (snd (cmd_deploy e args s))
    = prune_backups
        (if has_backup (deploy_tx e s) (backups s) then backups s
         else (backups s ++ [mkBackup (deploy_tx e s) (clock e t) d])%list).
Proof.
  unfold cmd_deploy, deploy_tx.
  destruct (parse_deploy_args args (mkDeployOpts false true "30"))
    as [o | c] eqn:Hparse.
  2:{ cbn [fst]. intros ->.
      now apply (parse_deploy_args_exit _ _ _ _ (le_n _)) in Hparse. }
  assert (G : deploy_frame s (snd (generate_tx_id e s))).
  { unfold generate_tx_id, observe, deploy_frame. simpl. repeat split. lia. }
  destruct (generate_tx_id e s) as [tx s1]. cbn [fst snd] in *.
  assert (L : deploy_frame s1
                (snd (match lock_file s1 with
                      | Some lock_pid =>
                          if Sh.nonempty lock_pid
                          then observe (fun t => kill0 e t lock_pid) s1
                          else (false, s1)
                      | None => (false, s1)
                      end))).
  { destruct (lock_file s1) as [lock_pid |]; [| apply DeployProps.frame_refl].
    destruct (Sh.nonempty lock_pid);
      [apply DeployProps.frame_observe | apply DeployProps.frame_refl]. }
  destruct (match lock_file s1 with Some _ => _ | None => _ end)
    as [held s2].
  cbn [snd] in L. destruct held; [intros [=] |].
  destruct (negb (journal_dir (set_lock None s2))); [intros [=] |].
  destruct (DeployProps.deploy_locked_spec e o tx
              (set_lock (Some (self_pid e)) (set_lock None s2))) as [_ Hb].
  destruct (deploy_locked e o tx
              (set_lock (Some (self_pid e)) (set_lock None s2)))
    as [code s3].
  cbn [fst snd] in *. intros ->.
  destruct (Hb eq_refl) as (t & d & Ht & Hbk).
  destruct G as (_ & B1 & _ & T1). destruct L as (_ & B2 & _ & T2).
  unfold set_lock in *. cbn [backups tick] in *.
  exists t, d. rewrite B2, B1 in Hbk. split; [lia | exact Hbk].
Qed.

Lemma lastn_app {A} n (l l2 : list A) :
  lastn n (lastn n l ++ l2) = lastn n (l ++ l2).
Proof.
  unfold lastn. rewrite !length_app, length_skipn.
  destruct (Nat.le_gt_cases (length l) n) as [Hle | Hgt].
  - assert (E : (length l - n = 0)%nat) by lia. rewrite E.
    cbn [skipn]. f_equal. lia.
  - rewrite !skipn_app, length_skipn, skipn_skipn.
    f_equal; f_equal; lia.
Qed.

Lemma lastn_app_r {A} n (l1 l2 : list A) :
  (n <= length l2)%nat -> lastn n (l1 ++ l2) = lastn n l2.
Proof.
  intros Hn. unfold lastn. rewrite length_app, skipn_app.
  rewrite (skipn_all2 l1) by lia. simpl. f_equal. lia.
Qed.

(** One more successful deploy on a directory listed oldest first, whose
    entries are all older than now: the directory becomes the last five of
    the old entries followed by the new backup. *)
Lemma deploy_step_retention clk e args s :
  (forall t t' : nat, (t < t')%nat -> clk t < clk t') ->
  clock e = clk ->
  oldest_first (backups s) ->
  Forall (fun b => b_mtime b < clk (tick s)) (backups s) ->
  NoDup (map b_name (backups s) ++ [deploy_tx e s]) ->
  fst (cmd_deploy e args s) = 0 ->
  map b_name (backups (snd (cmd_deploy e args s)))
    = lastn KEEP (map b_name (backups s) ++ [deploy_tx e s]) /\
  oldest_first (backups (snd (cmd_deploy e args s))) /\
  Forall (fun b => b_mtime b < clk (tick (snd (cmd_deploy e args s))))
         (backups (snd (cmd_deploy e args s))).
Proof.
  intros Hmono Hclk Hsorted Hold Hnd H0.
  assert (Hmono' : forall t t' : nat, (t <= t')%nat -> clk t <= clk t').
  { intros t t' Hle. destruct (Nat.eq_dec t t') as [-> | Hne]; [lia |].
    specialize (Hmono t t'). lia. }
  destruct (cmd_deploy_success e args s H0) as (t & d & Ht & Hb).
  set (tx := deploy_tx e s) in *.
  assert (Hfresh : ~ In tx (map b_name (backups s))).
  { intros Hin.
    apply (nodup_app_disjoint _ [tx] tx Hnd Hin). now left. }
  assert (Hhas : has_backup tx (backups s) = false).
  { apply not_true_iff_false. intros Hh. apply Hfresh.
    unfold has_backup in Hh. apply existsb_exists in Hh.
    destruct Hh as (b & Hin & Heq). apply String.eqb_eq in Heq. subst tx.
    rewrite <- Heq. now apply in_map. }
  rewrite Hhas, Hclk in Hb.
  set (dir := (backups s ++ [mkBackup tx (clk t) d])%list) in *.
  assert (Hdir_sorted : oldest_first dir).
  { apply oldest_first_snoc; [exact Hsorted |].
    eapply Forall_impl; [| exact Hold]. simpl.
    intros b Hb0. specialize (Hmono' (tick s) t). lia. }
  assert (Hdir_names : map b_name dir = (map b_name (backups s) ++ [tx])%list).
  { unfold dir. now rewrite map_app. }
  assert (Hdir_nd : NoDup (map b_name dir)) by now rewrite Hdir_names.
  rewrite Hb, (prune_oldest_first dir Hdir_sorted Hdir_nd).
  split; [| split].
  - now rewrite lastn_map, Hdir_names.
  - now apply oldest_first_skipn.
  - apply Forall_forall. intros b Hin. apply lastn_incl in Hin.
    unfold dir in Hin. apply in_app_or in Hin.
    destruct Hin as [Hin | [<- | []]].
    + rewrite Forall_forall in Hold. specialize (Hold b Hin).
      specialize (Hmono' (tick s) (tick (snd (cmd_deploy e args s)))). lia.
    + simpl. apply Hmono. lia.
Qed.

Lemma deploy_runs_retention clk :
  (forall t t' : nat, (t < t')%nat -> clk t < clk t') ->
  forall rest e args s,
    Forall (fun run => clock (fst run) = clk) ((e, args) :: rest) ->
    oldest_first (backups s) ->
    Forall (fun b => b_mtime b < clk (tick s)) (backups s) ->
    Forall (fun x => snd x = 0) (fst (deploy_runs ((e, args) :: rest) s)) ->
    NoDup (map b_name (backups s)
             ++ map fst (fst (deploy_runs ((e, args) :: rest) s))) ->
    map b_name (backups (snd (deploy_runs ((e, args) :: rest) s)))
    = lastn KEEP (map b_name (backups s)
                    ++ map fst (fst (deploy_runs ((e, args) :: rest) s))).
Proof.
  intros Hmono. induction rest as [| [e' args'] rest IH];
    intros e args s Hclk Hsorted Hold Hok Hnd.
  - cbn [deploy_runs fst snd map] in *.
    apply Forall_cons_iff in Hclk. destruct Hclk as [Hce _].
    apply Forall_cons_iff in Hok. destruct Hok as [H0 _].
    cbn [fst snd] in Hce, H0.
    now destruct (deploy_step_retention clk e args s Hmono Hce Hsorted Hold
                    Hnd H0) as (N1 & _ & _).
  - remember ((e', args') :: rest) as more eqn:Emore.
    cbn [deploy_runs] in Hok, Hnd |- *.
    destruct (deploy_runs more (snd (cmd_deploy e args s))) as [log s']
      eqn:Erest.
    cbn [fst snd map] in Hok, Hnd |- *.
    apply Forall_cons_iff in Hclk. destruct Hclk as [Hce Hcr].
    apply Forall_cons_iff in Hok. destruct Hok as [H0 Hlog].
    cbn [fst snd] in Hce, H0.
    assert (Hnd_all : NoDup ((map b_name (backups s) ++ [deploy_tx e s])
                               ++ map fst log)).
    { now rewrite <- app_assoc. }
    pose proof (NoDup_app_remove_r _ _ Hnd_all) as Hnd1.
    destruct (deploy_step_retention clk e args s Hmono Hce Hsorted Hold
                Hnd1 H0) as (N1 & S1 & O1).
    subst more.
    specialize (IH e' args' (snd (cmd_deploy e args s)) Hcr S1 O1).
    rewrite Erest in IH. cbn [fst snd] in IH.
    rewrite IH, N1.
    + rewrite lastn_app. now rewrite <- app_assoc.
    + exact Hlog.
    + rewrite N1. unfold lastn.
      rewrite <- (firstn_skipn
                    (length (map b_name (backups s) ++ [deploy_tx e s]) - KEEP)
                    (map b_name (backups s) ++ [deploy_tx e s])) in Hnd_all.
      rewrite <- app_assoc in Hnd_all.
      now apply NoDup_app_remove_l in Hnd_all.
Qed.

Lemma deploy_runs_length runs : forall s,
  length (fst (deploy_runs runs s)) = length runs.
Proof.
  induction runs as [| [e args] rest IH]; intros s; [reflexivity |].
  cbn [deploy_runs]. specialize (IH (snd (cmd_deploy e args s))).
  destruct (deploy_runs rest (snd (cmd_deploy e args s))) as [log s'].
  simpl in *. now rewrite IH.
Qed.

End PruneProps.


(** C8.  Backup retention.
    - Every deploy that returns 0 ends by pruning the backup directory
      (the backups that were there plus its own): with distinct names in
      the directory, at most 5 entries stay, they are the first 5 of the
      [ls -t] listing, and every removed entry is no newer than any entry
      kept.
    - After N successful deploys in a row, N at least 5 (so also for every
      N > 5), started on a directory whose entries are older than the
      first deploy, with distinct names and a clock that grows, the
      directory holds exactly 5 backups: those of the 5 most recent
      transaction ids. *)
Theorem C8_backup_retention :
  (forall (e : Deploy.env) (args : list string) (s : Deploy.state),
      NoDup (map Deploy.b_name (Deploy.backups s)) ->
      fst (Deploy.cmd_deploy e args s) = 0 ->
      exists dir,
        (dir = Deploy.backups s \/
         exists mtime d,
           dir = (Deploy.backups s
                    ++ [Deploy.mkBackup (deploy_tx e s) mtime d])%list) /\
        Deploy.backups (snd (Deploy.cmd_deploy e args s))
          = Deploy.prune_backups dir /\
        (length (Deploy.backups (snd (Deploy.cmd_deploy e args s)))
           <= Deploy.KEEP)%nat /\
        length (Deploy.backups (snd (Deploy.cmd_deploy e args s)))
          = Nat.min Deploy.KEEP (length dir) /\
        Permutation (Deploy.backups (snd (Deploy.cmd_deploy e args s)))
                    (firstn Deploy.KEEP (Deploy.ls_t dir)) /\
        (forall kept removed,
            In kept (Deploy.backups (snd (Deploy.cmd_deploy e args s))) ->
            In removed dir ->
            ~ In removed (Deploy.backups (snd (Deploy.cmd_deploy e args s))) ->
            Deploy.b_mtime removed <= Deploy.b_mtime kept)) /\
  (forall (clk : nat -> Z) (runs : list (Deploy.env * list string))
          (s : Deploy.state),
      (forall t t' : nat, (t < t')%nat -> clk t < clk t') ->
      Forall (fun run => Deploy.clock (fst run) = clk) runs ->
      oldest_first (Deploy.backups s) ->
      Forall (fun b => Deploy.b_mtime b < clk (Deploy.tick s))
             (Deploy.backups s) ->
      Forall (fun x => snd x = 0) (fst (deploy_runs runs s)) ->
      NoDup (map Deploy.b_name (Deploy.backups s)
               ++ map fst (fst (deploy_runs runs s))) ->
      (Deploy.KEEP <= length runs)%nat ->
      length (Deploy.backups (snd (deploy_runs runs s))) = Deploy.KEEP /\
      map Deploy.b_name (Deploy.backups (snd (deploy_runs runs s)))
        = lastn Deploy.KEEP (map fst (fst (deploy_runs runs s)))).
Proof.
  split.
  - intros e args s Hnd H0.
    destruct (PruneProps.cmd_deploy_success e args s H0) as (t & d & _ & Hb).
    set (dir := if Deploy.has_backup (deploy_tx e s) (Deploy.backups s)
                then Deploy.backups s
                else (Deploy.backups s
                        ++ [Deploy.mkBackup (deploy_tx e s)
                              (Deploy.clock e t) d])%list) in *.
    assert (Hdir : NoDup (map Deploy.b_name dir)).
    { unfold dir.
      destruct (Deploy.has_backup (deploy_tx e s) (Deploy.backups s)) eqn:Hh;
        [exact Hnd |].
      rewrite map_app. apply NoDup_app; [exact Hnd | |].
      - repeat constructor. intros [].
      - intros a Ha [<- | []]. apply not_true_iff_false in Hh. apply Hh.
        apply in_map_iff in Ha. destruct Ha as (b & Hname & Hin).
        unfold Deploy.has_backup. apply existsb_exists. exists b.
        split; [exact Hin |]. apply String.eqb_eq. exact Hname. }
    destruct (PruneProps.prune_backups_spec dir Hdir) as (Hlen & Hperm & Hold).
    exists dir. rewrite Hb. repeat split; try assumption.
    + unfold dir.
      destruct (Deploy.has_backup (deploy_tx e s) (Deploy.backups s));
        [now left | right; eauto].
    + rewrite Hlen. apply Nat.le_min_l.
  - intros clk runs s Hmono Hclk Hsorted Hold Hok Hnd Hmany.
    assert (Hnames :
      map Deploy.b_name (Deploy.backups (snd (deploy_runs runs s)))
      = lastn Deploy.KEEP (map fst (fst (deploy_runs runs s)))).
    { destruct runs as [| [e args] rest];
        [unfold Deploy.KEEP in Hmany; simpl in Hmany; lia |].
      rewrite (PruneProps.deploy_runs_retention clk Hmono rest e args s
                 Hclk Hsorted Hold Hok Hnd).
      apply PruneProps.lastn_app_r.
      now rewrite length_map, PruneProps.deploy_runs_length. }
    split; [| exact Hnames].
    rewrite <- (length_map Deploy.b_name), Hnames, PruneProps.lastn_length.
    rewrite length_map, PruneProps.deploy_runs_length. lia.
Qed.

(** Witness for C8: the first deploy on a fresh installation leaves one
    backup; six deploys leave the backups of the last five. *)
Lemma C8_backup_retention_witness :
  (length (Deploy.backups
             (snd (Deploy.cmd_deploy (Examples.healthy_env "20260216-120000")
                     [] Examples.fresh_state))) <= 5)%nat /\
  length (Deploy.backups (snd (deploy_runs Examples.six_runs
                                 Examples.fresh_state))) = 5%nat /\
  map Deploy.b_name
      (Deploy.backups (snd (deploy_runs Examples.six_runs
                              Examples.fresh_state)))
  = ["tx-20260216-120100-4242{RANDOM:-17}";
     "tx-20260216-120200-4242{RANDOM:-17}";
     "tx-20260216-120300-4242{RANDOM:-17}";
     "tx-20260216-120400-4242{RANDOM:-17}";
     "tx-20260216-120500-4242{RANDOM:-17}"].
Proof.
  destruct C8_backup_retention as [Hone Hruns].
  split.
  - destruct (Hone (Examples.healthy_env "20260216-120000") []
                Examples.fresh_state) as (dir & _ & _ & Hle & _).
    + constructor.
    + vm_compute. reflexivity.
    + exact Hle.
  - destruct (Hruns Z.of_nat Examples.six_runs Examples.fresh_state)
      as [Hlen Hnames].
    + intros t t' H. lia.
    + repeat constructor.
    + constructor.
    + constructor.
    + vm_compute. repeat constructor.
    + vm_compute.
      repeat (constructor;
              [simpl; intros H;
               repeat (destruct H as [H | H]; [discriminate H |]);
               exact H |]).
      constructor.
    + vm_compute. lia.
    + split; [exact Hlen |]. rewrite Hnames. vm_compute. reflexivity.
Defined.

(* ===================================================================== *)
(** * The statements at concrete machines *)
(* ===================================================================== *)

(** Witness for C2: the machine without any tool. *)
Lemma C2_missing_tools_reported_unhealthy_witness :
  fst (Health.check_port_listening Examples.bare_host "localhost" "4173") = 2 /\
  Health.exit_code Examples.bare_host Examples.health_config = 1 /\
  hs_port_status
    (Health.r_report
       (Health.perform_health_check Examples.bare_host Examples.health_config))
  = not_listening.
Proof.
  destruct (C2_missing_tools_reported_unhealthy Examples.bare_host
              Examples.health_config eq_refl eq_refl eq_refl eq_refl eq_refl)
    as (H2 & H1 & Hp & _).
  exact (conj H2 (conj H1 Hp)).
Defined.

(** Witness for C3: ss reports nothing on port 4173 of one machine; on
    another the HTTP probe has run, so its port test answered 0. *)
Lemma C3_port_closed_no_http_probe_witness :
  (hs_port_status
     (Health.r_report
        (Health.perform_health_check Examples.quiet_host
           Examples.health_config))
   = not_listening /\
   hs_http_status
     (Health.r_report
        (Health.perform_health_check Examples.quiet_host
           Examples.health_config))
   = http_unknown /\
   existsb is_http_probe
     (Health.r_trace
        (Health.perform_health_check Examples.quiet_host
           Examples.health_config))
   = false) /\
  fst (Health.check_port_listening Examples.serving_host "localhost" "4173")
  = 0.
Proof.
  split.
  - destruct (C3_port_closed_no_http_probe Examples.quiet_host
                Examples.health_config) as [Hclosed _].
    destruct Hclosed as (Hp & Hh & _ & _ & _ & _ & Hq & _).
    + vm_compute. discriminate.
    + exact (conj Hp (conj Hh Hq)).
  - destruct (C3_port_closed_no_http_probe Examples.serving_host
                Examples.health_config) as [_ Hprobe].
    apply Hprobe. reflexivity.
Defined.

(** Witness for C4: three failed checks in a row, the daemon is gone after
    the first; after two passed checks it is alive with its counter at 0. *)
Lemma C4_daemon_exits_on_first_failure_witness :
  fst (Daemon.daemon_loop Daemon.initial Examples.three_failures) = Sh.Exit 1 /\
  Daemon.consecutive_failures (Daemon.mkCounters 0 0) = 0.
Proof.
  destruct (C4_daemon_exits_on_first_failure Examples.three_failures)
    as (_ & Hexit & _).
  destruct (C4_daemon_exits_on_first_failure Examples.two_passes)
    as (_ & _ & Halive).
  split.
  - apply Hexit. reflexivity.
  - apply Halive. reflexivity.
Defined.

(** Witness for C6: a lock written by the live process 777, and a lock
    left behind by the dead process 555. *)
Lemma C6_start_lock_contention_witness :
  fst (Start.script (Examples.proc_host "") Examples.start_config
         (Examples.locked_files "777")) = 3 /\
  fst (Start.script (Examples.proc_host "") Examples.start_config
         (Examples.locked_files "555")) <> 3.
Proof.
  split.
  - destruct (C6_start_lock_contention (Examples.proc_host "")
                Examples.start_config (Examples.locked_files "777") "777"
                eq_refl eq_refl) as [Hheld _].
    destruct Hheld as (H3 & _); [split; reflexivity | exact H3].
  - destruct (C6_start_lock_contention (Examples.proc_host "")
                Examples.start_config (Examples.locked_files "555") "555"
                eq_refl eq_refl) as [_ Hstale].
    destruct Hstale as (s1 & _ & _ & _ & _ & _ & Hne);
      [right; reflexivity | exact Hne].
Defined.

(** Witness for C7: nothing listens on port 4173. *)
Lemma C7_stop_idempotent_witness :
  fst (Stop.main (Examples.proc_host "") Examples.stop_config
         (Examples.locked_files "555")) = 0 /\
  fst (Stop.main (Examples.proc_host "") Examples.stop_config
         (snd (Stop.main (Examples.proc_host "") Examples.stop_config
                 (Examples.locked_files "555")))) = 0.
Proof.
  destruct (C7_stop_idempotent (Examples.proc_host "") Examples.stop_config
              (Examples.locked_files "555"))
    as ((H1 & _) & (H2 & _) & _).
  - intros t _. split; reflexivity.
  - exact (conj H1 H2).
Defined.

(** Witness for C10: a machine without curl on which lsof names process
    9101 as the listener.  [start_server] of watchdog-restart.sh returns 0
    and [watchdog.state] holds the "healthy" snapshot for 9101;
    [start_server] of start.sh returns 0 and both the PID file and the
    snapshot hold 9101.  Neither run has made an HTTP probe. *)
Lemma C10_healthy_snapshot_without_http_probe_witness :
  (exists s' ts,
      Restart.start_server (Examples.proc_host "9101")
        Examples.restart_config "dev" "3000" (Examples.locked_files "555")
      = (0, s') /\
      Proc.state_file (Proc.fs s')
      = Some (mkHealthState ts "localhost" "3000" listening healthy true
                (Some "9101") (Some "dev") None) /\
      quiet_step (Examples.locked_files "555") s') /\
  (exists s' ts,
      Start.start_server (Examples.proc_host "9101") "dev" "4173"
        "0.0.0.0" (Examples.locked_files "555")
      = (0, s') /\
      Proc.pid_file (Proc.fs s') = Some "9101" /\
      Proc.state_file (Proc.fs s')
      = Some (mkHealthState ts "0.0.0.0" "4173" listening healthy true
                (Some "9101") (Some "dev") None) /\
      quiet_step (Examples.locked_files "555") s').
Proof.
  destruct C10_healthy_snapshot_without_http_probe
    as (_ & Hr & _ & _ & Hs).
  split.
  - apply (Hr (Examples.proc_host "9101") Examples.restart_config
              "dev" "3000" (Examples.locked_files "555"));
      [reflexivity | discriminate | reflexivity | reflexivity].
  - apply (Hs (Examples.proc_host "9101") "dev" "4173" "0.0.0.0"
              (Examples.locked_files "555")); reflexivity.
Defined.

(* ===================================================================== *)
(** * Further properties of watchdog-health.sh *)
(* ===================================================================== *)

(** X1.  The verdict of a health check is consistent, whatever the machine
    answers: the exit status is 0 or 1, and it is 0 exactly when the report
    says healthy; healthy means port listening and HTTP healthy, and means
    that the error field is null; http_status is unknown exactly when the
    port is not listening; a PID is only ever reported for a listening
    port; host and port of the report are those asked for. *)
Theorem X1_health_verdict_consistent (e : Health.env) (c : Health.config) :
  let r := Health.perform_health_check e c in
  let h := Health.r_report r in
  (Health.r_status r = 0 \/ Health.r_status r = 1) /\
  (Health.r_status r = 0 <-> hs_healthy h = true) /\
  (hs_healthy h = true <->
     hs_port_status h = listening /\ hs_http_status h = healthy) /\
  (hs_healthy h = true <-> hs_error h = None) /\
  (hs_http_status h = http_unknown <-> hs_port_status h = not_listening) /\
  (hs_pid h <> None -> hs_port_status h = listening) /\
  hs_port_status h <> port_unknown /\
  hs_host h = Health.HOST c /\ hs_port h = Health.PORT c.
Proof.
  intros r h. subst h r. unfold Health.perform_health_check.
  destruct (Health.check_port_listening e (Health.HOST c) (Health.PORT c))
    as [st tr].
  destruct (st =? 0).
  - destruct (Health.find_server_process e (Health.PORT c)) as [p trp].
    destruct (Health.check_http_health e (Health.HOST c) (Health.PORT c))
      as [sth trh].
    destruct (sth =? 0); cbn;
      repeat split; intros; try discriminate; try tauto; try reflexivity;
      try (destruct H; discriminate).
  - cbn. repeat split; intros; try discriminate; try tauto; try reflexivity;
      try (destruct H; discriminate).
Qed.

(* ===================================================================== *)
(** * What the process primitives add to the trace *)
(* ===================================================================== *)

Module Steps.
Import Proc Effects.

(** [lia] on the arithmetic hypotheses only. *)
Ltac nlia :=
  repeat match goal with H : _ -> _ |- _ => clear H end;
  cbn [tick trace fs emit set_fs fst snd] in *; lia.

Lemma ext_refl s : ext s s [].
Proof. split; [now rewrite app_nil_r | lia]. Qed.

Lemma ext_trans s1 s2 s3 a b :
  ext s1 s2 a -> ext s2 s3 b -> ext s1 s3 (a ++ b).
Proof.
  intros [Ha Ta] [Hb Tb]. split; [| lia].
  now rewrite Hb, Ha, app_assoc.
Qed.

Lemma ext_observe {A} (f : nat -> A) s : ext s (snd (observe f s)) [].
Proof. split; simpl; [now rewrite app_nil_r | lia]. Qed.

Lemma ext_emit ev s : ext s (emit ev s) [ev].
Proof. split; simpl; [reflexivity | lia]. Qed.

Lemma ext_set_fs f s : ext s (set_fs f s) [].
Proof. split; simpl; [now rewrite app_nil_r | lia]. Qed.

Lemma ext_added s s' a : ext s s' a -> added s s' = a.
Proof.
  intros [H _]. unfold added. rewrite H.
  rewrite skipn_app, skipn_all, Nat.sub_diag. reflexivity.
Qed.

Lemma sleep_total_app a b :
  sleep_total (a ++ b) = sleep_total a + sleep_total b.
Proof.
  induction a as [| ev a IH]; [reflexivity |].
  change (sleep_total ((ev :: a) ++ b))
    with (match ev with
          | Sleep n => n + sleep_total (a ++ b)
          | _ => sleep_total (a ++ b)
          end).
  change (sleep_total (ev :: a))
    with (match ev with
          | Sleep n => n + sleep_total a
          | _ => sleep_total a
          end).
  rewrite IH. destruct ev; lia.
Qed.

Lemma sleep_total_repeat k :
  sleep_total (repeat (Sleep 1) k) = Z.of_nat k.
Proof.
  induction k as [| k IH]; [reflexivity |].
  change (repeat (Sleep 1) (S k)) with (Sleep 1 :: repeat (Sleep 1) k).
  change (sleep_total (Sleep 1 :: repeat (Sleep 1) k))
    with (1 + sleep_total (repeat (Sleep 1) k)).
  lia.
Qed.

(** [find_process_on_port]: at most one lookup, the files stay. *)
Lemma find_spec e port s :
  fs (snd (find_process_on_port e port s)) = fs s /\
  exists a,
    ext s (snd (find_process_on_port e port s)) a /\
    (a = [] \/ exists tool, a = [PidLookup tool port]).
Proof.
  unfold find_process_on_port.
  destruct (has_lsof e); [| destruct (has_ss e)]; simpl;
    (split; [reflexivity |]).
  - exists [PidLookup "lsof" port].
    split; [split; simpl; [reflexivity | lia] |].
    right. now exists "lsof".
  - exists [PidLookup "ss" port]. split; [split; simpl; [reflexivity | lia] |].
    right. now exists "ss".
  - exists []. split; [apply ext_refl | now left].
Qed.

(** The answer of the lookup does not depend on the files. *)
Lemma find_fst_fs e port s f :
  fst (find_process_on_port e port (set_fs f s))
  = fst (find_process_on_port e port s).
Proof.
  unfold find_process_on_port.
  destruct (has_lsof e); [| destruct (has_ss e)]; reflexivity.
Qed.

Lemma wait_exit_S e pid n s :
  wait_exit e pid (S n) s =
  if kill0 e (tick s) pid
  then wait_exit e pid n
         (emit (Sleep 1) (mkState (fs s) (S (tick s)) (trace s)))
  else (true, mkState (fs s) (S (tick s)) (trace s)).
Proof. reflexivity. Qed.

(** The polling loop: [k] one-second sleeps, [k] at most the number of
    attempts; a [true] answer means [kill -0] failed at some poll. *)
Lemma wait_exit_spec e pid : forall n s,
  fs (snd (wait_exit e pid n s)) = fs s /\
  exists k, (k <= n)%nat /\
    ext s (snd (wait_exit e pid n s)) (repeat (Sleep 1) k) /\
    (fst (wait_exit e pid n s) = true ->
       exists t, (tick s <= t < tick (snd (wait_exit e pid n s)))%nat /\
                 kill0 e t pid = false).
Proof.
  induction n as [| n IH]; intros s.
  - cbn [wait_exit fst snd]. split; [reflexivity |]. exists 0%nat.
    split; [lia |]. split; [apply ext_refl | discriminate].
  - rewrite wait_exit_S.
    destruct (kill0 e (tick s) pid) eqn:Hk.
    + destruct (IH (emit (Sleep 1) (mkState (fs s) (S (tick s)) (trace s))))
        as (Hfs & k & Hk' & [Htr Htk] & Hgone).
      split; [rewrite Hfs; reflexivity |].
      exists (S k). split; [lia |]. split.
      * split; [| cbn [emit tick] in Htk; lia].
        rewrite Htr. cbn [emit trace repeat]. now rewrite <- app_assoc.
      * intros H. destruct (Hgone H) as (t & Ht & Hd).
        exists t. split; [cbn [emit tick] in Ht; lia | exact Hd].
    + cbn [fst snd fs tick trace]. split; [reflexivity |]. exists 0%nat.
      split; [lia |]. split.
      * split; cbn [trace tick repeat]; [now rewrite app_nil_r | lia].
      * intros _. exists (tick s). split; [lia | exact Hk].
Qed.

(** [kill_process_gracefully]: one TERM, at most ten one-second sleeps,
    then possibly one KILL and one more second; all signals go to [pid];
    status 0 means [kill -0] was seen to fail. *)
Lemma kill_gracefully_spec e pid s :
  fs (snd (kill_process_gracefully e pid s)) = fs s /\
  (fst (kill_process_gracefully e pid s) = 0 \/
   fst (kill_process_gracefully e pid s) = 1) /\
  exists k tail, (k <= 10)%nat /\
    (tail = [] \/ tail = [Signal "KILL" pid; Sleep 1]) /\
    ext s (snd (kill_process_gracefully e pid s))
        (Signal "TERM" pid :: repeat (Sleep 1) k ++ tail) /\
    (fst (kill_process_gracefully e pid s) = 0 ->
       exists t,
         (tick s <= t < tick (snd (kill_process_gracefully e pid s)))%nat
                 /\ kill0 e t pid = false).
Proof.
  unfold kill_process_gracefully.
  destruct (wait_exit_spec e pid 10 (emit (Signal "TERM" pid) s))
    as (Hfs & k & Hk & [Htr Htk] & Hgone).
  destruct (wait_exit e pid 10 (emit (Signal "TERM" pid) s)) as [gone s2].
  cbn [fst snd emit tick trace fs] in Hfs, Htr, Htk, Hgone. destruct gone.
  - cbn [fst snd]. split; [exact Hfs |]. split; [now left |].
    exists k, []. split; [exact Hk |]. split; [now left |]. split.
    + split; [| nlia].
      rewrite Htr. rewrite app_nil_r, <- app_assoc. reflexivity.
    + intros _. destruct (Hgone eq_refl) as (t & Ht & Hd).
      exists t. split; [nlia | exact Hd].
  - unfold observe. cbn [fst snd].
    destruct (kill0 e (tick s2) pid) eqn:Hk1; cbn [fst snd emit tick trace fs].
    + destruct (kill0 e (S (tick s2)) pid) eqn:Hk2; cbn [fst snd fs trace tick];
        (split; [exact Hfs |]).
      * split; [now right |].
        exists k, [Signal "KILL" pid; Sleep 1].
        split; [exact Hk |]. split; [now right |]. split.
        -- split; [| nlia].
           rewrite Htr. rewrite <- !app_assoc. reflexivity.
        -- discriminate.
      * split; [now left |].
        exists k, [Signal "KILL" pid; Sleep 1].
        split; [exact Hk |]. split; [now right |]. split.
        -- split; [| nlia].
           rewrite Htr. rewrite <- !app_assoc. reflexivity.
        -- intros _. exists (S (tick s2)). split; [nlia | exact Hk2].
    + destruct (kill0 e (S (tick s2)) pid) eqn:Hk2; cbn [fst snd fs trace tick];
        (split; [exact Hfs |]).
      * split; [now right |].
        exists k, []. split; [exact Hk |]. split; [now left |]. split.
        -- split; [| nlia].
           rewrite Htr. rewrite app_nil_r, <- app_assoc. reflexivity.
        -- discriminate.
      * split; [now left |].
        exists k, []. split; [exact Hk |]. split; [now left |]. split.
        -- split; [| nlia].
           rewrite Htr. rewrite app_nil_r, <- app_assoc. reflexivity.
        -- intros _. exists (tick s2). split; [nlia | exact Hk1].
Qed.

Lemma existsb_repeat_sleep (f : event -> bool) k :
  f (Sleep 1) = false -> existsb f (repeat (Sleep 1) k) = false.
Proof.
  intros H. induction k as [| k IH]; [reflexivity |].
  cbn [repeat existsb]. now rewrite H, IH.
Qed.

Lemma forallb_repeat_sleep (f : event -> bool) k :
  f (Sleep 1) = true -> forallb f (repeat (Sleep 1) k) = true.
Proof.
  intros H. induction k as [| k IH]; [reflexivity |].
  cbn [repeat forallb]. now rewrite H, IH.
Qed.

(** [kill_process] of stop.sh: as above, but KILL only under [--force]. *)
Lemma stop_kill_spec e c pid s :
  fs (snd (Stop.kill_process e c pid s)) = fs s /\
  (fst (Stop.kill_process e c pid s) = 0 \/
   fst (Stop.kill_process e c pid s) = 1) /\
  exists k tail, (k <= 10)%nat /\
    (tail = [] \/
     (Stop.FORCE c = true /\ tail = [Signal "KILL" pid; Sleep 1])) /\
    ext s (snd (Stop.kill_process e c pid s))
        (Signal "TERM" pid :: repeat (Sleep 1) k ++ tail) /\
    (fst (Stop.kill_process e c pid s) = 0 ->
       exists t, (tick s <= t < tick (snd (Stop.kill_process e c pid s)))%nat
                 /\ kill0 e t pid = false).
Proof.
  unfold Stop.kill_process.
  destruct (wait_exit_spec e pid 10 (emit (Signal "TERM" pid) s))
    as (Hfs & k & Hk & [Htr Htk] & Hgone).
  destruct (wait_exit e pid 10 (emit (Signal "TERM" pid) s)) as [gone s2].
  cbn [fst snd emit tick trace fs] in Hfs, Htr, Htk, Hgone. destruct gone.
  - cbn [fst snd]. split; [exact Hfs |]. split; [now left |].
    exists k, []. split; [exact Hk |]. split; [now left |]. split.
    + split; [| nlia].
      rewrite Htr. rewrite app_nil_r, <- app_assoc. reflexivity.
    + intros _. destruct (Hgone eq_refl) as (t & Ht & Hd).
      exists t. split; [nlia | exact Hd].
  - destruct (Stop.FORCE c) eqn:Hf.
    + unfold observe. cbn [fst snd emit tick trace fs].
      destruct (kill0 e (tick s2) pid) eqn:Hk1; cbn [fst snd fs];
        (split; [exact Hfs |]).
      * split; [now right |].
        exists k, [Signal "KILL" pid; Sleep 1].
        split; [exact Hk |]. split; [right; now split |]. split.
        -- split; [| nlia].
           cbn [trace]. rewrite Htr. rewrite <- !app_assoc. reflexivity.
        -- discriminate.
      * split; [now left |].
        exists k, [Signal "KILL" pid; Sleep 1].
        split; [exact Hk |]. split; [right; now split |]. split.
        -- split; [| nlia].
           cbn [trace]. rewrite Htr. rewrite <- !app_assoc. reflexivity.
        -- intros _. exists (tick s2). split; [nlia | exact Hk1].
    + cbn [fst snd]. split; [exact Hfs |]. split; [now right |].
      exists k, []. split; [exact Hk |]. split; [now left |]. split.
      * split; [| nlia].
        rewrite Htr. rewrite app_nil_r, <- app_assoc. reflexivity.
      * discriminate.
Qed.

(** [stop_watchdog]: the PID file of the watchdog is removed, the other
    files stay; the only events are a TERM for the recorded PID and one
    second of sleep, when that PID answers [kill -0]. *)
Lemma stop_watchdog_trace e s :
  fs (Stop.stop_watchdog e s) = set_watchdog_pid None (fs s) /\
  exists a,
    ext s (Stop.stop_watchdog e s) a /\
    (a = [] \/
     exists wpid, watchdog_pid_file (fs s) = Some wpid /\
                  a = [Signal "TERM" wpid; Sleep 1]).
Proof.
  unfold Stop.stop_watchdog.
  destruct (watchdog_pid_file (fs s)) as [wpid |] eqn:E.
  - destruct (Sh.nonempty wpid).
    + unfold observe. cbn [fst snd].
      destruct (kill0 e (tick s) wpid); cbn [set_fs emit fs tick trace];
        (split; [reflexivity |]).
      * exists [Signal "TERM" wpid; Sleep 1]. split.
        -- split; cbn [set_fs emit trace tick fs];
             [now rewrite <- app_assoc | lia].
        -- right. now exists wpid.
      * exists []. split; [| now left].
        split; cbn [set_fs emit trace tick fs]; [now rewrite app_nil_r | lia].
    + cbn [set_fs fs]. split; [reflexivity |].
      exists []. split; [| now left].
      split; cbn [set_fs emit trace tick fs]; [now rewrite app_nil_r | lia].
  - split.
    + destruct s as [[l p st w] t tr]. cbn in E. subst w. reflexivity.
    + exists []. split; [apply ext_refl | now left].
Qed.

End Steps.

(* ===================================================================== *)
(** * Further properties of stop.sh *)
(* ===================================================================== *)

Module StopMore.
Import Proc Effects Steps.

(** The whole run of the main flow: its files, its status and the three
    parts of its trace (watchdog, lookup, kill). *)
Lemma stop_main_spec e c s :
  watchdog_pid_file (fs (snd (Stop.main e c s))) = None /\
  ((fst (Stop.main e c s) = 0 /\
    stopped_files (fs (snd (Stop.main e c s))) (Stop.PORT c) /\
    (Sh.nonempty (stop_victim e c s) = true ->
       exists t, (tick s <= t < tick (snd (Stop.main e c s)))%nat /\
                 kill0 e t (stop_victim e c s) = false)) \/
   (fst (Stop.main e c s) = 1 /\
    Sh.nonempty (stop_victim e c s) = true /\
    lock_file (fs (snd (Stop.main e c s))) = lock_file (fs s) /\
    pid_file (fs (snd (Stop.main e c s))) = pid_file (fs s) /\
    state_file (fs (snd (Stop.main e c s))) = state_file (fs s))) /\
  exists wa la ka,
    ext s (snd (Stop.main e c s)) (wa ++ la ++ ka) /\
    (wa = [] \/
     exists wpid, watchdog_pid_file (fs s) = Some wpid /\
                  wa = [Signal "TERM" wpid; Sleep 1]) /\
    (la = [] \/ exists tool, la = [PidLookup tool (Stop.PORT c)]) /\
    (ka = [] \/
     exists k tail, (k <= 10)%nat /\
       Sh.nonempty (stop_victim e c s) = true /\
       (tail = [] \/
        (Stop.FORCE c = true /\
         tail = [Signal "KILL" (stop_victim e c s); Sleep 1])) /\
       ka = Signal "TERM" (stop_victim e c s) :: repeat (Sleep 1) k ++ tail).
Proof.
  unfold Stop.main, stop_victim.
  destruct (stop_watchdog_trace e s) as (Fw & wa & Ew & Hwa).
  destruct (find_spec e (Stop.PORT c) (Stop.stop_watchdog e s))
    as (Ff & la & El & Hla).
  destruct (find_process_on_port e (Stop.PORT c) (Stop.stop_watchdog e s))
    as [pid s2].
  cbn [fst snd] in *.
  destruct (Sh.nonempty pid) eqn:Hn.
  - destruct (stop_kill_spec e c pid s2)
      as (Fk & Hst & k & tail & Hk & Htail & Ek & Hdead).
    destruct (Stop.kill_process e c pid s2) as [st s3].
    cbn [fst snd] in *.
    assert (E3 : ext s s3
              (wa ++ la ++ Signal "TERM" pid :: repeat (Sleep 1) k ++ tail)).
    { eapply ext_trans; [exact Ew |]. eapply ext_trans; eassumption. }
    assert (Hka : Signal "TERM" pid :: repeat (Sleep 1) k ++ tail = [] \/
              exists k0 tail0, (k0 <= 10)%nat /\ true = true /\
                (tail0 = [] \/
                 (Stop.FORCE c = true /\ tail0 = [Signal "KILL" pid; Sleep 1]))
                /\ Signal "TERM" pid :: repeat (Sleep 1) k ++ tail
                   = Signal "TERM" pid :: repeat (Sleep 1) k0 ++ tail0).
    { right. exists k, tail. auto. }
    destruct Hst as [-> | ->]; cbn [Z.eqb negb].
    + unfold observe. cbn [fst snd set_fs fs tick trace].
      split; [cbn; rewrite Fk, Ff, Fw; reflexivity |]. split.
      * left. split; [reflexivity |]. split.
        -- unfold stopped_files. cbn. repeat split. eexists. reflexivity.
        -- intros _. destruct (Hdead eq_refl) as (t & Ht & Hd).
           exists t. split; [| exact Hd].
           destruct Ew as [_ Tw]. destruct El as [_ Tl]. nlia.
      * exists wa, la, (Signal "TERM" pid :: repeat (Sleep 1) k ++ tail).
        split; [| auto].
        destruct E3 as [T3 K3]. split; [exact T3 | nlia].
    + cbn [fst snd].
      split; [rewrite Fk, Ff, Fw; reflexivity |]. split.
      * right. rewrite Fk, Ff, Fw. cbn. auto.
      * exists wa, la, (Signal "TERM" pid :: repeat (Sleep 1) k ++ tail).
        auto.
  - cbn [Z.eqb negb]. unfold observe. cbn [fst snd set_fs fs tick trace].
    split; [cbn; rewrite Ff, Fw; reflexivity |]. split.
    + left. split; [reflexivity |]. split.
      * unfold stopped_files. cbn. repeat split. eexists. reflexivity.
      * discriminate.
    + exists wa, la, []. split; [| auto].
      assert (E2 : ext s s2 (wa ++ la ++ [])).
      { rewrite app_nil_r. eapply ext_trans; eassumption. }
      destruct E2 as [T2 K2]. split; [exact T2 | nlia].
Qed.

(** The three ways the option loop of [stop.sh] ends the script. *)
Lemma stop_parse_exit : forall args c code,
  StopCli.parse_args args c = Sh.Exit code ->
  code = 0 \/ code = 1 \/ code = 2.
Proof.
  intros args. remember (length args) as n eqn:Hlen. revert args Hlen.
  induction n as [n IH] using lt_wf_ind. intros args Hlen c code H.
  destruct args as [| a rest]; [discriminate |].
  cbn [StopCli.parse_args] in H.
  destruct (String.eqb a "-p" || String.eqb a "--port").
  - destruct rest as [| v rest']; [injection H as <-; auto |].
    eapply (IH (length rest')); [| reflexivity | exact H].
    subst n. simpl. lia.
  - destruct (String.eqb a "-f" || String.eqb a "--force").
    + eapply (IH (length rest)); [| reflexivity | exact H].
      subst n. simpl. lia.
    + destruct (String.eqb a "-h" || String.eqb a "--help");
        injection H as <-; auto.
Qed.

End StopMore.

(** X2.  Whom [stop.sh] signals and how long it waits.  Every signal of a
    run is a TERM for the PID recorded in [watchdog.pid], a TERM for the
    process found listening on the port, or (only under [--force]) a KILL
    for that same process; the script starts no command and no server, and
    the seconds it sleeps add up to at most 12. *)
Theorem X2_stop_signals_and_waiting
  (e : Proc.env) (c : Stop.config) (s : Proc.state) :
  let tr := added s (snd (Stop.main e c s)) in
  (forall sig pid, In (Signal sig pid) tr ->
     (sig = "TERM" /\ Proc.watchdog_pid_file (Proc.fs s) = Some pid) \/
     (sig = "TERM" /\ pid = stop_victim e c s /\
      Sh.nonempty pid = true) \/
     (sig = "KILL" /\ pid = stop_victim e c s /\
      Stop.FORCE c = true)) /\
  existsb is_spawn tr = false /\
  existsb is_run tr = false /\
  0 <= sleep_total tr <= 12.
Proof.
  intros tr. subst tr.
  destruct (StopMore.stop_main_spec e c s)
    as (_ & _ & wa & la & ka & E & Hwa & Hla & Hka).
  rewrite (Steps.ext_added _ _ _ E).
  assert (Sw : 0 <= sleep_total wa <= 1).
  { destruct Hwa as [-> | (w & _ & ->)]; cbn; lia. }
  assert (Sl : sleep_total la = 0).
  { destruct Hla as [-> | (t & ->)]; reflexivity. }
  assert (Sk : 0 <= sleep_total ka <= 11).
  { destruct Hka as [-> | (k & tail & Hk & _ & Ht & ->)]; [cbn; lia |].
    change (sleep_total (Signal "TERM" (stop_victim e c s)
                           :: repeat (Sleep 1) k ++ tail))
      with (sleep_total (repeat (Sleep 1) k ++ tail)).
    rewrite Steps.sleep_total_app, Steps.sleep_total_repeat.
    destruct Ht as [-> | [_ ->]]; cbn; lia. }
  split; [| split; [| split]].
  - intros sig pid Hin.
    apply in_app_or in Hin. destruct Hin as [Hin | Hin].
    { destruct Hwa as [-> | (w & Hw & ->)]; [destruct Hin |].
      destruct Hin as [[= <- <-] | [[=] | []]]. left. now split. }
    apply in_app_or in Hin. destruct Hin as [Hin | Hin].
    { destruct Hla as [-> | (t & ->)]; [destruct Hin |].
      destruct Hin as [[=] | []]. }
    destruct Hka as [-> | (k & tail & _ & Hn & Ht & ->)]; [destruct Hin |].
    destruct Hin as [[= <- <-] | Hin]; [right; left; auto |].
    apply in_app_or in Hin. destruct Hin as [Hin | Hin].
    { apply repeat_spec in Hin. discriminate. }
    destruct Ht as [-> | [Hf ->]]; [destruct Hin |].
    destruct Hin as [[= <- <-] | [[=] | []]]. right. right. auto.
  - rewrite !existsb_app.
    destruct Hwa as [-> | (w & _ & ->)]; destruct Hla as [-> | (t & ->)];
      (destruct Hka as [-> | (k & tail & _ & _ & Ht & ->)];
       [reflexivity |]);
      cbn [existsb is_spawn orb]; rewrite existsb_app,
        (Steps.existsb_repeat_sleep is_spawn k eq_refl);
      destruct Ht as [-> | [_ ->]]; reflexivity.
  - rewrite !existsb_app.
    destruct Hwa as [-> | (w & _ & ->)]; destruct Hla as [-> | (t & ->)];
      (destruct Hka as [-> | (k & tail & _ & _ & Ht & ->)];
       [reflexivity |]);
      cbn [existsb is_run orb]; rewrite existsb_app,
        (Steps.existsb_repeat_sleep is_run k eq_refl);
      destruct Ht as [-> | [_ ->]]; reflexivity.
  - rewrite !Steps.sleep_total_app. lia.
Qed.

(** X3.  How [stop.sh] ends.  The exit status is 0, 1 or 2.
    - The script can end in its option loop, before anything is done:
      with 0 at [-h], with 1 at [--port] without a value, with 2 at an
      unknown option.  Nothing is touched then; the PID file of the
      watchdog, in particular, stays.
    - Once the options are read, the PID file of the watchdog is gone in
      every case and the exit status is 0 or 1.  Status 0: no PID file,
      no lock file, the terminal snapshot is written, and if a process
      was found on the port then [kill -0] was seen to fail for it.
      Status 1: a process was found on the port, and the PID file, the
      lock file and the HealthState file are exactly as before the run. *)
Theorem X3_stop_outcome (e : Proc.env) (env_port : string)
  (args : list string) (s : Proc.state) :
  let r := StopCli.stop_sh e env_port args s in
  (fst r = 0 \/ fst r = 1 \/ fst r = 2) /\
  (forall code,
     StopCli.parse_args args (StopCli.defaults env_port) = Sh.Exit code ->
     r = (code, s) /\ (code = 0 \/ code = 1 \/ code = 2)) /\
  (forall c,
     StopCli.parse_args args (StopCli.defaults env_port) = Sh.Ret c ->
     Proc.watchdog_pid_file (Proc.fs (snd r)) = None /\
     (fst r = 0 \/ fst r = 1) /\
     (fst r = 0 ->
        stopped_files (Proc.fs (snd r)) (Stop.PORT c) /\
        (Sh.nonempty (stop_victim e c s) = true ->
           exists t, (Proc.tick s <= t < Proc.tick (snd r))%nat /\
                     Proc.kill0 e t (stop_victim e c s) = false)) /\
     (fst r = 1 ->
        Sh.nonempty (stop_victim e c s) = true /\
        Proc.lock_file (Proc.fs (snd r)) = Proc.lock_file (Proc.fs s) /\
        Proc.pid_file (Proc.fs (snd r)) = Proc.pid_file (Proc.fs s) /\
        Proc.state_file (Proc.fs (snd r)) = Proc.state_file (Proc.fs s))).
Proof.
  intros r. subst r. unfold StopCli.stop_sh.
  destruct (StopCli.parse_args args (StopCli.defaults env_port))
    as [c | code] eqn:Hparse.
  - destruct (StopMore.stop_main_spec e c s) as (Hw & Hcase & _).
    assert (H01 : fst (Stop.main e c s) = 0 \/ fst (Stop.main e c s) = 1).
    { destruct Hcase as [(H0 & _) | (H1 & _)]; auto. }
    split; [destruct H01; auto |]. split; [intros code [=] |].
    intros c' [= <-]. split; [exact Hw |]. split; [exact H01 |].
    destruct Hcase as [(H0 & Hf & Hd) | (H1 & Hn & Hl & Hp & Hs)].
    + rewrite H0. split; [auto | discriminate].
    + rewrite H1. split; [discriminate | auto].
  - pose proof (StopMore.stop_parse_exit _ _ _ Hparse) as Hcode.
    cbn [fst]. split; [exact Hcode |]. split; [| intros c [=]].
    intros code' [= <-]. split; [reflexivity | exact Hcode].
Qed.

(* ===================================================================== *)
(** * What a run may do: signals, commands and waiting *)
(* ===================================================================== *)

Module EffectProps.
Import Proc Effects Steps.

Lemma bounded_nil n sigs spawns runs :
  0 <= n -> bounded [] n sigs spawns runs.
Proof.
  intros Hn. unfold bounded. cbn.
  repeat split; try lia; intros; contradiction.
Qed.

Lemma bounded_app a b n m sigs spawns runs :
  bounded a n sigs spawns runs -> bounded b m sigs spawns runs ->
  bounded (a ++ b) (n + m) sigs spawns runs.
Proof.
  intros (Sa & Ga & Pa & Ra) (Sb & Gb & Pb & Rb). unfold bounded.
  rewrite sleep_total_app. repeat split; try lia.
  - intros sig pid H. apply in_app_or in H. destruct H; auto.
  - intros cmd H. apply in_app_or in H. destruct H; auto.
  - intros cmd H. apply in_app_or in H. destruct H; auto.
Qed.

Lemma bounded_weaken a n m (sigs sigs' : string -> string -> Prop)
  (spawns spawns' runs runs' : string -> Prop) :
  bounded a n sigs spawns runs ->
  n <= m ->
  (forall sig pid, sigs sig pid -> sigs' sig pid) ->
  (forall cmd, spawns cmd -> spawns' cmd) ->
  (forall cmd, runs cmd -> runs' cmd) ->
  bounded a m sigs' spawns' runs'.
Proof.
  intros (Sa & Ga & Pa & Ra) Hn Hs Hp Hr. unfold bounded.
  repeat split; try lia; auto.
Qed.

Lemma bounded_le a n m sigs spawns runs :
  n <= m -> bounded a n sigs spawns runs -> bounded a m sigs spawns runs.
Proof.
  intros Hn H. eapply bounded_weaken; [exact H | exact Hn | | |]; auto.
Qed.

Lemma bounded_sleep k sigs spawns runs :
  0 <= k -> bounded [Sleep k] k sigs spawns runs.
Proof.
  intros Hk. unfold bounded. cbn. repeat split; try lia.
  - intros ? ? [[=] | []].
  - intros ? [[=] | []].
  - intros ? [[=] | []].
Qed.

Lemma bounded_sleep1 sigs spawns runs :
  bounded [Sleep 1] 1 sigs spawns runs.
Proof. apply bounded_sleep. lia. Qed.

Lemma bounded_sleeps k sigs spawns runs :
  bounded (repeat (Sleep 1) k) (Z.of_nat k) sigs spawns runs.
Proof.
  unfold bounded. rewrite sleep_total_repeat. repeat split; try lia.
  - intros ? ? H. apply repeat_spec in H. discriminate.
  - intros ? H. apply repeat_spec in H. discriminate.
  - intros ? H. apply repeat_spec in H. discriminate.
Qed.

Lemma bounded_signal sig pid (sigs : string -> string -> Prop) spawns runs :
  sigs sig pid -> bounded [Signal sig pid] 0 sigs spawns runs.
Proof.
  intros H. unfold bounded. cbn. repeat split; try lia.
  - intros sig' pid' [[= <- <-] | []]. exact H.
  - intros ? [[=] | []].
  - intros ? [[=] | []].
Qed.

Lemma bounded_spawn cmd sigs (spawns : string -> Prop) runs :
  spawns cmd -> bounded [Spawn cmd] 0 sigs spawns runs.
Proof.
  intros H. unfold bounded. cbn. repeat split; try lia.
  - intros ? ? [[=] | []].
  - intros ? [[= <-] | []]. exact H.
  - intros ? [[=] | []].
Qed.

Lemma bounded_run cmd sigs spawns (runs : string -> Prop) :
  runs cmd -> bounded [Run cmd] 0 sigs spawns runs.
Proof.
  intros H. unfold bounded. cbn. repeat split; try lia.
  - intros ? ? [[=] | []].
  - intros ? [[=] | []].
  - intros ? [[= <-] | []]. exact H.
Qed.

Lemma bounded_lookup tool port sigs spawns runs :
  bounded [PidLookup tool port] 0 sigs spawns runs.
Proof.
  unfold bounded. cbn. repeat split; try lia.
  - intros ? ? [[=] | []].
  - intros ? [[=] | []].
  - intros ? [[=] | []].
Qed.

Lemma bounded_http tool host port sigs spawns runs :
  bounded [HttpProbe tool host port] 0 sigs spawns runs.
Proof.
  unfold bounded. cbn. repeat split; try lia.
  - intros ? ? [[=] | []].
  - intros ? [[=] | []].
  - intros ? [[=] | []].
Qed.

(** The lookup as an effect. *)
Lemma find_bounded e port s sigs spawns runs :
  exists a,
    ext s (snd (find_process_on_port e port s)) a /\
    bounded a 0 sigs spawns runs.
Proof.
  destruct (find_spec e port s) as (_ & a & E & Ha).
  exists a. split; [exact E |].
  destruct Ha as [-> | (tool & ->)];
    [apply bounded_nil; lia | apply bounded_lookup].
Qed.

(** Killing [pid] gracefully as an effect: at most 11 seconds, TERM and
    KILL for [pid] only. *)
Lemma kill_bounded e pid s :
  exists a,
    ext s (snd (kill_process_gracefully e pid s)) a /\
    bounded a 11
      (fun sig p => p = pid /\ (sig = "TERM" \/ sig = "KILL"))
      nothing nothing.
Proof.
  destruct (kill_gracefully_spec e pid s)
    as (_ & _ & k & tail & Hk & Ht & E & _).
  eexists. split; [exact E |].
  change (Signal "TERM" pid :: repeat (Sleep 1) k ++ tail)
    with ([Signal "TERM" pid] ++ repeat (Sleep 1) k ++ tail)%list.
  apply (bounded_le _ (0 + (Z.of_nat k + 1))); [lia |].
  apply bounded_app; [apply bounded_signal; auto |].
  apply bounded_app; [apply bounded_sleeps |].
  destruct Ht as [-> | ->]; [apply bounded_nil; lia |].
  change [Signal "KILL" pid; Sleep 1]
    with ([Signal "KILL" pid] ++ [Sleep 1])%list.
  apply (bounded_le _ (0 + 1)); [lia |].
  apply bounded_app; [apply bounded_signal; auto | apply bounded_sleep1].
Qed.

End EffectProps.

(* ===================================================================== *)
(** * Further properties of start.sh *)
(* ===================================================================== *)

Module StartMore.
Import Proc Effects Steps EffectProps.

(** [acquire_lock] answers 3 and changes nothing, or answers 0 and leaves
    a lock file with the caller's PID; it runs no command. *)
Lemma acquire_lock_spec e s :
  ext s (snd (Start.acquire_lock e s)) [] /\
  ((fst (Start.acquire_lock e s) = 3 /\
    fs (snd (Start.acquire_lock e s)) = fs s) \/
   (fst (Start.acquire_lock e s) = 0 /\
    fs (snd (Start.acquire_lock e s))
    = set_lock (Some (self_pid e)) (fs s))).
Proof.
  unfold Start.acquire_lock.
  destruct (lock_file (fs s)) as [lock_pid |].
  - destruct (Sh.nonempty lock_pid).
    + unfold observe. cbn [fst snd].
      destruct (kill0 e (tick s) lock_pid); cbn [fst snd set_fs fs].
      * split; [| left; now split].
        split; simpl; [now rewrite app_nil_r | lia].
      * split; [| right; now split].
        split; simpl; [now rewrite app_nil_r | lia].
    + cbn [fst snd set_fs fs]. split; [| right; now split].
      split; simpl; [now rewrite app_nil_r | lia].
  - cbn [fst snd set_fs fs]. split; [| right; now split].
    split; simpl; [now rewrite app_nil_r | lia].
Qed.

(** [stop_existing]: the lock, the HealthState file and the watchdog's
    PID file stay, the PID file stays or is removed; signals go to the
    process found on the port and only under [--force]; at most 13
    seconds are slept.  A process on the port without [--force] is status
    1 with nothing changed and nothing done but the lookup. *)
Lemma stop_existing_spec e c s :
  let existing := fst (find_process_on_port e (Start.PORT c) s) in
  (fst (Start.stop_existing e c s) = 0 \/
   fst (Start.stop_existing e c s) = 1) /\
  lock_file (fs (snd (Start.stop_existing e c s))) = lock_file (fs s) /\
  state_file (fs (snd (Start.stop_existing e c s))) = state_file (fs s) /\
  watchdog_pid_file (fs (snd (Start.stop_existing e c s)))
  = watchdog_pid_file (fs s) /\
  (pid_file (fs (snd (Start.stop_existing e c s))) = pid_file (fs s) \/
   pid_file (fs (snd (Start.stop_existing e c s))) = None) /\
  (exists a,
      ext s (snd (Start.stop_existing e c s)) a /\
      bounded a 13
        (fun sig p => Start.FORCE c = true /\ p = existing /\
                      (sig = "TERM" \/ sig = "KILL"))
        nothing nothing) /\
  (Sh.nonempty existing = true -> Start.FORCE c = false ->
     fst (Start.stop_existing e c s) = 1 /\
     fs (snd (Start.stop_existing e c s)) = fs s /\
     forallb is_lookup (added s (snd (Start.stop_existing e c s))) = true).
Proof.
  intros existing. subst existing. unfold Start.stop_existing.
  destruct (find_spec e (Start.PORT c) s) as (Ff & la & El & Hla).
  assert (Bl : forall sigs spawns runs, bounded la 0 sigs spawns runs).
  { intros. destruct Hla as [-> | (tool & ->)];
      [apply bounded_nil; lia | apply bounded_lookup]. }
  destruct (find_process_on_port e (Start.PORT c) s) as [pid s1].
  cbn [fst snd] in *.
  destruct (Sh.nonempty pid) eqn:Hn.
  - destruct (Start.FORCE c) eqn:Hf.
    + destruct (kill_gracefully_spec e pid s1) as (Fk & Hst & _).
      destruct (kill_bounded e pid s1) as (ka & Ek & Bk).
      destruct (kill_process_gracefully e pid s1) as [st s2].
      cbn [fst snd] in *.
      destruct Hst as [-> | ->]; cbn [Z.eqb].
      * assert (E3 : ext s (emit (Sleep 2) s2) (la ++ ka ++ [Sleep 2])).
        { eapply ext_trans; [exact El |].
          eapply ext_trans; [exact Ek | apply ext_emit]. }
        assert (B3 : bounded (la ++ ka ++ [Sleep 2]) 13
                  (fun sig p => true = true /\ p = pid /\
                                (sig = "TERM" \/ sig = "KILL"))
                  nothing nothing).
        { apply (bounded_le _ (0 + (11 + 2))); [lia |].
          apply bounded_app; [apply Bl |].
          apply bounded_app; [| apply bounded_sleep; lia].
          eapply bounded_weaken; [exact Bk | lia | | |]; cbn; auto. }
        assert (F3 : fs (emit (Sleep 2) s2) = fs s).
        { cbn [emit fs]. congruence. }
        destruct (pid_file (fs (emit (Sleep 2) s2))) as [file_pid |] eqn:Ep.
        -- destruct (Sh.nonempty file_pid).
           ++ unfold observe. cbn [fst snd].
              destruct (kill0 e (tick (emit (Sleep 2) s2)) file_pid);
                cbn [fst snd set_fs fs set_pid lock_file state_file
                     watchdog_pid_file pid_file];
                rewrite ?F3; (split; [now left |]);
                (split; [reflexivity |]); (split; [reflexivity |]);
                (split; [reflexivity |]).
              ** split; [left; rewrite <- F3; reflexivity |]. split.
                 { exists (la ++ ka ++ [Sleep 2])%list. split; [| exact B3].
                   destruct E3 as [T3 K3]. split; [exact T3 | nlia]. }
                 intros _ [=].
              ** split; [now right |]. split.
                 { exists (la ++ ka ++ [Sleep 2])%list. split; [| exact B3].
                   destruct E3 as [T3 K3]. split; [exact T3 | nlia]. }
                 intros _ [=].
           ++ cbn [fst snd]. rewrite F3. split; [now left |].
              repeat (split; [reflexivity |]). split; [now left |]. split.
              { exists (la ++ ka ++ [Sleep 2])%list. now split. }
              intros _ [=].
        -- cbn [fst snd]. rewrite F3. split; [now left |].
           repeat (split; [reflexivity |]). split; [now left |]. split.
           { exists (la ++ ka ++ [Sleep 2])%list. now split. }
           intros _ [=].
      * cbn [fst snd]. assert (F2 : fs s2 = fs s) by congruence.
        rewrite F2. split; [now right |].
        repeat (split; [reflexivity |]). split; [now left |]. split.
        { exists (la ++ ka)%list. split; [eapply ext_trans; eassumption |].
          apply (bounded_le _ (0 + 11)); [lia |].
          apply bounded_app; [apply Bl |].
          eapply bounded_weaken; [exact Bk | lia | | |]; cbn; auto. }
        intros _ [=].
    + cbn [Z.eqb fst snd]. rewrite Ff. split; [now right |].
      repeat (split; [reflexivity |]). split; [now left |]. split.
      { exists la. split; [exact El |].
        apply (bounded_le _ 0); [lia | apply Bl]. }
      intros _ _. split; [reflexivity |]. split; [reflexivity |].
      rewrite (ext_added _ _ _ El).
      destruct Hla as [-> | (tool & ->)]; reflexivity.
  - cbn [Z.eqb].
    assert (B1 : bounded la 13
              (fun sig p => Start.FORCE c = true /\ p = pid /\
                            (sig = "TERM" \/ sig = "KILL"))
              nothing nothing).
    { apply (bounded_le _ 0); [lia | apply Bl]. }
    destruct (pid_file (fs s1)) as [file_pid |] eqn:Ep.
    + destruct (Sh.nonempty file_pid).
      * unfold observe. cbn [fst snd].
        destruct (kill0 e (tick s1) file_pid);
          cbn [fst snd set_fs fs set_pid lock_file state_file
               watchdog_pid_file pid_file];
          rewrite ?Ff; (split; [now left |]);
          (split; [reflexivity |]); (split; [reflexivity |]);
          (split; [reflexivity |]).
        -- split; [left; rewrite <- Ff; reflexivity |]. split.
           { exists la. split; [| exact B1].
             destruct El as [T1 K1]. split; [exact T1 | nlia]. }
           intros [=].
        -- split; [now right |]. split.
           { exists la. split; [| exact B1].
             destruct El as [T1 K1]. split; [exact T1 | nlia]. }
           intros [=].
      * cbn [fst snd]. rewrite Ff. split; [now left |].
        repeat (split; [reflexivity |]). split; [now left |]. split.
        { exists la. now split. }
        intros [=].
    + cbn [fst snd]. rewrite Ff. split; [now left |].
      repeat (split; [reflexivity |]). split; [now left |]. split.
      { exists la. now split. }
      intros [=].
Qed.

Lemma wait_for_healthy_S e port k s :
  Start.wait_for_healthy e port (S k) s =
  let '(pid, s2) :=
    find_process_on_port e port (emit (Sleep Start.HEALTH_INTERVAL) s) in
  if Sh.nonempty pid then
    if has_curl e then
      let s3 := mkState (fs s2) (S (tick s2))
                  (trace s2 ++ [HttpProbe "curl" "127.0.0.1" port]) in
      if Sh.http_code_ok (curl_out e (tick s2) port)
      then (Some pid, s3)
      else Start.wait_for_healthy e port k s3
    else (Some pid, s2)
  else Start.wait_for_healthy e port k s2.
Proof. reflexivity. Qed.

(** [wait_for_healthy]: five seconds per round, nothing but sleeping,
    looking up and probing; a PID is answered only when it is not empty
    and, with curl installed, only after curl printed a 2xx or 3xx
    code. *)
Lemma wait_for_healthy_spec e port : forall retries s,
  fs (snd (Start.wait_for_healthy e port retries s)) = fs s /\
  (exists a,
      ext s (snd (Start.wait_for_healthy e port retries s)) a /\
      bounded a (5 * Z.of_nat retries) nobody nothing nothing /\
      (forall pid,
          fst (Start.wait_for_healthy e port retries s) = Some pid ->
          has_curl e = true ->
          In (HttpProbe "curl" "127.0.0.1" port) a)) /\
  (forall pid,
      fst (Start.wait_for_healthy e port retries s) = Some pid ->
      Sh.nonempty pid = true /\
      (has_curl e = true ->
         exists t,
           (tick s <= t
            < tick (snd (Start.wait_for_healthy e port retries s)))%nat /\
           Sh.http_code_ok (curl_out e t port) = true)).
Proof.
  induction retries as [| k IH]; intros s.
  - cbn [Start.wait_for_healthy fst snd]. split; [reflexivity |]. split.
    + exists []. split; [apply ext_refl |]. split.
      * apply bounded_nil. lia.
      * intros pid [=].
    + intros pid [=].
  - rewrite wait_for_healthy_S.
    destruct (find_spec e port (emit (Sleep Start.HEALTH_INTERVAL) s))
      as (Ff & la & El & Hla).
    assert (Bl : bounded la 0 nobody nothing nothing).
    { destruct Hla as [-> | (tool & ->)];
        [apply bounded_nil; lia | apply bounded_lookup]. }
    destruct (find_process_on_port e port
                (emit (Sleep Start.HEALTH_INTERVAL) s)) as [pid s2].
    cbn [fst snd emit fs] in Ff, El.
    assert (E2 : ext s s2 ([Sleep 5] ++ la)).
    { eapply ext_trans; [apply ext_emit | exact El]. }
    assert (B2 : bounded ([Sleep 5] ++ la) (5 + 0) nobody nothing nothing).
    { apply bounded_app; [apply bounded_sleep; lia | exact Bl]. }
    destruct (Sh.nonempty pid) eqn:Hn.
    + destruct (has_curl e) eqn:Hc.
      * set (s3 := mkState (fs s2) (S (tick s2))
                     (trace s2 ++ [HttpProbe "curl" "127.0.0.1" port])).
        assert (E3 : ext s s3
                  (([Sleep 5] ++ la)
                     ++ [HttpProbe "curl" "127.0.0.1" port])).
        { eapply ext_trans; [exact E2 |]. split; cbn; [reflexivity | lia]. }
        assert (B3 : bounded
                  (([Sleep 5] ++ la) ++ [HttpProbe "curl" "127.0.0.1" port])
                  (5 + 0 + 0) nobody nothing nothing).
        { apply bounded_app; [exact B2 | apply bounded_http]. }
        cbv zeta.
        destruct (Sh.http_code_ok (curl_out e (tick s2) port)) eqn:Hok.
        -- cbn [fst snd]. split; [exact Ff |]. split.
           ++ eexists. split; [exact E3 |]. split.
              ** apply (bounded_le _ (5 + 0 + 0)); [lia | exact B3].
              ** intros _ _ _. apply in_or_app. right. now left.
           ++ intros p [= <-]. split; [exact Hn |]. intros _.
              exists (tick s2). split; [| exact Hok].
              destruct E2 as [_ K2]. subst s3. nlia.
        -- destruct (IH s3) as (Fk & (a & Ea & Ba & Ia) & Hk).
           split; [rewrite Fk; exact Ff |]. split.
           ++ eexists. split; [eapply ext_trans; [exact E3 | exact Ea] |].
              split.
              ** apply (bounded_le _ ((5 + 0 + 0) + 5 * Z.of_nat k));
                   [lia | now apply bounded_app].
              ** intros p Hp Hcurl. apply in_or_app. left.
                 apply in_or_app. right. now left.
           ++ intros p Hp. destruct (Hk p Hp) as [Hne Hprobe].
              split; [exact Hne |]. intros Hcurl.
              destruct (Hprobe Hcurl) as (t & Ht & Hok').
              exists t. split; [| exact Hok'].
              destruct E3 as [_ K3]. nlia.
      * cbn [fst snd]. split; [exact Ff |]. split.
        -- eexists. split; [exact E2 |]. split.
           ++ apply (bounded_le _ (5 + 0)); [lia | exact B2].
           ++ intros _ _ [=].
        -- intros p [= <-]. split; [exact Hn |]. intros [=].
    + destruct (IH s2) as (Fk & (a & Ea & Ba & Ia) & Hk).
      split; [rewrite Fk; exact Ff |]. split.
      * eexists. split; [eapply ext_trans; [exact E2 | exact Ea] |]. split.
        -- apply (bounded_le _ ((5 + 0) + 5 * Z.of_nat k));
             [lia | now apply bounded_app].
        -- intros p Hp Hcurl. apply in_or_app. right. eauto.
      * intros p Hp. destruct (Hk p Hp) as [Hne Hprobe].
        split; [exact Hne |]. intros Hcurl.
        destruct (Hprobe Hcurl) as (t & Ht & Hok').
        exists t. split; [| exact Hok'].
        destruct E2 as [_ K2]. nlia.
Qed.

Lemma start_server_eq e mode port host s :
  Start.start_server e mode port host s =
  match Start.wait_for_healthy e port Start.HEALTH_RETRIES
          (mkState (fs s) (S (tick s))
             (trace s ++ [Spawn (Start.server_cmd mode port host)])) with
  | (None, s2) =>
      (1, if kill0 e (tick s2) (spawn_pid e (tick s))
          then mkState (fs s2) (S (tick s2))
                 (trace s2 ++ [Signal "TERM" (spawn_pid e (tick s))])
          else mkState (fs s2) (S (tick s2)) (trace s2))
  | (Some pid, s2) =>
      (0, mkState
            (set_state
               (Some (started_snapshot (date_utc e (tick s2)) host port pid
                        mode))
               (set_pid (Some pid) (fs s2)))
            (S (tick s2)) (trace s2))
  end.
Proof.
  unfold Start.start_server, observe. cbn [fst snd emit tick fs trace].
  destruct (Start.wait_for_healthy e port Start.HEALTH_RETRIES _)
    as [[pid |] s2]; [reflexivity |].
  now destruct (kill0 e (tick s2) (spawn_pid e (tick s))).
Qed.

(** [start_server]: one server is launched; at most 30 seconds are slept;
    the only signal is a TERM for the launched process, after a failure.
    Status 0 writes the PID file and the snapshot for the PID found on the
    port; status 1 leaves the files alone. *)
Lemma start_server_spec e mode port host s :
  (fst (Start.start_server e mode port host s) = 0 \/
   fst (Start.start_server e mode port host s) = 1) /\
  (exists a,
      ext s (snd (Start.start_server e mode port host s)) a /\
      bounded a 30
        (fun sig p => sig = "TERM" /\ p = spawn_pid e (tick s) /\
                      fst (Start.start_server e mode port host s) = 1)
        (fun cmd => cmd = Start.server_cmd mode port host)
        nothing /\
      In (Spawn (Start.server_cmd mode port host)) a /\
      (fst (Start.start_server e mode port host s) = 0 ->
       has_curl e = true -> In (HttpProbe "curl" "127.0.0.1" port) a)) /\
  (fst (Start.start_server e mode port host s) = 0 ->
     exists pid ts,
       Sh.nonempty pid = true /\
       fs (snd (Start.start_server e mode port host s))
       = set_state (Some (started_snapshot ts host port pid mode))
           (set_pid (Some pid) (fs s)) /\
       (has_curl e = true ->
          exists t,
            (tick s <= t
             < tick (snd (Start.start_server e mode port host s)))%nat /\
            Sh.http_code_ok (curl_out e t port) = true)) /\
  (fst (Start.start_server e mode port host s) = 1 ->
     fs (snd (Start.start_server e mode port host s)) = fs s).
Proof.
  rewrite start_server_eq.
  set (s1 := mkState (fs s) (S (tick s))
               (trace s ++ [Spawn (Start.server_cmd mode port host)])).
  assert (E1 : ext s s1 [Spawn (Start.server_cmd mode port host)]).
  { split; cbn; [reflexivity | lia]. }
  destruct (wait_for_healthy_spec e port Start.HEALTH_RETRIES s1)
    as (Fw & (wa & Ew & Bw & Iw) & Hw).
  destruct (Start.wait_for_healthy e port Start.HEALTH_RETRIES s1)
    as [[pid |] s2]; cbn [fst snd] in *.
  - split; [now left |]. split.
    + exists ([Spawn (Start.server_cmd mode port host)] ++ wa)%list.
      split; [| split; [| split]].
      * destruct (ext_trans _ _ _ _ _ E1 Ew) as [T K].
        split; [exact T | cbn; lia].
      * apply (bounded_le _ (0 + 5 * Z.of_nat Start.HEALTH_RETRIES));
          [cbn; lia |].
        apply bounded_app; [now apply bounded_spawn |].
        eapply bounded_weaken; [exact Bw | lia | | |];
          intros; contradiction.
      * now left.
      * intros _ Hc. right. now apply (Iw pid).
    + split; [| intros [=]]. intros _.
      destruct (Hw pid eq_refl) as [Hn Hprobe].
      exists pid, (date_utc e (tick s2)). split; [exact Hn |]. split.
      * cbn [fs]. rewrite Fw. reflexivity.
      * intros Hc. destruct (Hprobe Hc) as (t & Ht & Hok).
        exists t. split; [| exact Hok]. subst s1. cbn [tick] in *. lia.
  - assert (E3 : ext s (mkState (fs s2) (S (tick s2)) (trace s2))
                   ([Spawn (Start.server_cmd mode port host)] ++ wa)).
    { destruct (ext_trans _ _ _ _ _ E1 Ew) as [T K].
      split; [exact T | cbn; lia]. }
    assert (B3 : forall st,
              bounded ([Spawn (Start.server_cmd mode port host)] ++ wa) 30
                (fun sig p => sig = "TERM" /\ p = spawn_pid e (tick s) /\
                              st = 1)
                (fun cmd => cmd = Start.server_cmd mode port host) nothing).
    { intros st.
      apply (bounded_le _ (0 + 5 * Z.of_nat Start.HEALTH_RETRIES));
        [cbn; lia |].
      apply bounded_app; [now apply bounded_spawn |].
      eapply bounded_weaken; [exact Bw | lia | | |];
        intros; contradiction. }
    destruct (kill0 e (tick s2) (spawn_pid e (tick s))); cbn [fst snd].
    + split; [now right |]. split.
      * exists (([Spawn (Start.server_cmd mode port host)] ++ wa)
                  ++ [Signal "TERM" (spawn_pid e (tick s))])%list.
        split; [| split; [| split]].
        -- destruct E3 as [T K]. split; cbn [trace tick] in *;
             [rewrite T, <- app_assoc; reflexivity | lia].
        -- apply (bounded_le _ (30 + 0)); [lia |].
           apply bounded_app; [apply B3 | now apply bounded_signal].
        -- apply in_or_app. left. now left.
        -- intros [=].
      * split; [intros [=] |]. intros _. cbn [fs]. exact Fw.
    + split; [now right |]. split.
      * exists ([Spawn (Start.server_cmd mode port host)] ++ wa)%list.
        split; [exact E3 |]. split; [apply B3 |].
        split; [now left | intros [=]].
      * split; [intros [=] |]. intros _. cbn [fs]. exact Fw.
Qed.

Lemma clean_step_spec c s :
  fst (if Start.CLEAN c then Start.clean_build s else (0, s)) = 0 /\
  fs (snd (if Start.CLEAN c then Start.clean_build s else (0, s))) = fs s /\
  exists a,
    ext s (snd (if Start.CLEAN c then Start.clean_build s else (0, s))) a /\
    forall sigs spawns, bounded a 0 sigs spawns (start_runs c).
Proof.
  destruct (Start.CLEAN c) eqn:Hc; cbn [fst snd Start.clean_build emit fs].
  - split; [reflexivity |]. split; [reflexivity |].
    exists [Run "rm -rf dist .vite .tanstack"]. split; [apply ext_emit |].
    intros. apply bounded_run. left. now split.
  - split; [reflexivity |]. split; [reflexivity |].
    exists []. split; [apply ext_refl |]. intros. apply bounded_nil. lia.
Qed.

Lemma run_build_spec e c s :
  (fst (Start.run_build e c s) = 0 \/ fst (Start.run_build e c s) = 1) /\
  fs (snd (Start.run_build e c s)) = fs s /\
  exists a,
    ext s (snd (Start.run_build e c s)) a /\
    forall sigs spawns, bounded a 0 sigs spawns (start_runs c).
Proof.
  unfold Start.run_build.
  destruct (String.eqb (Start.MODE c) "preview") eqn:Hm;
    destruct (Start.BUILD c) eqn:Hb; cbn [negb orb fst snd];
    try (split; [now left |]; split; [reflexivity |];
         exists []; split; [apply ext_refl |];
         intros; apply bounded_nil; lia).
  unfold observe. cbn [fst snd emit fs tick trace].
  split; [destruct (build_ok e (tick s)); auto |]. split; [reflexivity |].
  exists [Run "npm run build"]. split.
  - split; cbn; [reflexivity | lia].
  - intros. apply bounded_run. right. auto.
Qed.

(** Everything [start.sh] does once it holds the lock. *)
Lemma main_locked_spec e c s :
  let existing := fst (find_process_on_port e (Start.PORT c) s) in
  (fst (Start.main_locked e c s) = 0 \/
   fst (Start.main_locked e c s) = 1) /\
  lock_file (fs (snd (Start.main_locked e c s))) = lock_file (fs s) /\
  watchdog_pid_file (fs (snd (Start.main_locked e c s)))
  = watchdog_pid_file (fs s) /\
  (exists a,
      ext s (snd (Start.main_locked e c s)) a /\
      bounded a 43
        (start_sigs e c existing (fst (Start.main_locked e c s) = 1))
        (start_spawns c) (start_runs c) /\
      (fst (Start.main_locked e c s) = 0 ->
         In (Spawn (Start.server_cmd (Start.MODE c) (Start.PORT c)
                      (Start.HOST c))) a /\
         (has_curl e = true ->
            In (HttpProbe "curl" "127.0.0.1" (Start.PORT c)) a))) /\
  (fst (Start.main_locked e c s) = 0 ->
     exists pid ts,
       Sh.nonempty pid = true /\
       pid_file (fs (snd (Start.main_locked e c s))) = Some pid /\
       state_file (fs (snd (Start.main_locked e c s)))
       = Some (started_snapshot ts (Start.HOST c) (Start.PORT c) pid
                 (Start.MODE c)) /\
       (has_curl e = true ->
          exists t,
            (tick s <= t < tick (snd (Start.main_locked e c s)))%nat /\
            Sh.http_code_ok (curl_out e t (Start.PORT c)) = true)) /\
  (fst (Start.main_locked e c s) = 1 ->
     state_file (fs (snd (Start.main_locked e c s))) = state_file (fs s) /\
     (pid_file (fs (snd (Start.main_locked e c s))) = pid_file (fs s) \/
      pid_file (fs (snd (Start.main_locked e c s))) = None)).
Proof.
  intros existing. unfold Start.main_locked.
  destruct (stop_existing_spec e c s)
    as (Hst1 & L1 & S1 & W1 & P1 & (a1 & E1 & B1) & _).
  fold existing in B1.
  destruct (Start.stop_existing e c s) as [st1 s1]. cbn [fst snd] in *.
  assert (B1' : forall failed,
            bounded a1 13 (start_sigs e c existing failed)
                    (start_spawns c) (start_runs c)).
  { intros failed. eapply bounded_weaken; [exact B1 | lia | | |].
    - intros sig p H. left. exact H.
    - intros cmd [].
    - intros cmd []. }
  destruct Hst1 as [-> | ->]; cbn [Z.eqb negb].
  2:{ cbn [fst snd]. split; [now right |]. split; [exact L1 |].
      split; [exact W1 |]. split.
      - exists a1. split; [exact E1 |]. split.
        + apply (bounded_le _ 13); [lia | apply B1'].
        + intros [=].
      - split; [intros [=] |]. intros _. now split. }
  destruct (clean_step_spec c s1) as (Hst2 & F2 & a2 & E2 & B2).
  destruct (if Start.CLEAN c then Start.clean_build s1 else (0, s1))
    as [st2 s2].
  cbn [fst snd] in *. subst st2. cbn [Z.eqb negb].
  destruct (run_build_spec e c s2) as (Hst3 & F3 & a3 & E3 & B3).
  destruct (Start.run_build e c s2) as [st3 s3]. cbn [fst snd] in *.
  assert (E13 : ext s s3 (a1 ++ a2 ++ a3)).
  { eapply ext_trans; [exact E1 |]. eapply ext_trans; eassumption. }
  assert (B13 : forall failed,
            bounded (a1 ++ a2 ++ a3) (13 + (0 + 0))
              (start_sigs e c existing failed)
              (start_spawns c) (start_runs c)).
  { intros failed. apply bounded_app; [apply B1' |].
    apply bounded_app; [apply B2 | apply B3]. }
  assert (F13 : fs s3 = fs s1) by congruence.
  destruct Hst3 as [-> | ->]; cbn [Z.eqb negb].
  2:{ cbn [fst snd]. rewrite F13. split; [now right |].
      split; [exact L1 |]. split; [exact W1 |]. split.
      - exists (a1 ++ a2 ++ a3)%list. split; [exact E13 |]. split.
        + apply (bounded_le _ (13 + (0 + 0))); [lia | apply B13].
        + intros [=].
      - split; [intros [=] |]. intros _. now split. }
  destruct (start_server_spec e (Start.MODE c) (Start.PORT c) (Start.HOST c)
              s3) as (Hst4 & (a4 & E4 & B4 & I4 & C4) & H0 & H1).
  destruct (Start.start_server e (Start.MODE c) (Start.PORT c) (Start.HOST c)
              s3) as [st4 s4].
  cbn [fst snd] in *.
  assert (E14 : ext s s4 ((a1 ++ a2 ++ a3) ++ a4)).
  { eapply ext_trans; eassumption. }
  destruct Hst4 as [-> | ->]; cbn [Z.eqb negb fst snd].
  - destruct (H0 eq_refl) as (pid & ts & Hn & F4 & Hprobe).
    rewrite F4. cbn [set_state set_pid lock_file watchdog_pid_file
                     pid_file state_file].
    rewrite F13. split; [now left |]. split; [exact L1 |].
    split; [exact W1 |]. split.
    + exists ((a1 ++ a2 ++ a3) ++ a4)%list. split; [exact E14 |]. split.
      * apply (bounded_le _ ((13 + (0 + 0)) + 30)); [lia |].
        apply bounded_app; [apply B13 |].
        eapply bounded_weaken; [exact B4 | lia | | |].
        -- intros sig p (_ & _ & [=]).
        -- intros cmd H. exact H.
        -- intros cmd [].
      * intros _. split.
        -- apply in_or_app. now right.
        -- intros Hc. apply in_or_app. right. now apply C4.
    + split; [| intros [=]]. intros _.
      exists pid, ts. split; [exact Hn |]. split; [reflexivity |].
      split; [reflexivity |]. intros Hc.
      destruct (Hprobe Hc) as (t & Ht & Hok). exists t.
      split; [| exact Hok]. destruct E13 as [_ K13]. lia.
  - rewrite (H1 eq_refl), F13. split; [now right |]. split; [exact L1 |].
    split; [exact W1 |]. split.
    + exists ((a1 ++ a2 ++ a3) ++ a4)%list. split; [exact E14 |]. split.
      * apply (bounded_le _ ((13 + (0 + 0)) + 30)); [lia |].
        apply bounded_app; [apply B13 |].
        eapply bounded_weaken; [exact B4 | lia | | |].
        -- intros sig p (-> & -> & _). right. split; [reflexivity |].
           split; [reflexivity |]. now exists (tick s3).
        -- intros cmd H. exact H.
        -- intros cmd [].
      * intros [=].
    + split; [intros [=] |]. intros _. now split.
Qed.

End StartMore.

Module StartScript.
Import Proc Effects Steps EffectProps StartMore.

(** The whole script in terms of [main_locked]. *)
Lemma script_cases e c s :
  (Start.valid_mode (Start.MODE c) = false /\
   Start.script e c s = (2, s)) \/
  (Start.valid_mode (Start.MODE c) = true /\
   fst (Start.acquire_lock e s) = 3 /\
   Start.script e c s = (3, snd (Start.acquire_lock e s)) /\
   fs (snd (Start.acquire_lock e s)) = fs s /\
   trace (snd (Start.acquire_lock e s)) = trace s) \/
  (Start.valid_mode (Start.MODE c) = true /\
   fst (Start.acquire_lock e s) = 0 /\
   fs (snd (Start.acquire_lock e s)) = set_lock (Some (self_pid e)) (fs s) /\
   ext s (snd (Start.acquire_lock e s)) [] /\
   Start.script e c s
   = (fst (Start.main_locked e c (snd (Start.acquire_lock e s))),
      Start.release_lock
        (snd (Start.main_locked e c (snd (Start.acquire_lock e s)))))).
Proof.
  unfold Start.script, Start.main.
  destruct (Start.valid_mode (Start.MODE c)); [| now left]. right.
  destruct (acquire_lock_spec e s) as (E & [[H3 F] | [H0 F]]).
  - left. destruct (Start.acquire_lock e s) as [st s1]. cbn [fst snd] in *.
    subst st. cbn. repeat split; try assumption.
    destruct E as [T _]. now rewrite app_nil_r in T.
  - right. destruct (Start.acquire_lock e s) as [st s1]. cbn [fst snd] in *.
    subst st. cbn [Z.eqb negb].
    destruct (Start.main_locked e c s1) as [code s2]. cbn. auto.
Qed.

(** The three ways the option loop of [start.sh] ends the script. *)
Lemma start_parse_exit : forall args c code,
  StartCli.parse_args args c = Sh.Exit code ->
  code = 0 \/ code = 1 \/ code = 2.
Proof.
  intros args. remember (length args) as n eqn:Hlen. revert args Hlen.
  induction n as [n IH] using lt_wf_ind. intros args Hlen c code H.
  destruct args as [| a rest]; [discriminate |].
  cbn [StartCli.parse_args] in H.
  assert (Two : forall c',
             match rest with
             | v :: rest' => StartCli.parse_args rest' (c' v)
             | [] => Sh.Exit 1
             end = Sh.Exit code -> code = 0 \/ code = 1 \/ code = 2).
  { intros c' H'. destruct rest as [| v rest']; [injection H' as <-; auto |].
    eapply (IH (length rest')); [| reflexivity | exact H'].
    subst n. simpl. lia. }
  assert (One : forall c',
             StartCli.parse_args rest c' = Sh.Exit code ->
             code = 0 \/ code = 1 \/ code = 2).
  { intros c' H'. eapply (IH (length rest)); [| reflexivity | exact H'].
    subst n. simpl. lia. }
  destruct (String.eqb a "-p" || String.eqb a "--port").
  { apply (Two (fun v => Start.mkConfig v (Start.HOST c) (Start.MODE c)
                           (Start.BUILD c) (Start.CLEAN c) (Start.FORCE c))).
    exact H. }
  destruct (String.eqb a "-H" || String.eqb a "--host").
  { apply (Two (fun v => Start.mkConfig (Start.PORT c) v (Start.MODE c)
                           (Start.BUILD c) (Start.CLEAN c) (Start.FORCE c))).
    exact H. }
  destruct (String.eqb a "-m" || String.eqb a "--mode").
  { apply (Two (fun v => Start.mkConfig (Start.PORT c) (Start.HOST c) v
                           (Start.BUILD c) (Start.CLEAN c) (Start.FORCE c))).
    exact H. }
  destruct (String.eqb a "--no-build"); [exact (One _ H) |].
  destruct (String.eqb a "--clean"); [exact (One _ H) |].
  destruct (String.eqb a "-f" || String.eqb a "--force"); [exact (One _ H) |].
  destruct (String.eqb a "-h" || String.eqb a "--help");
    injection H as <-; auto.
Qed.

End StartScript.

(** X4.  [start.sh] without [--force] refuses a port that is in use: when
    the lock can be taken and a process is found listening on the port,
    the script exits 1 after that one lookup.  It sends no signal, starts
    no server, runs no build; the PID file, the HealthState file and the
    watchdog's PID file are as before, and the lock file is removed. *)
Theorem X4_start_refuses_occupied_port
  (e : Proc.env) (c : Start.config) (s : Proc.state) :
  Start.valid_mode (Start.MODE c) = true ->
  fst (Start.acquire_lock e s) = 0 ->
  Start.FORCE c = false ->
  Sh.nonempty (start_occupant e c s) = true ->
  let r := Start.script e c s in
  fst r = 1 /\
  forallb is_lookup (added s (snd r)) = true /\
  Proc.pid_file (Proc.fs (snd r)) = Proc.pid_file (Proc.fs s) /\
  Proc.state_file (Proc.fs (snd r)) = Proc.state_file (Proc.fs s) /\
  Proc.watchdog_pid_file (Proc.fs (snd r))
  = Proc.watchdog_pid_file (Proc.fs s) /\
  Proc.lock_file (Proc.fs (snd r)) = None.
Proof.
  intros Hmode Hlock Hforce Hocc r. subst r.
  destruct (StartScript.script_cases e c s)
    as [[Hbad _] | [(_ & H3 & _) | (_ & _ & Fl & El & ->)]];
    [congruence | congruence |].
  unfold Start.main_locked.
  destruct (StartMore.stop_existing_spec e c (snd (Start.acquire_lock e s)))
    as (_ & _ & _ & _ & _ & _ & Hrefuse).
  destruct (Hrefuse Hocc Hforce) as (H1 & Ff & Hl).
  destruct (Start.stop_existing e c (snd (Start.acquire_lock e s)))
    as [st s1].
  cbn [fst snd] in *. subst st. cbn [Z.eqb negb fst snd].
  unfold Start.release_lock. cbn [Proc.set_fs Proc.fs].
  rewrite Ff, Fl. cbn. split; [reflexivity |]. split; [| auto].
  unfold added in *. cbn [Proc.trace Proc.set_fs].
  destruct El as [T _]. rewrite app_nil_r in T. rewrite T in Hl. exact Hl.
Qed.

(** X5.  The exit codes of [start.sh] and the lock.  The script ends with
    0, 1, 2 or 3.
    - It can end in its option loop, before anything is done: with 0 at
      [-h], with 1 at an option without its value, with 2 at an unknown
      option.  No file is touched then, so a lock file that was there
      stays.
    - Once the options are read: the exit status is 2 exactly when the
      mode is neither dev nor preview; after 0 or 1 no lock file is left
      (the EXIT trap has removed it); after 2 (bad mode) or 3 (lock held)
      no file has been touched and no command has been run. *)
Theorem X5_start_exit_codes_and_lock
  (e : Proc.env) (env_port env_host : string) (args : list string)
  (s : Proc.state) :
  let r := StartCli.start_sh e env_port env_host args s in
  (fst r = 0 \/ fst r = 1 \/ fst r = 2 \/ fst r = 3) /\
  (forall code,
     StartCli.parse_args args (StartCli.defaults env_port env_host)
     = Sh.Exit code ->
     r = (code, s) /\ (code = 0 \/ code = 1 \/ code = 2)) /\
  (forall c,
     StartCli.parse_args args (StartCli.defaults env_port env_host)
     = Sh.Ret c ->
     (fst r = 0 \/ fst r = 1 -> Proc.lock_file (Proc.fs (snd r)) = None) /\
     (fst r = 2 \/ fst r = 3 ->
        Proc.fs (snd r) = Proc.fs s /\ Proc.trace (snd r) = Proc.trace s) /\
     (fst r = 2 <-> Start.valid_mode (Start.MODE c) = false)).
Proof.
  intros r. subst r. unfold StartCli.start_sh.
  destruct (StartCli.parse_args args (StartCli.defaults env_port env_host))
    as [c | code] eqn:Hparse.
  2:{ pose proof (StartScript.start_parse_exit _ _ _ Hparse) as Hcode.
      cbn [fst]. split; [tauto |]. split; [| intros c [=]].
      intros code' [= <-]. split; [reflexivity | exact Hcode]. }
  assert (Main :
    (fst (Start.script e c s) = 0 \/ fst (Start.script e c s) = 1 \/
     fst (Start.script e c s) = 2 \/ fst (Start.script e c s) = 3) /\
    (fst (Start.script e c s) = 0 \/ fst (Start.script e c s) = 1 ->
     Proc.lock_file (Proc.fs (snd (Start.script e c s))) = None) /\
    (fst (Start.script e c s) = 2 \/ fst (Start.script e c s) = 3 ->
     Proc.fs (snd (Start.script e c s)) = Proc.fs s /\
     Proc.trace (snd (Start.script e c s)) = Proc.trace s) /\
    (fst (Start.script e c s) = 2 <->
     Start.valid_mode (Start.MODE c) = false)).
  { destruct (StartScript.script_cases e c s)
      as [[Hbad ->] | [(Hok & H3 & -> & F & T) | (Hok & _ & Fl & El & ->)]];
      cbn [fst snd].
    - split; [auto |]. split; [intros [[=] | [=]] |]. split; [auto |].
      split; auto.
    - split; [auto |]. split; [intros [[=] | [=]] |]. split; [auto |].
      split; [intros [=] | congruence].
    - destruct (StartMore.main_locked_spec e c (snd (Start.acquire_lock e s)))
        as (Hst & _).
      split; [destruct Hst as [-> | ->]; auto |].
      split; [intros _; reflexivity |]. split.
      + intros [H | H]; destruct Hst as [E | E]; rewrite E in H;
          discriminate.
      + split; [| congruence].
        intros H; destruct Hst as [E | E]; rewrite E in H; discriminate. }
  destruct Main as (M1 & M2 & M3 & M4).
  split; [exact M1 |]. split; [intros code [=] |].
  intros c' [= <-]. auto.
Qed.


(** X7.  What [start.sh] does to the machine, whatever happens.  The
    seconds it sleeps add up to at most 43.  A signal is either a TERM or
    KILL for the process found on the port, and then [--force] was given,
    or the TERM sent to the server the script launched itself after a
    failed start (exit 1).  The only server command launched is the one of
    the mode; the only commands run are the clean-up under [--clean] and
    the build in preview mode with the build enabled. *)
Theorem X7_start_effects (e : Proc.env) (c : Start.config) (s : Proc.state) :
  let r := Start.script e c s in
  let tr := added s (snd r) in
  0 <= sleep_total tr <= 43 /\
  (forall sig pid, In (Signal sig pid) tr ->
     (Start.FORCE c = true /\ pid = start_occupant e c s /\
      (sig = "TERM" \/ sig = "KILL")) \/
     (sig = "TERM" /\ fst r = 1 /\ exists t, pid = Proc.spawn_pid e t)) /\
  (forall cmd, In (Spawn cmd) tr ->
     cmd = Start.server_cmd (Start.MODE c) (Start.PORT c) (Start.HOST c)) /\
  (forall cmd, In (Run cmd) tr ->
     (cmd = "rm -rf dist .vite .tanstack" /\ Start.CLEAN c = true) \/
     (cmd = "npm run build" /\
      String.eqb (Start.MODE c) "preview" = true /\ Start.BUILD c = true)).
Proof.
  intros r tr. subst tr r.
  destruct (StartScript.script_cases e c s)
    as [[Hbad ->] | [(Hok & H3 & -> & F & T) | (Hok & _ & Fl & El & ->)]];
    cbn [fst snd].
  - unfold added. rewrite skipn_all. cbn.
    repeat split; try lia; intros; contradiction.
  - unfold added. rewrite T, skipn_all. cbn.
    repeat split; try lia; intros; contradiction.
  - destruct (StartMore.main_locked_spec e c (snd (Start.acquire_lock e s)))
      as (_ & _ & _ & (a & Ea & Ba & _) & _).
    assert (Ha : added s (Start.release_lock
                   (snd (Start.main_locked e c
                           (snd (Start.acquire_lock e s))))) = a).
    { apply Steps.ext_added.
      pose proof (Steps.ext_trans _ _ _ _ _ El Ea) as [T K].
      split; [exact T | exact K]. }
    rewrite Ha. exact Ba.
Qed.

(* ===================================================================== *)
(** * Further properties of watchdog-restart.sh *)
(* ===================================================================== *)

Module RestartMore.
Import Proc Effects Steps EffectProps.

Lemma wait_listening_S e mode port start_pid k s :
  Restart.wait_listening e mode port start_pid (S k) s =
  if kill0 e (tick s) start_pid then
    let '(listening_pid, s3) :=
      find_process_on_port e port
        (mkState (fs s) (S (tick s)) (trace s ++ [Sleep 1])) in
    if Sh.nonempty listening_pid then
      (0, mkState
            (set_state
               (Some (started_snapshot (date_utc e (tick s3)) "localhost"
                        port listening_pid mode))
               (fs s3))
            (S (tick s3)) (trace s3))
    else Restart.wait_listening e mode port start_pid k s3
  else (1, mkState (fs s) (S (tick s)) (trace s ++ [Sleep 1])).
Proof.
  cbn [Restart.wait_listening]. unfold observe at 1.
  cbn [fst snd emit tick fs trace].
  destruct (kill0 e (tick s) start_pid); [| reflexivity].
  destruct (find_process_on_port e port _) as [pid s3].
  destruct (Sh.nonempty pid); reflexivity.
Qed.

(** The waiting loop of [start_server]: one second per round, nothing but
    sleeping and looking up; status 0 writes the snapshot, status 1
    leaves the files alone. *)
Lemma wait_listening_spec e mode port start_pid : forall left s,
  (fst (Restart.wait_listening e mode port start_pid left s) = 0 \/
   fst (Restart.wait_listening e mode port start_pid left s) = 1) /\
  (exists a,
      ext s (snd (Restart.wait_listening e mode port start_pid left s)) a /\
      bounded a (Z.of_nat left) nobody nothing nothing) /\
  (fst (Restart.wait_listening e mode port start_pid left s) = 1 ->
     fs (snd (Restart.wait_listening e mode port start_pid left s)) = fs s) /\
  (fst (Restart.wait_listening e mode port start_pid left s) = 0 ->
     exists pid ts,
       Sh.nonempty pid = true /\
       fs (snd (Restart.wait_listening e mode port start_pid left s))
       = set_state (Some (started_snapshot ts "localhost" port pid mode))
           (fs s)).
Proof.
  induction left as [| k IH]; intros s.
  - cbn [Restart.wait_listening fst snd]. split; [now right |]. split.
    + exists []. split; [apply ext_refl | apply bounded_nil; lia].
    + split; [reflexivity | intros [=]].
  - rewrite wait_listening_S.
    set (s1 := mkState (fs s) (S (tick s)) (trace s ++ [Sleep 1])).
    assert (E1 : ext s s1 [Sleep 1]).
    { split; cbn; [reflexivity | lia]. }
    destruct (kill0 e (tick s) start_pid).
    + destruct (find_spec e port s1) as (Ff & la & El & Hla).
      assert (Bl : bounded la 0 nobody nothing nothing).
      { destruct Hla as [-> | (tool & ->)];
          [apply bounded_nil; lia | apply bounded_lookup]. }
      destruct (find_process_on_port e port s1) as [pid s3].
      cbn [fst snd] in *.
      assert (E3 : ext s s3 ([Sleep 1] ++ la)).
      { eapply ext_trans; eassumption. }
      assert (B3 : bounded ([Sleep 1] ++ la) (1 + 0) nobody nothing nothing).
      { apply bounded_app; [apply bounded_sleep1 | exact Bl]. }
      destruct (Sh.nonempty pid) eqn:Hn.
      * cbn [fst snd fs]. split; [now left |]. split.
        -- exists ([Sleep 1] ++ la)%list. split.
           ++ destruct E3 as [T K]. split; [exact T | cbn; lia].
           ++ apply (bounded_le _ (1 + 0)); [lia | exact B3].
        -- split; [intros [=] |]. intros _.
           exists pid, (date_utc e (tick s3)). split; [exact Hn |].
           rewrite Ff. reflexivity.
      * destruct (IH s3) as (Hst & (a & Ea & Ba) & H1 & H0).
        split; [exact Hst |]. split.
        -- exists (([Sleep 1] ++ la) ++ a)%list.
           split; [eapply ext_trans; eassumption |].
           apply (bounded_le _ ((1 + 0) + Z.of_nat k)); [lia |].
           now apply bounded_app.
        -- split.
           ++ intros H. rewrite (H1 H). exact Ff.
           ++ intros H. destruct (H0 H) as (p & ts & Hp & Fp).
              exists p, ts. split; [exact Hp |]. rewrite Fp, Ff. reflexivity.
    + cbn [fst snd]. split; [now right |]. split.
      * exists [Sleep 1]. split; [exact E1 |].
        apply (bounded_le _ 1); [lia | apply bounded_sleep1].
      * split; [reflexivity | intros [=]].
Qed.

(** The commands of a run of [watchdog-restart.sh]. *)
Lemma restart_server_spec e c mode port s :
  Restart.DRY_RUN c = false ->
  (fst (Restart.start_server e c mode port s) = 0 \/
   fst (Restart.start_server e c mode port s) = 1) /\
  (exists a,
      ext s (snd (Restart.start_server e c mode port s)) a /\
      bounded a 10 nobody
        (fun cmd => cmd = Restart.server_cmd mode port)
        (fun cmd => cmd = "npm run build" /\
                    String.eqb mode "preview" = true)) /\
  (fst (Restart.start_server e c mode port s) = 1 ->
     fs (snd (Restart.start_server e c mode port s)) = fs s) /\
  (fst (Restart.start_server e c mode port s) = 0 ->
     exists pid ts,
       Sh.nonempty pid = true /\
       fs (snd (Restart.start_server e c mode port s))
       = set_state (Some (started_snapshot ts "localhost" port pid mode))
           (fs s)).
Proof.
  intros Hdry. unfold Restart.start_server. rewrite Hdry.
  assert (Hb : exists a1,
    ext s (snd (if String.eqb mode "preview"
                then observe (build_ok e) (emit (Run "npm run build") s)
                else (true, s))) a1 /\
    fs (snd (if String.eqb mode "preview"
             then observe (build_ok e) (emit (Run "npm run build") s)
             else (true, s))) = fs s /\
    bounded a1 0 nobody
      (fun cmd => cmd = Restart.server_cmd mode port)
      (fun cmd => cmd = "npm run build" /\
                  String.eqb mode "preview" = true)).
  { destruct (String.eqb mode "preview").
    - exists [Run "npm run build"]. split; [| split].
      + split; cbn; [reflexivity | lia].
      + reflexivity.
      + apply bounded_run. now split.
    - exists []. split; [apply ext_refl |]. split; [reflexivity |].
      apply bounded_nil. lia. }
  destruct Hb as (a1 & E1 & F1 & B1).
  destruct (if String.eqb mode "preview" then _ else _) as [built s1].
  cbn [fst snd] in *. destruct built; cbn [negb].
  2:{ cbn [fst snd]. split; [now right |]. split.
      - exists a1. split; [exact E1 |].
        apply (bounded_le _ 0); [lia | exact B1].
      - split; [intros _; exact F1 | intros [=]]. }
  unfold observe. cbn [fst snd emit tick fs trace].
  set (s2 := mkState (fs s1) (S (tick s1))
               (trace s1 ++ [Spawn (Restart.server_cmd mode port)])).
  assert (E2 : ext s s2 (a1 ++ [Spawn (Restart.server_cmd mode port)])).
  { eapply ext_trans; [exact E1 |]. split; cbn; [reflexivity | lia]. }
  destruct (wait_listening_spec e mode port (spawn_pid e (tick s1))
              Restart.WAIT_AFTER_START s2)
    as (Hst & (a & Ea & Ba) & H1 & H0).
  split; [exact Hst |]. split.
  - exists ((a1 ++ [Spawn (Restart.server_cmd mode port)]) ++ a)%list.
    split; [eapply ext_trans; eassumption |].
    apply (bounded_le _ ((0 + 0) + Z.of_nat Restart.WAIT_AFTER_START));
      [cbn; lia |].
    apply bounded_app.
    + apply bounded_app; [exact B1 | now apply bounded_spawn].
    + eapply bounded_weaken; [exact Ba | lia | | |]; intros; contradiction.
  - split.
    + intros H. rewrite (H1 H). exact F1.
    + intros H. destruct (H0 H) as (p & ts & Hp & Fp).
      exists p, ts. split; [exact Hp |]. rewrite Fp. cbn [fs s2].
      rewrite F1. reflexivity.
Qed.

(** The whole run of [main]. *)
Lemma restart_main_spec e c s :
  lock_file (fs (snd (Restart.main e c s))) = lock_file (fs s) /\
  pid_file (fs (snd (Restart.main e c s))) = pid_file (fs s) /\
  watchdog_pid_file (fs (snd (Restart.main e c s)))
  = watchdog_pid_file (fs s) /\
  (Restart.DRY_RUN c = true ->
     fst (Restart.main e c s) = 0 /\ fs (snd (Restart.main e c s)) = fs s) /\
  exists a,
    ext s (snd (Restart.main e c s)) a /\
    bounded a 23
      (fun sig p => p = restart_occupant e c s /\
                    (sig = "TERM" \/ sig = "KILL") /\
                    Restart.DRY_RUN c = false)
      (fun cmd => cmd = Restart.server_cmd (Restart.MODE c)
                          (Restart.PORT c) /\
                  Restart.DRY_RUN c = false)
      (fun cmd => cmd = "npm run build" /\
                  String.eqb (Restart.MODE c) "preview" = true /\
                  Restart.DRY_RUN c = false) /\
    (Restart.DRY_RUN c = false ->
       (fst (Restart.main e c s) = 0 /\
        exists pid ts,
          Sh.nonempty pid = true /\
          state_file (fs (snd (Restart.main e c s)))
          = Some (started_snapshot ts "localhost" (Restart.PORT c) pid
                    (Restart.MODE c))) \/
       (fst (Restart.main e c s) = 1 /\
        exists ts,
          state_file (fs (snd (Restart.main e c s)))
          = Some (Restart.failed_snapshot ts (Restart.PORT c)
                    (Restart.MODE c))) \/
       (fst (Restart.main e c s) = 1 /\
        Sh.nonempty (restart_occupant e c s) = true /\
        fst (kill_process_gracefully e (restart_occupant e c s)
               (snd (find_process_on_port e (Restart.PORT c) s))) = 1 /\
        fs (snd (Restart.main e c s)) = fs s /\
        (forall cmd, ~ In (Spawn cmd) a) /\
        (forall cmd, ~ In (Run cmd) a))).
Proof.
  unfold Restart.main, restart_occupant.
  destruct (find_spec e (Restart.PORT c) s) as (Ff & la & El & Hla).
  assert (Bl : forall sigs spawns runs, bounded la 0 sigs spawns runs).
  { intros. destruct Hla as [-> | (tool & ->)];
      [apply bounded_nil; lia | apply bounded_lookup]. }
  destruct (find_process_on_port e (Restart.PORT c) s) as [pid s1].
  cbn [fst snd] in *.
  destruct (Restart.DRY_RUN c) eqn:Hdry.
  - assert (Hgo : (if Sh.nonempty pid then (false, 0, s1) else (false, 0, s1))
                  = (false, 0, s1)) by now destruct (Sh.nonempty pid).
    rewrite Hgo. cbn [negb fst snd]. rewrite Ff.
    repeat (split; [reflexivity |]). split; [intros _; now split |].
    exists la. split; [exact El |]. split.
    + apply (bounded_le _ 0); [lia | apply Bl].
    + intros [=].
  - (* the server is started from [s2], reached by the events [a2] *)
    assert (Hstart : forall s2 a2,
      ext s s2 a2 -> fs s2 = fs s ->
      bounded a2 13
        (fun sig p => p = pid /\ (sig = "TERM" \/ sig = "KILL") /\
                      false = false)
        (fun cmd => cmd = Restart.server_cmd (Restart.MODE c)
                            (Restart.PORT c) /\ false = false)
        (fun cmd => cmd = "npm run build" /\
                    String.eqb (Restart.MODE c) "preview" = true /\
                    false = false) ->
      let r :=
        (let '(st', s3) :=
           Restart.start_server e c (Restart.MODE c) (Restart.PORT c) s2 in
         if st' =? 0 then (0, s3)
         else
           let '(ts, s4) := observe (date_utc e) s3 in
           (1, set_fs (set_state
                         (Some (Restart.failed_snapshot ts (Restart.PORT c)
                                  (Restart.MODE c))) (fs s4)) s4)) in
      lock_file (fs (snd r)) = lock_file (fs s) /\
      pid_file (fs (snd r)) = pid_file (fs s) /\
      watchdog_pid_file (fs (snd r)) = watchdog_pid_file (fs s) /\
      (exists a,
          ext s (snd r) a /\
          bounded a 23
            (fun sig p => p = pid /\ (sig = "TERM" \/ sig = "KILL") /\
                          false = false)
            (fun cmd => cmd = Restart.server_cmd (Restart.MODE c)
                                (Restart.PORT c) /\ false = false)
            (fun cmd => cmd = "npm run build" /\
                        String.eqb (Restart.MODE c) "preview" = true /\
                        false = false)) /\
      ((fst r = 0 /\
        exists p ts,
          Sh.nonempty p = true /\
          state_file (fs (snd r))
          = Some (started_snapshot ts "localhost" (Restart.PORT c) p
                    (Restart.MODE c))) \/
       (fst r = 1 /\
        exists ts,
          state_file (fs (snd r))
          = Some (Restart.failed_snapshot ts (Restart.PORT c)
                    (Restart.MODE c))))).
    { intros s2 a2 E2 F2 B2 r. subst r.
      destruct (restart_server_spec e c (Restart.MODE c) (Restart.PORT c) s2
                  Hdry) as (Hst & (a & Ea & Ba) & H1 & H0).
      destruct (Restart.start_server e c (Restart.MODE c) (Restart.PORT c) s2)
        as [st' s3].
      cbn [fst snd] in *.
      assert (B23 : bounded (a2 ++ a) (13 + 10)
                (fun sig p => p = pid /\ (sig = "TERM" \/ sig = "KILL") /\
                              false = false)
                (fun cmd => cmd = Restart.server_cmd (Restart.MODE c)
                                    (Restart.PORT c) /\ false = false)
                (fun cmd => cmd = "npm run build" /\
                            String.eqb (Restart.MODE c) "preview" = true /\
                            false = false)).
      { apply bounded_app; [exact B2 |].
        eapply bounded_weaken; [exact Ba | lia | | |].
        - intros ? ? [].
        - intros cmd H. now split.
        - intros cmd [H1' H2']. auto. }
      destruct Hst as [-> | ->]; cbn [Z.eqb fst snd].
      - destruct (H0 eq_refl) as (p & ts & Hp & Fp).
        rewrite Fp, F2. cbn [set_state lock_file pid_file watchdog_pid_file
                             state_file].
        repeat (split; [reflexivity |]). split.
        + exists (a2 ++ a)%list. split; [eapply ext_trans; eassumption |].
          apply (bounded_le _ (13 + 10)); [lia | exact B23].
        + left. split; [reflexivity |]. now exists p, ts.
      - unfold observe. cbn [fst snd set_fs fs]. rewrite (H1 eq_refl), F2.
        cbn [set_state lock_file pid_file watchdog_pid_file state_file].
        repeat (split; [reflexivity |]). split.
        + exists (a2 ++ a)%list. split.
          * destruct (ext_trans _ _ _ _ _ E2 Ea) as [T K].
            split; [exact T | cbn; lia].
          * apply (bounded_le _ (13 + 10)); [lia | exact B23].
        + right. split; [reflexivity |]. eexists. reflexivity. }
    destruct (Sh.nonempty pid) eqn:Hn.
    + destruct (kill_gracefully_spec e pid s1) as (Fk & Hst & _).
      destruct (kill_bounded e pid s1) as (ka & Ek & Bk).
      destruct (kill_process_gracefully e pid s1) as [k s'].
      cbn [fst snd] in *.
      destruct Hst as [-> | ->]; cbn [Z.eqb negb].
      * destruct (Hstart (emit (Sleep 2) s') (la ++ ka ++ [Sleep 2])%list)
          as (L & P & W & (a & Ea & Ba) & Hout).
        { eapply ext_trans; [exact El |].
          eapply ext_trans; [exact Ek | apply ext_emit]. }
        { cbn [emit fs]. congruence. }
        { apply (bounded_le _ (0 + (11 + 2))); [lia |].
          apply bounded_app; [apply Bl |].
          apply bounded_app; [| apply bounded_sleep; lia].
          eapply bounded_weaken; [exact Bk | lia | | |].
          - intros sig p [-> H]. auto.
          - intros ? [].
          - intros ? []. }
        split; [exact L |]. split; [exact P |]. split; [exact W |].
        split; [intros [=] |].
        exists a. split; [exact Ea |]. split; [exact Ba |]. intros _.
        destruct Hout as [H | H]; [left | right; left]; exact H.
      * cbn [fst snd]. assert (F' : fs s' = fs s) by congruence.
        rewrite F'. repeat (split; [reflexivity |]). split; [intros [=] |].
        exists (la ++ ka)%list.
        split; [eapply ext_trans; eassumption |]. split.
        -- apply (bounded_le _ (0 + 11)); [lia |].
           apply bounded_app; [apply Bl |].
           eapply bounded_weaken; [exact Bk | lia | | |].
           ++ intros sig p [-> H]. auto.
           ++ intros ? [].
           ++ intros ? [].
        -- intros _. right. right.
           repeat (split; [reflexivity |]). split.
           ++ intros cmd H. apply in_app_or in H. destruct H as [H | H].
              ** destruct (Bl nobody nothing nothing) as (_ & _ & Hs & _).
                 exact (Hs cmd H).
              ** destruct Bk as (_ & _ & Hs & _). exact (Hs cmd H).
           ++ intros cmd H. apply in_app_or in H. destruct H as [H | H].
              ** destruct (Bl nobody nothing nothing) as (_ & _ & _ & Hr).
                 exact (Hr cmd H).
              ** destruct Bk as (_ & _ & _ & Hr). exact (Hr cmd H).
    + cbn [negb].
      destruct (Hstart s1 la El Ff) as (L & P & W & (a & Ea & Ba) & Hout).
      { apply (bounded_le _ 0); [lia | apply Bl]. }
      split; [exact L |]. split; [exact P |]. split; [exact W |].
      split; [intros [=] |].
      exists a. split; [exact Ea |]. split; [exact Ba |]. intros _.
      destruct Hout as [H | H]; [left | right; left]; exact H.
Qed.

(** A successful start has launched the server. *)
Lemma start_server_spawns e c mode port s :
  Restart.DRY_RUN c = false ->
  fst (Restart.start_server e c mode port s) = 0 ->
  exists a, ext s (snd (Restart.start_server e c mode port s)) a /\
            In (Spawn (Restart.server_cmd mode port)) a.
Proof.
  intros Hdry. unfold Restart.start_server. rewrite Hdry.
  assert (Hb : exists a1,
    ext s (snd (if String.eqb mode "preview"
                then observe (build_ok e) (emit (Run "npm run build") s)
                else (true, s))) a1).
  { destruct (String.eqb mode "preview").
    - exists [Run "npm run build"]. split; cbn; [reflexivity | lia].
    - exists []. apply ext_refl. }
  destruct Hb as (a1 & E1).
  destruct (if String.eqb mode "preview" then _ else _) as [built s1].
  cbn [fst snd] in *. destruct built; cbn [negb]; [| intros [=]].
  unfold observe. cbn [fst snd].
  set (s2 := mkState _ _ _).
  assert (E2 : ext s1 s2 [Spawn (Restart.server_cmd mode port)]).
  { subst s2. split; cbn; [reflexivity | lia]. }
  clearbody s2.
  set (sp := spawn_pid e _). clearbody sp.
  destruct (wait_listening_spec e mode port sp Restart.WAIT_AFTER_START s2)
    as (_ & (a3 & E3 & _) & _).
  intros _. eexists. split.
  - exact (ext_trans _ _ _ _ _ E1 (ext_trans _ _ _ _ _ E2 E3)).
  - apply in_or_app. right. apply in_or_app. left. now left.
Qed.

Lemma ext_unique s s' a b : ext s s' a -> ext s s' b -> a = b.
Proof.
  intros [Ha _] [Hb _]. rewrite Ha in Hb. now apply app_inv_head in Hb.
Qed.

(** A real run of [watchdog-restart.sh] that exits 0 has launched the
    server command of the mode. *)
Lemma restart_success_spawns e c s b :
  Restart.DRY_RUN c = false ->
  ext s (snd (Restart.main e c s)) b ->
  fst (Restart.main e c s) = 0 ->
  In (Spawn (Restart.server_cmd (Restart.MODE c) (Restart.PORT c))) b.
Proof.
  intros Hdry Eb H0.
  assert (Hex : exists a, ext s (snd (Restart.main e c s)) a /\
                  In (Spawn (Restart.server_cmd (Restart.MODE c)
                               (Restart.PORT c))) a).
  2:{ destruct Hex as (a & Ea & Hin). now rewrite (ext_unique _ _ _ _ Eb Ea). }
  clear Eb. revert H0. unfold Restart.main. rewrite Hdry.
  destruct (find_spec e (Restart.PORT c) s) as (_ & la & El & _).
  destruct (find_process_on_port e (Restart.PORT c) s) as [pid s1].
  cbn [fst snd] in *.
  assert (Hgo : exists s2 a2,
            ext s1 s2 a2 /\
            ((if Sh.nonempty pid
              then
                let '(k, s') := kill_process_gracefully e pid s1 in
                if k =? 0 then (true, 0, emit (Sleep 2) s') else (false, 1, s')
              else (true, 0, s1)) = (true, 0, s2) \/
             (if Sh.nonempty pid
              then
                let '(k, s') := kill_process_gracefully e pid s1 in
                if k =? 0 then (true, 0, emit (Sleep 2) s') else (false, 1, s')
              else (true, 0, s1)) = (false, 1, s2))).
  { destruct (Sh.nonempty pid).
    - destruct (kill_gracefully_spec e pid s1)
        as (_ & _ & k & tail & _ & _ & Ek & _).
      destruct (kill_process_gracefully e pid s1) as [st s'].
      cbn [fst snd] in *.
      destruct (st =? 0).
      + eexists _, _. split; [| left; reflexivity].
        exact (ext_trans _ _ _ _ _ Ek (ext_emit (Sleep 2) s')).
      + eexists _, _. split; [exact Ek | right; reflexivity].
    - exists s1, []. split; [apply ext_refl | left; reflexivity]. }
  destruct Hgo as (s2 & a2 & E2 & [-> | ->]); cbn [negb fst snd];
    [| intros [=]].
  pose proof (start_server_spawns e c (Restart.MODE c) (Restart.PORT c) s2
                Hdry) as Hs.
  destruct (Restart.start_server e c (Restart.MODE c) (Restart.PORT c) s2)
    as [st' s3].
  cbn [fst snd] in *.
  destruct (st' =? 0) eqn:E0.
  - apply Z.eqb_eq in E0. intros _.
    destruct (Hs E0) as (a3 & E3 & Hin).
    eexists. split.
    + exact (ext_trans _ _ _ _ _ El (ext_trans _ _ _ _ _ E2 E3)).
    + apply in_or_app. right. apply in_or_app. now right.
  - unfold observe. cbn [fst snd]. intros [=].
Qed.

End RestartMore.



(** Witness for X4: process 777 listens on port 4173 and [start.sh] is run
    without [--force]. *)
Lemma X4_start_refuses_occupied_port_witness :
  fst (Start.script (Examples.proc_host "777") Hosts.gentle_config
         Hosts.empty_logs) = 1 /\
  Proc.lock_file
    (Proc.fs (snd (Start.script (Examples.proc_host "777")
                     Hosts.gentle_config Hosts.empty_logs))) = None.
Proof.
  destruct (X4_start_refuses_occupied_port (Examples.proc_host "777")
              Hosts.gentle_config Hosts.empty_logs)
    as (H1 & _ & _ & _ & _ & Hl); try reflexivity.
  split; [exact H1 | exact Hl].
Defined.



(* ===================================================================== *)
(** * Further properties of deploy-with-rollback.sh *)
(* ===================================================================== *)

Module DeployMore.
Import Deploy DeployProps.

(** ** What the steps leave alone, continued *)

Lemma still_refl s : deploy_still s s.
Proof. unfold deploy_still. auto 10. Qed.

Lemma still_trans s1 s2 s3 :
  deploy_still s1 s2 -> deploy_still s2 s3 -> deploy_still s1 s3.
Proof.
  unfold deploy_still.
  intros (J1 & B1 & C1 & D1 & L1 & T1) (J2 & B2 & C2 & D2 & L2 & T2).
  repeat split; try congruence. lia.
Qed.

Lemma still_observe {A} (f : nat -> A) s : deploy_still s (snd (observe f s)).
Proof. unfold deploy_still. simpl. repeat split. lia. Qed.

Lemma still_emit ev s : deploy_still s (emit ev s).
Proof. unfold deploy_still. simpl. auto 10. Qed.

Lemma still_frame s s' : deploy_still s s' -> deploy_frame s s'.
Proof. unfold deploy_still, deploy_frame. tauto. Qed.

Lemma still_health_attempts e : forall left s,
  deploy_still s (snd (health_attempts e left s)).
Proof.
  induction left as [| k IH]; intros s; cbn [health_attempts].
  - apply still_refl.
  - pose proof (still_observe (curl_ready e)
                  (emit (HttpProbe "curl" "localhost" "/health/ready") s))
      as F1.
    destruct (observe (curl_ready e)
                (emit (HttpProbe "curl" "localhost" "/health/ready") s))
      as [ready s1].
    cbn [snd] in F1.
    assert (F : deploy_still s s1).
    { eapply still_trans; [apply still_emit | exact F1]. }
    destruct ready; [exact F |].
    eapply still_trans; [exact F |].
    eapply still_trans; [| apply IH].
    destruct k; [apply still_refl | apply still_emit].
Qed.

Lemma still_check_health e s : deploy_still s (snd (check_health e s)).
Proof.
  unfold check_health.
  pose proof (still_observe (curl_live e)
                (emit (HttpProbe "curl" "localhost" "/health/live") s)) as F1.
  destruct (observe (curl_live e)
              (emit (HttpProbe "curl" "localhost" "/health/live") s))
    as [live s1].
  cbn [snd] in F1.
  eapply still_trans; [apply still_emit |].
  eapply still_trans; [exact F1 |].
  eapply still_trans; [| apply still_health_attempts].
  destruct live; [apply still_refl |].
  eapply still_trans; apply still_emit.
Qed.

Lemma still_stop_server e s : deploy_still s (stop_server e s).
Proof.
  unfold stop_server. destruct (has_stop_sh e);
    [apply still_emit | apply still_refl].
Qed.

(** [start.sh --force]: one command and one question to the machine;
    dist/ becomes what the script leaves of the one it finds. *)
Lemma deploy_start_server_spec e s :
  fst (start_server e s) = fst (start_sh e (tick s) (dist s)) /\
  dist (snd (start_server e s)) = snd (start_sh e (tick s) (dist s)) /\
  journal (snd (start_server e s)) = journal s /\
  backups (snd (start_server e s)) = backups s /\
  current_state (snd (start_server e s)) = current_state s /\
  lock_file (snd (start_server e s)) = lock_file s /\
  tick (snd (start_server e s)) = S (tick s) /\
  trace (snd (start_server e s))
  = (trace s ++ [Run "start.sh --force"])%list.
Proof. unfold start_server. simpl. auto 10. Qed.

Lemma still_generate_tx_id e s : deploy_still s (snd (generate_tx_id e s)).
Proof. unfold generate_tx_id, deploy_still. simpl. repeat split. lia. Qed.

Lemma trace_generate_tx_id e s : trace (snd (generate_tx_id e s)) = trace s.
Proof. reflexivity. Qed.

(** [init_journal] creates the current-state file when it is missing and
    changes nothing else. *)
Lemma init_journal_spec e s :
  journal (init_journal e s) = journal s /\
  backups (init_journal e s) = backups s /\
  dist (init_journal e s) = dist s /\
  lock_file (init_journal e s) = lock_file s /\
  trace (init_journal e s) = trace s /\
  (tick s <= tick (init_journal e s))%nat /\
  current_state (init_journal e s)
  = match current_state s with
    | Some c => Some c
    | None => Some (mkCstate initialized (date_utc e (tick s)) None None)
    end.
Proof.
  unfold init_journal. cbn [set_journal_dir current_state].
  destruct (current_state s) eqn:E; simpl.
  - repeat split; auto.
  - repeat split. lia.
Qed.

Lemma init_journal_dir e s : journal_dir (init_journal e s) = true.
Proof.
  unfold init_journal. cbn [set_journal_dir current_state].
  now destruct (current_state s).
Qed.

Lemma init_journal_idem e s :
  current_state (init_journal e (init_journal e s))
  = current_state (init_journal e s).
Proof.
  destruct (init_journal_spec e (init_journal e s))
    as (_ & _ & _ & _ & _ & _ & C).
  rewrite C.
  destruct (init_journal_spec e s) as (_ & _ & _ & _ & _ & _ & C0).
  rewrite C0. now destruct (current_state s).
Qed.

(** [journal_append]: the entry is added, the current-state file is
    created when missing, nothing else changes. *)
Lemma journal_append_spec e tx a st det s :
  (exists ts,
      journal (journal_append e tx a st det s)
      = (journal s ++ entry_lines (mkEntry tx ts a st det))%list) /\
  backups (journal_append e tx a st det s) = backups s /\
  dist (journal_append e tx a st det s) = dist s /\
  lock_file (journal_append e tx a st det s) = lock_file s /\
  trace (journal_append e tx a st det s) = trace s /\
  (tick s < tick (journal_append e tx a st det s))%nat /\
  current_state (journal_append e tx a st det s)
  = current_state (init_journal e s).
Proof.
  destruct (init_journal_spec e s) as (J & B & D & L & T & K & C).
  unfold journal_append. simpl. rewrite J, B, D, L, T.
  repeat split; try reflexivity; [eexists; reflexivity | lia].
Qed.

Lemma update_current_state_more e st tx v s :
  dist (update_current_state e st tx v s) = dist s /\
  lock_file (update_current_state e st tx v s) = lock_file s /\
  trace (update_current_state e st tx v s) = trace s.
Proof. unfold update_current_state. simpl. auto. Qed.

Lemma set_dist_same s : set_dist (dist s) s = s.
Proof. now destruct s. Qed.

Lemma restore_backup_eq tx s b :
  find (fun b0 => String.eqb (b_name b0) tx) (backups s) = Some b ->
  restore_backup tx s
  = (0, set_dist (match b_dist b with Some d => Some d | None => dist s end)
          s).
Proof.
  intros H. unfold restore_backup. rewrite H.
  destruct (b_dist b); [reflexivity |]. now rewrite set_dist_same.
Qed.

(** The health check only adds to the trace. *)
Lemma health_attempts_keeps_trace e ev : forall left s,
  In ev (trace s) -> In ev (trace (snd (health_attempts e left s))).
Proof.
  induction left as [| k IH]; intros s H; cbn [health_attempts]; [exact H |].
  unfold observe. cbn [fst snd emit tick trace].
  destruct (curl_ready e (tick s)); cbn [snd trace].
  - apply in_or_app. now left.
  - apply IH. destruct k; cbn [emit trace];
      repeat (apply in_or_app; left); exact H.
Qed.

Lemma check_health_keeps_trace e ev s :
  In ev (trace s) -> In ev (trace (snd (check_health e s))).
Proof.
  intros H. unfold check_health, observe. cbn [fst snd emit tick trace].
  apply health_attempts_keeps_trace.
  destruct (curl_live e (tick s)); cbn [emit trace];
    repeat (apply in_or_app; left); exact H.
Qed.

(** ** The journal only grows *)

Lemma grows_refl tx s : journal_grows tx s s.
Proof. exists []. split; [now rewrite app_nil_r | constructor]. Qed.

Lemma grows_trans tx s1 s2 s3 :
  journal_grows tx s1 s2 -> journal_grows tx s2 s3 -> journal_grows tx s1 s3.
Proof.
  intros (a & Ha & Fa) (b & Hb & Fb). exists (a ++ b)%list. split.
  - now rewrite Hb, Ha, app_assoc.
  - apply Forall_app. now split.
Qed.

Lemma grows_same tx s s' : journal s' = journal s -> journal_grows tx s s'.
Proof.
  intros H. exists []. split; [now rewrite app_nil_r | constructor].
Qed.

Lemma entry_lines_of en : Forall (line_of (tx_id en)) (entry_lines en).
Proof.
  destruct (entry_lines_shape en) as [E | (d & t & more & E)]; rewrite E.
  - repeat constructor.
  - constructor; [reflexivity |]. constructor; [exact I |].
    apply Forall_forall. intros l Hl. apply in_map_iff in Hl.
    destruct Hl as (x & <- & _). exact I.
Qed.

Lemma grows_append e tx a st det s :
  journal_grows tx s (journal_append e tx a st det s).
Proof.
  destruct (journal_append_lines e tx a st det s) as (ts & Hj).
  eexists. split; [exact Hj |].
  apply (entry_lines_of (mkEntry tx ts a st det)).
Qed.

(** ** The manual rollback *)

(** The transaction a manual rollback goes back to: the one given with
    [--to], else the last successful one of the journal. *)
Lemma started_keeps_target e tx det s :
  get_last_successful_tx (journal_append e tx manual_rollback started det s)
  = get_last_successful_tx s.
Proof.
  destruct (journal_append_lines e tx manual_rollback started det s)
    as (ts & Hj).
  destruct (last_success_after_entry _ _ _ Hj) as [Hsame _].
  now apply Hsame.
Qed.

Lemma find_has_backup name dir :
  has_backup name dir = true <->
  exists b, find (fun b => String.eqb (b_name b) name) dir = Some b.
Proof.
  unfold has_backup. split.
  - intros H.
    destruct (find (fun b => String.eqb (b_name b) name) dir) as [b |] eqn:E;
      [now exists b |].
    apply existsb_exists in H. destruct H as (b & Hin & Hb).
    pose proof (find_none _ _ E b Hin) as Habs. simpl in Habs. congruence.
  - intros (b & E). apply find_some in E. apply existsb_exists.
    exists b. exact E.
Qed.

(** The three ways [cmd_rollback] can go, once its options are read. *)
Lemma cmd_rollback_spec e args o s :
  parse_rollback_args args (mkRollbackOpts "" false) = Sh.Ret o ->
  let tx := deploy_tx e s in
  let target :=
    if Sh.nonempty (target_tx o) then target_tx o
    else get_last_successful_tx s in
  let r := cmd_rollback e args s in
  let started_lines ts :=
    entry_lines
      (mkEntry tx ts manual_rollback started
         (obj1 "target" (Sh.default_to (target_tx o) "last_success"))) in
  backups (snd r) = backups s /\
  lock_file (snd r) = lock_file s /\
  (fst r = 0 \/ fst r = 1) /\
  (Sh.nonempty target = false ->
     fst r = 1 /\ dist (snd r) = dist s /\ trace (snd r) = trace s /\
     current_state (snd r)
     = current_state (init_journal e (snd (generate_tx_id e s))) /\
     exists ts1 ts2,
       journal (snd r)
       = (journal s ++ started_lines ts1
            ++ [Whole (mkEntry tx ts2 manual_rollback failed
                         (obj1 "reason" "no_rollback_target"))])%list) /\
  (Sh.nonempty target = true -> has_backup target (backups s) = false ->
     fst r = 1 /\ dist (snd r) = dist s /\ trace (snd r) = trace s /\
     current_state (snd r)
     = current_state (init_journal e (snd (generate_tx_id e s))) /\
     exists ts1 ts2,
       journal (snd r)
       = (journal s ++ started_lines ts1
            ++ [Whole (mkEntry tx ts2 manual_rollback failed
                         (obj1 "reason" "backup_not_found"))])%list) /\
  (forall b,
     Sh.nonempty target = true ->
     find (fun b => String.eqb (b_name b) target) (backups s) = Some b ->
     let restored := match b_dist b with Some d => Some d | None => dist s end in
     exists t,
       (tick s <= t)%nat /\
       dist (snd r) = snd (start_sh e t restored) /\
       In (Run "start.sh --force") (trace (snd r)) /\
       (fst r = 0 ->
          fst (start_sh e t restored) = 0 /\
          (exists ts v,
              current_state (snd r)
              = Some (mkCstate rolled_back ts (Some target) (Some v))) /\
          exists ts1 ts2,
            journal (snd r)
            = (journal s ++ started_lines ts1
                 ++ entry_lines
                      (mkEntry tx ts2 manual_rollback success
                         (obj1 "rolled_back_to" target)))%list) /\
       (fst r = 1 ->
          current_state (snd r)
          = current_state (init_journal e (snd (generate_tx_id e s))) /\
          exists ts1 ts2 reason,
            journal (snd r)
            = (journal s ++ started_lines ts1
                 ++ [Whole (mkEntry tx ts2 manual_rollback failed
                              (obj1 "reason" reason))])%list /\
            ((reason = "server_restart_failed" /\
              fst (start_sh e t restored) <> 0) \/
             (reason = "health_check_failed" /\ force o = false /\
              fst (start_sh e t restored) = 0)))).
Proof.
  intros Hparse tx target r started_lines.
  destruct (cmd_rollback e args s) as [code s'] eqn:Er. subst r.
  cbn [fst snd]. unfold cmd_rollback in Er. rewrite Hparse in Er.
  pose proof (still_generate_tx_id e s) as G.
  pose proof (trace_generate_tx_id e s) as Tg.
  assert (Etx : fst (generate_tx_id e s) = tx) by reflexivity.
  destruct (generate_tx_id e s) as [tx' s1]. cbn [fst snd] in *. subst tx'.
  destruct G as (J1 & B1 & C1 & D1 & L1 & T1).
  destruct (init_journal_spec e s1) as (J2 & B2 & D2 & L2 & Tr2 & T2 & C2).
  set (s2 := init_journal e s1) in *.
  set (det := obj1 "target" (Sh.default_to (target_tx o) "last_success"))
    in *.
  destruct (journal_append_spec e tx manual_rollback started det s2)
    as ((ts1 & J3) & B3 & D3 & L3 & Tr3 & T3 & C3).
  pose proof (started_keeps_target e tx det s2) as G3.
  set (s3 := journal_append e tx manual_rollback started det s2) in *.
  assert (C3' : current_state s3 = current_state s2).
  { rewrite C3. apply init_journal_idem. }
  assert (G3' : get_last_successful_tx s3 = get_last_successful_tx s).
  { rewrite G3. unfold get_last_successful_tx. now rewrite J2, J1. }
  rewrite G3' in Er. fold target in Er.
  assert (Bs3 : backups s3 = backups s) by (rewrite B3, B2; exact B1).
  assert (Ls3 : lock_file s3 = lock_file s) by (rewrite L3, L2; exact L1).
  assert (Ds3 : dist s3 = dist s) by (rewrite D3, D2; exact D1).
  assert (Ts3 : trace s3 = trace s).
  { rewrite Tr3, Tr2. exact Tg. }
  assert (Hfail : forall reason s0,
    backups s0 = backups s -> lock_file s0 = lock_file s ->
    journal s0 = journal s3 -> current_state s0 = current_state s3 ->
    entry_lines (mkEntry tx (date_utc e (tick (init_journal e s0)))
                   manual_rollback failed (obj1 "reason" reason))
    = [Whole (mkEntry tx (date_utc e (tick (init_journal e s0)))
                manual_rollback failed (obj1 "reason" reason))] ->
    let s4 := journal_append e tx manual_rollback failed
                (obj1 "reason" reason) s0 in
    backups s4 = backups s /\ lock_file s4 = lock_file s /\
    dist s4 = dist s0 /\ trace s4 = trace s0 /\
    current_state s4 = current_state s2 /\
    exists ts2,
      journal s4
      = (journal s ++ started_lines ts1
           ++ [Whole (mkEntry tx ts2 manual_rollback failed
                        (obj1 "reason" reason))])%list).
  { intros reason s0 B0 L0 J0 C0 Hwhole s4. subst s4.
    destruct (journal_append_spec e tx manual_rollback failed
                (obj1 "reason" reason) s0)
      as (_ & B4 & D4 & L4 & Tr4 & _ & C4).
    rewrite B4, D4, L4, Tr4, C4.
    repeat split; try congruence.
    - destruct (init_journal_spec e s0) as (_ & _ & _ & _ & _ & _ & C).
      rewrite C, C0, C3'. unfold s2.
      destruct (init_journal_spec e s1) as (_ & _ & _ & _ & _ & _ & C').
      rewrite C'. now destruct (current_state s1).
    - eexists. unfold journal_append.
      cbn [observe fst snd set_journal journal].
      rewrite journal_init, J0, J3, J2, J1, Hwhole, <- app_assoc.
      reflexivity. }
  destruct (Sh.nonempty target) eqn:Hn; cbn [negb] in Er.
  2:{ injection Er as <- <-.
      destruct (Hfail "no_rollback_target" s3 Bs3 Ls3 eq_refl eq_refl eq_refl)
        as (B & L & D & T & C & J).
      split; [exact B |]. split; [exact L |]. split; [now right |].
      split.
      - intros _. split; [reflexivity |].
        split; [rewrite D; congruence |]. split; [rewrite T; congruence |].
        split; [exact C |]. destruct J as (ts2 & J). now exists ts1, ts2.
      - split; [intros [=] |]. intros b [=]. }
  rewrite Bs3 in Er.
  destruct (has_backup target (backups s)) eqn:Hb; cbn [negb] in Er.
  2:{ injection Er as <- <-.
      destruct (Hfail "backup_not_found" s3 Bs3 Ls3 eq_refl eq_refl eq_refl)
        as (B & L & D & T & C & J).
      split; [exact B |]. split; [exact L |]. split; [now right |].
      split; [intros [=] |]. split.
      - intros _ _. split; [reflexivity |].
        split; [rewrite D; congruence |]. split; [rewrite T; congruence |].
        split; [exact C |]. destruct J as (ts2 & J). now exists ts1, ts2.
      - intros b _ Hfind.
        assert (Habs : has_backup target (backups s) = true).
        { apply find_has_backup. now exists b. }
        congruence. }
  (* the backup is there *)
  apply find_has_backup in Hb. destruct Hb as (b & Hfind).
  pose proof (still_stop_server e s3) as (J4 & B4 & C4 & D4 & L4 & T4).
  assert (Tr4 : forall ev,
             In ev (trace s3) -> In ev (trace (stop_server e s3))).
  { intros ev H. unfold stop_server. destruct (has_stop_sh e); [| exact H].
    cbn [emit trace]. apply in_or_app. now left. }
  set (s4 := stop_server e s3) in *.
  rewrite (restore_backup_eq target s4 b) in Er
    by (rewrite B4, Bs3; exact Hfind).
  rewrite D4, Ds3 in Er. cbn [Z.eqb] in Er.
  set (dnew := match b_dist b with Some d => Some d | None => dist s end) in *.
  set (s5 := set_dist dnew s4) in *.
  destruct (deploy_start_server_spec e s5)
    as (St6 & D6 & J6' & B6' & C6' & L6' & K6 & Tr6).
  destruct (start_server e s5) as [st s6].
  cbn [fst snd] in St6, D6, J6', B6', C6', L6', K6, Tr6, Er.
  change (dist s5) with dnew in St6, D6.
  set (t5 := tick s5) in *.
  assert (Ht5 : (tick s <= t5)%nat).
  { subst t5 s5. cbn [set_dist tick]. lia. }
  assert (F6 : journal s6 = journal s3 /\ backups s6 = backups s /\
               current_state s6 = current_state s3 /\
               lock_file s6 = lock_file s /\
               In (Run "start.sh --force") (trace s6)).
  { rewrite J6', B6', C6', L6', Tr6. subst s5.
    cbn [journal backups current_state lock_file set_dist].
    split; [exact J4 |]. split; [rewrite B4; exact Bs3 |].
    split; [exact C4 |]. split; [rewrite L4; exact Ls3 |].
    apply in_or_app. right. now left. }
  destruct F6 as (J6 & B6 & C6 & L6 & I6).
  clear J6' B6' C6' L6' Tr6.
  assert (Hsame : forall b', Sh.nonempty target = true ->
            find (fun b0 => String.eqb (b_name b0) target) (backups s)
            = Some b' -> b' = b) by (intros b' _ H; congruence).
  destruct (st =? 0) eqn:Hstart.
  2:{ injection Er as <- <-.
      destruct (Hfail "server_restart_failed" s6 B6 L6 J6 C6 eq_refl)
        as (B & L & D & T & C & (ts2 & J)).
      split; [exact B |]. split; [exact L |]. split; [now right |].
      split; [intros [=] |]. split; [intros _ [=] |].
      intros b' Hn' Hf'. rewrite (Hsame b' Hn Hf'). cbn zeta. fold dnew.
      exists t5. split; [exact Ht5 |].
      split; [rewrite D; exact D6 |]. split; [rewrite T; exact I6 |].
      split; [intros [=] |]. intros _. split; [exact C |].
      exists ts1, ts2, "server_restart_failed". split; [exact J |].
      left. split; [reflexivity |]. rewrite <- St6.
      intros ->. discriminate. }
  apply Z.eqb_eq in Hstart. subst st.
  assert (Hh : exists ok s7,
    (if force o then (true, s6) else check_health e s6) = (ok, s7) /\
    journal s7 = journal s3 /\ backups s7 = backups s /\
    current_state s7 = current_state s3 /\ dist s7 = dist s6 /\
    lock_file s7 = lock_file s /\
    In (Run "start.sh --force") (trace s7) /\
    (ok = false -> force o = false)).
  { destruct (force o).
    - exists true, s6. repeat split; auto.
    - pose proof (still_check_health e s6) as (J7 & B7 & C7 & D7 & L7 & T7).
      pose proof (check_health_keeps_trace e _ s6 I6) as I7.
      destruct (check_health e s6) as [ok s7]. cbn [snd] in *.
      exists ok, s7. repeat split; congruence. }
  destruct Hh as (ok & s7 & Eh & J7 & B7 & C7 & D7 & L7 & I7 & Hforce).
  rewrite Eh in Er. destruct ok.
  2:{ injection Er as <- <-.
      destruct (Hfail "health_check_failed" s7 B7 L7 J7 C7 eq_refl)
        as (B & L & D & T & C & (ts2 & J)).
      split; [exact B |]. split; [exact L |]. split; [now right |].
      split; [intros [=] |]. split; [intros _ [=] |].
      intros b' Hn' Hf'. rewrite (Hsame b' Hn Hf'). cbn zeta. fold dnew.
      exists t5. split; [exact Ht5 |].
      split; [rewrite D, D7; exact D6 |]. split; [rewrite T; exact I7 |].
      split; [intros [=] |]. intros _. split; [exact C |].
      exists ts1, ts2, "health_check_failed". split; [exact J |].
      right. split; [reflexivity |]. split; [now apply Hforce |].
      now symmetry. }
  destruct (journal_append_spec e tx manual_rollback success
              (obj1 "rolled_back_to" target) s7)
    as ((ts2 & J8) & B8 & D8 & L8 & Tr8 & T8 & C8).
  set (s8 := journal_append e tx manual_rollback success
               (obj1 "rolled_back_to" target) s7) in *.
  clearbody s8.
  unfold observe in Er. cbn [fst snd] in Er.
  injection Er as <- <-.
  unfold update_current_state, observe.
  cbn [fst snd set_current journal current_state backups lock_file dist
       tick trace].
  split; [rewrite B8; exact B7 |]. split; [rewrite L8; exact L7 |].
  split; [now left |].
  split; [intros [=] |]. split; [intros _ [=] |].
  intros b' Hn' Hf'. rewrite (Hsame b' Hn Hf'). cbn zeta. fold dnew.
  exists t5. split; [exact Ht5 |].
  split; [rewrite D8, D7; exact D6 |]. split; [rewrite Tr8; exact I7 |].
  split; [| intros [=]]. intros _. split; [now symmetry |]. split.
  - eexists _, _. reflexivity.
  - exists ts1, ts2. rewrite J8, J7, J3, J2, J1, <- app_assoc. reflexivity.
Qed.

(** A missing value after [--to] is the only way the option loop ends the
    script. *)
Lemma parse_rollback_args_exit : forall args o c,
  parse_rollback_args args o = Sh.Exit c -> c = 1.
Proof.
  intros args. remember (length args) as n eqn:Hlen. revert args Hlen.
  induction n as [n IH] using lt_wf_ind. intros args Hlen o c H.
  destruct args as [| a rest]; [discriminate |].
  cbn [parse_rollback_args] in H.
  destruct (String.eqb a "--to").
  - destruct rest as [| v rest']; [now injection H as <- |].
    eapply (IH (length rest')); [| reflexivity | exact H].
    subst n. simpl. lia.
  - destruct (String.eqb a "--force");
      (eapply (IH (length rest)); [| reflexivity | exact H];
       subst n; simpl; lia).
Qed.

(** A rollback without a target, or without the backup of its target. *)
Lemma rollback_gives_up e args o s :
  parse_rollback_args args (mkRollbackOpts "" false) = Sh.Ret o ->
  Sh.nonempty (rollback_target o s) = false \/
  has_backup (rollback_target o s) (backups s) = false ->
  fst (cmd_rollback e args s) = 1 /\
  dist (snd (cmd_rollback e args s)) = dist s /\
  backups (snd (cmd_rollback e args s)) = backups s /\
  lock_file (snd (cmd_rollback e args s)) = lock_file s /\
  trace (snd (cmd_rollback e args s)) = trace s /\
  gave_up (deploy_tx e s) o
    (if Sh.nonempty (rollback_target o s) then "backup_not_found"
     else "no_rollback_target") s (snd (cmd_rollback e args s)).
Proof.
  intros Hparse Hno.
  destruct (cmd_rollback_spec e args o s Hparse)
    as (B & L & _ & Hnone & Hmiss & _).
  fold (rollback_target o s) in Hnone, Hmiss.
  destruct (Sh.nonempty (rollback_target o s)) eqn:Hn.
  - destruct Hno as [Habs | Hb]; [discriminate |].
    destruct (Hmiss eq_refl Hb) as (H1 & D & T & _ & J).
    repeat (split; [assumption |]). exact J.
  - destruct (Hnone eq_refl) as (H1 & D & T & _ & J).
    repeat (split; [assumption |]). exact J.
Qed.

End DeployMore.

(** X10.  A manual rollback with nothing to go back to.  When [--to]
    names a transaction (a plain name: not empty, no slash, not [.] or
    [..]) for which [backups/] holds no directory, [rollback] exits 1
    with reason [backup_not_found]; when [--to] is not given and the
    journal is empty, it exits 1 with reason [no_rollback_target].  In
    both cases it has recorded a [started] and a [failed] entry under its
    own transaction id; dist/, the backups and the lock file are
    untouched and neither [stop.sh] nor [start.sh] was run. *)
Theorem X10_rollback_without_backup
  (e : Deploy.env) (args : list string) (o : Deploy.rollback_opts)
  (s : Deploy.state) :
  Deploy.parse_rollback_args args (Deploy.mkRollbackOpts "" false)
  = Sh.Ret o ->
  (Deploy.plain_name (Deploy.target_tx o) = true /\
   Deploy.has_backup (Deploy.target_tx o) (Deploy.backups s) = false) \/
  (Deploy.target_tx o = "" /\ Deploy.journal s = []) ->
  let r := Deploy.cmd_rollback e args s in
  fst r = 1 /\
  Deploy.dist (snd r) = Deploy.dist s /\
  Deploy.backups (snd r) = Deploy.backups s /\
  Deploy.lock_file (snd r) = Deploy.lock_file s /\
  Deploy.trace (snd r) = Deploy.trace s /\
  gave_up (deploy_tx e s) o
    (if Sh.nonempty (Deploy.target_tx o) then "backup_not_found"
     else "no_rollback_target") s (snd r).
Proof.
  intros Hparse Hno r. subst r.
  assert (Ht : Sh.nonempty (rollback_target o s)
               = Sh.nonempty (Deploy.target_tx o) /\
               (Sh.nonempty (rollback_target o s) = false \/
                Deploy.has_backup (rollback_target o s) (Deploy.backups s)
                = false)).
  { unfold rollback_target. destruct Hno as [(Hp & Hb) | (Hto & Hj)].
    - assert (Hn : Sh.nonempty (Deploy.target_tx o) = true).
      { unfold Deploy.plain_name in Hp.
        destruct (Sh.nonempty (Deploy.target_tx o)); [reflexivity |].
        discriminate. }
      rewrite Hn. split; [exact Hn | now right].
    - rewrite Hto. cbn [Sh.nonempty String.eqb negb].
      unfold Deploy.get_last_successful_tx. rewrite Hj. cbn. auto. }
  destruct Ht as (Hsame & Hgive).
  rewrite <- Hsame.
  exact (DeployMore.rollback_gives_up e args o s Hparse Hgive).
Qed.

(** X11.  A manual rollback to a transaction named with [--to] (a plain
    name) whose backup directory exists and holds a copy [d] of dist/.
    The copy [d] is put in place of dist/ and [start.sh --force] is then
    run on it: after [rollback], whatever its exit status, dist/ is what
    that run of [start.sh] has left of [d] (in its default mode
    [start.sh] builds again, so this need not be [d]).  The backups and
    the lock file are untouched.  Exit 0 means that [start.sh] succeeded
    and CurrentState is [rolled_back] for the target; on exit 1 (restart
    or health check failed) CurrentState is not rewritten, so the
    restored files stay in place under the old state. *)
Theorem X11_manual_rollback_restores_dist
  (e : Deploy.env) (args : list string) (o : Deploy.rollback_opts)
  (s : Deploy.state) (d : string) :
  Deploy.parse_rollback_args args (Deploy.mkRollbackOpts "" false)
  = Sh.Ret o ->
  Deploy.plain_name (Deploy.target_tx o) = true ->
  backup_dist (Deploy.target_tx o) s = Some (Some d) ->
  let r := Deploy.cmd_rollback e args s in
  exists t,
    (Deploy.tick s <= t)%nat /\
    Deploy.dist (snd r) = snd (Deploy.start_sh e t (Some d)) /\
    In (Run "start.sh --force") (Deploy.trace (snd r)) /\
    Deploy.backups (snd r) = Deploy.backups s /\
    Deploy.lock_file (snd r) = Deploy.lock_file s /\
    (fst r = 0 \/ fst r = 1) /\
    (fst r = 0 ->
       fst (Deploy.start_sh e t (Some d)) = 0 /\
       exists ts v,
         Deploy.current_state (snd r)
         = Some (Deploy.mkCstate Deploy.rolled_back ts
                   (Some (Deploy.target_tx o)) (Some v))) /\
    (fst r = 1 ->
       forall c, Deploy.current_state s = Some c ->
                 Deploy.current_state (snd r) = Some c).
Proof.
  intros Hparse Hp Hb r. subst r.
  assert (Hn : Sh.nonempty (Deploy.target_tx o) = true).
  { unfold Deploy.plain_name in Hp.
    destruct (Sh.nonempty (Deploy.target_tx o)); [reflexivity |].
    discriminate. }
  destruct (DeployMore.cmd_rollback_spec e args o s Hparse)
    as (B & L & Hst & _ & _ & Hfound).
  rewrite Hn in Hfound.
  unfold backup_dist in Hb.
  destruct (find (fun b => String.eqb (Deploy.b_name b) (Deploy.target_tx o))
              (Deploy.backups s)) as [b |] eqn:Hfind; [| discriminate].
  cbn in Hb. injection Hb as Hd.
  destruct (Hfound b Hn eq_refl) as (t & Ht & D & I & H0 & H1).
  cbn zeta in D, H0, H1. rewrite Hd in D, H0.
  exists t. split; [exact Ht |]. split; [exact D |]. split; [exact I |].
  split; [exact B |]. split; [exact L |]. split; [exact Hst |]. split.
  - intros H. destruct (H0 H) as (S0 & C & _). now split.
  - intros H c Hc. destruct (H1 H) as (C & _). rewrite C.
    destruct (DeployMore.init_journal_spec e (snd (Deploy.generate_tx_id e s)))
      as (_ & _ & _ & _ & _ & _ & Ci).
    rewrite Ci.
    destruct (DeployMore.still_generate_tx_id e s) as (_ & _ & Cg & _).
    now rewrite Cg, Hc.
Qed.

(** X12.  A manual rollback cannot be repeated.  After a [rollback] that
    exited 0, a second [rollback] without [--to] exits 1 and leaves dist/,
    the backups and the server alone: the last successful entry of the
    journal is now the one of the first rollback, and no backup directory
    carries the transaction id of a rollback. *)
Theorem X12_second_rollback_fails
  (e1 e2 : Deploy.env) (args1 args2 : list string)
  (o2 : Deploy.rollback_opts) (s : Deploy.state) :
  fst (Deploy.cmd_rollback e1 args1 s) = 0 ->
  Deploy.has_backup (deploy_tx e1 s) (Deploy.backups s) = false ->
  Deploy.parse_rollback_args args2 (Deploy.mkRollbackOpts "" false)
  = Sh.Ret o2 ->
  Deploy.target_tx o2 = "" ->
  let s1 := snd (Deploy.cmd_rollback e1 args1 s) in
  let r2 := Deploy.cmd_rollback e2 args2 s1 in
  fst r2 = 1 /\
  Deploy.dist (snd r2) = Deploy.dist s1 /\
  Deploy.backups (snd r2) = Deploy.backups s1 /\
  Deploy.trace (snd r2) = Deploy.trace s1 /\
  (rollback_target o2 s1 = deploy_tx e1 s \/ rollback_target o2 s1 = "").
Proof.
  intros H0 Hnb Hparse2 Hto s1 r2.
  (* the first rollback *)
  destruct (Deploy.parse_rollback_args args1 (Deploy.mkRollbackOpts "" false))
    as [o1 | c] eqn:Hparse1.
  2:{ unfold Deploy.cmd_rollback in H0. rewrite Hparse1 in H0.
      cbn in H0. apply DeployMore.parse_rollback_args_exit in Hparse1. lia. }
  destruct (DeployMore.cmd_rollback_spec e1 args1 o1 s Hparse1)
    as (B1 & _ & _ & Hnone1 & Hmiss1 & Hfound1).
  fold (rollback_target o1 s) in Hnone1, Hmiss1, Hfound1.
  fold s1 in B1, Hnone1, Hmiss1, Hfound1.
  assert (Hlast : Deploy.get_last_successful_tx s1 = deploy_tx e1 s \/
                  Deploy.get_last_successful_tx s1 = "").
  { destruct (Sh.nonempty (rollback_target o1 s)) eqn:Hn1.
    2:{ destruct (Hnone1 eq_refl) as (H1 & _). unfold s1 in H1. lia. }
    destruct (Deploy.has_backup (rollback_target o1 s) (Deploy.backups s))
      eqn:Hb1.
    2:{ destruct (Hmiss1 eq_refl eq_refl) as (H1 & _). unfold s1 in H1. lia. }
    apply DeployMore.find_has_backup in Hb1. destruct Hb1 as (b & Hfind).
    destruct (Hfound1 b eq_refl Hfind) as (t1 & _ & _ & _ & Hok & _).
    destruct (Hok H0) as (_ & _ & ts1 & ts2 & J).
    rewrite app_assoc in J.
    destruct (DeployProps.last_success_after_entry _
                (Deploy.set_journal
                   (Deploy.journal s
                      ++ Deploy.entry_lines
                           (Deploy.mkEntry (deploy_tx e1 s) ts1
                              Deploy.manual_rollback Deploy.started
                              (Deploy.obj1 "target"
                                 (Sh.default_to (Deploy.target_tx o1)
                                    "last_success")))) s)
                s1 J) as [_ Hsucc].
    destruct (Hsucc eq_refl) as [[_ H] | [_ H]]; auto. }
  assert (Ht2 : rollback_target o2 s1 = Deploy.get_last_successful_tx s1).
  { unfold rollback_target. now rewrite Hto. }
  assert (Hno : Sh.nonempty (rollback_target o2 s1) = false \/
                Deploy.has_backup (rollback_target o2 s1) (Deploy.backups s1)
                = false).
  { rewrite Ht2. destruct Hlast as [-> | ->]; [right | now left].
    rewrite B1. exact Hnb. }
  destruct (DeployMore.rollback_gives_up e2 args2 o2 s1 Hparse2 Hno)
    as (H1 & D & B & _ & T & _).
  subst r2. repeat (split; [assumption |]). rewrite Ht2. exact Hlast.
Qed.

(* ===================================================================== *)
(** * deploy-with-rollback.sh: a deploy, phase by phase *)
(* ===================================================================== *)

Module DeployWalk.
Import Deploy DeployProps DeployMore.

Lemma step_refl tx s : deploy_step tx s s.
Proof. unfold deploy_step. split; [apply grows_refl | auto]. Qed.

Lemma step_trans tx s1 s2 s3 :
  deploy_step tx s1 s2 -> deploy_step tx s2 s3 -> deploy_step tx s1 s3.
Proof.
  intros (G1 & L1 & B1 & C1) (G2 & L2 & B2 & C2). unfold deploy_step.
  split; [eapply grows_trans; eassumption |]. repeat split; congruence.
Qed.

Lemma step_still tx s s' : deploy_still s s' -> deploy_step tx s s'.
Proof.
  intros (J & B & C & D & L & T). unfold deploy_step.
  split; [now apply grows_same | auto].
Qed.

Lemma step_set_dist tx d s : deploy_step tx s (set_dist d s).
Proof. unfold deploy_step. split; [now apply grows_same | auto]. Qed.

Lemma step_start_server e tx s : deploy_step tx s (snd (start_server e s)).
Proof.
  destruct (deploy_start_server_spec e s) as (_ & _ & J & B & C & L & _).
  unfold deploy_step. split; [now apply grows_same | auto].
Qed.

(** An entry appended while the current-state file exists. *)
Lemma step_append e tx a st det s :
  (exists c, current_state s = Some c) ->
  deploy_step tx s (journal_append e tx a st det s).
Proof.
  intros (c & Hc).
  destruct (journal_append_spec e tx a st det s)
    as (_ & B & D & L & _ & _ & C).
  unfold deploy_step. split; [apply grows_append |].
  split; [exact L |]. split; [exact B |].
  rewrite C. destruct (init_journal_spec e s) as (_ & _ & _ & _ & _ & _ & Ci).
  now rewrite Ci, Hc.
Qed.

Lemma post_shift tx bd s0 s1 r :
  deploy_step tx s0 s1 -> deploy_post tx bd s1 r -> deploy_post tx bd s0 r.
Proof.
  intros (G & L & B & C) (G' & L' & Hr). unfold deploy_post.
  split; [eapply grows_trans; eassumption |]. split; [congruence |].
  destruct Hr as [(H0 & Hc & Hb & Hl) | (H1 & Hb & Hc)].
  - left. rewrite <- B. auto.
  - right. split; [exact H1 |]. split; [congruence |].
    destruct Hc as [Hc | Hc]; [now left | right; congruence].
Qed.

Lemma backup_dist_frame tx s s' :
  backups s' = backups s -> backup_dist tx s' = backup_dist tx s.
Proof. unfold backup_dist. now intros ->. Qed.

Lemma pre_still tx bd s s' :
  deploy_still s s' -> deploy_pre tx bd s -> deploy_pre tx bd s'.
Proof.
  intros St (R & B & C). pose proof St as (J' & B' & C' & _).
  split; [eapply ready_frame; [apply still_frame |]; eassumption |].
  split; [now rewrite (backup_dist_frame tx s s' B') |].
  now rewrite C'.
Qed.

Lemma pre_frame tx bd s s' :
  deploy_frame s s' -> deploy_pre tx bd s -> deploy_pre tx bd s'.
Proof.
  intros F (R & B & C). pose proof F as (J' & B' & C' & _).
  split; [eapply ready_frame; eassumption |].
  split; [now rewrite (backup_dist_frame tx s s' B') |].
  now rewrite C'.
Qed.

Lemma pre_set_dist tx bd d s :
  deploy_pre tx bd s -> deploy_pre tx bd (set_dist d s).
Proof.
  intros (R & B & C). split; [| split; [exact B | exact C]].
  eapply ready_frame; [apply frame_set_dist | exact R].
Qed.

Lemma pre_append_other e tx bd a st det s :
  is_success st = false ->
  deploy_pre tx bd s ->
  deploy_pre tx bd (journal_append e tx a st det s).
Proof.
  intros Hst (R & B & (c & C)).
  destruct (journal_append_spec e tx a st det s)
    as (_ & B' & _ & _ & _ & _ & C').
  split; [now apply ready_append_other |].
  split; [now rewrite (backup_dist_frame tx _ _ B') |].
  exists c. rewrite C'.
  destruct (init_journal_spec e s) as (_ & _ & _ & _ & _ & _ & Ci).
  now rewrite Ci, C.
Qed.

Lemma pre_append_backed e tx bd a det s :
  backup_dist tx s = Some bd ->
  (exists c, current_state s = Some c) ->
  deploy_pre tx bd (journal_append e tx a success det s).
Proof.
  intros B (c & C).
  assert (Hb : has_backup tx (backups s) = true).
  { apply find_has_backup. unfold backup_dist in B.
    destruct (find _ (backups s)) as [b |]; [now exists b | discriminate]. }
  destruct (journal_append_spec e tx a success det s)
    as (_ & B' & _ & _ & _ & _ & C').
  split; [now apply ready_append_success |].
  split; [now rewrite (backup_dist_frame tx _ _ B') |].
  exists c. rewrite C'.
  destruct (init_journal_spec e s) as (_ & _ & _ & _ & _ & _ & Ci).
  now rewrite Ci, C.
Qed.

Lemma pre_append_success e tx bd a det s :
  deploy_pre tx bd s ->
  deploy_pre tx bd (journal_append e tx a success det s).
Proof. intros (_ & B & C). now apply pre_append_backed. Qed.

(** The internal rollback of a deploy. *)
Lemma rollback_internal_post e tx bd reason s :
  deploy_pre tx bd s ->
  journal_grows tx s (snd (cmd_rollback_internal e tx reason s)) /\
  lock_file (snd (cmd_rollback_internal e tx reason s)) = lock_file s /\
  backups (snd (cmd_rollback_internal e tx reason s)) = backups s /\
  ((exists ts v,
       current_state (snd (cmd_rollback_internal e tx reason s))
       = Some (mkCstate rolled_back ts (Some tx) (Some v))) \/
   current_state (snd (cmd_rollback_internal e tx reason s))
   = current_state s).
Proof.
  intros ([Hlast Hb] & Hbd & Hc). unfold cmd_rollback_internal.
  destruct (Sh.nonempty (get_last_successful_tx s)) eqn:Hn; cbn [negb].
  2:{ cbn [snd].
      destruct (step_append e tx rollback failed
                  (obj1 "reason" "no_rollback_target") s Hc)
        as (G & L & B & C).
      split; [exact G |]. split; [exact L |]. split; [exact B |].
      now right. }
  assert (Htx : get_last_successful_tx s = tx).
  { destruct Hlast as [H | H]; [exact H |]. rewrite H in Hn. discriminate. }
  rewrite Htx.
  pose proof (still_stop_server e s) as S1.
  unfold backup_dist in Hbd.
  destruct (find (fun b => String.eqb (b_name b) tx) (backups s))
    as [b |] eqn:Hfind; [| discriminate].
  cbn in Hbd. injection Hbd as Hbd.
  rewrite (restore_backup_eq tx (stop_server e s) b)
    by (destruct S1 as (_ & B & _); now rewrite B).
  cbn [Z.eqb].
  set (s2 := set_dist _ (stop_server e s)).
  assert (S2 : deploy_step tx s s2).
  { eapply step_trans; [apply step_still; exact S1 | apply step_set_dist]. }
  clearbody s2.
  pose proof (step_start_server e tx s2) as S3.
  destruct (start_server e s2) as [st s3]. cbn [snd] in S3.
  assert (St3 : deploy_step tx s s3).
  { eapply step_trans; [exact S2 | exact S3]. }
  assert (Hc3 : exists c, current_state s3 = Some c).
  { destruct St3 as (_ & _ & _ & C). now rewrite C. }
  destruct (st =? 0).
  - destruct (journal_append_spec e tx rollback success
                (obj2 "rolled_back_to" tx "reason" reason) s3)
      as (_ & B4 & D4 & L4 & _ & _ & _).
    pose proof (grows_append e tx rollback success
                  (obj2 "rolled_back_to" tx "reason" reason) s3) as G4.
    set (s4 := journal_append e tx rollback success
                 (obj2 "rolled_back_to" tx "reason" reason) s3) in *.
    clearbody s4.
    unfold observe, update_current_state. simpl.
    destruct St3 as (G3 & L3 & B3 & C3).
    split; [eapply grows_trans; eassumption |].
    split; [congruence |]. split; [congruence |].
    left. eexists _, _; reflexivity.
  - cbn [snd].
    destruct (step_append e tx rollback failed
                (obj1 "reason" "server_restart_failed") s3 Hc3)
      as (G & L & B & C).
    destruct St3 as (G3 & L3 & B3 & C3).
    split; [eapply grows_trans; eassumption |].
    split; [congruence |]. split; [congruence |].
    right. congruence.
Qed.







(** A failed phase followed by the internal rollback. *)
Lemma failure_post e tx bd a det reason s :
  deploy_pre tx bd s ->
  deploy_post tx bd s
    (1, snd (cmd_rollback_internal e tx reason
               (journal_append e tx a failed det s))).
Proof.
  intros Hpre.
  pose proof (pre_append_other e tx bd a failed det s eq_refl Hpre) as Hpre1.
  destruct Hpre as (_ & _ & Hc).
  pose proof (step_append e tx a failed det s Hc) as St.
  apply (post_shift tx bd s _ _ St).
  destruct (rollback_internal_post e tx bd reason _ Hpre1)
    as (G & L & B & C).
  unfold deploy_post. cbn [fst snd].
  split; [exact G |]. split; [exact L |]. right. auto.
Qed.

Lemma deploy_success_post e tx bd s :
  deploy_pre tx bd s -> deploy_post tx bd s (deploy_success e tx s).
Proof.
  intros (_ & _ & Hc). unfold deploy_success.
  pose proof (step_append e tx deploy_complete success "{}" s Hc)
    as (G1 & L1 & B1 & C1).
  destruct (journal_append_lines e tx deploy_complete success "{}" s)
    as (ts1 & J1).
  destruct (last_success_after_entry
              (mkEntry tx ts1 deploy_complete success "{}") s
              (journal_append e tx deploy_complete success "{}" s) J1)
    as (_ & Hlast).
  assert (T1 : get_last_successful_tx
                 (journal_append e tx deploy_complete success "{}" s) = tx).
  { destruct (Hlast eq_refl) as [(_ & H) | (H & _)]; [exact H |].
    now contradiction H. }
  clear Hlast J1.
  set (s1 := journal_append e tx deploy_complete success "{}" s) in *.
  clearbody s1.
  unfold observe, update_current_state, set_backups, deploy_post. simpl.
  split.
  - destruct G1 as (a & Ha & Fa). exists a. now split.
  - split; [exact L1 |]. left. split; [reflexivity |].
    split; [eexists _, _; reflexivity |]. split; [now rewrite B1 |].
    exact T1.
Qed.

Lemma deploy_health_post e o tx bd s :
  deploy_pre tx bd s -> deploy_post tx bd s (deploy_health e o tx s).
Proof.
  intros Hpre. unfold deploy_health.
  destruct (do_health_check o); [| now apply deploy_success_post].
  pose proof (still_check_health e s) as S1.
  destruct (check_health e s) as [ok s1]. cbn [snd] in S1.
  pose proof (pre_still tx bd s s1 S1 Hpre) as Hpre1.
  apply (post_shift tx bd s s1 _ (step_still tx s s1 S1)).
  destruct ok.
  - pose proof Hpre1 as (_ & _ & Hc).
    apply (post_shift tx bd s1 _ _
             (step_append e tx health_check success "{}" s1 Hc)).
    apply deploy_success_post. now apply pre_append_success.
  - pose proof (failure_post e tx bd health_check "{}"
                  "health_check_failed" s1 Hpre1) as P.
    destruct (cmd_rollback_internal e tx "health_check_failed" _)
      as [st s3].
    exact P.
Qed.

Lemma deploy_server_post e o tx bd s :
  deploy_pre tx bd s -> deploy_post tx bd s (deploy_server e o tx s).
Proof.
  intros Hpre. unfold deploy_server.
  pose proof (still_stop_server e s) as S1.
  pose proof (pre_still tx bd s _ S1 Hpre) as Hpre1.
  apply (post_shift tx bd s _ _ (step_still tx s _ S1)).
  set (s1 := stop_server e s) in *. clearbody s1.
  pose proof Hpre1 as (_ & _ & Hc1).
  apply (post_shift tx bd s1 _ _
           (step_append e tx server_start started "{}" s1 Hc1)).
  pose proof (pre_append_other e tx bd server_start started "{}" s1
                eq_refl Hpre1) as Hpre2.
  set (s2 := journal_append e tx server_start started "{}" s1) in *.
  clearbody s2.
  pose proof (step_start_server e tx s2) as S3.
  pose proof (start_server_frame e s2) as F3.
  destruct (start_server e s2) as [st s3]. cbn [snd] in S3, F3.
  pose proof (pre_frame tx bd s2 s3 F3 Hpre2) as Hpre3.
  apply (post_shift tx bd s2 s3 _ S3).
  destruct (st =? 0).
  - pose proof Hpre3 as (_ & _ & Hc).
    apply (post_shift tx bd s3 _ _
             (step_append e tx server_start success "{}" s3 Hc)).
    apply deploy_health_post. now apply pre_append_success.
  - pose proof (failure_post e tx bd server_start
                  (obj1 "error" "Server start failed")
                  "server_start_failed" s3 Hpre3) as P.
    destruct (cmd_rollback_internal e tx "server_start_failed" _)
      as [st' s5].
    exact P.
Qed.

Lemma deploy_build_post e o tx bd s :
  deploy_pre tx bd s -> deploy_post tx bd s (deploy_build e o tx s).
Proof.
  intros Hpre. unfold deploy_build.
  destruct (pre_build o); [| now apply deploy_server_post].
  pose proof Hpre as (_ & _ & Hc).
  apply (post_shift tx bd s _ _
           (step_append e tx build_start started "{}" s Hc)).
  pose proof (pre_append_other e tx bd build_start started "{}" s
                eq_refl Hpre) as Hpre1.
  set (s1 := journal_append e tx build_start started "{}" s) in *.
  clearbody s1.
  pose proof (still_observe (npm_build e) (emit (Run "npm run build") s1))
    as S2.
  destruct (observe (npm_build e) (emit (Run "npm run build") s1))
    as [built s2].
  cbn [snd] in S2.
  assert (S12 : deploy_still s1 s2).
  { eapply still_trans; [apply still_emit | exact S2]. }
  pose proof (pre_set_dist tx bd (snd built) s2
                (pre_still tx bd s1 s2 S12 Hpre1)) as Hpre3.
  apply (post_shift tx bd s1 (set_dist (snd built) s2)).
  { eapply step_trans; [apply step_still; exact S12 | apply step_set_dist]. }
  set (s3 := set_dist (snd built) s2) in *. clearbody s3.
  destruct (fst built).
  - pose proof Hpre3 as (_ & _ & Hc3).
    apply (post_shift tx bd s3 _ _
             (step_append e tx build_complete success "{}" s3 Hc3)).
    apply deploy_server_post. now apply pre_append_success.
  - pose proof (failure_post e tx bd build_complete
                  (obj1 "error" "Build failed") "build_failed" s3 Hpre3)
      as P.
    destruct (cmd_rollback_internal e tx "build_failed" _) as [st' s5].
    exact P.
Qed.

Lemma create_backup_more e tx s :
  current_state (snd (create_backup e tx s)) = current_state s /\
  dist (snd (create_backup e tx s)) = dist s /\
  lock_file (snd (create_backup e tx s)) = lock_file s /\
  trace (snd (create_backup e tx s)) = trace s.
Proof.
  unfold create_backup, observe. cbn [fst snd].
  destruct (has_backup tx _); simpl; destruct (dist s); simpl; auto.
Qed.

Lemma find_app_fresh tx dir b :
  has_backup tx dir = false -> b_name b = tx ->
  find (fun b0 => String.eqb (b_name b0) tx) (dir ++ [b]) = Some b.
Proof.
  intros Hf Hb. induction dir as [| x dir IH]; simpl in *.
  - now rewrite Hb, String.eqb_refl.
  - apply orb_false_iff in Hf. destruct Hf as [Hx Hd].
    rewrite Hx. now apply IH.
Qed.

(** [cmd_deploy] from [init_journal] on. *)
Lemma deploy_locked_post e o tx s :
  journal_grows tx s (snd (deploy_locked e o tx s)) /\
  lock_file (snd (deploy_locked e o tx s)) = lock_file s /\
  ((fst (deploy_locked e o tx s) = 0 /\
    (exists ts v,
        current_state (snd (deploy_locked e o tx s))
        = Some (mkCstate deployed ts (Some tx) (Some v))) /\
    (exists dir, with_backup e tx s dir /\
                 backups (snd (deploy_locked e o tx s)) = prune_backups dir) /\
    get_last_successful_tx (snd (deploy_locked e o tx s)) = tx) \/
   (fst (deploy_locked e o tx s) = 1 /\
    with_backup e tx s (backups (snd (deploy_locked e o tx s))) /\
    ((exists ts v,
         current_state (snd (deploy_locked e o tx s))
         = Some (mkCstate rolled_back ts (Some tx) (Some v))) \/
     exists ts,
       current_state (snd (deploy_locked e o tx s))
       = Some (mkCstate deploying ts (Some tx) (Some "unknown"))))).
Proof.
  unfold deploy_locked.
  destruct (init_journal_spec e s) as (J1 & B1 & D1 & L1 & _ & _ & C1).
  set (s1 := init_journal e s) in *.
  assert (Hc1 : exists c, current_state s1 = Some c).
  { rewrite C1. destruct (current_state s); eauto. }
  clearbody s1.
  match goal with
  | |- context [journal_append e tx deploy_start started ?d s1] =>
      pose proof (step_append e tx deploy_start started d s1 Hc1) as St2;
      pose proof (journal_append_spec e tx deploy_start started d s1)
        as (_ & _ & D2 & _);
      set (s2 := journal_append e tx deploy_start started d s1) in *
  end.
  clearbody s2.
  destruct (update_current_state_more e deploying tx "unknown" s2)
    as (D3 & L3 & _).
  assert (J3 : journal (update_current_state e deploying tx "unknown" s2)
               = journal s2) by reflexivity.
  assert (B3 : backups (update_current_state e deploying tx "unknown" s2)
               = backups s2) by reflexivity.
  assert (C3 : exists ts,
             current_state (update_current_state e deploying tx "unknown" s2)
             = Some (mkCstate deploying ts (Some tx) (Some "unknown")))
    by (eexists; reflexivity).
  set (s3 := update_current_state e deploying tx "unknown" s2) in *.
  clearbody s3.
  destruct (create_backup_spec e tx s3) as (J4 & H4 & B4 & _).
  destruct (create_backup_more e tx s3) as (C4 & D4 & L4 & _).
  destruct (create_backup e tx s3) as [backup_path s4].
  cbn [snd] in J4, H4, B4, C4, D4, L4.
  destruct C3 as (ts3 & C3).
  destruct St2 as (G2 & L2 & B2 & C2).
  assert (Hwb : with_backup e tx s (backups s4)).
  { unfold with_backup. rewrite B4, B3, B2, B1, D3, D2, D1.
    destruct (has_backup tx (backups s)); eauto. }
  assert (Hbd : exists bd,
             backup_dist tx s4 = Some bd /\
             (forall d, has_backup tx (backups s) = false -> dist s = Some d ->
                        bd = Some d)).
  { unfold backup_dist. rewrite B4, B3, B2, B1, D3, D2, D1.
    destruct (has_backup tx (backups s)) eqn:Hb.
    - apply find_has_backup in Hb. destruct Hb as (b & ->).
      eexists. split; [reflexivity | discriminate].
    - rewrite (find_app_fresh tx (backups s)
                 (mkBackup tx (clock e (tick s3)) (dist s)) Hb eq_refl).
      eexists. split; [reflexivity |]. now intros d _ ->. }
  destruct Hbd as (bd & Hbd & Hfresh).
  assert (Hc4 : current_state s4
                = Some (mkCstate deploying ts3 (Some tx) (Some "unknown")))
    by congruence.
  assert (Hpre : deploy_pre tx bd
                   (journal_append e tx backup_created success
                      (obj1 "backup_path" backup_path) s4)).
  { apply pre_append_backed; [exact Hbd | eauto]. }
  assert (St5 : deploy_step tx s4
                  (journal_append e tx backup_created success
                     (obj1 "backup_path" backup_path) s4)).
  { apply step_append. eauto. }
  set (s5 := journal_append e tx backup_created success
               (obj1 "backup_path" backup_path) s4) in *.
  clearbody s5.
  destruct St5 as (G5 & L5 & B5 & C5).
  pose proof (deploy_build_post e o tx bd s5 Hpre) as (G & L & Hr).
  destruct (deploy_build e o tx s5) as [code s'].
  cbn [fst snd] in *.
  assert (G05 : journal_grows tx s s5).
  { apply (grows_trans tx s s2).
    - destruct G2 as (a & Ha & Fa). exists a. split; [congruence | exact Fa].
    - apply (grows_trans tx s2 s4); [apply grows_same; congruence | exact G5].
  }
  split; [eapply grows_trans; eassumption |].
  split; [congruence |].
  destruct Hr as [(H0 & Hc & Hb & Hl) | (H1 & Hb & Hc)].
  - left. split; [exact H0 |]. split; [exact Hc |]. split; [| exact Hl].
    exists (backups s4). split; [exact Hwb | congruence].
  - right. split; [exact H1 |]. split; [congruence |].
    destruct Hc as [Hc | Hc]; [now left |]. right. exists ts3. congruence.
Qed.


Lemma with_backup_frame e tx s s' dir :
  backups s' = backups s -> dist s' = dist s ->
  with_backup e tx s' dir -> with_backup e tx s dir.
Proof. unfold with_backup. now intros -> ->. Qed.

(** The lock file at the start of [cmd_deploy]: what [kill -0] says about
    the process it names. *)
Lemma lock_check e s1 held s2 :
  match lock_file s1 with
  | Some lock_pid =>
      if Sh.nonempty lock_pid
      then observe (fun t => kill0 e t lock_pid) s1
      else (false, s1)
  | None => (false, s1)
  end = (held, s2) ->
  deploy_still s1 s2 /\ trace s2 = trace s1 /\
  journal_dir s2 = journal_dir s1 /\
  (held = true ->
   exists pid t, lock_file s1 = Some pid /\ kill0 e t pid = true).
Proof.
  intros Eh. destruct (lock_file s1) as [pid |] eqn:El.
  - destruct (Sh.nonempty pid).
    + unfold observe in Eh. injection Eh as <- <-.
      split; [apply (still_observe (fun t => kill0 e t pid) s1) |].
      split; [reflexivity |]. split; [reflexivity |].
      intros Hh. now exists pid, (tick s1).
    + injection Eh as <- <-.
      split; [apply still_refl |]. split; [reflexivity |].
      split; [reflexivity | discriminate].
  - injection Eh as <- <-.
    split; [apply still_refl |]. split; [reflexivity |].
    split; [reflexivity | discriminate].
Qed.

(** [cmd_deploy] once its options are read: a live deploy holds the lock
    and nothing happens; or the journal directory is missing, the lock
    cannot be written and nothing happens either; or the deploy runs and
    the lock file is gone when it ends. *)
Lemma cmd_deploy_post e args o s :
  parse_deploy_args args (mkDeployOpts false true "30") = Sh.Ret o ->
  (fst (cmd_deploy e args s) = 1 /\
   deploy_still s (snd (cmd_deploy e args s)) /\
   journal_dir (snd (cmd_deploy e args s)) = journal_dir s /\
   trace (snd (cmd_deploy e args s)) = trace s /\
   exists pid t, lock_file s = Some pid /\ kill0 e t pid = true) \/
  (fst (cmd_deploy e args s) = 1 /\
   journal_dir s = false /\
   journal_dir (snd (cmd_deploy e args s)) = false /\
   journal (snd (cmd_deploy e args s)) = journal s /\
   backups (snd (cmd_deploy e args s)) = backups s /\
   current_state (snd (cmd_deploy e args s)) = current_state s /\
   dist (snd (cmd_deploy e args s)) = dist s /\
   lock_file (snd (cmd_deploy e args s)) = None /\
   trace (snd (cmd_deploy e args s)) = trace s) \/
  (journal_dir s = true /\
   lock_file (snd (cmd_deploy e args s)) = None /\
   journal_grows (deploy_tx e s) s (snd (cmd_deploy e args s)) /\
   ((fst (cmd_deploy e args s) = 0 /\
     (exists ts v,
         current_state (snd (cmd_deploy e args s))
         = Some (mkCstate deployed ts (Some (deploy_tx e s)) (Some v))) /\
     (exists dir, with_backup e (deploy_tx e s) s dir /\
                  backups (snd (cmd_deploy e args s)) = prune_backups dir) /\
     get_last_successful_tx (snd (cmd_deploy e args s)) = deploy_tx e s) \/
    (fst (cmd_deploy e args s) = 1 /\
     with_backup e (deploy_tx e s) s (backups (snd (cmd_deploy e args s))) /\
     ((exists ts v,
          current_state (snd (cmd_deploy e args s))
          = Some (mkCstate rolled_back ts (Some (deploy_tx e s)) (Some v)))
      \/
      exists ts,
        current_state (snd (cmd_deploy e args s))
        = Some (mkCstate deploying ts (Some (deploy_tx e s))
                  (Some "unknown")))))).
Proof.
  intros Hparse. unfold cmd_deploy, deploy_tx. rewrite Hparse.
  pose proof (still_generate_tx_id e s) as G.
  pose proof (trace_generate_tx_id e s) as Tg.
  assert (Dg : journal_dir (snd (generate_tx_id e s)) = journal_dir s)
    by reflexivity.
  destruct (generate_tx_id e s) as [tx s1]. cbn [fst snd] in *.
  destruct (match lock_file s1 with
            | Some lock_pid =>
                if Sh.nonempty lock_pid
                then observe (fun t => kill0 e t lock_pid) s1
                else (false, s1)
            | None => (false, s1)
            end) as [held s2] eqn:Eh.
  destruct (lock_check e s1 held s2 Eh) as (S12 & T12 & D12 & Hheld).
  pose proof (still_trans _ _ _ G S12) as S02.
  destruct held.
  - left. cbn [fst snd]. split; [reflexivity |]. split; [exact S02 |].
    split; [congruence |]. split; [congruence |].
    destruct (Hheld eq_refl) as (pid & t & Hl & Hk). exists pid, t.
    destruct G as (_ & _ & _ & _ & L & _). split; [congruence | exact Hk].
  - right. cbn [set_lock journal_dir].
    destruct (journal_dir s2) eqn:Hdir; cbn [negb].
    2:{ left. cbn [fst snd set_lock journal_dir journal backups
                     current_state dist lock_file trace].
        destruct S02 as (J2 & B2 & C2 & D2 & L2 & T2).
        repeat split; congruence. }
    right.
    pose proof (deploy_locked_post e o tx
                  (set_lock (Some (self_pid e)) (set_lock None s2)))
      as (Gr & L & Hr).
    destruct (deploy_locked e o tx
                (set_lock (Some (self_pid e)) (set_lock None s2)))
      as [code s3].
    cbn [fst snd] in *.
    destruct S02 as (J2 & B2 & C2 & D2 & L2 & T2).
    split; [congruence |].
    split; [reflexivity |].
    split.
    { destruct Gr as (a & Ha & Fa). exists a.
      split; [| exact Fa]. cbn [set_lock journal] in *. congruence. }
    assert (W : forall dir,
               with_backup e tx
                 (set_lock (Some (self_pid e)) (set_lock None s2)) dir ->
               with_backup e tx s dir).
    { intros dir. apply with_backup_frame; [exact B2 | exact D2]. }
    cbn [set_lock backups dist current_state] in *.
    destruct Hr as [(H0 & Hc & (dir & Hw & Hb) & Hl) | (H1 & Hw & Hc)].
    + left. split; [exact H0 |]. split; [exact Hc |]. split; [| exact Hl].
      exists dir. split; [now apply W | exact Hb].
    + right. split; [exact H1 |]. split; [now apply W | exact Hc].
Qed.

Lemma parse_exit_same e args c s :
  parse_deploy_args args (mkDeployOpts false true "30") = Sh.Exit c ->
  cmd_deploy e args s = (c, s).
Proof. intros H. unfold cmd_deploy. now rewrite H. Qed.

(** The journal after a manual rollback. *)
Lemma cmd_rollback_grows e args s :
  journal_grows (deploy_tx e s) s (snd (cmd_rollback e args s)).
Proof.
  destruct (parse_rollback_args args (mkRollbackOpts "" false))
    as [o | c] eqn:Hparse.
  2:{ unfold cmd_rollback. rewrite Hparse. apply grows_refl. }
  pose proof (cmd_rollback_spec e args o s Hparse)
    as (_ & _ & Hcode & Hnone & Hmiss & Hfound).
  cbn zeta in *.
  assert (Own : forall ts1 a1 st1 d1 ts2 a2 st2 d2,
             journal (snd (cmd_rollback e args s))
             = (journal s
                  ++ entry_lines (mkEntry (deploy_tx e s) ts1 a1 st1 d1)
                  ++ entry_lines (mkEntry (deploy_tx e s) ts2 a2 st2 d2))%list
             -> journal_grows (deploy_tx e s) s
                  (snd (cmd_rollback e args s))).
  { intros ts1 a1 st1 d1 ts2 a2 st2 d2 Hj. eexists. split; [exact Hj |].
    apply Forall_app. split.
    - apply (entry_lines_of (mkEntry (deploy_tx e s) ts1 a1 st1 d1)).
    - apply (entry_lines_of (mkEntry (deploy_tx e s) ts2 a2 st2 d2)). }
  assert (Own1 : forall ts1 a1 st1 d1 en,
             tx_id en = deploy_tx e s ->
             journal (snd (cmd_rollback e args s))
             = (journal s
                  ++ entry_lines (mkEntry (deploy_tx e s) ts1 a1 st1 d1)
                  ++ [Whole en])%list
             -> journal_grows (deploy_tx e s) s
                  (snd (cmd_rollback e args s))).
  { intros ts1 a1 st1 d1 en Hen Hj. eexists. split; [exact Hj |].
    apply Forall_app. split.
    - apply (entry_lines_of (mkEntry (deploy_tx e s) ts1 a1 st1 d1)).
    - constructor; [exact Hen | constructor]. }
  destruct (Sh.nonempty
              (if Sh.nonempty (target_tx o) then target_tx o
               else get_last_successful_tx s)) eqn:Hn.
  - destruct (find (fun b => String.eqb (b_name b)
                      (if Sh.nonempty (target_tx o) then target_tx o
                       else get_last_successful_tx s)) (backups s))
      as [b |] eqn:Hf.
    + destruct (Hfound b eq_refl eq_refl) as (t0 & _ & _ & _ & H0 & H1).
      destruct Hcode as [Hc | Hc].
      * destruct (H0 Hc) as (_ & _ & ts1 & ts2 & Hj). eapply Own; exact Hj.
      * destruct (H1 Hc) as (_ & ts1 & ts2 & reason & Hj & _).
        eapply Own1; [| exact Hj]. reflexivity.
    + assert (Hb : has_backup
                     (if Sh.nonempty (target_tx o) then target_tx o
                      else get_last_successful_tx s) (backups s) = false).
      { destruct (has_backup _ (backups s)) eqn:Hb; [| reflexivity].
        apply find_has_backup in Hb. destruct Hb as (b & Hb). congruence. }
      destruct (Hmiss eq_refl Hb) as (_ & _ & _ & _ & ts1 & ts2 & Hj).
      eapply Own1; [| exact Hj]. reflexivity.
  - destruct (Hnone eq_refl) as (_ & _ & _ & _ & ts1 & ts2 & Hj).
    eapply Own1; [| exact Hj]. reflexivity.
Qed.

Lemma find_filter_fresh (f : backup -> bool) tx dir b :
  has_backup tx dir = false -> b_name b = tx ->
  find (fun b0 => String.eqb (b_name b0) tx) (filter f (dir ++ [b]))
  = if f b then Some b else None.
Proof.
  intros Hf Hb. induction dir as [| x dir IH]; simpl in *.
  - destruct (f b); simpl; [now rewrite Hb, String.eqb_refl | reflexivity].
  - apply orb_false_iff in Hf. destruct Hf as [Hx Hd].
    destruct (f x); simpl; [rewrite Hx |]; now apply IH.
Qed.

(** A successful deploy leaves its transaction as the last success of the
    journal, and its backup, if the pruning kept it, holds the dist/ from
    before the deploy. *)
Lemma deploy_success_backup e args s :
  has_backup (deploy_tx e s) (backups s) = false ->
  fst (cmd_deploy e args s) = 0 ->
  get_last_successful_tx (snd (cmd_deploy e args s)) = deploy_tx e s /\
  (has_backup (deploy_tx e s) (backups (snd (cmd_deploy e args s))) = true ->
   backup_dist (deploy_tx e s) (snd (cmd_deploy e args s))
   = Some (dist s)).
Proof.
  intros Hfresh H0.
  destruct (parse_deploy_args args (mkDeployOpts false true "30"))
    as [o | c] eqn:Hparse.
  2:{ rewrite (parse_exit_same e args c s Hparse) in H0. cbn in H0. subst c.
      now apply (PruneProps.parse_deploy_args_exit _ _ _ _ (le_n _))
        in Hparse. }
  destruct (cmd_deploy_post e args o s Hparse)
    as [(H1 & _) | [(H1 & _) |
        (_ & _ & _ & [(_ & _ & (dir & Hw & Hb) & Hl) | (H1 & _)])]];
    try congruence.
  split; [exact Hl |]. intros Hkept.
  unfold with_backup in Hw. rewrite Hfresh in Hw. destruct Hw as (t & ->).
  set (nb := mkBackup (deploy_tx e s) (clock e t) (dist s)) in *.
  unfold backup_dist. rewrite Hb. unfold prune_backups.
  rewrite PruneProps.rm_loop_filter.
  rewrite (find_filter_fresh _ (deploy_tx e s) (backups s) nb Hfresh eq_refl).
  match goal with |- context [if ?c then _ else _] => destruct c eqn:Ek end;
    [reflexivity |].
  exfalso. rewrite Hb in Hkept. unfold prune_backups in Hkept.
  rewrite PruneProps.rm_loop_filter in Hkept.
  apply find_has_backup in Hkept. destruct Hkept as (b & Hfind).
  rewrite (find_filter_fresh _ (deploy_tx e s) (backups s) nb Hfresh eq_refl)
    in Hfind.
  rewrite Ek in Hfind. discriminate.
Qed.

End DeployWalk.



(** X13.  The journal is append-only.  Whatever its arguments and the host
    do, a [deploy] and a manual [rollback] keep every line the journal
    had, in place, and add only lines of entries that carry the
    transaction id of this very run. *)
Theorem X13_journal_is_append_only (e : Deploy.env) (args : list string)
  (s : Deploy.state) :
  journal_grows (deploy_tx e s) s (snd (Deploy.cmd_deploy e args s)) /\
  journal_grows (deploy_tx e s) s (snd (Deploy.cmd_rollback e args s)).
Proof.
  split; [| apply DeployWalk.cmd_rollback_grows].
  destruct (Deploy.parse_deploy_args args (Deploy.mkDeployOpts false true "30"))
    as [o | c] eqn:Hparse.
  - destruct (DeployWalk.cmd_deploy_post e args o s Hparse)
      as [(_ & (J & _) & _) | [(_ & _ & _ & J & _) | (_ & _ & G & _)]];
      [| | exact G]; now apply DeployMore.grows_same.
  - rewrite (DeployWalk.parse_exit_same e args c s Hparse).
    apply DeployMore.grows_refl.
Qed.

(** X15.  How a deploy ends, once its options are read.
    - A live process holds the lock: exit 1, nothing written.
    - The journal directory [logs/deploy-journal/] does not exist yet
      (the lock file is written before [init_journal] makes it): exit 1,
      nothing written, the directory still missing, so that the next
      deploy ends in the same way.
    - Otherwise the deploy runs, the lock file is gone at the end, and
      on exit 0 CurrentState is [deployed] for this transaction and the
      backups, the new one included, were pruned; on exit 1 the backup
      of this transaction was made and nothing was pruned, and
      CurrentState is [rolled_back] for this transaction or, when the
      rollback itself failed, still [deploying]. *)
Theorem X15_deploy_outcomes (e : Deploy.env) (args : list string)
  (o : Deploy.deploy_opts) (s : Deploy.state) :
  Deploy.parse_deploy_args args (Deploy.mkDeployOpts false true "30")
  = Sh.Ret o ->
  let tx := deploy_tx e s in
  let r := Deploy.cmd_deploy e args s in
  (fst r = 1 /\ deploy_still s (snd r) /\
   Deploy.journal_dir (snd r) = Deploy.journal_dir s /\
   Deploy.trace (snd r) = Deploy.trace s /\
   exists pid t, Deploy.lock_file s = Some pid /\
                 Deploy.kill0 e t pid = true) \/
  (fst r = 1 /\
   Deploy.journal_dir s = false /\
   Deploy.journal_dir (snd r) = false /\
   Deploy.journal (snd r) = Deploy.journal s /\
   Deploy.backups (snd r) = Deploy.backups s /\
   Deploy.current_state (snd r) = Deploy.current_state s /\
   Deploy.dist (snd r) = Deploy.dist s /\
   Deploy.lock_file (snd r) = None /\
   Deploy.trace (snd r) = Deploy.trace s) \/
  (Deploy.journal_dir s = true /\
   Deploy.lock_file (snd r) = None /\
   ((fst r = 0 /\
     (exists ts v,
         Deploy.current_state (snd r)
         = Some (Deploy.mkCstate Deploy.deployed ts (Some tx) (Some v))) /\
     exists dir, with_backup e tx s dir /\
                 Deploy.backups (snd r) = Deploy.prune_backups dir) \/
    (fst r = 1 /\
     with_backup e tx s (Deploy.backups (snd r)) /\
     ((exists ts v,
          Deploy.current_state (snd r)
          = Some (Deploy.mkCstate Deploy.rolled_back ts (Some tx) (Some v)))
      \/
      exists ts,
        Deploy.current_state (snd r)
        = Some (Deploy.mkCstate Deploy.deploying ts (Some tx)
                  (Some "unknown")))))).
Proof.
  intros Hparse tx r. subst tx r.
  destruct (DeployWalk.cmd_deploy_post e args o s Hparse)
    as [H | [H | (Dir & L & _ & Hr)]]; [now left | right; now left |].
  right. right. split; [exact Dir |]. split; [exact L |].
  destruct Hr as [(H0 & Hc & Hb & _) | (H1 & Hw & Hc)]; [now left | right].
  split; [exact H1 |]. split; [exact Hw | exact Hc].
Qed.

(** X20.  A rollback after a successful deploy goes back to that deploy.
    When [deploy] exits 0, the next [rollback] without [--to] goes back
    to the transaction of that very deploy.  The backup of that
    transaction, if the pruning has kept it, holds the dist/ of before
    the deploy: the rollback puts that content [d] in place and runs
    [start.sh --force] on it, so that dist/ is afterwards what that run
    of [start.sh] has left of [d], whatever the exit status of the
    rollback.  Exit 0 means that [start.sh] succeeded and CurrentState
    is [rolled_back] for the transaction of the deploy. *)
Theorem X20_rollback_undoes_last_deploy (e1 e2 : Deploy.env)
  (args1 args2 : list string) (o2 : Deploy.rollback_opts)
  (s : Deploy.state) (d : string) :
  Deploy.dist s = Some d ->
  Deploy.has_backup (deploy_tx e1 s) (Deploy.backups s) = false ->
  fst (Deploy.cmd_deploy e1 args1 s) = 0 ->
  Deploy.parse_rollback_args args2 (Deploy.mkRollbackOpts "" false)
  = Sh.Ret o2 ->
  Deploy.target_tx o2 = "" ->
  let s1 := snd (Deploy.cmd_deploy e1 args1 s) in
  Deploy.has_backup (deploy_tx e1 s) (Deploy.backups s1) = true ->
  let r2 := Deploy.cmd_rollback e2 args2 s1 in
  rollback_target o2 s1 = deploy_tx e1 s /\
  backup_dist (deploy_tx e1 s) s1 = Some (Some d) /\
  exists t,
    (Deploy.tick s1 <= t)%nat /\
    Deploy.dist (snd r2) = snd (Deploy.start_sh e2 t (Some d)) /\
    In (Run "start.sh --force") (Deploy.trace (snd r2)) /\
    (fst r2 = 0 ->
       fst (Deploy.start_sh e2 t (Some d)) = 0 /\
       exists ts v,
         Deploy.current_state (snd r2)
         = Some (Deploy.mkCstate Deploy.rolled_back ts
                   (Some (deploy_tx e1 s)) (Some v))).
Proof.
  intros Hd Hfresh H0 Hparse Hto s1 Hkept r2. subst r2 s1.
  destruct (DeployWalk.deploy_success_backup e1 args1 s Hfresh H0)
    as (Hlast & Hbk).
  specialize (Hbk Hkept).
  set (s1 := snd (Deploy.cmd_deploy e1 args1 s)) in *. clearbody s1.
  assert (Ht : rollback_target o2 s1 = deploy_tx e1 s).
  { unfold rollback_target. now rewrite Hto, Hlast. }
  split; [exact Ht |]. split; [now rewrite Hbk, Hd |].
  assert (Hn : Sh.nonempty (deploy_tx e1 s) = true) by reflexivity.
  destruct (DeployMore.cmd_rollback_spec e2 args2 o2 s1 Hparse)
    as (_ & _ & _ & _ & _ & Hfound).
  fold (rollback_target o2 s1) in Hfound. rewrite Ht in Hfound.
  unfold backup_dist in Hbk.
  destruct (find (fun b => String.eqb (Deploy.b_name b) (deploy_tx e1 s))
              (Deploy.backups s1)) as [b |] eqn:Hfind; [| discriminate].
  cbn in Hbk. injection Hbk as Hbd.
  destruct (Hfound b Hn eq_refl) as (t & Hle & D & I & H0' & _).
  cbn zeta in D, H0'. rewrite Hbd, Hd in D, H0'.
  exists t. split; [exact Hle |]. split; [exact D |]. split; [exact I |].
  intros H. destruct (H0' H) as (S0 & C & _). now split.
Qed.

(* ===================================================================== *)
(** * deploy-with-rollback.sh: commands run and time slept *)
(* ===================================================================== *)

Module DeployEffects.
Import Deploy DeployProps DeployMore DeployWalk.

Lemma adds_refl P s : deploy_adds P 0 s s.
Proof.
  exists []. split; [now rewrite app_nil_r |]. split; [constructor | cbn; lia].
Qed.

Lemma adds_same P s s' : trace s' = trace s -> deploy_adds P 0 s s'.
Proof.
  intros H. exists []. split; [now rewrite app_nil_r |].
  split; [constructor | cbn; lia].
Qed.

Lemma adds_trans P n m s1 s2 s3 :
  deploy_adds P n s1 s2 -> deploy_adds P m s2 s3 ->
  deploy_adds P (n + m) s1 s3.
Proof.
  intros (a & Ha & Fa & Sa) (b & Hb & Fb & Sb). exists (a ++ b)%list.
  split; [now rewrite Hb, Ha, app_assoc |].
  split; [apply Forall_app; now split |].
  rewrite Steps.sleep_total_app. lia.
Qed.

Lemma adds_le P n m s s' :
  n <= m -> deploy_adds P n s s' -> deploy_adds P m s s'.
Proof.
  intros Hle (a & Ha & Fa & Sa). exists a. repeat split; try assumption; lia.
Qed.

(** A step that leaves the trace alone, then more. *)
Lemma adds_after P n s s1 s' :
  trace s1 = trace s -> deploy_adds P n s1 s' -> deploy_adds P n s s'.
Proof.
  intros H (a & Ha & Fa & Sa). exists a. rewrite <- H. auto.
Qed.

Lemma adds_event P ev s :
  P ev -> sleep_total [ev] = 0 -> deploy_adds P 0 s (emit ev s).
Proof.
  intros H H0. exists [ev]. split; [reflexivity |].
  split; [now constructor | lia].
Qed.

Lemma adds_sleep P k s :
  P (Sleep k) -> 0 <= k -> deploy_adds P k s (emit (Sleep k) s).
Proof.
  intros H H0. exists [Sleep k]. split; [reflexivity |].
  split; [now constructor | cbn; lia].
Qed.

Lemma adds_append P e tx a st det s :
  deploy_adds P 0 s (journal_append e tx a st det s).
Proof. apply adds_same, trace_append. Qed.

Section Events.
Variable build : bool.
Let P := deploy_event build.

Lemma health_attempts_adds e : forall left s,
  deploy_adds P (HEALTH_INTERVAL * Z.of_nat (Nat.pred left)) s
    (snd (health_attempts e left s)).
Proof.
  induction left as [| k IH]; intros s; cbn [health_attempts].
  - apply adds_refl.
  - unfold observe. cbn [fst snd tick emit].
    set (s1 := mkState _ _ _ _ _ _ _ _).
    assert (A1 : deploy_adds P 0 s s1).
    { exists [HttpProbe "curl" "localhost" "/health/ready"].
      split; [reflexivity |]. split; [| cbn; lia].
      constructor; [| constructor]. unfold P, deploy_event. tauto. }
    clearbody s1.
    destruct (curl_ready e (tick s)); cbn [snd].
    + eapply adds_le; [| exact A1]. unfold HEALTH_INTERVAL. lia.
    + destruct k as [| k'].
      * cbn [health_attempts snd]. eapply adds_le; [| exact A1]. cbn. lia.
      * assert (A2 : deploy_adds P HEALTH_INTERVAL s1
                       (emit (Sleep HEALTH_INTERVAL) s1)).
        { apply adds_sleep; [| unfold HEALTH_INTERVAL; lia].
          unfold P, deploy_event. tauto. }
        pose proof (adds_trans _ _ _ _ _ _ A1
                      (adds_trans _ _ _ _ _ _ A2
                         (IH (emit (Sleep HEALTH_INTERVAL) s1)))) as A.
        eapply adds_le; [| exact A].
        cbn [Nat.pred]. unfold HEALTH_INTERVAL. lia.
Qed.

Lemma check_health_adds e s :
  deploy_adds P 27 s (snd (check_health e s)).
Proof.
  unfold check_health, observe. cbn [fst snd tick emit].
  set (s1 := mkState _ _ _ _ _ _ _ _).
  assert (A1 : deploy_adds P 0 s s1).
  { exists [HttpProbe "curl" "localhost" "/health/live"].
    split; [reflexivity |]. split; [| cbn; lia].
    constructor; [| constructor]. unfold P, deploy_event. tauto. }
  clearbody s1.
  assert (A2 : deploy_adds P 2 s1
                 (if curl_live e (tick s) then s1
                  else emit (Sleep 2)
                         (emit (Run "health-endpoint.sh --daemonize") s1))).
  { destruct (curl_live e (tick s)).
    - eapply adds_le; [| apply adds_refl]. lia.
    - apply (adds_trans P 0 2 s1
               (emit (Run "health-endpoint.sh --daemonize") s1)).
      + apply adds_event; [| reflexivity]. unfold P, deploy_event. tauto.
      + apply adds_sleep; [| lia]. unfold P, deploy_event. tauto. }
  pose proof (adds_trans _ _ _ _ _ _ A1
                (adds_trans _ _ _ _ _ _ A2
                   (health_attempts_adds e HEALTH_RETRIES _))) as A.
  eapply adds_le; [| exact A]. cbn. lia.
Qed.

Lemma stop_server_adds e s : deploy_adds P 0 s (stop_server e s).
Proof.
  unfold stop_server. destruct (has_stop_sh e); [| apply adds_refl].
  apply adds_event; [| reflexivity]. unfold P, deploy_event. tauto.
Qed.

Lemma start_server_adds e s : deploy_adds P 0 s (snd (start_server e s)).
Proof.
  destruct (deploy_start_server_spec e s) as (_ & _ & _ & _ & _ & _ & _ & T).
  exists [Run "start.sh --force"]. split; [exact T |].
  split; [| cbn; lia]. constructor; [| constructor].
  unfold P, deploy_event. tauto.
Qed.

Lemma restore_backup_adds tx s :
  deploy_adds P 0 s (snd (restore_backup tx s)).
Proof.
  unfold restore_backup.
  destruct (find _ (backups s)) as [b |]; [| apply adds_refl].
  destruct (b_dist b); [apply adds_same; reflexivity | apply adds_refl].
Qed.

Lemma rollback_internal_adds e tx reason s :
  deploy_adds P 0 s (snd (cmd_rollback_internal e tx reason s)).
Proof.
  unfold cmd_rollback_internal.
  destruct (Sh.nonempty (get_last_successful_tx s)); cbn [negb];
    [| apply adds_append].
  pose proof (stop_server_adds e s) as A1.
  set (s1 := stop_server e s) in *. clearbody s1.
  pose proof (restore_backup_adds (get_last_successful_tx s) s1) as A2.
  destruct (restore_backup (get_last_successful_tx s) s1) as [restored s2].
  cbn [snd] in A2.
  pose proof (adds_trans _ _ _ _ _ _ A1 A2) as A12. cbn in A12.
  destruct (restored =? 0).
  2:{ cbn [snd]. apply (adds_trans P 0 0 s s2); [exact A12 |].
      apply adds_append. }
  pose proof (start_server_adds e s2) as A3.
  destruct (start_server e s2) as [st s3]. cbn [snd] in A3.
  pose proof (adds_trans _ _ _ _ _ _ A12 A3) as A13. cbn in A13.
  destruct (st =? 0).
  - set (s4 := journal_append e tx rollback success _ s3).
    assert (A4 : deploy_adds P 0 s3 s4) by apply adds_append.
    clearbody s4. unfold observe. cbn [fst snd].
    apply (adds_trans P 0 0 s s4);
      [exact (adds_trans _ _ _ _ _ _ A13 A4) |].
    apply adds_same.
    now destruct (update_current_state_more e rolled_back
                    (get_last_successful_tx s) (app_version e (tick s4))
                    (mkState (journal_dir s4) (journal s4) (current_state s4)
                       (backups s4) (lock_file s4) (dist s4) (S (tick s4))
                       (trace s4)))
      as (_ & _ & T).
  - cbn [snd]. apply (adds_trans P 0 0 s s3); [exact A13 | apply adds_append].
Qed.

Lemma failure_adds e tx a det reason s :
  deploy_adds P 0 s
    (snd (cmd_rollback_internal e tx reason
            (journal_append e tx a failed det s))).
Proof.
  apply (adds_trans P 0 0 s (journal_append e tx a failed det s));
    [apply adds_append | apply rollback_internal_adds].
Qed.

Lemma success_adds e tx s : deploy_adds P 0 s (snd (deploy_success e tx s)).
Proof.
  unfold deploy_success.
  pose proof (adds_append P e tx deploy_complete success "{}" s) as A1.
  set (s1 := journal_append e tx deploy_complete success "{}" s) in *.
  clearbody s1. unfold observe, update_current_state, set_backups. simpl.
  exact A1.
Qed.

Lemma health_adds e o tx s :
  deploy_adds P 27 s (snd (deploy_health e o tx s)).
Proof.
  unfold deploy_health.
  destruct (do_health_check o).
  2:{ eapply adds_le; [| apply success_adds]. lia. }
  pose proof (check_health_adds e s) as A1.
  destruct (check_health e s) as [ok s1]. cbn [snd] in A1.
  destruct ok.
  - apply (adds_trans P 27 0 s s1 _ A1).
    apply (adds_trans P 0 0 s1
             (journal_append e tx health_check success "{}" s1));
      [apply adds_append | apply success_adds].
  - pose proof (failure_adds e tx health_check "{}" "health_check_failed" s1)
      as A2.
    destruct (cmd_rollback_internal e tx "health_check_failed" _)
      as [st s3].
    cbn [snd] in *. exact (adds_trans P 27 0 s s1 s3 A1 A2).
Qed.

Lemma server_adds e o tx s :
  deploy_adds P 27 s (snd (deploy_server e o tx s)).
Proof.
  unfold deploy_server.
  pose proof (stop_server_adds e s) as A1.
  set (s1 := stop_server e s) in *. clearbody s1.
  pose proof (adds_append P e tx server_start started "{}" s1) as A2.
  set (s2 := journal_append e tx server_start started "{}" s1) in *.
  clearbody s2.
  pose proof (start_server_adds e s2) as A3.
  destruct (start_server e s2) as [st s3]. cbn [snd] in A3.
  pose proof (adds_trans _ _ _ _ _ _ A1 (adds_trans _ _ _ _ _ _ A2 A3))
    as A13.
  cbn in A13.
  destruct (st =? 0).
  - apply (adds_trans P 0 27 s s3 _ A13).
    apply (adds_trans P 0 27 s3
             (journal_append e tx server_start success "{}" s3));
      [apply adds_append | apply health_adds].
  - pose proof (failure_adds e tx server_start
                  (obj1 "error" "Server start failed")
                  "server_start_failed" s3) as A4.
    destruct (cmd_rollback_internal e tx "server_start_failed" _)
      as [st' s5].
    cbn [snd] in *. eapply adds_le; [| exact (adds_trans P 0 0 s s3 s5 A13 A4)].
    lia.
Qed.

End Events.

Lemma build_adds e o tx s :
  deploy_adds (deploy_event (pre_build o)) 27 s (snd (deploy_build e o tx s)).
Proof.
  unfold deploy_build.
  destruct (pre_build o) eqn:Hp; [| apply server_adds].
  pose proof (adds_append (deploy_event true) e tx build_start started "{}" s)
    as A1.
  set (s1 := journal_append e tx build_start started "{}" s) in *.
  clearbody s1.
  unfold observe. cbn [fst snd tick emit].
  set (s3 := set_dist _ _).
  assert (A3 : deploy_adds (deploy_event true) 0 s1 s3).
  { exists [Run "npm run build"]. split; [reflexivity |].
    split; [| cbn; lia]. constructor; [| constructor].
    unfold deploy_event. tauto. }
  clearbody s3.
  pose proof (adds_trans _ _ _ _ _ _ A1 A3) as A13. cbn in A13.
  destruct (fst (npm_build e (tick s1))).
  - apply (adds_trans _ 0 27 s s3 _ A13).
    apply (adds_trans _ 0 27 s3
             (journal_append e tx build_complete success "{}" s3));
      [apply adds_append | apply server_adds].
  - pose proof (failure_adds true e tx build_complete
                  (obj1 "error" "Build failed") "build_failed" s3) as A4.
    destruct (cmd_rollback_internal e tx "build_failed" _) as [st' s5].
    cbn [snd] in *.
    eapply adds_le; [| exact (adds_trans _ 0 0 s s3 s5 A13 A4)]. lia.
Qed.

Lemma locked_adds e o tx s :
  deploy_adds (deploy_event (pre_build o)) 27 s
    (snd (deploy_locked e o tx s)).
Proof.
  unfold deploy_locked.
  pose proof (trace_init e s) as T1.
  set (s1 := init_journal e s) in *. clearbody s1.
  match goal with
  | |- context [journal_append e tx deploy_start started ?d s1] =>
      pose proof (trace_append e tx deploy_start started d s1) as T2;
      set (s2 := journal_append e tx deploy_start started d s1) in *
  end.
  clearbody s2.
  destruct (update_current_state_more e deploying tx "unknown" s2)
    as (_ & _ & T3).
  set (s3 := update_current_state e deploying tx "unknown" s2) in *.
  clearbody s3.
  destruct (create_backup_more e tx s3) as (_ & _ & _ & T4).
  destruct (create_backup e tx s3) as [backup_path s4]. cbn [snd] in T4.
  pose proof (trace_append e tx backup_created success
                (obj1 "backup_path" backup_path) s4) as T5.
  set (s5 := journal_append e tx backup_created success
               (obj1 "backup_path" backup_path) s4) in *.
  clearbody s5.
  apply (adds_after _ 27 s s5); [congruence | apply build_adds].
Qed.

(** The events of a whole [deploy]. *)
Lemma cmd_deploy_adds e args o s :
  parse_deploy_args args (mkDeployOpts false true "30") = Sh.Ret o ->
  deploy_adds (deploy_event (pre_build o)) 27 s (snd (cmd_deploy e args s)).
Proof.
  intros Hparse. unfold cmd_deploy. rewrite Hparse.
  pose proof (trace_generate_tx_id e s) as T1.
  destruct (generate_tx_id e s) as [tx s1]. cbn [snd] in T1.
  assert (T2 : trace (snd (match lock_file s1 with
                           | Some lock_pid =>
                               if Sh.nonempty lock_pid
                               then observe (fun t => kill0 e t lock_pid) s1
                               else (false, s1)
                           | None => (false, s1)
                           end)) = trace s1).
  { destruct (lock_file s1) as [pid |]; [| reflexivity].
    destruct (Sh.nonempty pid); reflexivity. }
  destruct (match lock_file s1 with
            | Some lock_pid => _
            | None => _
            end) as [held s2].
  cbn [snd] in T2.
  destruct held.
  - cbn [snd]. eapply adds_le; [| apply adds_same; congruence]. lia.
  - destruct (negb (journal_dir (set_lock None s2))).
    { cbn [snd set_lock trace].
      eapply adds_le; [| apply adds_same; cbn [trace set_lock]; congruence].
      lia. }
    pose proof (locked_adds e o tx
                  (set_lock (Some (self_pid e)) (set_lock None s2))) as A.
    destruct (deploy_locked e o tx
                (set_lock (Some (self_pid e)) (set_lock None s2)))
      as [code s3].
    cbn [snd] in *. destruct A as (a & Ha & Fa & Sa).
    exists a. cbn [set_lock trace] in *. split; [congruence | auto].
Qed.

(** The events of a manual [rollback]. *)
Lemma cmd_rollback_adds e args s :
  deploy_adds (deploy_event false) 27 s (snd (cmd_rollback e args s)).
Proof.
  unfold cmd_rollback.
  destruct (parse_rollback_args args (mkRollbackOpts "" false)) as [o | c];
    [| eapply adds_le; [| apply adds_refl]; lia].
  pose proof (trace_generate_tx_id e s) as T1.
  destruct (generate_tx_id e s) as [tx s1]. cbn [snd] in T1.
  pose proof (trace_init e s1) as T2.
  set (s2 := init_journal e s1) in *. clearbody s2.
  match goal with
  | |- context [journal_append e tx manual_rollback started ?d s2] =>
      pose proof (trace_append e tx manual_rollback started d s2) as T3;
      set (s3 := journal_append e tx manual_rollback started d s2) in *
  end.
  clearbody s3.
  apply (adds_after _ 27 s s3); [congruence |].
  set (target := if Sh.nonempty (target_tx o) then target_tx o
                 else get_last_successful_tx s3).
  clearbody target.
  destruct (Sh.nonempty target); cbn [negb];
    [| cbn [snd]; eapply adds_le; [| apply adds_append]; lia].
  destruct (has_backup target (backups s3)); cbn [negb];
    [| cbn [snd]; eapply adds_le; [| apply adds_append]; lia].
  pose proof (stop_server_adds false e s3) as A1.
  set (s4 := stop_server e s3) in *. clearbody s4.
  pose proof (restore_backup_adds false target s4) as A2.
  destruct (restore_backup target s4) as [restored s5]. cbn [snd] in A2.
  pose proof (adds_trans _ _ _ _ _ _ A1 A2) as A12. cbn in A12.
  destruct (restored =? 0).
  2:{ cbn [snd]. eapply adds_le;
        [| exact (adds_trans _ 0 0 _ _ _ A12 (adds_append _ e tx _ _ _ s5))].
      lia. }
  pose proof (start_server_adds false e s5) as A3.
  destruct (start_server e s5) as [st s6]. cbn [snd] in A3.
  pose proof (adds_trans _ _ _ _ _ _ A12 A3) as A13. cbn in A13.
  destruct (st =? 0).
  2:{ cbn [snd]. eapply adds_le;
        [| exact (adds_trans _ 0 0 _ _ _ A13 (adds_append _ e tx _ _ _ s6))].
      lia. }
  assert (A4 : deploy_adds (deploy_event false) 27 s6
                 (snd (if force o then (true, s6) else check_health e s6))).
  { destruct (force o); [| apply check_health_adds].
    eapply adds_le; [| apply adds_refl]. lia. }
  destruct (if force o then (true, s6) else check_health e s6) as [ok s7].
  cbn [snd] in A4.
  pose proof (adds_trans _ _ _ _ _ _ A13 A4) as A14. cbn in A14.
  destruct ok.
  - set (s8 := journal_append e tx manual_rollback success _ s7).
    assert (A5 : deploy_adds (deploy_event false) 0 s7 s8)
      by apply adds_append.
    clearbody s8. unfold observe. cbn [fst snd].
    eapply adds_le; [| apply (adds_trans _ 27 0 s3 s8);
                       [exact (adds_trans _ _ _ _ _ _ A14 A5) |]].
    { lia. }
    apply adds_same.
    now destruct (update_current_state_more e rolled_back target
                    (app_version e (tick s8))
                    (mkState (journal_dir s8) (journal s8) (current_state s8)
                       (backups s8) (lock_file s8) (dist s8) (S (tick s8))
                       (trace s8)))
      as (_ & _ & T).
  - cbn [snd]. eapply adds_le;
      [| exact (adds_trans _ 27 0 _ _ _ A14 (adds_append _ e tx _ _ _ s7))].
    lia.
Qed.

(** What events of the script never are. *)
Lemma deploy_event_facts build a :
  Forall (deploy_event build) a ->
  existsb is_signal a = false /\ existsb is_spawn a = false /\
  (build = false -> ~ In (Run "npm run build") a).
Proof.
  induction 1 as [| ev a Hev _ (I1 & I2 & I3)].
  - repeat split. intros _ [].
  - cbn [existsb]. rewrite I1, I2.
    unfold deploy_event in Hev.
    repeat split.
    + destruct Hev as [-> | [-> | [[_ ->] | [-> | [-> | [-> | [-> | ->]]]]]]];
        reflexivity.
    + destruct Hev as [-> | [-> | [[_ ->] | [-> | [-> | [-> | [-> | ->]]]]]]];
        reflexivity.
    + intros Hb [E | Hin]; [| now apply I3].
      destruct Hev as [-> | [-> | [[Hb' _] | [-> | [-> | [-> | [-> | ->]]]]]]];
        try discriminate E. congruence.
Qed.

End DeployEffects.

(** X25.  The commands [deploy-with-rollback.sh] runs itself.  A sibling
    script counts here as the one command that runs it: what [stop.sh]
    and [start.sh --force] do in turn (signals, a server launched, the
    build of [start.sh], their own waiting) is not part of this trace,
    see X2 and X7.  Every command of a [deploy] or a manual [rollback] is
    one of: [stop.sh], [start.sh --force], [health-endpoint.sh
    --daemonize], a curl probe of the health endpoint, [sleep 2] or
    [sleep 5], and, for a deploy with [--pre-build] only,
    [npm run build].  The script itself calls neither [kill] nor a
    server, and its own [sleep] commands add up to 27 seconds at most. *)
Theorem X25_deploy_commands_and_waiting (e : Deploy.env)
  (args rargs : list string) (o : Deploy.deploy_opts) (s : Deploy.state) :
  Deploy.parse_deploy_args args (Deploy.mkDeployOpts false true "30")
  = Sh.Ret o ->
  (exists a,
      Deploy.trace (snd (Deploy.cmd_deploy e args s))
      = (Deploy.trace s ++ a)%list /\
      Forall (deploy_event (Deploy.pre_build o)) a /\
      0 <= sleep_total a <= 27 /\
      existsb is_signal a = false /\ existsb is_spawn a = false /\
      (Deploy.pre_build o = false -> ~ In (Run "npm run build") a)) /\
  (exists a,
      Deploy.trace (snd (Deploy.cmd_rollback e rargs s))
      = (Deploy.trace s ++ a)%list /\
      Forall (deploy_event false) a /\
      0 <= sleep_total a <= 27 /\
      existsb is_signal a = false /\ existsb is_spawn a = false /\
      ~ In (Run "npm run build") a).
Proof.
  intros Hparse. split.
  - destruct (DeployEffects.cmd_deploy_adds e args o s Hparse)
      as (a & Ha & Fa & Sa).
    destruct (DeployEffects.deploy_event_facts _ a Fa) as (F1 & F2 & F3).
    exists a. auto 10.
  - destruct (DeployEffects.cmd_rollback_adds e rargs s)
      as (a & Ha & Fa & Sa).
    destruct (DeployEffects.deploy_event_facts _ a Fa) as (F1 & F2 & F3).
    exists a. auto 10.
Qed.

(* ===================================================================== *)
(** * deploy-with-rollback.sh: the verify command *)
(* ===================================================================== *)


(* ===================================================================== *)
(** * Further properties of rollback.sh *)
(* ===================================================================== *)

Module GitRollbackMore.
Import GitRollback.

(** The commands after the plan is printed. *)
Lemma execute_spec e o target s :
  (exists k, trace (snd (execute e o target s))
             = (trace s ++ firstn k (rollback_plan o target))%list) /\
  (head (snd (execute e o target s)) = head s \/
   head (snd (execute e o target s)) = target) /\
  ((state_file (snd (execute e o target s)) = state_file s /\
    fst (execute e o target s) <> 0) \/
   (exists st,
       state_file (snd (execute e o target s)) = Some st /\
       rollback_record e o (head s) target (fst (execute e o target s)) st /\
       head (snd (execute e o target s)) = target /\
       trace (snd (execute e o target s))
       = (trace s ++ rollback_plan o target)%list)).
Proof.
  unfold execute, rollback_plan, rollback_record.
  destruct (checkout_status e =? 0) eqn:Ec; cbn [negb].
  2:{ cbn [fst snd emit trace head state_file].
      split; [exists 2%nat; now rewrite <- app_assoc |].
      split; [now left |]. left. split; [reflexivity |].
      intros H. rewrite H in Ec. discriminate. }
  destruct (npm_ci_status e =? 0) eqn:En; cbn [negb].
  2:{ cbn [fst snd emit trace head state_file].
      split; [exists 3%nat; now rewrite <- !app_assoc |].
      split; [now right |]. left. split; [reflexivity |].
      intros H. rewrite H in En. discriminate. }
  destruct (String.eqb (MODE o) "preview").
  - destruct (build_status e =? 0) eqn:Eb; cbn [negb].
    2:{ cbn [fst snd emit trace head state_file].
        split; [exists 4%nat; now rewrite <- !app_assoc |].
        split; [now right |]. left. split; [reflexivity |].
        intros H. rewrite H in Eb. discriminate. }
    destruct (start_status e =? 0) eqn:Es; cbn [negb].
    2:{ cbn [fst snd emit trace head state_file].
        split; [exists 5%nat; now rewrite <- !app_assoc |].
        split; [now right |]. left. split; [reflexivity |].
        intros H. rewrite H in Es. discriminate. }
    destruct (health_status e =? 0); cbn [negb];
      cbn [fst snd emit trace head state_file];
      (split; [exists 6%nat; now rewrite <- !app_assoc |]);
      (split; [now right |]); right; eexists; (split; [reflexivity |]);
      cbn [rs_from rs_to rs_mode rs_port rs_status rs_health rs_error];
      rewrite <- !app_assoc; repeat split; auto.
  - cbn [Z.eqb negb].
    destruct (start_status e =? 0) eqn:Es; cbn [negb].
    2:{ cbn [fst snd emit trace head state_file].
        split; [exists 4%nat; now rewrite <- !app_assoc |].
        split; [now right |]. left. split; [reflexivity |].
        intros H. rewrite H in Es. discriminate. }
    destruct (health_status e =? 0); cbn [negb];
      cbn [fst snd emit trace head state_file];
      (split; [exists 5%nat; now rewrite <- !app_assoc |]);
      (split; [now right |]); right; eexists; (split; [reflexivity |]);
      cbn [rs_from rs_to rs_mode rs_port rs_status rs_health rs_error];
      rewrite <- !app_assoc; repeat split; auto.
Qed.

(** [run] either leaves the state as it is or goes through [execute]. *)
Lemma run_cases e o s :
  snd (run e o s) = s \/
  (run e o s = execute e o (resolve_target e o) s /\
   valid_mode (MODE o) = true /\ valid_steps (STEPS o) = true /\
   resolve_target e o <> head s /\
   (dirty e = false \/ FORCE o = true) /\ DRY_RUN o = false).
Proof.
  unfold run.
  destruct (valid_mode (MODE o)); cbn [negb]; [| now left].
  destruct (valid_steps (STEPS o)); cbn [negb]; [| now left].
  destruct (Sh.nonempty (resolve_target e o)); cbn [negb]; [| now left].
  destruct (String.eqb_spec (head s) (resolve_target e o)) as [E | N];
    [now left |].
  destruct (dirty e) eqn:Ed; destruct (FORCE o) eqn:Ef; cbn [negb andb];
    try (now left);
    (destruct (DRY_RUN o); [now left | right]);
    repeat split; auto.
Qed.

End GitRollbackMore.

(** X16.  What a git rollback can leave behind.  For every run whose
    options parse: the commands run are an initial part of the plan (stop,
    checkout, npm ci, build in preview mode, start, health check), in that
    order; HEAD is where it was or at the resolved target; and
    [rollback.state] is either untouched or written by this run, and then
    the whole plan was run, HEAD is the target, and the record names the
    old HEAD, the target, the mode and the port, with status [ok] exactly
    on exit 0 and [failed] on exit 1.  When HEAD has moved and no record
    was written, the exit status is not 0. *)
Theorem X16_git_rollback_footprint (e : GitRollback.env)
  (args : list string) (o : GitRollback.opts) (s : GitRollback.state) :
  GitRollback.parse_args args (GitRollback.defaults e) = Sh.Ret o ->
  let target := GitRollback.resolve_target e o in
  let r := GitRollback.script e args s in
  (exists k, GitRollback.trace (snd r)
             = (GitRollback.trace s
                  ++ firstn k (rollback_plan o target))%list) /\
  (GitRollback.head (snd r) = GitRollback.head s \/
   GitRollback.head (snd r) = target) /\
  ((GitRollback.state_file (snd r) = GitRollback.state_file s /\
    (GitRollback.head (snd r) <> GitRollback.head s -> fst r <> 0)) \/
   (exists st,
       GitRollback.state_file (snd r) = Some st /\
       rollback_record e o (GitRollback.head s) target (fst r) st /\
       GitRollback.head (snd r) = target /\
       GitRollback.trace (snd r)
       = (GitRollback.trace s ++ rollback_plan o target)%list)).
Proof.
  intros Hparse target r. subst target r.
  unfold GitRollback.script. rewrite Hparse.
  destruct (GitRollbackMore.run_cases e o s) as [Same | (Ex & _)].
  - rewrite Same. split; [exists 0%nat; now rewrite app_nil_r |].
    split; [now left |]. left. split; [reflexivity |].
    intros H. now contradiction H.
  - rewrite Ex.
    destruct (GitRollbackMore.execute_spec e o
                (GitRollback.resolve_target e o) s)
      as (T & H & [(F & C) | R]).
    + split; [exact T |]. split; [exact H |]. left. split; [exact F |].
      intros _. exact C.
    + split; [exact T |]. split; [exact H |]. now right.
Qed.

(* ===================================================================== *)
(** * clean-start.sh, and scripts run one after the other *)
(* ===================================================================== *)

Module CleanStartMore.
Import Proc Effects Steps.

(** [stop.sh] launches nothing. *)
Lemma stop_main_no_spawn e c s :
  exists a, ext s (snd (Stop.main e c s)) a /\
            forall cmd, ~ In (Spawn cmd) a.
Proof.
  destruct (StopMore.stop_main_spec e c s)
    as (_ & _ & wa & la & ka & E & Hwa & Hla & Hka).
  exists (wa ++ la ++ ka)%list. split; [exact E |].
  intros cmd Hin.
  apply in_app_or in Hin. destruct Hin as [Hin | Hin].
  { destruct Hwa as [-> | (w & _ & ->)]; [destruct Hin |].
    destruct Hin as [[=] | [[=] | []]]. }
  apply in_app_or in Hin. destruct Hin as [Hin | Hin].
  { destruct Hla as [-> | (t & ->)]; [destruct Hin |].
    destruct Hin as [[=] | []]. }
  destruct Hka as [-> | (k & tail & _ & _ & Ht & ->)]; [destruct Hin |].
  destruct Hin as [[=] | Hin].
  apply in_app_or in Hin. destruct Hin as [Hin | Hin].
  { apply repeat_spec in Hin. discriminate. }
  destruct Ht as [-> | [_ ->]]; [destruct Hin |].
  destruct Hin as [[=] | [[=] | []]].
Qed.

(** The options [clean-start.sh] gives to [start.sh] are always read. *)
Lemma start_sh_mode_force e env_port env_host mode s :
  StartCli.start_sh e env_port env_host ["--mode"; mode; "--force"] s
  = Start.script e
      (Start.mkConfig (Sh.default_to env_port "4173")
         (Sh.default_to env_host "0.0.0.0") mode true false true) s.
Proof. reflexivity. Qed.

Lemma existsb_spawn_none a :
  (forall cmd, ~ In (Spawn cmd) a) -> existsb is_spawn a = false.
Proof.
  intros H. destruct (existsb is_spawn a) eqn:E; [| reflexivity].
  apply existsb_exists in E. destruct E as ([] & Hin & Hs); try discriminate.
  now apply H in Hin.
Qed.

End CleanStartMore.

(** X17.  How [clean-start.sh] ends ([npm_fail] being the status, not 0,
    with which a failing [npm run build] ends the script).  It exits 3
    only when the build itself fails with status 3, the build being then
    the last thing the script has done: a lock is never the reason, the
    lock file being removed before [start.sh] is called.  Exit 0 needs a
    first argument that is [dev] or [preview] (or none), and then the
    server command of that mode was launched and no lock file is left.
    With any other first argument the script exits 2 (or with the status
    of a failed build) after it has stopped the server, removed the build
    and rebuilt, and launches no server; this is what the documented call
    [clean-start.sh --mode dev] does, the mode being read from [$1]. *)
Theorem X17_clean_start_outcome (e : Proc.env) (npm_fail : Sh.status)
  (env_port env_host : string) (args : list string) (s : Proc.state) :
  npm_fail <> 0 ->
  let mode := CleanStart.mode_of args in
  let r := CleanStart.script e npm_fail env_port env_host args s in
  let tr := added s (snd r) in
  (fst r = 3 ->
     npm_fail = 3 /\
     exists a,
       tr = (a ++ [Run "rm -rf dist .vite .tanstack";
                   Run "npm run build"])%list /\
       existsb is_spawn tr = false) /\
  (fst r = 0 ->
     Start.valid_mode mode = true /\
     Proc.lock_file (Proc.fs (snd r)) = None /\
     In (Spawn (Start.server_cmd mode (Sh.default_to env_port "4173")
                  (Sh.default_to env_host "0.0.0.0"))) tr) /\
  (Start.valid_mode mode = false ->
     (fst r = 2 \/ fst r = npm_fail) /\
     existsb is_spawn tr = false /\
     In (Run "rm -rf dist .vite .tanstack") tr /\
     In (Run "npm run build") tr) /\
  (hd "" args = "--mode" -> fst r <> 0).
Proof.
  intros Hnz mode r tr.
  assert (Main :
    (fst r = 3 ->
       npm_fail = 3 /\
       exists a,
         tr = (a ++ [Run "rm -rf dist .vite .tanstack";
                     Run "npm run build"])%list /\
         existsb is_spawn tr = false) /\
    (fst r = 0 ->
       Start.valid_mode mode = true /\
       Proc.lock_file (Proc.fs (snd r)) = None /\
       In (Spawn (Start.server_cmd mode (Sh.default_to env_port "4173")
                    (Sh.default_to env_host "0.0.0.0"))) tr) /\
    (Start.valid_mode mode = false ->
       (fst r = 2 \/ fst r = npm_fail) /\
       existsb is_spawn tr = false /\
       In (Run "rm -rf dist .vite .tanstack") tr /\
       In (Run "npm run build") tr)).
  2:{ destruct Main as (M3 & M0 & Mbad).
      split; [exact M3 |]. split; [exact M0 |]. split; [exact Mbad |].
      intros Hhd H0. destruct (M0 H0) as (Hv & _).
      unfold mode, CleanStart.mode_of in Hv. rewrite Hhd in Hv.
      discriminate Hv. }
  subst tr r. unfold CleanStart.script. fold mode.
  change (StopCli.stop_sh e env_port [] s)
    with (Stop.main e (Stop.mkConfig (Sh.default_to env_port "4173") false)
            s).
  destruct (CleanStartMore.stop_main_no_spawn e
              (Stop.mkConfig (Sh.default_to env_port "4173") false) s)
    as (a1 & E1 & N1).
  set (s1 := snd (Stop.main e _ s)) in *. clearbody s1.
  set (s3 := Proc.set_fs
               (Proc.set_pid None
                  (Proc.set_lock None
                     (Proc.fs (Proc.emit (Run "rm -rf dist .vite .tanstack")
                                 s1))))
               (Proc.emit (Run "rm -rf dist .vite .tanstack") s1)).
  assert (E3 : Effects.ext s s3 (a1 ++ [Run "rm -rf dist .vite .tanstack"])).
  { apply (Steps.ext_trans _ _ _ _ _ E1). subst s3.
    split; [reflexivity | cbn; lia]. }
  assert (L3 : Proc.lock_file (Proc.fs s3) = None) by reflexivity.
  clearbody s3.
  unfold Proc.observe. cbn [fst snd].
  set (s4 := Proc.mkState _ _ _).
  assert (E4 : Effects.ext s s4
                 ((a1 ++ [Run "rm -rf dist .vite .tanstack"])
                    ++ [Run "npm run build"])).
  { apply (Steps.ext_trans _ _ _ _ _ E3). subst s4.
    split; [reflexivity | cbn; lia]. }
  assert (L4 : Proc.lock_file (Proc.fs s4) = None) by exact L3.
  assert (N4 : forall cmd,
             ~ In (Spawn cmd)
                 ((a1 ++ [Run "rm -rf dist .vite .tanstack"])
                    ++ [Run "npm run build"])).
  { intros cmd Hin. apply in_app_or in Hin. destruct Hin as [Hin | Hin].
    - apply in_app_or in Hin. destruct Hin as [Hin | Hin];
        [now apply N1 in Hin | destruct Hin as [[=] | []]].
    - destruct Hin as [[=] | []]. }
  assert (R4 : forall tail,
             In (Run "rm -rf dist .vite .tanstack")
                (((a1 ++ [Run "rm -rf dist .vite .tanstack"])
                    ++ [Run "npm run build"]) ++ tail) /\
             In (Run "npm run build")
                (((a1 ++ [Run "rm -rf dist .vite .tanstack"])
                    ++ [Run "npm run build"]) ++ tail)).
  { intros tail. split; apply in_or_app; left; apply in_or_app.
    - left. apply in_or_app. right. now left.
    - right. now left. }
  clearbody s4. destruct (Proc.build_ok e _).
  2:{ cbn [fst snd]. rewrite (Steps.ext_added _ _ _ E4).
      split.
      { intros H3. split; [exact H3 |]. exists a1.
        split; [now rewrite <- app_assoc |].
        now apply CleanStartMore.existsb_spawn_none. }
      split; [intros H; now contradiction Hnz |].
      intros _. split; [now right |].
      split; [now apply CleanStartMore.existsb_spawn_none |].
      specialize (R4 []). now rewrite app_nil_r in R4. }
  rewrite CleanStartMore.start_sh_mode_force.
  set (c := Start.mkConfig (Sh.default_to env_port "4173")
              (Sh.default_to env_host "0.0.0.0") mode true false true).
  destruct (StartScript.script_cases e c s4)
    as [[Hbad ->] | [(Hok & H3 & _) | (Hok & _ & Fl & El & ->)]];
    cbn [fst snd].
  - rewrite (Steps.ext_added _ _ _ E4).
    split; [discriminate |]. split; [discriminate |].
    intros _. split; [now left |].
    split; [now apply CleanStartMore.existsb_spawn_none |].
    specialize (R4 []). now rewrite app_nil_r in R4.
  - exfalso. destruct (StartMore.acquire_lock_spec e s4)
      as (_ & [[_ F] | [H0 _]]); [| congruence].
    unfold Start.acquire_lock in H3. rewrite L4 in H3. discriminate H3.
  - destruct (StartMore.main_locked_spec e c (snd (Start.acquire_lock e s4)))
      as (Hst & _ & _ & (a & Ea & _ & Hsp) & _).
    pose proof (Steps.ext_trans _ _ _ _ _ E4
                  (Steps.ext_trans _ _ _ _ _ El Ea)) as [T K].
    assert (Ha : added s (Start.release_lock
                   (snd (Start.main_locked e c
                           (snd (Start.acquire_lock e s4)))))
                 = (((a1 ++ [Run "rm -rf dist .vite .tanstack"])
                       ++ [Run "npm run build"]) ++ a)%list).
    { apply Steps.ext_added. split; [exact T | exact K]. }
    rewrite Ha.
    split; [destruct Hst as [-> | ->]; discriminate |].
    split.
    + intros H0. split; [exact Hok |]. split; [reflexivity |].
      apply in_or_app. right. exact (proj1 (Hsp H0)).
    + intros Hbad. unfold c in Hok. cbn [Start.MODE] in Hok. congruence.
Qed.

(** X23.  A finished run never locks the next start out.  After a
    [start.sh] that has read its options and exited 0 or 1, after a
    [stop.sh] that has read its options and exited 0, no lock file is
    left, and the next [start.sh] does not exit 3, whatever its options
    and whatever the machine answers.  (A run that ends in its option
    loop touches no file: see X3 and X5.) *)
Theorem X23_no_lockout_after_finished_run (e e' : Proc.env)
  (env_port env_host env_port' env_host' : string)
  (args sargs args' : list string)
  (c : Start.config) (cs : Stop.config) (s : Proc.state)
  (prev : Sh.status * Proc.state) :
  (prev = StartCli.start_sh e env_port env_host args s /\
   StartCli.parse_args args (StartCli.defaults env_port env_host)
   = Sh.Ret c /\
   (fst prev = 0 \/ fst prev = 1)) \/
  (prev = StopCli.stop_sh e env_port sargs s /\
   StopCli.parse_args sargs (StopCli.defaults env_port) = Sh.Ret cs /\
   fst prev = 0) ->
  Proc.lock_file (Proc.fs (snd prev)) = None /\
  fst (StartCli.start_sh e' env_port' env_host' args' (snd prev)) <> 3.
Proof.
  intros Hprev.
  assert (L : Proc.lock_file (Proc.fs (snd prev)) = None).
  { destruct Hprev as [(-> & Hp & H01) | (-> & Hp & H0)].
    - unfold StartCli.start_sh in *. rewrite Hp in *.
      destruct (StartScript.script_cases e c s)
        as [[_ E] | [(_ & _ & E & _) | (_ & _ & _ & _ & E)]];
        rewrite E in *; cbn [fst snd] in *.
      + destruct H01; discriminate.
      + destruct H01; discriminate.
      + reflexivity.
    - unfold StopCli.stop_sh in *. rewrite Hp in *.
      destruct (StopMore.stop_main_spec e cs s)
        as (_ & [(_ & (_ & Hl & _) & _) | (H1 & _)] & _);
        [exact Hl | congruence]. }
  split; [exact L |].
  unfold StartCli.start_sh.
  destruct (StartCli.parse_args args'
              (StartCli.defaults env_port' env_host'))
    as [c' | code] eqn:Hparse'.
  2:{ cbn [fst].
      destruct (StartScript.start_parse_exit _ _ _ Hparse')
        as [-> | [-> | ->]]; discriminate. }
  destruct (StartScript.script_cases e' c' (snd prev))
    as [[_ E] | [(_ & H3 & _) | (_ & _ & _ & _ & E)]].
  - rewrite E. discriminate.
  - unfold Start.acquire_lock in H3. rewrite L in H3. discriminate H3.
  - rewrite E. cbn [fst].
    destruct (StartMore.main_locked_spec e' c'
                (snd (Start.acquire_lock e' (snd prev))))
      as ([-> | ->] & _); discriminate.
Qed.

(* ===================================================================== *)
(** * watchdog-daemon.sh: stopping the daemon and the single check *)
(* ===================================================================== *)

Module WatchdogMore.
Import Proc Effects Steps WatchdogCli.

(** The loop of [stop_daemon] started with [waited = 0]: one poll, and
    when the process is still there one second of sleep and the end of the
    script. *)
Lemma stop_wait_zero e pid k s :
  stop_wait e pid 0 (S k) s
  = if kill0 e (tick s) pid
    then (Sh.Exit 1, emit (Sleep 1) (mkState (fs s) (S (tick s)) (trace s)))
    else (Sh.Ret true,
          set_fs (set_watchdog_pid None (fs s))
                 (mkState (fs s) (S (tick s)) (trace s))).
Proof.
  cbn [stop_wait Z.ltb Z.compare]. unfold observe. cbn [fst snd].
  destruct (kill0 e (tick s) pid); reflexivity.
Qed.

Lemma single_check_status h e port mode dry s :
  fst (single_check h e port mode dry s) = 0 \/
  fst (single_check h e port mode dry s) = 1.
Proof.
  unfold single_check.
  destruct (run_health_check h port s) as [st s1].
  destruct (st =? 0); [now left |].
  destruct dry; [now right |].
  destruct (run_restart e port mode s1) as [rs s2].
  destruct (rs =? 0); auto.
Qed.

(** The status of a health check and the flag of its report. *)
Lemma health_verdict h c :
  (Health.r_status (Health.perform_health_check h c) = 0 /\
   hs_healthy (Health.r_report (Health.perform_health_check h c)) = true) \/
  (Health.r_status (Health.perform_health_check h c) = 1 /\
   hs_healthy (Health.r_report (Health.perform_health_check h c)) = false).
Proof.
  unfold Health.perform_health_check.
  destruct (Health.check_port_listening h (Health.HOST c) (Health.PORT c))
    as [st tr].
  destruct (st =? 0).
  - destruct (Health.find_server_process h (Health.PORT c)) as [p trp].
    destruct (Health.check_http_health h (Health.HOST c) (Health.PORT c))
      as [sth trh].
    destruct (sth =? 0); cbn; auto.
  - cbn. auto.
Qed.

(** What one health check with [--state] gives: the verdict, the
    snapshot written, and a trace of probes and look-ups only. *)
Lemma health_check_spec h c :
  Health.UPDATE_STATE c = true ->
  exists snap,
    Health.r_state_file (Health.perform_health_check h c) = Some snap /\
    Health.r_status (Health.perform_health_check h c)
    = (if hs_healthy snap then 0 else 1) /\
    Forall (fun ev => is_signal ev = false /\ is_spawn ev = false /\
                      is_run ev = false /\ sleep_total [ev] = 0)
           (Health.r_trace (Health.perform_health_check h c)).
Proof.
  intros Hu. unfold Health.perform_health_check. rewrite Hu.
  assert (P : Forall (fun ev => is_signal ev = false /\ is_spawn ev = false /\
                                is_run ev = false /\ sleep_total [ev] = 0)
                (snd (Health.check_port_listening h (Health.HOST c)
                        (Health.PORT c)))).
  { unfold Health.check_port_listening.
    repeat match goal with
           | |- context [if ?b then _ else _] => destruct b
           end; cbn [snd]; repeat constructor. }
  assert (Q : Forall (fun ev => is_signal ev = false /\ is_spawn ev = false /\
                                is_run ev = false /\ sleep_total [ev] = 0)
                (snd (Health.check_http_health h (Health.HOST c)
                        (Health.PORT c)))).
  { unfold Health.check_http_health.
    repeat match goal with
           | |- context [if ?b then _ else _] => destruct b
           end; cbn [snd]; repeat constructor. }
  assert (R : Forall (fun ev => is_signal ev = false /\ is_spawn ev = false /\
                                is_run ev = false /\ sleep_total [ev] = 0)
                (snd (Health.find_server_process h (Health.PORT c)))).
  { unfold Health.find_server_process.
    repeat match goal with
           | |- context [if ?b then _ else _] => destruct b
           end; cbn [snd]; repeat constructor. }
  destruct (Health.check_port_listening h (Health.HOST c) (Health.PORT c))
    as [st tr].
  destruct (st =? 0).
  - destruct (Health.find_server_process h (Health.PORT c)) as [p trp].
    destruct (Health.check_http_health h (Health.HOST c) (Health.PORT c))
      as [sth trh].
    cbn [snd] in *.
    destruct (sth =? 0); cbn; eexists; (split; [reflexivity |]);
      (split; [reflexivity |]); repeat (apply Forall_app; split); assumption.
  - cbn [snd] in *. cbn. eexists. split; [reflexivity |].
    split; [reflexivity | assumption].
Qed.

Lemma quiet_trace a :
  Forall (fun ev => is_signal ev = false /\ is_spawn ev = false /\
                    is_run ev = false /\ sleep_total [ev] = 0) a ->
  existsb is_signal a = false /\ existsb is_spawn a = false /\
  existsb is_run a = false /\ sleep_total a = 0.
Proof.
  induction 1 as [| ev a (H1 & H2 & H3 & H4) _ IH]; [now cbn |].
  destruct IH as (I1 & I2 & I3 & I4).
  cbn [existsb]. rewrite H1, H2, H3, I1, I2, I3.
  repeat split.
  change (ev :: a) with ([ev] ++ a)%list.
  rewrite sleep_total_app, H4, I4. reflexivity.
Qed.

(** [run_health_check] writes the snapshot of its verdict and touches no
    other file. *)
Lemma run_health_check_spec h port s :
  exists snap,
    fs (snd (run_health_check h port s)) = set_state (Some snap) (fs s) /\
    fst (run_health_check h port s) = (if hs_healthy snap then 0 else 1) /\
    exists a,
      ext s (snd (run_health_check h port s)) a /\
      existsb is_signal a = false /\ existsb is_spawn a = false /\
      existsb is_run a = false /\ sleep_total a = 0.
Proof.
  destruct (health_check_spec h
              (Health.mkConfig port "localhost" Health.text true) eq_refl)
    as (snap & Hf & Hs & Hq).
  exists snap. unfold run_health_check. cbn [fst snd fs].
  rewrite Hf. split; [reflexivity |]. split; [exact Hs |].
  eexists. split; [split; cbn; [reflexivity | lia] |].
  now apply quiet_trace.
Qed.

End WatchdogMore.

(** X18.  [watchdog-daemon.sh --stop] never gets to its force kill.  When
    no live daemon is recorded it exits 0 and changes nothing (a stale PID
    file stays).  Otherwise it sends TERM to the recorded PID and polls
    once: if the process is gone the PID file is removed and the exit
    status is 0; if it is still there the script sleeps one second and
    ends with status 1 at [((waited++))], the PID file still in place.
    In no case is a KILL sent or more than one second slept. *)
Theorem X18_daemon_stop (e : Proc.env) (s : Proc.state) :
  let r := WatchdogCli.stop_daemon e s in
  let tr := added s (snd r) in
  existsb is_kill tr = false /\
  0 <= sleep_total tr <= 1 /\
  ((fst r = 0 /\ tr = [] /\ Proc.fs (snd r) = Proc.fs s /\
    fst (WatchdogCli.is_daemon_running e s) = false) \/
   (exists pid,
       Proc.watchdog_pid_file (Proc.fs s) = Some pid /\
       Sh.nonempty pid = true /\
       Proc.kill0 e (Proc.tick s) pid = true /\
       ((fst r = 0 /\ tr = [Signal "TERM" pid] /\
         Proc.kill0 e (S (Proc.tick s)) pid = false /\
         Proc.fs (snd r) = Proc.set_watchdog_pid None (Proc.fs s)) \/
        (fst r = 1 /\ tr = [Signal "TERM" pid; Sleep 1] /\
         Proc.kill0 e (S (Proc.tick s)) pid = true /\
         Proc.fs (snd r) = Proc.fs s)))).
Proof.
  intros r tr. subst tr r.
  destruct (WatchdogCli.stop_daemon e s) as [code s'] eqn:Er.
  cbn [fst snd].
  unfold WatchdogCli.stop_daemon, WatchdogCli.is_daemon_running in *.
  assert (Nothing : forall b, (code, s') = (0, s) -> b = false ->
            existsb is_kill (added s s') = false /\
            0 <= sleep_total (added s s') <= 1 /\
            ((code = 0 /\ added s s' = [] /\ Proc.fs s' = Proc.fs s /\
              b = false) \/
             (exists pid,
                 Proc.watchdog_pid_file (Proc.fs s) = Some pid /\
                 Sh.nonempty pid = true /\
                 Proc.kill0 e (Proc.tick s) pid = true /\
                 ((code = 0 /\ added s s' = [Signal "TERM" pid] /\
                   Proc.kill0 e (S (Proc.tick s)) pid = false /\
                   Proc.fs s' = Proc.set_watchdog_pid None (Proc.fs s)) \/
                  (code = 1 /\ added s s' = [Signal "TERM" pid; Sleep 1] /\
                   Proc.kill0 e (S (Proc.tick s)) pid = true /\
                   Proc.fs s' = Proc.fs s))))).
  { intros b [= -> ->] ->. unfold added. rewrite skipn_all. cbn.
    split; [reflexivity |]. split; [lia |]. left. auto. }
  destruct (Proc.watchdog_pid_file (Proc.fs s)) as [pid |] eqn:Hw.
  2:{ cbn [fst snd] in *. apply Nothing; [now rewrite Er | reflexivity]. }
  destruct (Sh.nonempty pid) eqn:Hn.
  2:{ cbn [fst snd] in *. apply Nothing; [now rewrite Er | reflexivity]. }
  unfold Proc.observe in *. cbv beta in *. cbn [fst snd] in *.
  destruct (Proc.kill0 e (Proc.tick s) pid) eqn:Hk.
  2:{ injection Er as <- <-. unfold added. cbn [Proc.trace].
      rewrite skipn_all. cbn.
      split; [reflexivity |]. split; [lia |]. left. auto. }
  cbn [Proc.fs] in Er. rewrite Hw in Er.
  rewrite (WatchdogMore.stop_wait_zero e pid 10) in Er.
  cbn [Proc.emit Proc.tick Proc.fs Proc.trace fst snd] in Er.
  destruct (Proc.kill0 e (S (Proc.tick s)) pid) eqn:Hk2;
    injection Er as <- <-.
  - assert (Ha : added s
                   (Proc.emit (Sleep 1)
                      (Proc.mkState (Proc.fs s) (S (S (Proc.tick s)))
                         (Proc.trace s ++ [Signal "TERM" pid])))
                 = [Signal "TERM" pid; Sleep 1]).
    { apply Steps.ext_added. split; cbn; [now rewrite <- app_assoc | lia]. }
    rewrite Ha. split; [reflexivity |]. split; [cbn; lia |].
    right. exists pid. split; [reflexivity |]. split; [exact Hn |].
    split; [exact Hk |]. right. auto.
  - assert (Ha : added s
                   (Proc.set_fs (Proc.set_watchdog_pid None (Proc.fs s))
                      (Proc.mkState (Proc.fs s) (S (S (Proc.tick s)))
                         (Proc.trace s ++ [Signal "TERM" pid])))
                 = [Signal "TERM" pid]).
    { apply Steps.ext_added. split; cbn; [reflexivity | lia]. }
    rewrite Ha. split; [reflexivity |]. split; [cbn; lia |].
    right. exists pid. split; [reflexivity |]. split; [exact Hn |].
    split; [exact Hk |]. left. auto.
Qed.

(** X19.  The single check of [watchdog-daemon.sh] (no [--daemonize]).
    The exit status is 0 or 1 and always agrees with what the run leaves
    in [watchdog.state]: 0 exactly when the file says [healthy: true].
    The lock file, the PID file and the watchdog PID file are never
    touched.  When the health check passes, or under [--dry-run], nothing
    is signalled, launched or run and the script does not sleep.
    Otherwise the restart script runs, and exit 0 means that it launched
    the server command of the mode. *)
Theorem X19_single_check (h : Health.env) (e : Proc.env)
  (port mode : string) (dry_run : bool) (s : Proc.state) :
  let r := WatchdogCli.single_check h e port mode dry_run s in
  let checked := WatchdogCli.run_health_check h port s in
  let tr := added s (snd r) in
  state_says_healthy (snd r) = Some (fst r =? 0) /\
  (fst r = 0 \/ fst r = 1) /\
  Proc.lock_file (Proc.fs (snd r)) = Proc.lock_file (Proc.fs s) /\
  Proc.pid_file (Proc.fs (snd r)) = Proc.pid_file (Proc.fs s) /\
  Proc.watchdog_pid_file (Proc.fs (snd r))
  = Proc.watchdog_pid_file (Proc.fs s) /\
  (fst checked = 0 \/ dry_run = true ->
     r = (fst checked, snd checked) /\
     existsb is_signal tr = false /\ existsb is_spawn tr = false /\
     existsb is_run tr = false /\ sleep_total tr = 0) /\
  (fst checked <> 0 -> dry_run = false ->
     r = (fst (WatchdogCli.run_restart e port mode (snd checked)),
          snd (WatchdogCli.run_restart e port mode (snd checked))) /\
     (fst r = 0 -> In (Spawn (Restart.server_cmd mode port)) tr)).
Proof.
  intros r checked tr. subst tr checked r.
  unfold WatchdogCli.single_check.
  destruct (WatchdogMore.run_health_check_spec h port s)
    as (snap & Hfs & Hst & a & Ea & Hq).
  destruct (WatchdogCli.run_health_check h port s) as [st s1].
  cbn [fst snd] in *.
  assert (Qs : state_says_healthy s1 = Some (hs_healthy snap)).
  { unfold state_says_healthy. now rewrite Hfs. }
  assert (Ql : Proc.lock_file (Proc.fs s1) = Proc.lock_file (Proc.fs s))
    by now rewrite Hfs.
  assert (Qp : Proc.pid_file (Proc.fs s1) = Proc.pid_file (Proc.fs s))
    by now rewrite Hfs.
  assert (Qw : Proc.watchdog_pid_file (Proc.fs s1)
               = Proc.watchdog_pid_file (Proc.fs s)) by now rewrite Hfs.
  destruct (hs_healthy snap); subst st; cbn [Z.eqb].
  { cbn [fst snd]. rewrite (Steps.ext_added _ _ _ Ea).
    split; [exact Qs |]. split; [now left |].
    split; [exact Ql |]. split; [exact Qp |]. split; [exact Qw |].
    split; [intros _; split; [reflexivity | exact Hq] |].
    intros Hne. now contradiction Hne. }
  destruct dry_run.
  { cbn [fst snd]. rewrite (Steps.ext_added _ _ _ Ea).
    split; [exact Qs |]. split; [now right |].
    split; [exact Ql |]. split; [exact Qp |]. split; [exact Qw |].
    split; [intros _; split; [reflexivity | exact Hq] |].
    intros _ [=]. }
  unfold WatchdogCli.run_restart.
  set (c := Restart.mkConfig port mode false false).
  destruct (RestartMore.restart_main_spec e c s1)
    as (Rl & Rp & Rw & _ & b & Eb & _ & Hout).
  specialize (Hout eq_refl).
  pose proof (Steps.ext_trans _ _ _ _ _ Ea Eb) as Eab.
  assert (Hspawn : fst (Restart.main e c s1) = 0 ->
                   In (Spawn (Restart.server_cmd mode port)) b).
  { intros H0.
    apply (RestartMore.restart_success_spawns e c s1 b eq_refl Eb H0). }
  destruct (Restart.main e c s1) as [rs s2]. cbn [fst snd] in *.
  assert (Hs2 : state_says_healthy s2 = Some (rs =? 0) /\ (rs = 0 \/ rs = 1)).
  { unfold state_says_healthy.
    destruct Hout as [(-> & pid & ts & _ & ->)
                     | [(-> & ts & ->) | (-> & _ & _ & -> & _)]];
      cbn; auto. }
  destruct Hs2 as (Hs2 & R01).
  destruct R01 as [-> | ->]; cbv beta iota zeta; cbn [Z.eqb fst snd] in *;
    rewrite (Steps.ext_added _ _ _ Eab);
    (split; [exact Hs2 |]); (split; [auto |]);
    (split; [congruence |]); (split; [congruence |]);
    (split; [congruence |]); (split; [intros [[=] | [=]] |]);
    intros _ _; (split; [reflexivity |]).
  - intros _. apply in_or_app. right. now apply Hspawn.
  - intros [=].
Qed.

(* ===================================================================== *)
(** * The wrapper for cron *)
(* ===================================================================== *)

Module HealthCliMore.
Import HealthCli.

Lemma contains_ci_app_r p a b :
  contains_ci p b = true -> contains_ci p (a ++ b) = true.
Proof.
  intros H. induction a as [| c a IH]; [exact H |].
  cbn [append contains_ci]. rewrite IH. apply orb_true_r.
Qed.

Lemma solid_app a t : solid t -> solid (a ++ t).
Proof.
  intros [Hs Hne]. induction a as [| c a [IHs IHne]]; [now split |].
  split; [| discriminate].
  cbn [append strip_newlines]. rewrite IHs.
  destruct (String.eqb_spec (a ++ t) "") as [E | _]; [now contradiction IHne |].
  now rewrite andb_false_r.
Qed.

(** The text report of a healthy check ends with the line
    [Result: HEALTHY]. *)
Lemma healthy_report_matches h :
  hs_healthy h = true ->
  grep_qi ["result: healthy"; Deploy.quoted "healthy" ++ ":true"]
          [strip_newlines (join_lines (text_report h))] = true.
Proof.
  intros Hh. unfold text_report, join_lines. rewrite Hh.
  cbn [String.concat].
  match goal with
  | |- grep_qi _ [strip_newlines ?t] = true =>
      assert (S : solid t)
  end.
  { repeat apply solid_app. split; [reflexivity | discriminate]. }
  destruct S as [-> _].
  unfold grep_qi. cbn [existsb]. rewrite orb_false_r.
  apply orb_true_iff. left.
  repeat apply contains_ci_app_r. reflexivity.
Qed.

(** A healthy check has found its tools: nothing is printed on stderr. *)
Lemma healthy_no_complaint h c :
  hs_healthy (Health.r_report (Health.perform_health_check h c)) = true ->
  complaints h c = [].
Proof.
  unfold Health.perform_health_check, complaints.
  destruct (Health.check_port_listening h (Health.HOST c) (Health.PORT c))
    as [st tr].
  cbn [fst].
  destruct (Z.eqb_spec st 0) as [-> | Hne].
  - destruct (Health.find_server_process h (Health.PORT c)) as [p trp].
    destruct (Health.check_http_health h (Health.HOST c) (Health.PORT c))
      as [sth trh].
    cbn [fst].
    destruct (Z.eqb_spec sth 0) as [-> | Hne']; cbn; [reflexivity |].
    discriminate.
  - cbn. discriminate.
Qed.

End HealthCliMore.

(** X22.  The wrapper for cron.  It always exits 0.  It prints
    [NO_ALERT] exactly when the health check it runs is healthy, and
    otherwise the alert [health check failed] followed by everything the
    check has printed, stderr included: first the complaint about the
    missing tools, if there is one (no tool to look at the port, or
    neither curl nor wget), then the lines of the report.  A healthy
    check prints no complaint.  The alert [returned unexpected status] is
    never printed: a check that exits 0 always prints
    [Result: HEALTHY]. *)
Theorem X22_cron_wrapper (h : Health.env) (env_port env_host : string)
  (update_state : bool) :
  let port := Sh.default_to env_port "4173" in
  let host := Sh.default_to env_host "localhost" in
  let c := Health.mkConfig port host Health.text update_state in
  let w := HealthCli.cron_wrapper h env_port env_host update_state in
  fst w = 0 /\
  (snd w = "NO_ALERT" <-> Health.exit_code h c = 0) /\
  (Health.exit_code h c <> 0 ->
     snd w = "ALERT: ClawSuite health check failed on " ++ host ++ ":" ++ port
             ++ " - "
             ++ HealthCli.strip_newlines
                  (HealthCli.join_lines
                     (HealthCli.complaints h c
                        ++ HealthCli.text_report
                             (Health.r_report
                                (Health.perform_health_check h c))))) /\
  (Health.exit_code h c = 0 -> HealthCli.complaints h c = []) /\
  snd w <> "ALERT: ClawSuite health check returned unexpected status on "
           ++ host ++ ":" ++ port.
Proof.
  intros port host c w. subst w. unfold HealthCli.cron_wrapper.
  fold port host c. unfold Health.exit_code.
  destruct (WatchdogMore.health_verdict h c) as [(Hs & Hh) | (Hs & Hh)];
    rewrite Hs; cbn [Z.eqb negb].
  - rewrite (HealthCliMore.healthy_no_complaint h c Hh). cbn [app].
    rewrite (HealthCliMore.healthy_report_matches _ Hh). cbn [fst snd].
    split; [reflexivity |]. split; [tauto |].
    split; [intros H; now contradiction H |].
    split; [reflexivity | discriminate].
  - cbn [fst snd]. split; [reflexivity |].
    split; [split; discriminate |]. split; [reflexivity |].
    split; [discriminate |].
    cbn [append]. intros H. discriminate H.
Qed.

(* ===================================================================== *)
(** * Witnesses *)
(* ===================================================================== *)

(** Witness for X10: [rollback --to tx-nope] when [backups/] has no such
    directory. *)
Lemma X10_rollback_without_backup_witness :
  fst (Deploy.cmd_rollback Examples.deploy_env ["--to"; "tx-nope"]
         Examples.deployed_state) = 1.
Proof.
  destruct (X10_rollback_without_backup Examples.deploy_env
              ["--to"; "tx-nope"] (Deploy.mkRollbackOpts "tx-nope" false)
              Examples.deployed_state eq_refl)
    as (H1 & _); [left; split; reflexivity | exact H1].
Defined.

(** Witness for X11: a rollback to the one transaction that has a backup,
    on a host where [start.sh --force] builds again.  The backup holds
    [dist-v1]; dist/ is [dist-v3] in the end. *)
Lemma X11_manual_rollback_restores_dist_witness :
  backup_dist Examples.old_tx Examples.deployed_state
  = Some (Some "dist-v1") /\
  Deploy.dist
    (snd (Deploy.cmd_rollback Examples.rebuilding_env
            ["--to"; Examples.old_tx; "--force"] Examples.deployed_state))
  = Some "dist-v3".
Proof.
  split; [reflexivity |].
  destruct (X11_manual_rollback_restores_dist Examples.rebuilding_env
              ["--to"; Examples.old_tx; "--force"]
              (Deploy.mkRollbackOpts Examples.old_tx true)
              Examples.deployed_state "dist-v1" eq_refl eq_refl eq_refl)
    as (t & _ & H & _).
  rewrite H. reflexivity.
Defined.

(** Witness for X12: [rollback --force] twice in a row. *)
Lemma X12_second_rollback_fails_witness :
  fst (Deploy.cmd_rollback Examples.deploy_env ["--force"]
         (snd (Deploy.cmd_rollback Examples.deploy_env ["--force"]
                 Examples.deployed_state))) = 1.
Proof.
  destruct (X12_second_rollback_fails Examples.deploy_env Examples.deploy_env
              ["--force"] ["--force"] (Deploy.mkRollbackOpts "" true)
              Examples.deployed_state eq_refl eq_refl eq_refl eq_refl)
    as (H & _).
  exact H.
Defined.

(** Witness for X15: the options [--pre-build --timeout 5] are read, and
    the deploy runs. *)
Lemma X15_deploy_outcomes_witness :
  Deploy.lock_file (snd (Deploy.cmd_deploy Examples.deploy_env
                           ["--pre-build"; "--timeout"; "5"]
                           Examples.deployed_state)) = None.
Proof.
  destruct (X15_deploy_outcomes Examples.deploy_env
              ["--pre-build"; "--timeout"; "5"]
              (Deploy.mkDeployOpts true true "5")
              Examples.deployed_state eq_refl)
    as [(_ & _ & _ & _ & pid & t & Hl & _) | [(_ & Hd & _) | (_ & L & _)]];
    [discriminate Hl | discriminate Hd | exact L].
Defined.

(** Witness for X16: [rollback.sh --force --mode dev] on the example
    repository runs the whole plan of dev mode and ends on [HEAD~1]. *)
Lemma X16_git_rollback_footprint_witness :
  GitRollback.head
    (snd (GitRollback.script Examples.git_env ["--force"; "--mode"; "dev"]
            Examples.git_state)) = "beef01" /\
  exists k,
    GitRollback.trace
      (snd (GitRollback.script Examples.git_env ["--force"; "--mode"; "dev"]
              Examples.git_state))
    = firstn k
        (rollback_plan
           (GitRollback.mkOpts "" "1" "dev" "4173" false true) "beef01").
Proof.
  split; [reflexivity |].
  destruct (X16_git_rollback_footprint Examples.git_env
              ["--force"; "--mode"; "dev"]
              (GitRollback.mkOpts "" "1" "dev" "4173" false true)
              Examples.git_state eq_refl)
    as ((k & T) & _).
  exists k. exact T.
Defined.

(** Witness for X17: the documented call [clean-start.sh --mode dev] on a
    host where everything works exits 2. *)
Lemma X17_clean_start_outcome_witness :
  fst (CleanStart.script Hosts.fresh_host 1 "" "" ["--mode"; "dev"]
         Hosts.empty_logs) = 2.
Proof.
  destruct (X17_clean_start_outcome Hosts.fresh_host 1 "" ""
              ["--mode"; "dev"] Hosts.empty_logs)
    as (_ & _ & Hbad & _); [lia |].
  destruct (Hbad eq_refl) as ([H | H] & _); [exact H |].
  vm_compute in H. discriminate H.
Defined.

(** Witness for X20: a deploy with [--pre-build] on a host where every
    step succeeds replaces dist/ ([dist-v2]) by [dist-v3]; the rollback
    that follows goes back to that deploy, whose backup holds [dist-v2],
    and ends with what [start.sh --force] has built, [dist-v3]. *)
Lemma X20_rollback_undoes_last_deploy_witness :
  let s1 := snd (Deploy.cmd_deploy (Examples.healthy_env "20260216-120000")
                   ["--pre-build"] Examples.deployed_state) in
  Deploy.dist s1 = Some "dist-v3" /\
  backup_dist Examples.new_tx s1 = Some (Some "dist-v2") /\
  Deploy.dist
    (snd (Deploy.cmd_rollback Examples.rebuilding_env ["--force"] s1))
  = Some "dist-v3".
Proof.
  intros s1. split; [reflexivity |].
  destruct (X20_rollback_undoes_last_deploy
              (Examples.healthy_env "20260216-120000")
              Examples.rebuilding_env
              ["--pre-build"] ["--force"] (Deploy.mkRollbackOpts "" true)
              Examples.deployed_state "dist-v2"
              eq_refl eq_refl eq_refl eq_refl eq_refl eq_refl)
    as (_ & B & t & _ & H & _).
  split; [exact B |]. fold s1 in H. rewrite H. reflexivity.
Defined.

(** Witness for X23: [stop.sh] on a host with nothing running exits 0,
    and the [start.sh --mode dev] that follows gets the lock. *)
Lemma X23_no_lockout_after_finished_run_witness :
  fst (StartCli.start_sh Hosts.fresh_host "" "" ["--mode"; "dev"]
         (snd (StopCli.stop_sh Hosts.fresh_host "" [] Hosts.empty_logs)))
  <> 3.
Proof.
  apply (X23_no_lockout_after_finished_run Hosts.fresh_host Hosts.fresh_host
           "" "" "" "" [] [] ["--mode"; "dev"]
           Hosts.gentle_config (Stop.mkConfig "4173" false)
           Hosts.empty_logs
           (StopCli.stop_sh Hosts.fresh_host "" [] Hosts.empty_logs)).
  right. repeat split; reflexivity.
Defined.

(** Witness for X25: a deploy without options on the example host runs
    no build. *)
Lemma X25_deploy_commands_and_waiting_witness :
  ~ In (Run "npm run build")
      (Deploy.trace (snd (Deploy.cmd_deploy Examples.deploy_env []
                            Examples.deployed_state))).
Proof.
  destruct (X25_deploy_commands_and_waiting Examples.deploy_env [] []
              (Deploy.mkDeployOpts false true "30") Examples.deployed_state
              eq_refl)
    as ((a & Ha & _ & _ & _ & _ & Hn) & _).
  rewrite Ha. intros Hin. apply in_app_or in Hin.
  destruct Hin as [[] | Hin]. exact (Hn eq_refl Hin).
Defined.

(** Witness for X3: [stop.sh] ends in its option loop with 2 at an
    unknown option, with 1 at [--port] without a value and with 0 at
    [-h], leaving the PID file of the watchdog where it is. *)
Lemma X3_stop_outcome_witness :
  let s := Proc.mkState (Proc.mkFiles None None None (Some "4000")) 0 [] in
  StopCli.stop_sh Hosts.fresh_host "" ["--frobnicate"] s = (2, s) /\
  StopCli.stop_sh Hosts.fresh_host "" ["--port"] s = (1, s) /\
  StopCli.stop_sh Hosts.fresh_host "" ["-h"] s = (0, s) /\
  Proc.watchdog_pid_file
    (Proc.fs (snd (StopCli.stop_sh Hosts.fresh_host "" [] s))) = None.
Proof.
  intros s.
  split; [| split; [| split]].
  - destruct (X3_stop_outcome Hosts.fresh_host "" ["--frobnicate"] s)
      as (_ & Hexit & _).
    exact (proj1 (Hexit 2 eq_refl)).
  - destruct (X3_stop_outcome Hosts.fresh_host "" ["--port"] s)
      as (_ & Hexit & _).
    exact (proj1 (Hexit 1 eq_refl)).
  - destruct (X3_stop_outcome Hosts.fresh_host "" ["-h"] s)
      as (_ & Hexit & _).
    exact (proj1 (Hexit 0 eq_refl)).
  - destruct (X3_stop_outcome Hosts.fresh_host "" [] s) as (_ & _ & Hrun).
    exact (proj1 (Hrun (Stop.mkConfig "4173" false) eq_refl)).
Defined.

(** Witness for X5: [start.sh --frobnicate] exits 2 with a valid mode,
    and [start.sh --port] exits 1 leaving the lock file it finds. *)
Lemma X5_start_exit_codes_and_lock_witness :
  StartCli.start_sh (Examples.proc_host "") "" "" ["--frobnicate"]
    (Examples.locked_files "555")
  = (2, Examples.locked_files "555") /\
  StartCli.start_sh (Examples.proc_host "") "" "" ["--port"]
    (Examples.locked_files "555")
  = (1, Examples.locked_files "555") /\
  Proc.lock_file (Proc.fs (Examples.locked_files "555")) = Some "555".
Proof.
  split; [| split; [| reflexivity]].
  - destruct (X5_start_exit_codes_and_lock (Examples.proc_host "") "" ""
                ["--frobnicate"] (Examples.locked_files "555"))
      as (_ & Hexit & _).
    exact (proj1 (Hexit 2 eq_refl)).
  - destruct (X5_start_exit_codes_and_lock (Examples.proc_host "") "" ""
                ["--port"] (Examples.locked_files "555"))
      as (_ & Hexit & _).
    exact (proj1 (Hexit 1 eq_refl)).
Defined.

(** Witness for X22: on a machine without any of the tools the alert
    starts with the complaint the check has printed on stderr. *)
Lemma X22_cron_wrapper_witness :
  snd (HealthCli.cron_wrapper Examples.bare_host "" "" false)
  = "ALERT: ClawSuite health check failed on localhost:4173 - "
    ++ HealthCli.join_lines
         ["ERROR: No tool available to check port";
          "=== ClawSuite Health Check ===";
          "Timestamp: 2026-02-15T12:00:00Z";
          "Target: localhost:4173";
          "Port Status: not_listening";
          "HTTP Status: unknown";
          "PID: N/A";
          "Result: UNHEALTHY - Port 4173 is not listening"].
Proof.
  destruct (X22_cron_wrapper Examples.bare_host "" "" false)
    as (_ & _ & Halert & _).
  rewrite Halert; [reflexivity | discriminate].
Defined.
